(** * terraform-provider-githubx: a shallow embedding of the provider's
    error handling, retry and polling logic, and its verification.

  The Go sources embedded here are
  - [internal/provider/data_source_repository.go] ([splitRepoFullName]),
  - [internal/provider/resource_repository_file.go] (the repository-file
    resource),
  - the pull-request resource, the provider and the data sources.

  Remote calls go through an abstract GitHub API: a deterministic oracle over
  an arbitrary world state.  Every operation is a computation that threads
  the world and records the calls it makes, with their replies, in a trace. *)

From Stdlib Require Import String Ascii List ZArith Lia Bool Arith DecimalString
  ZifyBool.
Import ListNotations.
Local Open Scope list_scope.
Local Open Scope string_scope.

Set Implicit Arguments.

(* ===================================================================== *)
(** ** Go standard library: strings, errors, fmt *)
(* ===================================================================== *)

Module Go.

(** The double-quote character, and a one-character string. *)
Definition dquote : ascii := ascii_of_nat 34.
Definition str1 (c : ascii) : string := String c EmptyString.

(** [strings.HasPrefix(s, prefix)]. *)
Definition HasPrefix (s prefix : string) : bool := String.prefix prefix s.

(** [strings.Contains(s, substr)]: [substr] occurs somewhere in [s]. *)
Fixpoint Contains (s substr : string) : bool :=
  HasPrefix s substr ||
  match s with
  | EmptyString => false
  | String _ s' => Contains s' substr
  end.

(** [strings.HasSuffix(s, suffix)]. *)
Fixpoint HasSuffix (s suffix : string) : bool :=
  String.eqb s suffix ||
  match s with
  | EmptyString => false
  | String _ s' => HasSuffix s' suffix
  end.

(** The limit of [genSplit]: [None] is Go's [n < 0] (no limit), [Some n]
    allows [n] more parts. *)
Definition may_split (limit : option nat) : bool :=
  match limit with
  | None => true
  | Some n => (1 <? n)%nat
  end.

Definition dec_limit (limit : option nat) : option nat :=
  match limit with
  | None => None
  | Some n => Some (n - 1)%nat
  end.

(** [strings.genSplit] for a non-empty separator: [cur] is the part being
    collected, [skip] the number of bytes of a separator occurrence still to
    be jumped over.  When the limit is reached the rest of the string goes
    into the last part unsplit. *)
Fixpoint genSplit (sep : string) (limit : option nat) (skip : nat)
         (cur s : string) : list string :=
  match s with
  | EmptyString => [cur]
  | String c s' =>
      match skip with
      | S k => genSplit sep limit k cur s'
      | O =>
          if may_split limit && HasPrefix s sep
          then cur :: genSplit sep (dec_limit limit) (String.length sep - 1)
                               EmptyString s'
          else genSplit sep limit 0 (cur ++ str1 c) s'
      end
  end.

(** [strings.SplitN(s, sep, n)], [sep] non-empty: [n = 0] gives nil, [n < 0]
    all the parts, [n > 0] at most [n] parts. *)
Definition SplitN (s sep : string) (n : Z) : list string :=
  if (n =? 0)%Z then []
  else if (n <? 0)%Z then genSplit sep None 0 EmptyString s
  else genSplit sep (Some (Z.to_nat n)) 0 EmptyString s.

(** [strings.Split(s, sep)] is [SplitN(s, sep, -1)]. *)
Definition Split (s sep : string) : list string := SplitN s sep (-1).

(** A byte of a string as a number, and back. *)
Definition byte (c : ascii) : Z := Z.of_N (N_of_ascii c).
Definition byteChar (b : Z) : ascii := ascii_of_N (Z.to_N b).

(** [s[i]], [s[n:]] and [s[:n]]. *)
Definition byteAt (s : string) (i : Z) : Z :=
  match String.get (Z.to_nat i) s with
  | Some c => byte c
  | None => 0%Z
  end.

Fixpoint sliceFrom (n : nat) (s : string) : string :=
  match n, s with
  | O, _ => s
  | S k, String _ s' => sliceFrom k s'
  | S _, EmptyString => EmptyString
  end.

Fixpoint sliceTo (n : nat) (s : string) : string :=
  match n, s with
  | O, _ => EmptyString
  | S k, String c s' => String c (sliceTo k s')
  | S _, EmptyString => EmptyString
  end.

(** [utf8.RuneSelf], [utf8.RuneError], [utf8.UTFMax]. *)
Definition RuneSelf : Z := 128%Z.
Definition RuneError : Z := 65533%Z.
Definition UTFMax : nat := 4.

(** [utf8.first] with [utf8.acceptRanges]: for the first byte of a
    sequence of several bytes, the length of the sequence and the range of
    its second byte; [None] for a byte that starts no such sequence. *)
Definition first (s0 : Z) : option (nat * Z * Z) :=
  if (s0 <? 194)%Z then None
  else if (s0 <=? 223)%Z then Some (2%nat, 128%Z, 191%Z)
  else if (s0 =? 224)%Z then Some (3%nat, 160%Z, 191%Z)
  else if (s0 <=? 236)%Z then Some (3%nat, 128%Z, 191%Z)
  else if (s0 =? 237)%Z then Some (3%nat, 128%Z, 159%Z)
  else if (s0 <=? 239)%Z then Some (3%nat, 128%Z, 191%Z)
  else if (s0 =? 240)%Z then Some (4%nat, 144%Z, 191%Z)
  else if (s0 <=? 243)%Z then Some (4%nat, 128%Z, 191%Z)
  else if (s0 =? 244)%Z then Some (4%nat, 128%Z, 143%Z)
  else None.

(** A continuation byte, [locb <= b <= hicb]. *)
Definition continuation (b : Z) : bool := ((128 <=? b) && (b <=? 191))%Z.

(** [utf8.DecodeRuneInString]: the first rune of [s] and its width in
    bytes; an invalid encoding gives [(RuneError, 1)]. *)
Definition DecodeRuneInString (s : string) : Z * nat :=
  match s with
  | EmptyString => (RuneError, 0%nat)
  | String c0 t1 =>
      let s0 := byte c0 in
      if (s0 <? RuneSelf)%Z then (s0, 1%nat)
      else
        match first s0 with
        | None => (RuneError, 1%nat)
        | Some (sz, lo, hi) =>
            if (String.length s <? sz)%nat then (RuneError, 1%nat)
            else
              match t1 with
              | EmptyString => (RuneError, 1%nat)
              | String c1 t2 =>
                  let s1 := byte c1 in
                  if ((s1 <? lo) || (hi <? s1))%Z then (RuneError, 1%nat)
                  else if (sz <=? 2)%nat then
                    (Z.lor (Z.shiftl (Z.land s0 31) 6) (Z.land s1 63), 2%nat)%Z
                  else
                    match t2 with
                    | EmptyString => (RuneError, 1%nat)
                    | String c2 t3 =>
                        let s2 := byte c2 in
                        if negb (continuation s2) then (RuneError, 1%nat)
                        else if (sz <=? 3)%nat then
                          (Z.lor (Z.shiftl (Z.land s0 15) 12)
                             (Z.lor (Z.shiftl (Z.land s1 63) 6)
                                (Z.land s2 63)), 3%nat)
                        else
                          match t3 with
                          | EmptyString => (RuneError, 1%nat)
                          | String c3 _ =>
                              let s3 := byte c3 in
                              if negb (continuation s3)
                              then (RuneError, 1%nat)
                              else
                                (Z.lor (Z.shiftl (Z.land s0 7) 18)
                                   (Z.lor (Z.shiftl (Z.land s1 63) 12)
                                      (Z.lor (Z.shiftl (Z.land s2 63) 6)
                                         (Z.land s3 63))), 4%nat)
                          end
                    end
              end
        end
  end.

(** [utf8.RuneStart]. *)
Definition RuneStart (b : Z) : bool := negb (Z.land b 192 =? 128)%Z.

(** The loop of DecodeLastRuneInString that looks for the start of the last
    rune, [for start--; start >= lim; start--], entered with the decrement
    done; it runs at most [UTFMax] times. *)
Fixpoint lastRuneStart (n : nat) (s : string) (start lim : Z) : Z :=
  match n with
  | O => start
  | S n' =>
      if (start <? lim)%Z then start
      else if RuneStart (byteAt s start) then start
      else lastRuneStart n' s (start - 1)%Z lim
  end.

(** [utf8.DecodeLastRuneInString]. *)
Definition DecodeLastRuneInString (s : string) : Z * nat :=
  let end_ := Z.of_nat (String.length s) in
  if (end_ =? 0)%Z then (RuneError, 0%nat)
  else
    let start := (end_ - 1)%Z in
    let r := byteAt s start in
    if (r <? RuneSelf)%Z then (r, 1%nat)
    else
      let lim := Z.max 0 (end_ - Z.of_nat UTFMax)%Z in
      let start := lastRuneStart UTFMax s (start - 1)%Z lim in
      let start := Z.max 0 start in
      let '(r, size) := DecodeRuneInString (sliceFrom (Z.to_nat start) s) in
      if negb (start + Z.of_nat size =? end_)%Z then (RuneError, 1%nat)
      else (r, size).

(** [unicode.IsSpace]: the Latin-1 white space, and beyond it the table
    [unicode.White_Space]. *)
Definition IsSpace (r : Z) : bool :=
  (if r <=? 255 then
     ((9 <=? r) && (r <=? 13)) || (r =? 32) || (r =? 133) || (r =? 160)
   else
     (r =? 5760) || ((8192 <=? r) && (r <=? 8202)) || (r =? 8232)
     || (r =? 8233) || (r =? 8239) || (r =? 8287) || (r =? 12288))%Z.

(** [strings.asciiSpace]. *)
Definition asciiSpace (b : Z) : bool :=
  (((9 <=? b) && (b <=? 13)) || (b =? 32))%Z.

(** [strings.indexFunc]: the offset of the first rune [r] of [s], from the
    offset [i] on, with [f(r) == truth], or -1.  The loop [range s] decodes
    one rune per turn, so it makes at most [len(s)] turns. *)
Fixpoint indexFunc (n : nat) (s : string) (f : Z -> bool) (truth : bool)
         (i : nat) : Z :=
  match n with
  | O => (-1)%Z
  | S n' =>
      if (i <? String.length s)%nat then
        let '(r, size) := DecodeRuneInString (sliceFrom i s) in
        if Bool.eqb (f r) truth then Z.of_nat i
        else indexFunc n' s f truth (i + size)
      else (-1)%Z
  end.

(** [strings.lastIndexFunc]: [for i := len(s); i > 0; ]. *)
Fixpoint lastIndexFunc (n : nat) (s : string) (f : Z -> bool) (truth : bool)
         (i : nat) : Z :=
  match n with
  | O => (-1)%Z
  | S n' =>
      if (0 <? i)%nat then
        let '(r, size) := DecodeLastRuneInString (sliceTo i s) in
        let i := (i - size)%nat in
        if Bool.eqb (f r) truth then Z.of_nat i
        else lastIndexFunc n' s f truth i
      else (-1)%Z
  end.

(** [strings.TrimLeftFunc]. *)
Definition TrimLeftFunc (s : string) (f : Z -> bool) : string :=
  let i := indexFunc (String.length s) s f false 0 in
  if (i =? -1)%Z then EmptyString else sliceFrom (Z.to_nat i) s.

(** [strings.TrimRightFunc]. *)
Definition TrimRightFunc (s : string) (f : Z -> bool) : string :=
  let i := lastIndexFunc (String.length s) s f false (String.length s) in
  let i :=
    if ((0 <=? i) && (RuneSelf <=? byteAt s i))%Z
    then (i + Z.of_nat (snd (DecodeRuneInString (sliceFrom (Z.to_nat i) s))))%Z
    else (i + 1)%Z in
  sliceTo (Z.to_nat i) s.

(** [strings.TrimFunc]. *)
Definition TrimFunc (s : string) (f : Z -> bool) : string :=
  TrimRightFunc (TrimLeftFunc s f) f.

(** The second loop of TrimSpace, [for ; stop > start; stop--], on
    [s[start:]]: the ASCII white space at the end is cut; at a byte that is
    not ASCII the rest is left to TrimRightFunc. *)
Fixpoint TrimSpace_stop (s : string) (stop : nat) : string :=
  match stop with
  | O => EmptyString
  | S k =>
      let c := byteAt s (Z.of_nat k) in
      if (RuneSelf <=? c)%Z then TrimRightFunc (sliceTo stop s) IsSpace
      else if negb (asciiSpace c) then sliceTo stop s
      else TrimSpace_stop s k
  end.

(** [strings.TrimSpace(s)]; the recursion is the first loop, [for ; start <
    len(s); start++], on [s[start:]]: the ASCII white space at the start is
    skipped; at a byte that is not ASCII the rest is left to TrimFunc. *)
Fixpoint TrimSpace (s : string) : string :=
  match s with
  | EmptyString => EmptyString
  | String c s' =>
      if (RuneSelf <=? byte c)%Z then TrimFunc s IsSpace
      else if negb (asciiSpace (byte c)) then TrimSpace_stop s (String.length s)
      else TrimSpace s'
  end.

(** [%d] of an integer. *)
Definition itoa (z : Z) : string := NilZero.string_of_int (Z.to_int z).

(** Go's [error] values, as far as the provider inspects them:
    - [ErrorResponse] is go-github's [*github.ErrorResponse]; [StatusCode] is
      [Some code] when its [Response] field is set and [None] when it is nil;
    - [errorString] is any other error ([errors.New], [fmt.Errorf] without
      [%w], transport errors);
    - [wrapError] is [fmt.Errorf(".. %w", err)], its message already
      rendered. *)
Inductive error : Type :=
| ErrorResponse (StatusCode : option Z) (Message : string)
| errorString (s : string)
| wrapError (msg : string) (err : error).

(** [err.Error()]. *)
Definition Error (e : error) : string :=
  match e with
  | ErrorResponse _ m => m
  | errorString s => s
  | wrapError m _ => m
  end.

(** [fmt.Errorf(prefix + "%w", err)]. *)
Definition Errorf_w (prefix : string) (err : error) : error :=
  wrapError (prefix ++ Error err) err.

(** [errors.As(err, &ghErr)] for [ghErr *github.ErrorResponse]: the first
    error response in the chain, as the status code of its [Response]
    ([Some None] when the response is nil). *)
Fixpoint AsErrorResponse (e : error) : option (option Z) :=
  match e with
  | ErrorResponse code _ => Some code
  | errorString _ => None
  | wrapError _ e' => AsErrorResponse e'
  end.

(** [errors.As(err, &ghErr) && ghErr.Response != nil &&
     ghErr.Response.StatusCode == code]. *)
Definition hasStatus (e : error) (code : Z) : bool :=
  match AsErrorResponse e with
  | Some (Some c) => (c =? code)%Z
  | _ => false
  end.

(** net/http status codes. *)
Definition StatusNotFound : Z := 404.
Definition StatusMethodNotAllowed : Z := 405.
Definition StatusConflict : Z := 409.
Definition StatusUnprocessableEntity : Z := 422.
Definition StatusTooManyRequests : Z := 429.

(** [time.Duration] in nanoseconds. *)
Definition Second : Z := 1000000000.

End Go.

(* ===================================================================== *)
(** ** data_source_repository.go: splitRepoFullName *)
(* ===================================================================== *)

Section SplitRepoFullName.

(** [strconv.Quote], which renders the [%q] verb. *)
Variable strconv_Quote : string -> string.

(** [func splitRepoFullName(fullName string) (string, string, error)]. *)
Definition splitRepoFullName (fullName : string)
  : string * string * option Go.error :=
  let parts := Go.Split fullName "/" in
  match parts with
  | [owner; repo] => (owner, repo, None)
  | _ =>
      ("", "",
       Some (Go.errorString
               ("unexpected full name format (" ++ strconv_Quote fullName
                ++ "), expected owner/repo_name")))
  end.

End SplitRepoFullName.

(* ===================================================================== *)
(** ** terraform-plugin-framework: attribute values and diagnostics *)
(* ===================================================================== *)

Module TF.

(** [types.String]: null, unknown or a known value. *)
Inductive types_String : Type :=
| StringNull
| StringUnknown
| StringValue (s : string).

(** [types.Bool]. *)
Inductive types_Bool : Type :=
| BoolNull
| BoolUnknown
| BoolValue (b : bool).

(** [types.Int64]. *)
Inductive types_Int64 : Type :=
| Int64Null
| Int64Unknown
| Int64Value (z : Z).

Definition String_IsNull (v : types_String) : bool :=
  match v with StringNull => true | _ => false end.

Definition String_IsUnknown (v : types_String) : bool :=
  match v with StringUnknown => true | _ => false end.

(** [ValueString] is the empty string for null and unknown. *)
Definition ValueString (v : types_String) : string :=
  match v with StringValue s => s | _ => "" end.

(** [!v.IsNull() && !v.IsUnknown()], the provider's test for a set value. *)
Definition String_known (v : types_String) : bool :=
  negb (String_IsNull v) && negb (String_IsUnknown v).

Definition String_Equal (a b : types_String) : bool :=
  match a, b with
  | StringNull, StringNull => true
  | StringUnknown, StringUnknown => true
  | StringValue x, StringValue y => String.eqb x y
  | _, _ => false
  end.

(** [ValueBool] is false for null and unknown. *)
Definition ValueBool (v : types_Bool) : bool :=
  match v with BoolValue b => b | _ => false end.

Definition Bool_Equal (a b : types_Bool) : bool :=
  match a, b with
  | BoolNull, BoolNull => true
  | BoolUnknown, BoolUnknown => true
  | BoolValue x, BoolValue y => Bool.eqb x y
  | _, _ => false
  end.

(** [ValueInt64] is 0 for null and unknown. *)
Definition ValueInt64 (v : types_Int64) : Z :=
  match v with Int64Value z => z | _ => 0%Z end.

(** [diag.Severity]. *)
Inductive Severity : Type := SeverityError | SeverityWarning.

(** A diagnostic: severity, summary and detail. *)
Record Diagnostic : Type := mkDiagnostic {
  severity : Severity;
  Summary : string;
  Detail : string
}.

Definition Diagnostics : Type := list Diagnostic.

Definition Severity_eqb (a b : Severity) : bool :=
  match a, b with
  | SeverityError, SeverityError => true
  | SeverityWarning, SeverityWarning => true
  | _, _ => false
  end.

(** [Diagnostic.Equal]. *)
Definition Diagnostic_Equal (a b : Diagnostic) : bool :=
  Severity_eqb (severity a) (severity b)
  && String.eqb (Summary a) (Summary b)
  && String.eqb (Detail a) (Detail b).

(** [Diagnostics.Contains]. *)
Definition Diagnostics_Contains (ds : Diagnostics) (d : Diagnostic) : bool :=
  existsb (Diagnostic_Equal d) ds.

(** [Diagnostics.Append]: the new diagnostics are added in order, one that
    the collection already holds is skipped. *)
Fixpoint Append (ds : Diagnostics) (new : Diagnostics) : Diagnostics :=
  match new with
  | [] => ds
  | d :: rest =>
      if Diagnostics_Contains ds d then Append ds rest
      else Append (ds ++ [d])%list rest
  end.

Definition AddError (ds : Diagnostics) (summary detail : string) : Diagnostics :=
  Append ds [mkDiagnostic SeverityError summary detail].

Definition AddWarning (ds : Diagnostics) (summary detail : string) : Diagnostics :=
  Append ds [mkDiagnostic SeverityWarning summary detail].

Definition isError (d : Diagnostic) : bool :=
  Severity_eqb (severity d) SeverityError.

(** [Diagnostics.HasError]. *)
Definition HasError (ds : Diagnostics) : bool := existsb isError ds.

(** [Diagnostics.Errors]. *)
Definition Errors (ds : Diagnostics) : Diagnostics := filter isError ds.

End TF.

(* ===================================================================== *)
(** ** go-github: the data the provider exchanges with the remote API *)
(* ===================================================================== *)

Module GitHub.

(** The outcome of a remote call: a value, or an error (the value is then
    nil, as go-github returns it). *)
Inductive result (A : Type) : Type :=
| Ok (a : A)
| Err (e : Go.error).
Arguments Ok {A} a.
Arguments Err {A} e.

(** go-github's nil-safe getters on pointer fields. *)
Definition GetString (o : option string) : string :=
  match o with Some s => s | None => "" end.

Definition GetBool (o : option bool) : bool :=
  match o with Some b => b | None => false end.

Definition GetInt (o : option Z) : Z :=
  match o with Some z => z | None => 0%Z end.

(** [github.Timestamp]: whether it is the zero time, and its RFC 3339 form. *)
Record Timestamp : Type := mkTimestamp {
  IsZero : bool;
  RFC3339 : string
}.

(** [github.User], the fields the provider reads. *)
Record User : Type := mkUser {
  Login : option string;
  UserID : option Z;
  NodeID : option string;
  AvatarURL : option string;
  HTMLURL : option string;
  Name : option string;
  Company : option string;
  Blog : option string;
  Location : option string;
  Email : option string;
  Bio : option string;
  PublicRepos : option Z;
  PublicGists : option Z;
  Followers : option Z;
  Following : option Z;
  CreatedAt : option Timestamp;
  UpdatedAt : option Timestamp
}.

(** [github.GitObject] and [github.Reference]. *)
Record GitObject : Type := mkGitObject { ObjectSHA : option string }.

Record Reference : Type := mkReference {
  Ref : option string;
  Object : option GitObject
}.

(** [github.RepositoryContent]: the blob SHA, the API URL, and the encoded
    content that [GetContent] decodes. *)
Record RepositoryContent : Type := mkRepositoryContent {
  ContentSHA : option string;
  ContentURL : option string;
  Encoding : option string;
  Content : option string
}.

(** [github.CommitAuthor]. *)
Record CommitAuthor : Type := mkCommitAuthor {
  AuthorName : option string;
  AuthorEmail : option string
}.

(** [github.RepositoryContentFileOptions], the body of a contents write. *)
Record RepositoryContentFileOptions : Type := mkFileOptions {
  Message : option string;
  FileContent : string;
  SHA : option string;
  Branch : option string;
  Author : option CommitAuthor;
  Committer : option CommitAuthor
}.

(** [github.RepositoryContentGetOptions]. *)
Record RepositoryContentGetOptions : Type := mkGetOptions { GetRef : string }.

(** [github.RepositoryContentResponse]; [GetSHA] is the SHA of its commit. *)
Record RepositoryContentResponse : Type := mkContentResponse {
  ResponseCommitSHA : option string
}.

(** [github.Commit] and [github.RepositoryCommit]. *)
Record Commit : Type := mkCommit {
  CommitMessage : option string;
  CommitCommitter : option CommitAuthor
}.

Record RepositoryCommit : Type := mkRepositoryCommit {
  CommitSHA : option string;
  InnerCommit : option Commit
}.

(** [github.CommitsListOptions]. *)
Record CommitsListOptions : Type := mkCommitsListOptions {
  ListPath : string;
  ListSHA : string;
  PerPage : Z
}.

(** [github.PullRequestBranch] and [github.PullRequest]. *)
Record PullRequestBranch : Type := mkPullRequestBranch {
  BranchRef : option string;
  BranchSHA : option string
}.

Record PullRequest : Type := mkPullRequest {
  Number : option Z;
  State : option string;
  Title : option string;
  Body : option string;
  Merged : option bool;
  Mergeable : option bool;
  MaintainerCanModify : option bool;
  MergedAt : option Timestamp;
  MergeCommitSHA : option string;
  Head : option PullRequestBranch;
  Base : option PullRequestBranch
}.

(** A [github.PullRequest] literal with no field set. *)
Definition PullRequest_zero : PullRequest :=
  mkPullRequest None None None None None None None None None None None.

(** [github.NewPullRequest]. *)
Record NewPullRequest : Type := mkNewPullRequest {
  NewTitle : option string;
  NewHead : option string;
  NewBase : option string;
  NewBody : option string;
  NewMaintainerCanModify : option bool
}.

(** [github.PullRequestListOptions]. *)
Record PullRequestListOptions : Type := mkPullRequestListOptions {
  ListState : string;
  ListHead : string;
  ListBase : string;
  ListPerPage : Z
}.

(** [github.PullRequestReviewRequest] and [github.PullRequestOptions]. *)
Record PullRequestReviewRequest : Type := mkReviewRequest {
  ReviewEvent : option string;
  ReviewBody : option string
}.

Record PullRequestOptions : Type := mkPullRequestOptions {
  MergeMethod : string
}.

(** [github.Repository], the merge settings. *)
Record Repository : Type := mkRepository {
  AllowSquashMerge : option bool;
  AllowMergeCommit : option bool;
  AllowRebaseMerge : option bool
}.

(** [github.RepoStatus]. *)
Record RepoStatus : Type := mkRepoStatus {
  StatusState : option string;
  StatusContext : option string
}.

(** The remote calls the provider makes, with their arguments. *)
Inductive Call : Type :=
| Users_Get (user : string)
| Git_GetRef (owner repo ref : string)
| Git_CreateRef (owner repo : string) (ref : Reference)
| Git_DeleteRef (owner repo ref : string)
| Repositories_GetContents (owner repo path : string)
                           (opts : RepositoryContentGetOptions)
| Repositories_CreateFile (owner repo path : string)
                          (opts : RepositoryContentFileOptions)
| Repositories_DeleteFile (owner repo path : string)
                          (opts : RepositoryContentFileOptions)
| Repositories_GetCommit (owner repo sha : string)
| Repositories_ListCommits (owner repo : string) (opts : CommitsListOptions)
| Repositories_Get (owner repo : string)
| Repositories_ListStatuses (owner repo ref : string)
| PullRequests_Get (owner repo : string) (number : Z)
| PullRequests_List (owner repo : string) (opts : PullRequestListOptions)
| PullRequests_Edit (owner repo : string) (number : Z) (pull : PullRequest)
| PullRequests_Create (owner repo : string) (pull : NewPullRequest)
| PullRequests_CreateReview (owner repo : string) (number : Z)
                            (review : PullRequestReviewRequest)
| PullRequests_Merge (owner repo : string) (number : Z)
                     (commitMessage : string) (options : PullRequestOptions).

(** What each call returns when it succeeds.  A pointer that the provider
    tests against nil is an [option]; [GetContents] returns the file content
    and the directory content, one of them nil. *)
Definition Reply (c : Call) : Type :=
  match c with
  | Users_Get _ => option User
  | Git_GetRef _ _ _ => Reference
  | Git_CreateRef _ _ _ => Reference
  | Git_DeleteRef _ _ _ => unit
  | Repositories_GetContents _ _ _ _ =>
      (option RepositoryContent * option (list RepositoryContent))%type
  | Repositories_CreateFile _ _ _ _ => RepositoryContentResponse
  | Repositories_DeleteFile _ _ _ _ => RepositoryContentResponse
  | Repositories_GetCommit _ _ _ => RepositoryCommit
  | Repositories_ListCommits _ _ _ => list RepositoryCommit
  | Repositories_Get _ _ => option Repository
  | Repositories_ListStatuses _ _ _ => list RepoStatus
  | PullRequests_Get _ _ _ => PullRequest
  | PullRequests_List _ _ _ => list PullRequest
  | PullRequests_Edit _ _ _ _ => PullRequest
  | PullRequests_Create _ _ _ => PullRequest
  | PullRequests_CreateReview _ _ _ _ => unit
  | PullRequests_Merge _ _ _ _ _ => unit
  end.

(** What an operation does to the outside: a remote call with its outcome,
    or a [time.Sleep] of some nanoseconds. *)
Inductive Event : Type :=
| EvCall (c : Call) (r : result (Reply c))
| EvSleep (d : Z).

End GitHub.

(* ===================================================================== *)
(** ** Effects: the remote API as an oracle, and traced computations *)
(* ===================================================================== *)

(** The remote side: [api] answers a call in a world and moves to the next
    world; [elapse] is what the world becomes while the provider sleeps. *)
Record Remote (W : Type) : Type := mkRemote {
  api : forall c : GitHub.Call, W -> GitHub.result (GitHub.Reply c) * W;
  elapse : Z -> W -> W
}.

(** A computation: from a world to a value, the next world, and the events
    it produced, oldest first. *)
Definition M (W A : Type) : Type := W -> A * W * list GitHub.Event.

Definition ret {W A : Type} (a : A) : M W A := fun w => (a, w, []).

Definition bind {W A B : Type} (m : M W A) (k : A -> M W B) : M W B :=
  fun w =>
    let '(a, w1, l1) := m w in
    let '(b, w2, l2) := k a w1 in
    (b, w2, (l1 ++ l2)%list).

(** One remote call. *)
Definition call {W : Type} (R : Remote W) (c : GitHub.Call)
  : M W (GitHub.result (GitHub.Reply c)) :=
  fun w => let (r, w') := api R c w in (r, w', [GitHub.EvCall c r]).

(** [time.Sleep(d)]. *)
Definition Sleep {W : Type} (R : Remote W) (d : Z) : M W unit :=
  fun w => (tt, elapse R d w, [GitHub.EvSleep d]).

Declare Scope go_scope.
Delimit Scope go_scope with go.
Notation "x <- m ;; k" := (bind m (fun x => k))
  (at level 100, m at next level, right associativity) : go_scope.
Notation "' p <- m ;; k" := (bind m (fun x => let p := x in k))
  (at level 100, p pattern, m at next level, right associativity) : go_scope.

(** The value, the final world and the trace of a run. *)
Definition value_of {W A : Type} (x : A * W * list GitHub.Event) : A :=
  fst (fst x).
Definition world_of {W A : Type} (x : A * W * list GitHub.Event) : W :=
  snd (fst x).
Definition trace_of {W A : Type} (x : A * W * list GitHub.Event)
  : list GitHub.Event := snd x.

(** [*github.Client]: how its HTTP client authenticates, and the API base URL
    when it is not the default one. *)
Inductive Transport : Type :=
| DefaultTransport
| OAuth2Transport (AccessToken : string)
| InsecureTransport.

Record Client : Type := mkClient {
  transport : Transport;
  BaseURL : option string
}.

(** [type githubxClientData struct]. *)
Record githubxClientData : Type := mkClientData {
  ClientOf : option Client;
  OwnerOf : string
}.

(** The [any] value a Configure request carries: nil, a [githubxClientData],
    or a value of another type, known by the name [%T] prints. *)
Inductive ProviderData : Type :=
| ProviderDataNil
| ProviderDataClient (d : githubxClientData)
| ProviderDataOther (typeName : string).

(** A model decoded from a plan, state or configuration ([Plan.Get],
    [State.Get], [Config.Get]) with the diagnostics of the decoding. *)
Record Decoded (Model : Type) : Type := mkDecoded {
  decoded : Model;
  decodeDiags : TF.Diagnostics
}.

(** A response: its diagnostics, and the state it holds, if any
    ([State.Set] stores a model). *)
Record Response (Model : Type) : Type := mkResponse {
  Diagnostics : TF.Diagnostics;
  SavedState : option Model
}.

Definition withDiagnostics {Model : Type} (ds : TF.Diagnostics)
           (resp : Response Model) : Response Model :=
  mkResponse ds (SavedState resp).

Definition respAddError {Model : Type} (resp : Response Model)
           (summary detail : string) : Response Model :=
  withDiagnostics (TF.AddError (Diagnostics resp) summary detail) resp.

(** [resp.Diagnostics.Append(resp.State.Set(ctx, &m)...)]: storing a model of
    the schema's own type yields no diagnostics. *)
Definition StateSet {Model : Type} (m : Model) (resp : Response Model)
  : Response Model :=
  mkResponse (Diagnostics resp) (Some m).

(* ===================================================================== *)
(** ** resource_repository_file.go: the repository-file resource *)
(* ===================================================================== *)

Module FileResource.

(** [type repositoryFileResource struct]. *)
Record repositoryFileResource : Type := mkResource {
  client : option Client;
  owner : string
}.

(** [type repositoryFileResourceModel struct], and one update function per
    field the resource assigns. *)
Record repositoryFileResourceModel : Type := mkFileModel {
  Repository : TF.types_String;
  File : TF.types_String;
  Content : TF.types_String;
  Branch : TF.types_String;
  Ref : TF.types_String;
  CommitSHA : TF.types_String;
  CommitMessage : TF.types_String;
  CommitAuthor : TF.types_String;
  CommitEmail : TF.types_String;
  SHA : TF.types_String;
  OverwriteOnCreate : TF.types_Bool;
  AutocreateBranch : TF.types_Bool;
  AutocreateBranchSource : TF.types_String;
  AutocreateBranchSourceSHA : TF.types_String;
  ID : TF.types_String
}.

Definition set_Repository (v : TF.types_String) (m : repositoryFileResourceModel)
  : repositoryFileResourceModel :=
  mkFileModel v (File m) (Content m) (Branch m) (Ref m) (CommitSHA m)
    (CommitMessage m) (CommitAuthor m) (CommitEmail m) (SHA m)
    (OverwriteOnCreate m) (AutocreateBranch m) (AutocreateBranchSource m)
    (AutocreateBranchSourceSHA m) (ID m).

Definition set_File (v : TF.types_String) (m : repositoryFileResourceModel)
  : repositoryFileResourceModel :=
  mkFileModel (Repository m) v (Content m) (Branch m) (Ref m) (CommitSHA m)
    (CommitMessage m) (CommitAuthor m) (CommitEmail m) (SHA m)
    (OverwriteOnCreate m) (AutocreateBranch m) (AutocreateBranchSource m)
    (AutocreateBranchSourceSHA m) (ID m).

Definition set_Content (v : TF.types_String) (m : repositoryFileResourceModel)
  : repositoryFileResourceModel :=
  mkFileModel (Repository m) (File m) v (Branch m) (Ref m) (CommitSHA m)
    (CommitMessage m) (CommitAuthor m) (CommitEmail m) (SHA m)
    (OverwriteOnCreate m) (AutocreateBranch m) (AutocreateBranchSource m)
    (AutocreateBranchSourceSHA m) (ID m).

Definition set_Branch (v : TF.types_String) (m : repositoryFileResourceModel)
  : repositoryFileResourceModel :=
  mkFileModel (Repository m) (File m) (Content m) v (Ref m) (CommitSHA m)
    (CommitMessage m) (CommitAuthor m) (CommitEmail m) (SHA m)
    (OverwriteOnCreate m) (AutocreateBranch m) (AutocreateBranchSource m)
    (AutocreateBranchSourceSHA m) (ID m).

Definition set_Ref (v : TF.types_String) (m : repositoryFileResourceModel)
  : repositoryFileResourceModel :=
  mkFileModel (Repository m) (File m) (Content m) (Branch m) v (CommitSHA m)
    (CommitMessage m) (CommitAuthor m) (CommitEmail m) (SHA m)
    (OverwriteOnCreate m) (AutocreateBranch m) (AutocreateBranchSource m)
    (AutocreateBranchSourceSHA m) (ID m).

Definition set_CommitSHA (v : TF.types_String) (m : repositoryFileResourceModel)
  : repositoryFileResourceModel :=
  mkFileModel (Repository m) (File m) (Content m) (Branch m) (Ref m) v
    (CommitMessage m) (CommitAuthor m) (CommitEmail m) (SHA m)
    (OverwriteOnCreate m) (AutocreateBranch m) (AutocreateBranchSource m)
    (AutocreateBranchSourceSHA m) (ID m).

Definition set_CommitMessage (v : TF.types_String) (m : repositoryFileResourceModel)
  : repositoryFileResourceModel :=
  mkFileModel (Repository m) (File m) (Content m) (Branch m) (Ref m)
    (CommitSHA m) v (CommitAuthor m) (CommitEmail m) (SHA m)
    (OverwriteOnCreate m) (AutocreateBranch m) (AutocreateBranchSource m)
    (AutocreateBranchSourceSHA m) (ID m).

Definition set_CommitAuthor (v : TF.types_String) (m : repositoryFileResourceModel)
  : repositoryFileResourceModel :=
  mkFileModel (Repository m) (File m) (Content m) (Branch m) (Ref m)
    (CommitSHA m) (CommitMessage m) v (CommitEmail m) (SHA m)
    (OverwriteOnCreate m) (AutocreateBranch m) (AutocreateBranchSource m)
    (AutocreateBranchSourceSHA m) (ID m).

Definition set_CommitEmail (v : TF.types_String) (m : repositoryFileResourceModel)
  : repositoryFileResourceModel :=
  mkFileModel (Repository m) (File m) (Content m) (Branch m) (Ref m)
    (CommitSHA m) (CommitMessage m) (CommitAuthor m) v (SHA m)
    (OverwriteOnCreate m) (AutocreateBranch m) (AutocreateBranchSource m)
    (AutocreateBranchSourceSHA m) (ID m).

Definition set_SHA (v : TF.types_String) (m : repositoryFileResourceModel)
  : repositoryFileResourceModel :=
  mkFileModel (Repository m) (File m) (Content m) (Branch m) (Ref m)
    (CommitSHA m) (CommitMessage m) (CommitAuthor m) (CommitEmail m) v
    (OverwriteOnCreate m) (AutocreateBranch m) (AutocreateBranchSource m)
    (AutocreateBranchSourceSHA m) (ID m).

Definition set_AutocreateBranchSourceSHA (v : TF.types_String) (m : repositoryFileResourceModel)
  : repositoryFileResourceModel :=
  mkFileModel (Repository m) (File m) (Content m) (Branch m) (Ref m)
    (CommitSHA m) (CommitMessage m) (CommitAuthor m) (CommitEmail m) (SHA m)
    (OverwriteOnCreate m) (AutocreateBranch m) (AutocreateBranchSource m) v
    (ID m).

Definition set_ID (v : TF.types_String) (m : repositoryFileResourceModel)
  : repositoryFileResourceModel :=
  mkFileModel (Repository m) (File m) (Content m) (Branch m) (Ref m)
    (CommitSHA m) (CommitMessage m) (CommitAuthor m) (CommitEmail m) (SHA m)
    (OverwriteOnCreate m) (AutocreateBranch m) (AutocreateBranchSource m)
    (AutocreateBranchSourceSHA m) v.

(** [maxRetries := 5] of Create, Update and Delete. *)
Definition maxRetries : Z := 5.

(** [func (r *repositoryFileResource) Configure]. *)
Definition Configure (r : repositoryFileResource) (providerData : ProviderData)
           (diags : TF.Diagnostics) : repositoryFileResource * TF.Diagnostics :=
  match providerData with
  | ProviderDataNil => (r, diags)
  | ProviderDataOther typeName =>
      (r, TF.AddError diags "Unexpected Resource Configure Type"
            ("Expected githubxClientData, got: " ++ typeName
             ++ ". Please report this issue to the provider developers."))
  | ProviderDataClient clientData =>
      (mkResource (ClientOf clientData) (OwnerOf clientData), diags)
  end.

(** The [Ref] of the [RepositoryContentGetOptions] built from a model's
    branch. *)
Definition getOptions (m : repositoryFileResourceModel)
  : GitHub.RepositoryContentGetOptions :=
  GitHub.mkGetOptions
    (if TF.String_known (Branch m) then TF.ValueString (Branch m) else "").

(** [func (r *repositoryFileResource) buildFileOptions]. *)
Definition buildFileOptions (model : repositoryFileResourceModel)
           (content : string)
  : option GitHub.RepositoryContentFileOptions * TF.Diagnostics :=
  let diags : TF.Diagnostics := [] in
  let branch :=
    if TF.String_known (Branch model)
    then Some (TF.ValueString (Branch model)) else None in
  let message :=
    if TF.String_known (CommitMessage model)
    then Some (TF.ValueString (CommitMessage model)) else None in
  let hasCommitAuthor := TF.String_known (CommitAuthor model) in
  let hasCommitEmail := TF.String_known (CommitEmail model) in
  if hasCommitAuthor && negb hasCommitEmail then
    (None, TF.AddError diags "Invalid Commit Author Configuration"
             "Cannot set commit_author without setting commit_email")
  else if hasCommitEmail && negb hasCommitAuthor then
    (None, TF.AddError diags "Invalid Commit Author Configuration"
             "Cannot set commit_email without setting commit_author")
  else
    let who :=
      if hasCommitAuthor && hasCommitEmail
      then Some (GitHub.mkCommitAuthor
                   (Some (TF.ValueString (CommitAuthor model)))
                   (Some (TF.ValueString (CommitEmail model))))
      else None in
    (Some (GitHub.mkFileOptions message content None branch who who), diags).

(** [opts.SHA = github.String(sha)] and [opts.Message = &msg]. *)
Definition opts_set_SHA (sha : string)
           (o : GitHub.RepositoryContentFileOptions)
  : GitHub.RepositoryContentFileOptions :=
  GitHub.mkFileOptions (GitHub.Message o) (GitHub.FileContent o) (Some sha)
    (GitHub.Branch o) (GitHub.Author o) (GitHub.Committer o).

Definition opts_set_Message (msg : string)
           (o : GitHub.RepositoryContentFileOptions)
  : GitHub.RepositoryContentFileOptions :=
  GitHub.mkFileOptions (Some msg) (GitHub.FileContent o) (GitHub.SHA o)
    (GitHub.Branch o) (GitHub.Author o) (GitHub.Committer o).

(** How a retry loop is left: by a [return] inside it, or by falling out of
    it ([break], or the attempts used up) with the last response and error. *)
Inductive LoopExit : Type :=
| Returned (diags : TF.Diagnostics)
| Fell (create : option GitHub.RepositoryContentResponse)
       (err : option Go.error).

Section Operations.

Variable W : Type.
Variable remote : Remote W.

(** Library functions of go-github and net/url: [RepositoryContent.GetContent],
    [url.Parse] followed by [.RawQuery], and [url.ParseQuery]. *)
Variable GetContent : GitHub.RepositoryContent -> GitHub.result string.
Variable url_Parse_RawQuery : string -> GitHub.result string.
Variable url_ParseQuery : string -> GitHub.result (list (string * list string)).

Local Open Scope go_scope.

(** [func (r *repositoryFileResource) getOwner]. *)
Definition getOwner (r : repositoryFileResource)
  : M W (string * option Go.error) :=
  if negb (String.eqb (owner r) "") then ret (owner r, None)
  else
    u <- call remote (GitHub.Users_Get "") ;;
    match u with
    | GitHub.Err err =>
        ret ("", Some (Go.errorString
          ("unable to determine owner: provider-level `owner` is not set and unable to fetch authenticated user: "
           ++ Go.Error err)))
    | GitHub.Ok (Some (GitHub.mkUser (Some login) _ _ _ _ _ _ _ _ _ _ _ _ _ _ _ _)) =>
        ret (login, None)
    | GitHub.Ok _ =>
        ret ("", Some (Go.errorString
          "unable to determine owner: provider-level `owner` is not set and authenticated user information is unavailable"))
    end.

(** [func (r *repositoryFileResource) checkRepositoryBranchExists]. *)
Definition checkRepositoryBranchExists (owner repo branch : string)
  : M W (option Go.error) :=
  let branchRefName := "refs/heads/" ++ branch in
  r <- call remote (GitHub.Git_GetRef owner repo branchRefName) ;;
  match r with
  | GitHub.Ok _ => ret None
  | GitHub.Err err => ret (Some err)
  end.

(** [func (r *repositoryFileResource) checkAndCreateBranchIfNeeded]: the
    result, with the model and the diagnostics as it leaves them. *)
Definition checkAndCreateBranchIfNeeded (owner repo : string)
           (model : repositoryFileResourceModel) (diags : TF.Diagnostics)
  : M W (bool * repositoryFileResourceModel * TF.Diagnostics) :=
  if TF.String_IsNull (Branch model) || TF.String_IsUnknown (Branch model)
  then ret (true, model, diags)
  else
    let branchName := TF.ValueString (Branch model) in
    e <- checkRepositoryBranchExists owner repo branchName ;;
    match e with
    | None => ret (true, model, diags)
    | Some _ =>
        if negb (TF.ValueBool (AutocreateBranch model)) then
          ret (false, model,
               TF.AddError diags "Branch Not Found"
                 ("Branch " ++ branchName ++ " not found in repository "
                  ++ owner ++ "/" ++ repo
                  ++ ". Set 'autocreate_branch' to true to automatically create it."))
        else
          let branchRefName := "refs/heads/" ++ branchName in
          let sourceBranchName :=
            if String.eqb (TF.ValueString (AutocreateBranchSource model)) ""
            then "main"
            else TF.ValueString (AutocreateBranchSource model) in
          let sourceBranchRefName := "refs/heads/" ++ sourceBranchName in
          let createRef (sourceBranchSHA : string)
                        (model : repositoryFileResourceModel) :=
            c <- call remote
                   (GitHub.Git_CreateRef owner repo
                      (GitHub.mkReference (Some branchRefName)
                         (Some (GitHub.mkGitObject (Some sourceBranchSHA))))) ;;
            match c with
            | GitHub.Err err =>
                ret (false, model,
                     TF.AddError diags "Error creating branch"
                       ("Unable to create GitHub branch reference " ++ owner
                        ++ "/" ++ repo ++ " (" ++ branchRefName ++ "): "
                        ++ Go.Error err))
            | GitHub.Ok _ => ret (true, model, diags)
            end in
          if TF.String_known (AutocreateBranchSourceSHA model)
             && negb (String.eqb
                        (TF.ValueString (AutocreateBranchSourceSHA model)) "")
          then createRef (TF.ValueString (AutocreateBranchSourceSHA model)) model
          else
            g <- call remote (GitHub.Git_GetRef owner repo sourceBranchRefName) ;;
            match g with
            | GitHub.Err err =>
                ret (false, model,
                     TF.AddError diags "Error querying source branch"
                       ("Unable to query GitHub branch reference " ++ owner
                        ++ "/" ++ repo ++ " (" ++ sourceBranchRefName ++ "): "
                        ++ Go.Error err))
            | GitHub.Ok ref =>
                match GitHub.Object ref with
                | Some (GitHub.mkGitObject (Some sourceBranchSHA)) =>
                    createRef sourceBranchSHA
                      (set_AutocreateBranchSourceSHA
                         (TF.StringValue sourceBranchSHA) model)
                | _ =>
                    ret (false, model,
                         TF.AddError diags "Invalid source branch"
                           ("Source branch " ++ sourceBranchName
                            ++ " does not have a valid SHA"))
                end
            end
    end.

(** [func (r *repositoryFileResource) getFileCommit]. *)
Definition getFileCommit (owner repo file ref : string)
  : M W (GitHub.result GitHub.RepositoryCommit) :=
  let opts := GitHub.mkCommitsListOptions file ref 1 in
  l <- call remote (GitHub.Repositories_ListCommits owner repo opts) ;;
  match l with
  | GitHub.Err err => ret (GitHub.Err err)
  | GitHub.Ok [] =>
      ret (GitHub.Err (Go.errorString
             ("no commits found for file " ++ file ++ " in ref " ++ ref)))
  | GitHub.Ok (first :: _) =>
      let commitSHA := GitHub.GetString (GitHub.CommitSHA first) in
      c <- call remote (GitHub.Repositories_GetCommit owner repo commitSHA) ;;
      match c with
      | GitHub.Err err => ret (GitHub.Err err)
      | GitHub.Ok commit => ret (GitHub.Ok commit)
      end
  end.

(** The [ref] query parameter of a content URL, as [readFile] extracts it:
    the model's [Ref] and the warnings. *)
Definition readFile_ref (fc : GitHub.RepositoryContent)
           (model : repositoryFileResourceModel) (diags : TF.Diagnostics)
  : repositoryFileResourceModel * TF.Diagnostics :=
  match url_Parse_RawQuery (GitHub.GetString (GitHub.ContentURL fc)) with
  | GitHub.Err err =>
      (model, TF.AddWarning diags "Error parsing file URL"
                ("Unable to parse file URL: " ++ Go.Error err))
  | GitHub.Ok rawQuery =>
      match url_ParseQuery rawQuery with
      | GitHub.Err err =>
          (model, TF.AddWarning diags "Error parsing query string"
                    ("Unable to parse query string: " ++ Go.Error err))
      | GitHub.Ok parsedQuery =>
          match find (fun kv => String.eqb (fst kv) "ref") parsedQuery with
          | Some (_, first :: _) => (set_Ref (TF.StringValue first) model, diags)
          | _ => (set_Ref TF.StringNull model, diags)
          end
      end
  end.

(** The commit fields [readFile] copies into the model. *)
Definition readFile_commit (commit : GitHub.RepositoryCommit)
           (model : repositoryFileResourceModel) : repositoryFileResourceModel :=
  let model :=
    set_CommitSHA (TF.StringValue (GitHub.GetString (GitHub.CommitSHA commit)))
      model in
  match GitHub.InnerCommit commit with
  | None => model
  | Some inner =>
      let model :=
        if TF.String_IsNull (CommitMessage model)
           || TF.String_IsUnknown (CommitMessage model)
        then set_CommitMessage
               (TF.StringValue (GitHub.GetString (GitHub.CommitMessage inner)))
               model
        else model in
      match GitHub.CommitCommitter inner with
      | None => model
      | Some committer =>
          let commitAuthor := GitHub.GetString (GitHub.AuthorName committer) in
          let commitEmail := GitHub.GetString (GitHub.AuthorEmail committer) in
          let hasCommitAuthor := TF.String_known (CommitAuthor model) in
          let hasCommitEmail := TF.String_known (CommitEmail model) in
          if negb (String.eqb commitAuthor "GitHub")
             && negb (String.eqb commitEmail "noreply@github.com")
             && hasCommitAuthor && hasCommitEmail
          then set_CommitEmail (TF.StringValue commitEmail)
                 (set_CommitAuthor (TF.StringValue commitAuthor) model)
          else model
      end
  end.

(** [func (r *repositoryFileResource) readFile]: the model and the
    diagnostics as it leaves them. *)
Definition readFile (owner repoName filePath : string)
           (model : repositoryFileResourceModel) (diags : TF.Diagnostics)
  : M W (repositoryFileResourceModel * TF.Diagnostics) :=
  let opts := getOptions model in
  r <- call remote (GitHub.Repositories_GetContents owner repoName filePath opts) ;;
  match r with
  | GitHub.Err err =>
      match Go.AsErrorResponse err with
      | Some (Some code) =>
          if (code =? Go.StatusTooManyRequests)%Z then
            ret (model, TF.AddError diags "Rate Limit Exceeded"
                          ("GitHub API rate limit exceeded: " ++ Go.Error err))
          else if (code =? Go.StatusNotFound)%Z then
            ret (set_ID (TF.StringValue "") model, diags)
          else
            ret (model, TF.AddError diags "Error reading file"
                          ("Unable to read file " ++ filePath
                           ++ " from repository " ++ owner ++ "/" ++ repoName
                           ++ ": " ++ Go.Error err))
      | _ =>
          ret (model, TF.AddError diags "Error reading file"
                        ("Unable to read file " ++ filePath
                         ++ " from repository " ++ owner ++ "/" ++ repoName
                         ++ ": " ++ Go.Error err))
      end
  | GitHub.Ok (None, _) => ret (set_ID (TF.StringValue "") model, diags)
  | GitHub.Ok (Some fc, _) =>
      match GetContent fc with
      | GitHub.Err err =>
          ret (model, TF.AddError diags "Error reading file content"
                        ("Unable to get content from file " ++ owner ++ "/"
                         ++ repoName ++ "/" ++ filePath ++ ": " ++ Go.Error err))
      | GitHub.Ok content =>
          let model := set_Content (TF.StringValue content) model in
          let model := set_Repository (TF.StringValue repoName) model in
          let model := set_File (TF.StringValue filePath) model in
          let model :=
            set_SHA (TF.StringValue (GitHub.GetString (GitHub.ContentSHA fc)))
              model in
          let '(model, diags) := readFile_ref fc model diags in
          let ref := TF.ValueString (Ref model) in
          let ref :=
            if String.eqb ref "" && TF.String_known (Branch model)
            then TF.ValueString (Branch model) else ref in
          if negb (String.eqb ref "") then
            c <- (if TF.String_known (CommitSHA model)
                  then call remote
                         (GitHub.Repositories_GetCommit owner repoName
                            (TF.ValueString (CommitSHA model)))
                  else getFileCommit owner repoName filePath ref) ;;
            match c with
            | GitHub.Err err =>
                ret (model,
                     TF.AddWarning diags "Error fetching commit information"
                       ("Unable to fetch commit information for file " ++ owner
                        ++ "/" ++ repoName ++ "/" ++ filePath ++ ": "
                        ++ Go.Error err))
            | GitHub.Ok commit => ret (readFile_commit commit model, diags)
            end
          else ret (model, diags)
      end
  end.

(** The retry loop of Create, [for attempt := 0; attempt < maxRetries;
    attempt++], by the number [n] of iterations still allowed; [create] and
    [err] are the variables the loop assigns. *)
Fixpoint Create_retry (n : nat) (owner repoName filePath : string)
         (plan : repositoryFileResourceModel) (diags : TF.Diagnostics)
         (opts : GitHub.RepositoryContentFileOptions)
         (create : option GitHub.RepositoryContentResponse)
         (err : option Go.error) : M W LoopExit :=
  match n with
  | O => ret (Fell create err)
  | S n' =>
      r <- call remote (GitHub.Repositories_CreateFile owner repoName filePath opts) ;;
      match r with
      | GitHub.Ok c => ret (Fell (Some c) None)
      | GitHub.Err e =>
          if Go.hasStatus e Go.StatusConflict then
            fc <- call remote
                    (GitHub.Repositories_GetContents owner repoName filePath
                       (getOptions plan)) ;;
            match fc with
            | GitHub.Ok (Some fc, _) =>
                if TF.ValueBool (OverwriteOnCreate plan) then
                  Create_retry n' owner repoName filePath plan diags
                    (opts_set_SHA (GitHub.GetString (GitHub.ContentSHA fc)) opts)
                    None (Some e)
                else
                  ret (Returned
                         (TF.AddError diags "File Already Exists"
                            ("File " ++ filePath ++ " already exists in repository "
                             ++ owner ++ "/" ++ repoName
                             ++ ". Set 'overwrite_on_create' to true to overwrite it.")))
            | _ =>
                Create_retry n' owner repoName filePath plan diags opts
                  None (Some e)
            end
          else ret (Fell None (Some e))
      end
  end.

(** [func (r *repositoryFileResource) Create]. *)
Definition Create (r : repositoryFileResource)
           (reqPlan : Decoded repositoryFileResourceModel)
           (resp : Response repositoryFileResourceModel)
  : M W (Response repositoryFileResourceModel) :=
  let plan := decoded reqPlan in
  let resp :=
    withDiagnostics (TF.Append (Diagnostics resp) (decodeDiags reqPlan)) resp in
  if TF.HasError (Diagnostics resp) then ret resp
  else
  match client r with
  | None =>
      ret (respAddError resp "Client Error"
             "GitHub client is not configured. Please ensure a token is provided.")
  | Some _ =>
  '(owner, err) <- getOwner r ;;
  match err with
  | Some err =>
      ret (respAddError resp "Missing Owner"
             ("Unable to determine owner: " ++ Go.Error err
              ++ ". Please set provider-level `owner` configuration or ensure authentication is working."))
  | None =>
  let repoName := TF.ValueString (Repository plan) in
  let filePath := TF.ValueString (File plan) in
  let content := TF.ValueString (Content plan) in
  '(ok, plan, diags) <-
     checkAndCreateBranchIfNeeded owner repoName plan (Diagnostics resp) ;;
  let resp := withDiagnostics diags resp in
  if negb ok then ret resp
  else
  let '(opts, diags) := buildFileOptions plan content in
  if TF.HasError diags
  then ret (withDiagnostics (TF.Append (Diagnostics resp) diags) resp)
  else
  match opts with
  | None => ret resp (* not reached: opts is nil only with an error *)
  | Some opts =>
  let '(opts, plan) :=
    match GitHub.Message opts with
    | Some (String _ _) => (opts, plan)
    | _ =>
        let msg := "Add " ++ filePath in
        (opts_set_Message msg opts, set_CommitMessage (TF.StringValue msg) plan)
    end in
  opts <-
    (if TF.ValueBool (OverwriteOnCreate plan) then
       fc <- call remote
               (GitHub.Repositories_GetContents owner repoName filePath
                  (getOptions plan)) ;;
       match fc with
       | GitHub.Ok (Some fc, _) =>
           ret (opts_set_SHA (GitHub.GetString (GitHub.ContentSHA fc)) opts)
       | _ => ret opts
       end
     else ret opts) ;;
  exit <- Create_retry (Z.to_nat maxRetries) owner repoName filePath plan
            (Diagnostics resp) opts None None ;;
  match exit with
  | Returned diags => ret (withDiagnostics diags resp)
  | Fell _ (Some err) =>
      ret (respAddError resp "Error creating file"
             ("Unable to create file " ++ filePath ++ " in repository " ++ owner
              ++ "/" ++ repoName ++ " after " ++ Go.itoa maxRetries
              ++ " attempts: " ++ Go.Error err))
  | Fell create None =>
      let plan := set_ID (TF.StringValue (repoName ++ ":" ++ filePath)) plan in
      let plan :=
        match create with
        | Some c =>
            set_CommitSHA
              (TF.StringValue (GitHub.GetString (GitHub.ResponseCommitSHA c)))
              plan
        | None => plan
        end in
      '(plan, diags) <- readFile owner repoName filePath plan (Diagnostics resp) ;;
      let resp := withDiagnostics diags resp in
      if TF.HasError (Diagnostics resp) then ret resp
      else
        let plan :=
          if negb (TF.ValueBool (AutocreateBranch plan))
          then set_AutocreateBranchSourceSHA TF.StringNull plan
          else if TF.String_IsNull (AutocreateBranchSourceSHA plan)
                  || TF.String_IsUnknown (AutocreateBranchSourceSHA plan)
               then set_AutocreateBranchSourceSHA TF.StringNull plan
               else plan in
        ret (StateSet plan resp)
  end
  end
  end
  end.

(** [func (r *repositoryFileResource) Read]. *)
Definition Read (r : repositoryFileResource)
           (reqState : Decoded repositoryFileResourceModel)
           (resp : Response repositoryFileResourceModel)
  : M W (Response repositoryFileResourceModel) :=
  let state := decoded reqState in
  let resp :=
    withDiagnostics (TF.Append (Diagnostics resp) (decodeDiags reqState)) resp in
  if TF.HasError (Diagnostics resp) then ret resp
  else
  match client r with
  | None =>
      ret (respAddError resp "Client Error"
             "GitHub client is not configured. Please ensure a token is provided.")
  | Some _ =>
  '(owner, err) <- getOwner r ;;
  match err with
  | Some err =>
      ret (respAddError resp "Missing Owner"
             ("Unable to determine owner: " ++ Go.Error err
              ++ ". Please set provider-level `owner` configuration or ensure authentication is working."))
  | None =>
  let id := TF.ValueString (ID state) in
  if String.eqb id "" then ret (StateSet (set_ID (TF.StringValue "") state) resp)
  else
  match Go.SplitN id ":" 2 with
  | [repoName; filePath] =>
      let afterBranch (state : repositoryFileResourceModel) :=
        '(state, diags) <-
           readFile owner repoName filePath state (Diagnostics resp) ;;
        let resp := withDiagnostics diags resp in
        if TF.HasError (Diagnostics resp) then ret resp
        else
          let state :=
            if negb (TF.ValueBool (AutocreateBranch state))
            then set_AutocreateBranchSourceSHA TF.StringNull state
            else state in
          ret (StateSet state resp) in
      if TF.String_known (Branch state) then
        let branchName := TF.ValueString (Branch state) in
        e <- checkRepositoryBranchExists owner repoName branchName ;;
        match e with
        | Some _ =>
            if TF.ValueBool (AutocreateBranch state)
            then afterBranch (set_Branch (AutocreateBranchSource state) state)
            else ret (StateSet (set_ID (TF.StringValue "") state) resp)
        | None => afterBranch state
        end
      else afterBranch state
  | _ =>
      ret (respAddError resp "Invalid ID"
             ("Invalid ID format: " ++ id ++ ". Expected 'repository:file'."))
  end
  end
  end.

(** The retry loop of Update. *)
Fixpoint Update_retry (n : nat) (owner repoName filePath : string)
         (plan : repositoryFileResourceModel)
         (opts : GitHub.RepositoryContentFileOptions)
         (create : option GitHub.RepositoryContentResponse)
         (err : option Go.error) : M W LoopExit :=
  match n with
  | O => ret (Fell create err)
  | S n' =>
      r <- call remote (GitHub.Repositories_CreateFile owner repoName filePath opts) ;;
      match r with
      | GitHub.Ok c => ret (Fell (Some c) None)
      | GitHub.Err e =>
          if Go.hasStatus e Go.StatusConflict then
            fc <- call remote
                    (GitHub.Repositories_GetContents owner repoName filePath
                       (getOptions plan)) ;;
            match fc with
            | GitHub.Ok (Some fc, _) =>
                Update_retry n' owner repoName filePath plan
                  (opts_set_SHA (GitHub.GetString (GitHub.ContentSHA fc)) opts)
                  None (Some e)
            | _ => ret (Fell None (Some e))
            end
          else ret (Fell None (Some e))
      end
  end.

(** Whether Update and Delete replace the commit message:
    [opts.Message == nil || *opts.Message == "" ||
     *opts.Message == fmt.Sprintf("Add %s", filePath)]. *)
Definition defaultMessage (opts : GitHub.RepositoryContentFileOptions)
           (filePath : string) : bool :=
  match GitHub.Message opts with
  | None => true
  | Some m => String.eqb m "" || String.eqb m ("Add " ++ filePath)
  end.

(** [func (r *repositoryFileResource) Update]. *)
Definition Update (r : repositoryFileResource)
           (reqPlan reqState : Decoded repositoryFileResourceModel)
           (resp : Response repositoryFileResourceModel)
  : M W (Response repositoryFileResourceModel) :=
  let plan := decoded reqPlan in
  let state := decoded reqState in
  let resp :=
    withDiagnostics (TF.Append (Diagnostics resp) (decodeDiags reqPlan)) resp in
  let resp :=
    withDiagnostics (TF.Append (Diagnostics resp) (decodeDiags reqState)) resp in
  if TF.HasError (Diagnostics resp) then ret resp
  else
  match client r with
  | None =>
      ret (respAddError resp "Client Error"
             "GitHub client is not configured. Please ensure a token is provided.")
  | Some _ =>
  '(owner, err) <- getOwner r ;;
  match err with
  | Some err =>
      ret (respAddError resp "Missing Owner"
             ("Unable to determine owner: " ++ Go.Error err
              ++ ". Please set provider-level `owner` configuration or ensure authentication is working."))
  | None =>
  let id := TF.ValueString (ID state) in
  if String.eqb id "" then ret (StateSet (set_ID (TF.StringValue "") state) resp)
  else
  match Go.SplitN id ":" 2 with
  | [repoName; filePath] =>
      let content := TF.ValueString (Content plan) in
      '(ok, plan, diags) <-
         checkAndCreateBranchIfNeeded owner repoName plan (Diagnostics resp) ;;
      let resp := withDiagnostics diags resp in
      if negb ok then ret resp
      else
      let '(opts, diags) := buildFileOptions plan content in
      if TF.HasError diags
      then ret (withDiagnostics (TF.Append (Diagnostics resp) diags) resp)
      else
      match opts with
      | None => ret resp (* not reached: opts is nil only with an error *)
      | Some opts =>
      let opts :=
        if TF.String_known (SHA state)
        then opts_set_SHA (TF.ValueString (SHA state)) opts else opts in
      let '(opts, plan) :=
        if defaultMessage opts filePath then
          let msg := "Update " ++ filePath in
          (opts_set_Message msg opts,
           set_CommitMessage (TF.StringValue msg) plan)
        else (opts, plan) in
      exit <- Update_retry (Z.to_nat maxRetries) owner repoName filePath plan
                opts None None ;;
      match exit with
      | Returned diags => ret (withDiagnostics diags resp)
      | Fell _ (Some err) =>
          ret (respAddError resp "Error updating file"
                 ("Unable to update file " ++ filePath ++ " in repository "
                  ++ owner ++ "/" ++ repoName ++ " after " ++ Go.itoa maxRetries
                  ++ " attempts: " ++ Go.Error err))
      | Fell None None =>
          ret resp (* not reached: a nil response without an error *)
      | Fell (Some create) None =>
          let plan := set_ID (ID state) plan in
          let plan :=
            set_CommitSHA
              (TF.StringValue
                 (GitHub.GetString (GitHub.ResponseCommitSHA create))) plan in
          '(plan, diags) <-
             readFile owner repoName filePath plan (Diagnostics resp) ;;
          let resp := withDiagnostics diags resp in
          if TF.HasError (Diagnostics resp) then ret resp
          else ret (StateSet plan resp)
      end
      end
  | _ =>
      ret (respAddError resp "Invalid ID"
             ("Invalid ID format: " ++ id ++ ". Expected 'repository:file'."))
  end
  end
  end.

(** The retry loop of Delete. *)
Fixpoint Delete_retry (n : nat) (owner repoName filePath : string)
         (state : repositoryFileResourceModel) (diags : TF.Diagnostics)
         (opts : GitHub.RepositoryContentFileOptions)
         (err : option Go.error) : M W LoopExit :=
  match n with
  | O => ret (Fell None err)
  | S n' =>
      r <- call remote (GitHub.Repositories_DeleteFile owner repoName filePath opts) ;;
      match r with
      | GitHub.Ok _ => ret (Returned diags)
      | GitHub.Err e =>
          match Go.AsErrorResponse e with
          | Some (Some code) =>
              if (code =? Go.StatusNotFound)%Z then ret (Returned diags)
              else if (code =? Go.StatusConflict)%Z then
                fc <- call remote
                        (GitHub.Repositories_GetContents owner repoName filePath
                           (getOptions state)) ;;
                match fc with
                | GitHub.Err readErr =>
                    if Go.hasStatus readErr Go.StatusNotFound
                    then ret (Returned diags)
                    else ret (Fell None (Some e))
                | GitHub.Ok (Some fc, _) =>
                    Delete_retry n' owner repoName filePath state diags
                      (opts_set_SHA (GitHub.GetString (GitHub.ContentSHA fc))
                         opts)
                      (Some e)
                | GitHub.Ok (None, _) => ret (Fell None (Some e))
                end
              else ret (Fell None (Some e))
          | _ => ret (Fell None (Some e))
          end
      end
  end.

(** [func (r *repositoryFileResource) Delete]. *)
Definition Delete (r : repositoryFileResource)
           (reqState : Decoded repositoryFileResourceModel)
           (resp : Response repositoryFileResourceModel)
  : M W (Response repositoryFileResourceModel) :=
  let state := decoded reqState in
  let resp :=
    withDiagnostics (TF.Append (Diagnostics resp) (decodeDiags reqState)) resp in
  if TF.HasError (Diagnostics resp) then ret resp
  else
  match client r with
  | None =>
      ret (respAddError resp "Client Error"
             "GitHub client is not configured. Please ensure a token is provided.")
  | Some _ =>
  '(owner, err) <- getOwner r ;;
  match err with
  | Some err =>
      ret (respAddError resp "Missing Owner"
             ("Unable to determine owner: " ++ Go.Error err
              ++ ". Please set provider-level `owner` configuration or ensure authentication is working."))
  | None =>
  let id := TF.ValueString (ID state) in
  if String.eqb id "" then ret resp
  else
  match Go.SplitN id ":" 2 with
  | [repoName; filePath] =>
      '(ok, state, diags) <-
         checkAndCreateBranchIfNeeded owner repoName state (Diagnostics resp) ;;
      let resp := withDiagnostics diags resp in
      if negb ok then ret resp
      else
      let '(opts, diags) := buildFileOptions state "" in
      if TF.HasError diags
      then ret (withDiagnostics (TF.Append (Diagnostics resp) diags) resp)
      else
      match opts with
      | None => ret resp (* not reached: opts is nil only with an error *)
      | Some opts =>
      let opts :=
        if defaultMessage opts filePath
        then opts_set_Message ("Delete " ++ filePath) opts else opts in
      let opts :=
        if TF.String_known (SHA state)
        then opts_set_SHA (TF.ValueString (SHA state)) opts else opts in
      exit <- Delete_retry (Z.to_nat maxRetries) owner repoName filePath state
                (Diagnostics resp) opts None ;;
      match exit with
      | Returned diags => ret (withDiagnostics diags resp)
      | Fell _ (Some err) =>
          ret (respAddError resp "Error deleting file"
                 ("Unable to delete file " ++ filePath ++ " from repository "
                  ++ owner ++ "/" ++ repoName ++ " after " ++ Go.itoa maxRetries
                  ++ " attempts: " ++ Go.Error err))
      | Fell _ None => ret resp
      end
      end
  | _ =>
      ret (respAddError resp "Invalid ID"
             ("Invalid ID format: " ++ id ++ ". Expected 'repository:file'."))
  end
  end
  end.

(** What an import leaves in the state: the attributes ImportState sets
    ([id], [repository], [file], [overwrite_on_create], and [branch] when the
    import ID names one). *)
Record ImportedState : Type := mkImported {
  ImportedID : string;
  ImportedRepository : string;
  ImportedFile : string;
  ImportedOverwriteOnCreate : bool;
  ImportedBranch : option string
}.

(** [func (r *repositoryFileResource) ImportState]: the diagnostics and the
    state it leaves.  ImportState does not test the client: [None] is the run
    that ends in a nil-pointer panic, when the resource has none. *)
Definition ImportState (r : repositoryFileResource) (reqID : string)
           (diags : TF.Diagnostics)
  : M W (option (TF.Diagnostics * option ImportedState)) :=
  match Go.SplitN reqID ":" 3 with
  | repoName :: filePath :: rest =>
      let branch := match rest with [branch] => branch | _ => "" end in
      match client r with
      | None => ret None
      | Some _ =>
      '(owner, err) <- getOwner r ;;
      match err with
      | Some err =>
          ret (Some (TF.AddError diags "Missing Owner"
                       ("Unable to determine owner: " ++ Go.Error err),
                     None))
      | None =>
      let opts :=
        GitHub.mkGetOptions (if negb (String.eqb branch "") then branch else "") in
      g <- call remote
             (GitHub.Repositories_GetContents owner repoName filePath opts) ;;
      match g with
      | GitHub.Err err =>
          ret (Some (TF.AddError diags "Error importing file"
                       ("Unable to read file " ++ filePath ++ " from repository "
                        ++ owner ++ "/" ++ repoName ++ ": " ++ Go.Error err),
                     None))
      | GitHub.Ok (None, _) =>
          ret (Some (TF.AddError diags "File Not Found"
                       ("File " ++ filePath ++ " is not a file in repository "
                        ++ owner ++ "/" ++ repoName
                        ++ " or repository is not readable"),
                     None))
      | GitHub.Ok (Some _, _) =>
          ret (Some (diags,
                     Some (mkImported (repoName ++ ":" ++ filePath) repoName
                             filePath false
                             (if negb (String.eqb branch "") then Some branch
                              else None))))
      end
      end
      end
  | _ =>
      ret (Some (TF.AddError diags "Invalid Import ID"
                   "Import ID must be in format 'repository:file' or 'repository:file:branch'.",
                 None))
  end.

End Operations.

End FileResource.

(* ===================================================================== *)
(** ** The pull-request resource *)
(* ===================================================================== *)

Module PullRequestResource.

(** [type repositoryPullRequestResource struct]. *)
Record repositoryPullRequestResource : Type := mkResource {
  client : option Client;
  owner : string
}.

(** [type repositoryPullRequestResourceModel struct], and one update function
    per field the resource assigns. *)
Record repositoryPullRequestResourceModel : Type := mkPullModel {
  Repository : TF.types_String;
  BaseRef : TF.types_String;
  HeadRef : TF.types_String;
  Title : TF.types_String;
  Body : TF.types_String;
  MergeWhenReady : TF.types_Bool;
  MergeMethod : TF.types_String;
  WaitForChecks : TF.types_Bool;
  AutoDeleteBranch : TF.types_Bool;
  MaintainerCanModify : TF.types_Bool;
  BaseSHA : TF.types_String;
  HeadSHA : TF.types_String;
  Number : TF.types_Int64;
  State : TF.types_String;
  Merged : TF.types_Bool;
  MergedAt : TF.types_String;
  MergeCommitSHA : TF.types_String;
  ID : TF.types_String
}.

Definition set_Repository (v : TF.types_String) (m : repositoryPullRequestResourceModel)
  : repositoryPullRequestResourceModel :=
  mkPullModel v (BaseRef m) (HeadRef m) (Title m) (Body m) (MergeWhenReady m)
    (MergeMethod m) (WaitForChecks m) (AutoDeleteBranch m)
    (MaintainerCanModify m) (BaseSHA m) (HeadSHA m) (Number m) (State m)
    (Merged m) (MergedAt m) (MergeCommitSHA m) (ID m).

Definition set_BaseRef (v : TF.types_String) (m : repositoryPullRequestResourceModel)
  : repositoryPullRequestResourceModel :=
  mkPullModel (Repository m) v (HeadRef m) (Title m) (Body m)
    (MergeWhenReady m) (MergeMethod m) (WaitForChecks m) (AutoDeleteBranch m)
    (MaintainerCanModify m) (BaseSHA m) (HeadSHA m) (Number m) (State m)
    (Merged m) (MergedAt m) (MergeCommitSHA m) (ID m).

Definition set_HeadRef (v : TF.types_String) (m : repositoryPullRequestResourceModel)
  : repositoryPullRequestResourceModel :=
  mkPullModel (Repository m) (BaseRef m) v (Title m) (Body m)
    (MergeWhenReady m) (MergeMethod m) (WaitForChecks m) (AutoDeleteBranch m)
    (MaintainerCanModify m) (BaseSHA m) (HeadSHA m) (Number m) (State m)
    (Merged m) (MergedAt m) (MergeCommitSHA m) (ID m).

Definition set_Title (v : TF.types_String) (m : repositoryPullRequestResourceModel)
  : repositoryPullRequestResourceModel :=
  mkPullModel (Repository m) (BaseRef m) (HeadRef m) v (Body m)
    (MergeWhenReady m) (MergeMethod m) (WaitForChecks m) (AutoDeleteBranch m)
    (MaintainerCanModify m) (BaseSHA m) (HeadSHA m) (Number m) (State m)
    (Merged m) (MergedAt m) (MergeCommitSHA m) (ID m).

Definition set_Body (v : TF.types_String) (m : repositoryPullRequestResourceModel)
  : repositoryPullRequestResourceModel :=
  mkPullModel (Repository m) (BaseRef m) (HeadRef m) (Title m) v
    (MergeWhenReady m) (MergeMethod m) (WaitForChecks m) (AutoDeleteBranch m)
    (MaintainerCanModify m) (BaseSHA m) (HeadSHA m) (Number m) (State m)
    (Merged m) (MergedAt m) (MergeCommitSHA m) (ID m).

Definition set_MaintainerCanModify (v : TF.types_Bool) (m : repositoryPullRequestResourceModel)
  : repositoryPullRequestResourceModel :=
  mkPullModel (Repository m) (BaseRef m) (HeadRef m) (Title m) (Body m)
    (MergeWhenReady m) (MergeMethod m) (WaitForChecks m) (AutoDeleteBranch m)
    v (BaseSHA m) (HeadSHA m) (Number m) (State m) (Merged m) (MergedAt m)
    (MergeCommitSHA m) (ID m).

Definition set_BaseSHA (v : TF.types_String) (m : repositoryPullRequestResourceModel)
  : repositoryPullRequestResourceModel :=
  mkPullModel (Repository m) (BaseRef m) (HeadRef m) (Title m) (Body m)
    (MergeWhenReady m) (MergeMethod m) (WaitForChecks m) (AutoDeleteBranch m)
    (MaintainerCanModify m) v (HeadSHA m) (Number m) (State m) (Merged m)
    (MergedAt m) (MergeCommitSHA m) (ID m).

Definition set_HeadSHA (v : TF.types_String) (m : repositoryPullRequestResourceModel)
  : repositoryPullRequestResourceModel :=
  mkPullModel (Repository m) (BaseRef m) (HeadRef m) (Title m) (Body m)
    (MergeWhenReady m) (MergeMethod m) (WaitForChecks m) (AutoDeleteBranch m)
    (MaintainerCanModify m) (BaseSHA m) v (Number m) (State m) (Merged m)
    (MergedAt m) (MergeCommitSHA m) (ID m).

Definition set_Number (v : TF.types_Int64) (m : repositoryPullRequestResourceModel)
  : repositoryPullRequestResourceModel :=
  mkPullModel (Repository m) (BaseRef m) (HeadRef m) (Title m) (Body m)
    (MergeWhenReady m) (MergeMethod m) (WaitForChecks m) (AutoDeleteBranch m)
    (MaintainerCanModify m) (BaseSHA m) (HeadSHA m) v (State m) (Merged m)
    (MergedAt m) (MergeCommitSHA m) (ID m).

Definition set_State (v : TF.types_String) (m : repositoryPullRequestResourceModel)
  : repositoryPullRequestResourceModel :=
  mkPullModel (Repository m) (BaseRef m) (HeadRef m) (Title m) (Body m)
    (MergeWhenReady m) (MergeMethod m) (WaitForChecks m) (AutoDeleteBranch m)
    (MaintainerCanModify m) (BaseSHA m) (HeadSHA m) (Number m) v (Merged m)
    (MergedAt m) (MergeCommitSHA m) (ID m).

Definition set_Merged (v : TF.types_Bool) (m : repositoryPullRequestResourceModel)
  : repositoryPullRequestResourceModel :=
  mkPullModel (Repository m) (BaseRef m) (HeadRef m) (Title m) (Body m)
    (MergeWhenReady m) (MergeMethod m) (WaitForChecks m) (AutoDeleteBranch m)
    (MaintainerCanModify m) (BaseSHA m) (HeadSHA m) (Number m) (State m) v
    (MergedAt m) (MergeCommitSHA m) (ID m).

Definition set_MergedAt (v : TF.types_String) (m : repositoryPullRequestResourceModel)
  : repositoryPullRequestResourceModel :=
  mkPullModel (Repository m) (BaseRef m) (HeadRef m) (Title m) (Body m)
    (MergeWhenReady m) (MergeMethod m) (WaitForChecks m) (AutoDeleteBranch m)
    (MaintainerCanModify m) (BaseSHA m) (HeadSHA m) (Number m) (State m)
    (Merged m) v (MergeCommitSHA m) (ID m).

Definition set_MergeCommitSHA (v : TF.types_String) (m : repositoryPullRequestResourceModel)
  : repositoryPullRequestResourceModel :=
  mkPullModel (Repository m) (BaseRef m) (HeadRef m) (Title m) (Body m)
    (MergeWhenReady m) (MergeMethod m) (WaitForChecks m) (AutoDeleteBranch m)
    (MaintainerCanModify m) (BaseSHA m) (HeadSHA m) (Number m) (State m)
    (Merged m) (MergedAt m) v (ID m).

Definition set_ID (v : TF.types_String) (m : repositoryPullRequestResourceModel)
  : repositoryPullRequestResourceModel :=
  mkPullModel (Repository m) (BaseRef m) (HeadRef m) (Title m) (Body m)
    (MergeWhenReady m) (MergeMethod m) (WaitForChecks m) (AutoDeleteBranch m)
    (MaintainerCanModify m) (BaseSHA m) (HeadSHA m) (Number m) (State m)
    (Merged m) (MergedAt m) (MergeCommitSHA m) v.

(** [func (r *repositoryPullRequestResource) Configure]. *)
Definition Configure (r : repositoryPullRequestResource)
           (providerData : ProviderData) (diags : TF.Diagnostics)
  : repositoryPullRequestResource * TF.Diagnostics :=
  match providerData with
  | ProviderDataNil => (r, diags)
  | ProviderDataOther typeName =>
      (r, TF.AddError diags "Unexpected Resource Configure Type"
            ("Expected githubxClientData, got: " ++ typeName
             ++ ". Please report this issue to the provider developers."))
  | ProviderDataClient clientData =>
      (mkResource (ClientOf clientData) (OwnerOf clientData), diags)
  end.

(** [maxAttempts] of mergeWhenReady and of waitForChecks, and the pause
    between two attempts. *)
Definition mergeMaxAttempts : Z := 30.
Definition checksMaxAttempts : Z := 60.
Definition pollInterval : Z := 5 * Go.Second.

(** [pr.GetHead().GetRef()], [pr.GetBase().GetRef()], [pr.GetHead().GetSHA()]. *)
Definition HeadRefOf (pr : GitHub.PullRequest) : string :=
  match GitHub.Head pr with
  | Some b => GitHub.GetString (GitHub.BranchRef b)
  | None => ""
  end.

Definition BaseRefOf (pr : GitHub.PullRequest) : string :=
  match GitHub.Base pr with
  | Some b => GitHub.GetString (GitHub.BranchRef b)
  | None => ""
  end.

Definition HeadSHAOf (pr : GitHub.PullRequest) : string :=
  match GitHub.Head pr with
  | Some b => GitHub.GetString (GitHub.BranchSHA b)
  | None => ""
  end.

(** The search loop of findExistingPR: the first pull request of the list
    with the given base and head refs. *)
Definition firstMatch (baseRef headRef : string) (prs : list GitHub.PullRequest)
  : option GitHub.PullRequest :=
  find (fun pr => String.eqb (BaseRefOf pr) baseRef
                  && String.eqb (HeadRefOf pr) headRef) prs.

(** The scan of the status list in waitForChecks: [allPassed], and the context
    of the status that makes the function return an error, if any. *)
Fixpoint scanStatuses (statuses : list GitHub.RepoStatus) : bool * option string :=
  match statuses with
  | [] => (true, None)
  | status :: rest =>
      let state := GitHub.GetString (GitHub.StatusState status) in
      if String.eqb state "pending" then (false, None)
      else if String.eqb state "error" || String.eqb state "failure"
           then (true, Some (GitHub.GetString (GitHub.StatusContext status)))
           else scanStatuses rest
  end.

(** The [switch mergeMethod] of mergeWhenReady: the method to use given the
    repository's settings, or the error the function returns. *)
Definition chooseMergeMethod (repo : GitHub.Repository) (mergeMethod : string)
  : GitHub.result string :=
  let squash := GitHub.GetBool (GitHub.AllowSquashMerge repo) in
  let merge := GitHub.GetBool (GitHub.AllowMergeCommit repo) in
  let rebase := GitHub.GetBool (GitHub.AllowRebaseMerge repo) in
  if String.eqb mergeMethod "squash" then
    if negb squash then
      if merge then GitHub.Ok "merge"
      else if rebase then GitHub.Ok "rebase"
      else GitHub.Err (Go.errorString
        "squash merge is not allowed on this repository and no alternative merge methods are enabled")
    else GitHub.Ok mergeMethod
  else if String.eqb mergeMethod "rebase" then
    if negb rebase then
      if merge then GitHub.Ok "merge"
      else if squash then GitHub.Ok "squash"
      else GitHub.Err (Go.errorString
        "rebase merge is not allowed on this repository and no alternative merge methods are enabled")
    else GitHub.Ok mergeMethod
  else if String.eqb mergeMethod "merge" then
    if negb merge then
      if squash then GitHub.Ok "squash"
      else if rebase then GitHub.Ok "rebase"
      else GitHub.Err (Go.errorString
        "merge commit is not allowed on this repository and no alternative merge methods are enabled")
    else GitHub.Ok mergeMethod
  else GitHub.Ok mergeMethod.

(** The method mergeWhenReady tries after a 405, if any. *)
Definition alternativeMethod (repo : GitHub.Repository) (mergeMethod : string)
  : option string :=
  if negb (String.eqb mergeMethod "merge")
     && GitHub.GetBool (GitHub.AllowMergeCommit repo) then Some "merge"
  else if negb (String.eqb mergeMethod "squash")
          && GitHub.GetBool (GitHub.AllowSquashMerge repo) then Some "squash"
  else if negb (String.eqb mergeMethod "rebase")
          && GitHub.GetBool (GitHub.AllowRebaseMerge repo) then Some "rebase"
  else None.

Section Operations.

Variable W : Type.
Variable remote : Remote W.

(** [strconv.Atoi]. *)
Variable strconv_Atoi : string -> GitHub.result Z.

Local Open Scope go_scope.

(** [func (r *repositoryPullRequestResource) getOwner]. *)
Definition getOwner (r : repositoryPullRequestResource)
  : M W (string * option Go.error) :=
  if negb (String.eqb (owner r) "") then ret (owner r, None)
  else
    u <- call remote (GitHub.Users_Get "") ;;
    match u with
    | GitHub.Err err =>
        ret ("", Some (Go.Errorf_w "unable to get authenticated user: " err))
    | GitHub.Ok (Some user) => ret (GitHub.GetString (GitHub.Login user), None)
    | GitHub.Ok None => ret ("", None)
    end.

(** [func (r *repositoryPullRequestResource) readPullRequest]: the model and
    the diagnostics as it leaves them. *)
Definition readPullRequest (owner repoName : string) (number : Z)
           (model : repositoryPullRequestResourceModel) (diags : TF.Diagnostics)
  : M W (repositoryPullRequestResourceModel * TF.Diagnostics) :=
  r <- call remote (GitHub.PullRequests_Get owner repoName number) ;;
  match r with
  | GitHub.Err err =>
      if Go.hasStatus err Go.StatusNotFound then
        ret (set_ID (TF.StringValue "") model, diags)
      else
        ret (model, TF.AddError diags "Error reading pull request"
                      ("Unable to read pull request #" ++ Go.itoa number
                       ++ " from repository " ++ owner ++ "/" ++ repoName
                       ++ ": " ++ Go.Error err))
  | GitHub.Ok pr =>
      let merged := GitHub.GetBool (GitHub.Merged pr) in
      let model := set_Repository (TF.StringValue repoName) model in
      let model :=
        set_Number (TF.Int64Value (GitHub.GetInt (GitHub.Number pr))) model in
      let model :=
        set_Title (TF.StringValue (GitHub.GetString (GitHub.Title pr))) model in
      let model :=
        set_Body (TF.StringValue (GitHub.GetString (GitHub.Body pr))) model in
      let model :=
        set_State (TF.StringValue (GitHub.GetString (GitHub.State pr))) model in
      let model := set_Merged (TF.BoolValue merged) model in
      let model :=
        set_MaintainerCanModify
          (TF.BoolValue (GitHub.GetBool (GitHub.MaintainerCanModify pr))) model in
      let model :=
        match GitHub.MergedAt pr with
        | Some mergedAt =>
            if negb (GitHub.IsZero mergedAt) && merged
            then set_MergedAt (TF.StringValue (GitHub.RFC3339 mergedAt)) model
            else set_MergedAt TF.StringNull model
        | None => set_MergedAt TF.StringNull model
        end in
      let mergeCommitSHA := GitHub.GetString (GitHub.MergeCommitSHA pr) in
      let model :=
        if negb (String.eqb mergeCommitSHA "") && merged
        then set_MergeCommitSHA (TF.StringValue mergeCommitSHA) model
        else set_MergeCommitSHA TF.StringNull model in
      let model :=
        match GitHub.Head pr with
        | Some head =>
            set_HeadSHA
              (TF.StringValue (GitHub.GetString (GitHub.BranchSHA head)))
              (set_HeadRef
                 (TF.StringValue (GitHub.GetString (GitHub.BranchRef head)))
                 model)
        | None => model
        end in
      let model :=
        match GitHub.Base pr with
        | Some base =>
            set_BaseSHA
              (TF.StringValue (GitHub.GetString (GitHub.BranchSHA base)))
              (set_BaseRef
                 (TF.StringValue (GitHub.GetString (GitHub.BranchRef base)))
                 model)
        | None => model
        end in
      ret (model, diags)
  end.

(** [func (r *repositoryPullRequestResource) findExistingPR]. *)
Definition findExistingPR (owner repoName baseRef headRef : string)
  : M W (option GitHub.PullRequest * option Go.error) :=
  let opts :=
    GitHub.mkPullRequestListOptions "all" (owner ++ ":" ++ headRef) baseRef 100 in
  l <- call remote (GitHub.PullRequests_List owner repoName opts) ;;
  match l with
  | GitHub.Err err => ret (None, Some err)
  | GitHub.Ok prs => ret (firstMatch baseRef headRef prs, None)
  end.

(** [func (r *repositoryPullRequestResource) getBranchSHAs]. *)
Definition getBranchSHAs (owner repoName baseRef headRef : string)
  : M W (string * string * option Go.error) :=
  let baseRefFull := "refs/heads/" ++ baseRef in
  let headRefFull := "refs/heads/" ++ headRef in
  b <- call remote (GitHub.Git_GetRef owner repoName baseRefFull) ;;
  match b with
  | GitHub.Err err =>
      ret ("", "", Some (Go.Errorf_w
                           ("unable to get base branch " ++ baseRef ++ ": ") err))
  | GitHub.Ok baseRefObj =>
      h <- call remote (GitHub.Git_GetRef owner repoName headRefFull) ;;
      match h with
      | GitHub.Err err =>
          ret ("", "", Some (Go.Errorf_w
                               ("unable to get head branch " ++ headRef ++ ": ")
                               err))
      | GitHub.Ok headRefObj =>
          let sha (ref : GitHub.Reference) :=
            match GitHub.Object ref with
            | Some o => GitHub.GetString (GitHub.ObjectSHA o)
            | None => ""
            end in
          ret (sha baseRefObj, sha headRefObj, None)
      end
  end.

(** The loop of waitForChecks, [for attempt < maxAttempts], with the counter
    [attempt] as the code keeps it.  Each iteration uses one unit of [fuel];
    [None] is a run that was cut short for lack of fuel. *)
Fixpoint waitForChecks_loop (fuel : nat) (attempt : Z)
         (owner repoName : string) (number : Z)
  : M W (option (option Go.error)) :=
  match fuel with
  | O => ret None
  | S fuel' =>
      if (attempt <? checksMaxAttempts)%Z then
        p <- call remote (GitHub.PullRequests_Get owner repoName number) ;;
        match p with
        | GitHub.Err err =>
            ret (Some (Some (Go.Errorf_w "unable to get pull request: " err)))
        | GitHub.Ok pr =>
            let headSHA := HeadSHAOf pr in
            s <- call remote
                   (GitHub.Repositories_ListStatuses owner repoName headSHA) ;;
            match s with
            | GitHub.Err err =>
                ret (Some (Some (Go.Errorf_w "unable to get status checks: " err)))
            | GitHub.Ok statuses =>
                let '(allPassed, failed) := scanStatuses statuses in
                match failed with
                | Some context =>
                    ret (Some (Some (Go.errorString
                                       ("status check " ++ context ++ " failed"))))
                | None =>
                    if allPassed && (0 <? length statuses)%nat then ret (Some None)
                    else if (length statuses =? 0)%nat then ret (Some None)
                    else
                      _ <- Sleep remote pollInterval ;;
                      waitForChecks_loop fuel' (attempt + 1) owner repoName number
                end
            end
        end
      else
        ret (Some (Some (Go.errorString
                           ("status checks did not complete after "
                            ++ Go.itoa checksMaxAttempts ++ " attempts"))))
  end.

(** The merge itself, once the pull request is mergeable and its checks have
    passed: approval, choice of the merge method, merge with its fallback,
    deletion of the head branch. *)
Definition mergeNow (owner repoName : string) (number : Z)
           (plan : repositoryPullRequestResourceModel) : M W (option Go.error) :=
  _ <- call remote
         (GitHub.PullRequests_CreateReview owner repoName number
            (GitHub.mkReviewRequest (Some "APPROVE")
               (Some "Auto-approved by Terraform"))) ;;
  let mergeMethod :=
    if String.eqb (TF.ValueString (MergeMethod plan)) "" then "merge"
    else TF.ValueString (MergeMethod plan) in
  g <- call remote (GitHub.Repositories_Get owner repoName) ;;
  let repo := match g with GitHub.Ok repo => repo | GitHub.Err _ => None end in
  match (match repo with
         | Some repo => chooseMergeMethod repo mergeMethod
         | None => GitHub.Ok mergeMethod
         end) with
  | GitHub.Err err => ret (Some err)
  | GitHub.Ok mergeMethod =>
      m <- call remote
             (GitHub.PullRequests_Merge owner repoName number ""
                (GitHub.mkPullRequestOptions mergeMethod)) ;;
      err <-
        match m with
        | GitHub.Ok _ => ret None
        | GitHub.Err err =>
            if Go.hasStatus err Go.StatusMethodNotAllowed then
              match repo with
              | Some repo =>
                  match alternativeMethod repo mergeMethod with
                  | Some method =>
                      m' <- call remote
                              (GitHub.PullRequests_Merge owner repoName number ""
                                 (GitHub.mkPullRequestOptions method)) ;;
                      match m' with
                      | GitHub.Ok _ => ret None
                      | GitHub.Err err' => ret (Some err')
                      end
                  | None => ret (Some err)
                  end
              | None => ret (Some err)
              end
            else ret (Some err)
        end ;;
      match err with
      | Some err => ret (Some (Go.Errorf_w "unable to merge pull request: " err))
      | None =>
          if TF.ValueBool (AutoDeleteBranch plan) then
            let headRef := TF.ValueString (HeadRef plan) in
            let ref := "refs/heads/" ++ headRef in
            _ <- call remote (GitHub.Git_DeleteRef owner repoName ref) ;;
            ret None
          else ret None
      end
  end.

(** The polling loop of mergeWhenReady, [for attempt < maxAttempts]; the calls
    to waitForChecks get [checksFuel]. *)
Fixpoint mergeWhenReady_loop (fuel checksFuel : nat) (attempt : Z)
         (owner repoName : string) (number : Z)
         (plan : repositoryPullRequestResourceModel)
  : M W (option (option Go.error)) :=
  match fuel with
  | O => ret None
  | S fuel' =>
      if (attempt <? mergeMaxAttempts)%Z then
        p <- call remote (GitHub.PullRequests_Get owner repoName number) ;;
        match p with
        | GitHub.Err err =>
            ret (Some (Some (Go.Errorf_w "unable to get pull request: " err)))
        | GitHub.Ok pr =>
            if negb (String.eqb (GitHub.GetString (GitHub.State pr)) "open") then
              if GitHub.GetBool (GitHub.Merged pr) then ret (Some None)
              else ret (Some (Some (Go.errorString "pull request is not open")))
            else
              let again :=
                _ <- Sleep remote pollInterval ;;
                mergeWhenReady_loop fuel' checksFuel (attempt + 1)
                  owner repoName number plan in
              match GitHub.Mergeable pr with
              | None => again
              | Some false => again
              | Some true =>
                  if TF.ValueBool (WaitForChecks plan) then
                    c <- waitForChecks_loop checksFuel 0 owner repoName number ;;
                    match c with
                    | None => ret None
                    | Some (Some _) => again
                    | Some None =>
                        e <- mergeNow owner repoName number plan ;; ret (Some e)
                    end
                  else
                    e <- mergeNow owner repoName number plan ;; ret (Some e)
              end
        end
      else
        ret (Some (Some (Go.errorString
                           ("pull request not ready to merge after "
                            ++ Go.itoa mergeMaxAttempts ++ " attempts"))))
  end.

(** Fuel that the two loops never use up: one unit per attempt, and one for
    the test that ends the loop. *)
Definition checksFuel : nat := S (Z.to_nat checksMaxAttempts).
Definition mergeFuel : nat := S (Z.to_nat mergeMaxAttempts).

(** [func (r *repositoryPullRequestResource) waitForChecks]. *)
Definition waitForChecks (owner repoName : string) (number : Z)
  : M W (option Go.error) :=
  r <- waitForChecks_loop checksFuel 0 owner repoName number ;;
  match r with
  | Some e => ret e
  | None => ret None (* not reached: [checksFuel] is enough *)
  end.

(** [func (r *repositoryPullRequestResource) mergeWhenReady]. *)
Definition mergeWhenReady (owner repoName : string) (number : Z)
           (plan : repositoryPullRequestResourceModel) : M W (option Go.error) :=
  r <- mergeWhenReady_loop mergeFuel checksFuel 0 owner repoName number plan ;;
  match r with
  | Some e => ret e
  | None => ret None (* not reached: [mergeFuel] is enough *)
  end.

(** [func (r *repositoryPullRequestResource) handleAutoMerge]. *)
Definition handleAutoMerge (owner repoName : string) (number : Z)
           (plan : repositoryPullRequestResourceModel) : M W (option Go.error) :=
  if TF.ValueBool (MergeWhenReady plan)
  then mergeWhenReady owner repoName number plan
  else ret None.

(** The first half of Create, from the search for an existing pull request to
    the assignment of [plan.ID] and [plan.Number]: the pull request to go on
    with and the plan, or the diagnostics of an early return. *)
Definition Create_adoptOrCreate (owner repoName baseRef headRef title : string)
           (plan : repositoryPullRequestResourceModel)
           (resp : Response repositoryPullRequestResourceModel)
  : M W (option (GitHub.PullRequest * repositoryPullRequestResourceModel)
         * Response repositoryPullRequestResourceModel) :=
  '(existingPR, err) <- findExistingPR owner repoName baseRef headRef ;;
  match err with
  | Some err =>
      ret (None,
           respAddError resp "Error checking for existing pull request"
             ("Unable to check for existing pull request in repository "
              ++ owner ++ "/" ++ repoName ++ ": " ++ Go.Error err))
  | None =>
  let adopt (pr : GitHub.PullRequest) :=
    let number := GitHub.GetInt (GitHub.Number pr) in
    let plan :=
      set_ID (TF.StringValue (repoName ++ ":" ++ Go.itoa number)) plan in
    let plan := set_Number (TF.Int64Value number) plan in
    (Some (pr, plan), resp) in
  match existingPR with
  | Some existingPR =>
      if String.eqb (GitHub.GetString (GitHub.State existingPR)) "closed"
         && negb (GitHub.GetBool (GitHub.Merged existingPR))
      then
        let update :=
          GitHub.mkPullRequest None (Some "open") None None None None None None
            None None None in
        e <- call remote
               (GitHub.PullRequests_Edit owner repoName
                  (GitHub.GetInt (GitHub.Number existingPR)) update) ;;
        match e with
        | GitHub.Err err =>
            ret (None,
                 respAddError resp "Error reopening pull request"
                   ("Unable to reopen pull request #"
                    ++ Go.itoa (GitHub.GetInt (GitHub.Number existingPR))
                    ++ " in repository " ++ owner ++ "/" ++ repoName ++ ": "
                    ++ Go.Error err))
        | GitHub.Ok reopenedPR => ret (adopt reopenedPR)
        end
      else ret (adopt existingPR)
  | None =>
      '(baseSHA, headSHA, err) <- getBranchSHAs owner repoName baseRef headRef ;;
      match err with
      | Some err =>
          ret (None,
               respAddError resp "Error checking branch differences"
                 ("Unable to get branch information: " ++ Go.Error err))
      | None =>
      if String.eqb baseSHA headSHA then
        ret (None,
             respAddError resp "No Differences"
               ("Branches '" ++ headRef ++ "' and '" ++ baseRef
                ++ "' are at the same commit (SHA: " ++ headSHA
                ++ "). There are no changes to create a pull request."))
      else
        let newPR :=
          GitHub.mkNewPullRequest (Some title) (Some headRef) (Some baseRef)
            (if TF.String_known (Body plan)
             then Some (TF.ValueString (Body plan)) else None)
            (Some (TF.ValueBool (MaintainerCanModify plan))) in
        c <- call remote (GitHub.PullRequests_Create owner repoName newPR) ;;
        match c with
        | GitHub.Err err =>
            if Go.hasStatus err Go.StatusUnprocessableEntity
               && (Go.Contains (Go.Error err) "already exists"
                   || Go.Contains (Go.Error err) "No commits between")
            then
              ret (None,
                   respAddError resp "Pull Request Already Exists or No Changes"
                     ("Unable to create pull request: " ++ Go.Error err
                      ++ ". A pull request may already exist, or there are no commits between '"
                      ++ headRef ++ "' and '" ++ baseRef ++ "'."))
            else
              ret (None,
                   respAddError resp "Error creating pull request"
                     ("Unable to create pull request in repository " ++ owner
                      ++ "/" ++ repoName ++ ": " ++ Go.Error err))
        | GitHub.Ok pr => ret (adopt pr)
        end
      end
  end
  end.

(** [func (r *repositoryPullRequestResource) Create]. *)
Definition Create (r : repositoryPullRequestResource)
           (reqPlan : Decoded repositoryPullRequestResourceModel)
           (resp : Response repositoryPullRequestResourceModel)
  : M W (Response repositoryPullRequestResourceModel) :=
  let plan := decoded reqPlan in
  let resp :=
    withDiagnostics (TF.Append (Diagnostics resp) (decodeDiags reqPlan)) resp in
  if TF.HasError (Diagnostics resp) then ret resp
  else
  match client r with
  | None =>
      ret (respAddError resp "Client Error"
             "GitHub client is not configured. Please ensure a token is provided.")
  | Some _ =>
  '(owner, err) <- getOwner r ;;
  match err with
  | Some err =>
      ret (respAddError resp "Missing Owner"
             ("Unable to determine owner: " ++ Go.Error err
              ++ ". Please set provider-level `owner` configuration or ensure authentication is working."))
  | None =>
  let repoName := TF.ValueString (Repository plan) in
  let baseRef := TF.ValueString (BaseRef plan) in
  let headRef := TF.ValueString (HeadRef plan) in
  let title := TF.ValueString (Title plan) in
  if String.eqb baseRef headRef then
    ret (respAddError resp "Invalid Configuration"
           ("Base branch '" ++ baseRef ++ "' and head branch '" ++ headRef
            ++ "' cannot be the same. There must be a difference to create a pull request."))
  else
  '(chosen, resp) <-
     Create_adoptOrCreate owner repoName baseRef headRef title plan resp ;;
  match chosen with
  | None => ret resp
  | Some (pr, plan) =>
      let number := GitHub.GetInt (GitHub.Number pr) in
      err <-
        (if String.eqb (GitHub.GetString (GitHub.State pr)) "open"
            && negb (GitHub.GetBool (GitHub.Merged pr))
            && TF.ValueBool (MergeWhenReady plan)
         then handleAutoMerge owner repoName number plan
         else ret None) ;;
      match err with
      | Some err =>
          ret (respAddError resp "Error setting up auto-merge"
                 ("Unable to set up auto-merge for pull request #"
                  ++ Go.itoa number ++ ": " ++ Go.Error err))
      | None =>
          '(plan, diags) <-
             readPullRequest owner repoName number plan (Diagnostics resp) ;;
          let resp := withDiagnostics diags resp in
          if TF.HasError (Diagnostics resp) then ret resp
          else ret (StateSet plan resp)
      end
  end
  end
  end.

(** [func (r *repositoryPullRequestResource) Read]. *)
Definition Read (r : repositoryPullRequestResource)
           (reqState : Decoded repositoryPullRequestResourceModel)
           (resp : Response repositoryPullRequestResourceModel)
  : M W (Response repositoryPullRequestResourceModel) :=
  let state := decoded reqState in
  let resp :=
    withDiagnostics (TF.Append (Diagnostics resp) (decodeDiags reqState)) resp in
  if TF.HasError (Diagnostics resp) then ret resp
  else
  match client r with
  | None =>
      ret (respAddError resp "Client Error"
             "GitHub client is not configured. Please ensure a token is provided.")
  | Some _ =>
  '(owner, err) <- getOwner r ;;
  match err with
  | Some err =>
      ret (respAddError resp "Missing Owner"
             ("Unable to determine owner: " ++ Go.Error err
              ++ ". Please set provider-level `owner` configuration or ensure authentication is working."))
  | None =>
  let id := TF.ValueString (ID state) in
  match Go.SplitN id ":" 2 with
  | [repoName; numberStr] =>
      match strconv_Atoi numberStr with
      | GitHub.Err _ =>
          ret (respAddError resp "Invalid PR Number"
                 ("Invalid PR number in ID: " ++ numberStr))
      | GitHub.Ok number =>
          '(state, diags) <-
             readPullRequest owner repoName number state (Diagnostics resp) ;;
          let resp := withDiagnostics diags resp in
          if TF.HasError (Diagnostics resp) then ret resp
          else
            let state :=
              if String.eqb (TF.ValueString (State state)) "closed"
                 && negb (TF.ValueBool (Merged state))
              then set_ID (TF.StringValue "") state
              else state in
            ret (StateSet state resp)
      end
  | _ =>
      ret (respAddError resp "Invalid ID"
             ("Invalid ID format: " ++ id ++ ". Expected 'repository:number'."))
  end
  end
  end.

(** [func (r *repositoryPullRequestResource) Update]. *)
Definition Update (r : repositoryPullRequestResource)
           (reqPlan reqState : Decoded repositoryPullRequestResourceModel)
           (resp : Response repositoryPullRequestResourceModel)
  : M W (Response repositoryPullRequestResourceModel) :=
  let plan := decoded reqPlan in
  let state := decoded reqState in
  let resp :=
    withDiagnostics (TF.Append (Diagnostics resp) (decodeDiags reqPlan)) resp in
  let resp :=
    withDiagnostics (TF.Append (Diagnostics resp) (decodeDiags reqState)) resp in
  if TF.HasError (Diagnostics resp) then ret resp
  else
  match client r with
  | None =>
      ret (respAddError resp "Client Error"
             "GitHub client is not configured. Please ensure a token is provided.")
  | Some _ =>
  '(owner, err) <- getOwner r ;;
  match err with
  | Some err =>
      ret (respAddError resp "Missing Owner"
             ("Unable to determine owner: " ++ Go.Error err
              ++ ". Please set provider-level `owner` configuration or ensure authentication is working."))
  | None =>
  let id := TF.ValueString (ID state) in
  match Go.SplitN id ":" 2 with
  | [repoName; numberStr] =>
      match strconv_Atoi numberStr with
      | GitHub.Err _ =>
          ret (respAddError resp "Invalid PR Number"
                 ("Invalid PR number in ID: " ++ numberStr))
      | GitHub.Ok number =>
          let update :=
            GitHub.mkPullRequest None None
              (Some (TF.ValueString (Title plan)))
              (if TF.String_known (Body plan)
               then Some (TF.ValueString (Body plan)) else None)
              None None
              (Some (TF.ValueBool (MaintainerCanModify plan)))
              None None None
              (if negb (TF.String_Equal (BaseRef plan) (BaseRef state))
               then Some (GitHub.mkPullRequestBranch
                            (Some (TF.ValueString (BaseRef plan))) None)
               else None) in
          e <- call remote
                 (GitHub.PullRequests_Edit owner repoName number update) ;;
          match e with
          | GitHub.Err err =>
              ret (respAddError resp "Error updating pull request"
                     ("Unable to update pull request #" ++ Go.itoa number
                      ++ " in repository " ++ owner ++ "/" ++ repoName ++ ": "
                      ++ Go.Error err))
          | GitHub.Ok _ =>
              err <-
                (if negb (TF.Bool_Equal (MergeWhenReady plan)
                            (MergeWhenReady state))
                    && TF.ValueBool (MergeWhenReady plan)
                 then handleAutoMerge owner repoName number plan
                 else ret None) ;;
              match err with
              | Some err =>
                  ret (respAddError resp "Error setting up auto-merge"
                         ("Unable to set up auto-merge for pull request #"
                          ++ Go.itoa number ++ ": " ++ Go.Error err))
              | None =>
                  '(plan, diags) <-
                     readPullRequest owner repoName number plan
                       (Diagnostics resp) ;;
                  let resp := withDiagnostics diags resp in
                  if TF.HasError (Diagnostics resp) then ret resp
                  else ret (StateSet plan resp)
              end
          end
      end
  | _ =>
      ret (respAddError resp "Invalid ID"
             ("Invalid ID format: " ++ id ++ ". Expected 'repository:number'."))
  end
  end
  end.

(** [func (r *repositoryPullRequestResource) Delete]. *)
Definition Delete (r : repositoryPullRequestResource)
           (reqState : Decoded repositoryPullRequestResourceModel)
           (resp : Response repositoryPullRequestResourceModel)
  : M W (Response repositoryPullRequestResourceModel) :=
  let state := decoded reqState in
  let resp :=
    withDiagnostics (TF.Append (Diagnostics resp) (decodeDiags reqState)) resp in
  if TF.HasError (Diagnostics resp) then ret resp
  else
  match client r with
  | None =>
      ret (respAddError resp "Client Error"
             "GitHub client is not configured. Please ensure a token is provided.")
  | Some _ =>
  '(owner, err) <- getOwner r ;;
  match err with
  | Some err =>
      ret (respAddError resp "Missing Owner"
             ("Unable to determine owner: " ++ Go.Error err
              ++ ". Please set provider-level `owner` configuration or ensure authentication is working."))
  | None =>
  let id := TF.ValueString (ID state) in
  match Go.SplitN id ":" 2 with
  | [repoName; numberStr] =>
      match strconv_Atoi numberStr with
      | GitHub.Err _ =>
          ret (respAddError resp "Invalid PR Number"
                 ("Invalid PR number in ID: " ++ numberStr))
      | GitHub.Ok number =>
          p <- call remote (GitHub.PullRequests_Get owner repoName number) ;;
          match p with
          | GitHub.Err err =>
              if Go.hasStatus err Go.StatusNotFound then ret resp
              else
                ret (respAddError resp "Error reading pull request"
                       ("Unable to read pull request #" ++ Go.itoa number
                        ++ " from repository " ++ owner ++ "/" ++ repoName
                        ++ ": " ++ Go.Error err))
          | GitHub.Ok pr =>
              if GitHub.GetBool (GitHub.Merged pr) then ret resp
              else if String.eqb (GitHub.GetString (GitHub.State pr)) "open"
              then
                let update :=
                  GitHub.mkPullRequest None (Some "closed") None None None None
                    None None None None None in
                e <- call remote
                       (GitHub.PullRequests_Edit owner repoName number update) ;;
                match e with
                | GitHub.Err err =>
                    ret (respAddError resp "Error closing pull request"
                           ("Unable to close pull request #" ++ Go.itoa number
                            ++ " in repository " ++ owner ++ "/" ++ repoName
                            ++ ": " ++ Go.Error err))
                | GitHub.Ok _ => ret resp
                end
              else ret resp
          end
      end
  | _ =>
      ret (respAddError resp "Invalid ID"
             ("Invalid ID format: " ++ id ++ ". Expected 'repository:number'."))
  end
  end
  end.

End Operations.

End PullRequestResource.

(* ===================================================================== *)
(** ** The data sources and the other resources: Configure, and the user
       data source's Read *)
(* ===================================================================== *)

Module UserDataSource.

(** [type userDataSource struct]. *)
Record userDataSource : Type := mkDataSource {
  client : option Client
}.

(** [type userDataSourceModel struct]; the two time stamps are assigned
    conditionally. *)
Record userDataSourceModel : Type := mkUserModel {
  Username : TF.types_String;
  ID : TF.types_String;
  UserID : TF.types_Int64;
  NodeID : TF.types_String;
  AvatarURL : TF.types_String;
  HTMLURL : TF.types_String;
  Name : TF.types_String;
  Company : TF.types_String;
  Blog : TF.types_String;
  Location : TF.types_String;
  Email : TF.types_String;
  Bio : TF.types_String;
  PublicRepos : TF.types_Int64;
  PublicGists : TF.types_Int64;
  Followers : TF.types_Int64;
  Following : TF.types_Int64;
  CreatedAt : TF.types_String;
  UpdatedAt : TF.types_String
}.

Definition set_CreatedAt (v : TF.types_String) (m : userDataSourceModel)
  : userDataSourceModel :=
  mkUserModel (Username m) (ID m) (UserID m) (NodeID m) (AvatarURL m)
    (HTMLURL m) (Name m) (Company m) (Blog m) (Location m) (Email m) (Bio m)
    (PublicRepos m) (PublicGists m) (Followers m) (Following m) v
    (UpdatedAt m).

Definition set_UpdatedAt (v : TF.types_String) (m : userDataSourceModel)
  : userDataSourceModel :=
  mkUserModel (Username m) (ID m) (UserID m) (NodeID m) (AvatarURL m)
    (HTMLURL m) (Name m) (Company m) (Blog m) (Location m) (Email m) (Bio m)
    (PublicRepos m) (PublicGists m) (Followers m) (Following m) (CreatedAt m)
    v.

(** [func (d *userDataSource) Configure]. *)
Definition Configure (d : userDataSource) (providerData : ProviderData)
           (diags : TF.Diagnostics) : userDataSource * TF.Diagnostics :=
  match providerData with
  | ProviderDataNil => (d, diags)
  | ProviderDataOther typeName =>
      (d, TF.AddError diags "Unexpected Data Source Configure Type"
            ("Expected githubxClientData, got: " ++ typeName
             ++ ". Please report this issue to the provider developers."))
  | ProviderDataClient clientData => (mkDataSource (ClientOf clientData), diags)
  end.

Section Operations.

Variable W : Type.
Variable remote : Remote W.

Local Open Scope go_scope.

(** [func (d *userDataSource) Read]. *)
Definition Read (d : userDataSource) (reqConfig : Decoded userDataSourceModel)
           (resp : Response userDataSourceModel)
  : M W (Response userDataSourceModel) :=
  let data := decoded reqConfig in
  let resp :=
    withDiagnostics (TF.Append (Diagnostics resp) (decodeDiags reqConfig)) resp in
  if TF.HasError (Diagnostics resp) then ret resp
  else
  match client d with
  | None =>
      ret (respAddError resp "Client Error"
             "GitHub client is not configured. Please ensure a token is provided.")
  | Some _ =>
  let username := TF.ValueString (Username data) in
  if String.eqb username "" then
    ret (respAddError resp "Missing Username"
           "The username attribute is required.")
  else
  u <- call remote (GitHub.Users_Get username) ;;
  match u with
  | GitHub.Err err =>
      ret (respAddError resp "Error fetching GitHub user"
             ("Unable to fetch user " ++ username ++ ": " ++ Go.Error err))
  | GitHub.Ok None => ret resp (* not reached: a nil user without an error *)
  | GitHub.Ok (Some user) =>
      let userID := GitHub.GetInt (GitHub.UserID user) in
      let str (o : option string) := TF.StringValue (GitHub.GetString o) in
      let int (o : option Z) := TF.Int64Value (GitHub.GetInt o) in
      let data :=
        mkUserModel (TF.StringValue username) (TF.StringValue (Go.itoa userID))
          (TF.Int64Value userID) (str (GitHub.NodeID user))
          (str (GitHub.AvatarURL user)) (str (GitHub.HTMLURL user))
          (str (GitHub.Name user)) (str (GitHub.Company user))
          (str (GitHub.Blog user)) (str (GitHub.Location user))
          (str (GitHub.Email user)) (str (GitHub.Bio user))
          (int (GitHub.PublicRepos user)) (int (GitHub.PublicGists user))
          (int (GitHub.Followers user)) (int (GitHub.Following user))
          (CreatedAt data) (UpdatedAt data) in
      let data :=
        match GitHub.CreatedAt user with
        | Some t => set_CreatedAt (TF.StringValue (GitHub.RFC3339 t)) data
        | None => data
        end in
      let data :=
        match GitHub.UpdatedAt user with
        | Some t => set_UpdatedAt (TF.StringValue (GitHub.RFC3339 t)) data
        | None => data
        end in
      ret (StateSet data resp)
  end
  end.

End Operations.

End UserDataSource.

Module RepositoryDataSource.

(** [type repositoryDataSource struct]. *)
Record repositoryDataSource : Type := mkDataSource {
  client : option Client;
  owner : string
}.

(** [func (d *repositoryDataSource) Configure]. *)
Definition Configure (d : repositoryDataSource) (providerData : ProviderData)
           (diags : TF.Diagnostics) : repositoryDataSource * TF.Diagnostics :=
  match providerData with
  | ProviderDataNil => (d, diags)
  | ProviderDataOther typeName =>
      (d, TF.AddError diags "Unexpected Data Source Configure Type"
            ("Expected githubxClientData, got: " ++ typeName
             ++ ". Please report this issue to the provider developers."))
  | ProviderDataClient clientData =>
      (mkDataSource (ClientOf clientData) (OwnerOf clientData), diags)
  end.

End RepositoryDataSource.

Module RepositoryBranchDataSource.

(** [type repositoryBranchDataSource struct]. *)
Record repositoryBranchDataSource : Type := mkDataSource {
  client : option Client;
  owner : string
}.

(** [func (d *repositoryBranchDataSource) Configure]. *)
Definition Configure (d : repositoryBranchDataSource)
           (providerData : ProviderData) (diags : TF.Diagnostics)
  : repositoryBranchDataSource * TF.Diagnostics :=
  match providerData with
  | ProviderDataNil => (d, diags)
  | ProviderDataOther typeName =>
      (d, TF.AddError diags "Unexpected Data Source Configure Type"
            ("Expected githubxClientData, got: " ++ typeName
             ++ ". Please report this issue to the provider developers."))
  | ProviderDataClient clientData =>
      (mkDataSource (ClientOf clientData) (OwnerOf clientData), diags)
  end.

End RepositoryBranchDataSource.

Module RepositoryFileDataSource.

(** [type repositoryFileDataSource struct]. *)
Record repositoryFileDataSource : Type := mkDataSource {
  client : option Client;
  owner : string
}.

(** [func (d *repositoryFileDataSource) Configure]. *)
Definition Configure (d : repositoryFileDataSource)
           (providerData : ProviderData) (diags : TF.Diagnostics)
  : repositoryFileDataSource * TF.Diagnostics :=
  match providerData with
  | ProviderDataNil => (d, diags)
  | ProviderDataOther typeName =>
      (d, TF.AddError diags "Unexpected Data Source Configure Type"
            ("Expected githubxClientData, got: " ++ typeName
             ++ ". Please report this issue to the provider developers."))
  | ProviderDataClient clientData =>
      (mkDataSource (ClientOf clientData) (OwnerOf clientData), diags)
  end.

(** [type repositoryFileDataSourceModel struct], and one update function per
    field the data source assigns. *)
Record repositoryFileDataSourceModel : Type := mkFileData {
  Repository : TF.types_String;
  FullName : TF.types_String;
  File : TF.types_String;
  Branch : TF.types_String;
  Ref : TF.types_String;
  Content : TF.types_String;
  CommitSHA : TF.types_String;
  CommitMessage : TF.types_String;
  CommitAuthor : TF.types_String;
  CommitEmail : TF.types_String;
  SHA : TF.types_String;
  ID : TF.types_String
}.

Definition set_Repository (v : TF.types_String) (m : repositoryFileDataSourceModel)
  : repositoryFileDataSourceModel :=
  mkFileData v (FullName m) (File m) (Branch m) (Ref m) (Content m)
    (CommitSHA m) (CommitMessage m) (CommitAuthor m) (CommitEmail m) (SHA m)
    (ID m).

Definition set_File (v : TF.types_String) (m : repositoryFileDataSourceModel)
  : repositoryFileDataSourceModel :=
  mkFileData (Repository m) (FullName m) v (Branch m) (Ref m) (Content m)
    (CommitSHA m) (CommitMessage m) (CommitAuthor m) (CommitEmail m) (SHA m)
    (ID m).

Definition set_Ref (v : TF.types_String) (m : repositoryFileDataSourceModel)
  : repositoryFileDataSourceModel :=
  mkFileData (Repository m) (FullName m) (File m) (Branch m) v (Content m)
    (CommitSHA m) (CommitMessage m) (CommitAuthor m) (CommitEmail m) (SHA m)
    (ID m).

Definition set_Content (v : TF.types_String) (m : repositoryFileDataSourceModel)
  : repositoryFileDataSourceModel :=
  mkFileData (Repository m) (FullName m) (File m) (Branch m) (Ref m) v
    (CommitSHA m) (CommitMessage m) (CommitAuthor m) (CommitEmail m) (SHA m)
    (ID m).

Definition set_CommitSHA (v : TF.types_String) (m : repositoryFileDataSourceModel)
  : repositoryFileDataSourceModel :=
  mkFileData (Repository m) (FullName m) (File m) (Branch m) (Ref m)
    (Content m) v (CommitMessage m) (CommitAuthor m) (CommitEmail m) (SHA m)
    (ID m).

Definition set_CommitMessage (v : TF.types_String) (m : repositoryFileDataSourceModel)
  : repositoryFileDataSourceModel :=
  mkFileData (Repository m) (FullName m) (File m) (Branch m) (Ref m)
    (Content m) (CommitSHA m) v (CommitAuthor m) (CommitEmail m) (SHA m)
    (ID m).

Definition set_CommitAuthor (v : TF.types_String) (m : repositoryFileDataSourceModel)
  : repositoryFileDataSourceModel :=
  mkFileData (Repository m) (FullName m) (File m) (Branch m) (Ref m)
    (Content m) (CommitSHA m) (CommitMessage m) v (CommitEmail m) (SHA m)
    (ID m).

Definition set_CommitEmail (v : TF.types_String) (m : repositoryFileDataSourceModel)
  : repositoryFileDataSourceModel :=
  mkFileData (Repository m) (FullName m) (File m) (Branch m) (Ref m)
    (Content m) (CommitSHA m) (CommitMessage m) (CommitAuthor m) v (SHA m)
    (ID m).

Definition set_SHA (v : TF.types_String) (m : repositoryFileDataSourceModel)
  : repositoryFileDataSourceModel :=
  mkFileData (Repository m) (FullName m) (File m) (Branch m) (Ref m)
    (Content m) (CommitSHA m) (CommitMessage m) (CommitAuthor m)
    (CommitEmail m) v (ID m).

Definition set_ID (v : TF.types_String) (m : repositoryFileDataSourceModel)
  : repositoryFileDataSourceModel :=
  mkFileData (Repository m) (FullName m) (File m) (Branch m) (Ref m)
    (Content m) (CommitSHA m) (CommitMessage m) (CommitAuthor m)
    (CommitEmail m) (SHA m) v.

Section Operations.

Variable W : Type.
Variable remote : Remote W.

(** Library functions: [strconv.Quote], [RepositoryContent.GetContent],
    [url.Parse] followed by [.RawQuery], and [url.ParseQuery]. *)
Variable strconv_Quote : string -> string.
Variable GetContent : GitHub.RepositoryContent -> GitHub.result string.
Variable url_Parse_RawQuery : string -> GitHub.result string.
Variable url_ParseQuery : string -> GitHub.result (list (string * list string)).

Local Open Scope go_scope.

(** [func (d *repositoryFileDataSource) getOwner]. *)
Definition getOwner (d : repositoryFileDataSource)
  : M W (string * option Go.error) :=
  if negb (String.eqb (owner d) "") then ret (owner d, None)
  else
    u <- call remote (GitHub.Users_Get "") ;;
    match u with
    | GitHub.Err err =>
        ret ("", Some (Go.errorString
          ("unable to determine owner: provider-level `owner` is not set and unable to fetch authenticated user: "
           ++ Go.Error err)))
    | GitHub.Ok (Some (GitHub.mkUser (Some login) _ _ _ _ _ _ _ _ _ _ _ _ _ _ _ _)) =>
        ret (login, None)
    | GitHub.Ok _ =>
        ret ("", Some (Go.errorString
          "unable to determine owner: provider-level `owner` is not set and authenticated user information is unavailable"))
    end.

(** [func (d *repositoryFileDataSource) getFileCommit]. *)
Definition getFileCommit (owner repo file ref : string)
  : M W (GitHub.result GitHub.RepositoryCommit) :=
  let opts := GitHub.mkCommitsListOptions file ref 1 in
  l <- call remote (GitHub.Repositories_ListCommits owner repo opts) ;;
  match l with
  | GitHub.Err err => ret (GitHub.Err err)
  | GitHub.Ok [] =>
      ret (GitHub.Err (Go.errorString
             ("no commits found for file " ++ file ++ " in ref " ++ ref)))
  | GitHub.Ok (first :: _) =>
      let commitSHA := GitHub.GetString (GitHub.CommitSHA first) in
      c <- call remote (GitHub.Repositories_GetCommit owner repo commitSHA) ;;
      match c with
      | GitHub.Err err => ret (GitHub.Err err)
      | GitHub.Ok commit => ret (GitHub.Ok commit)
      end
  end.

(** The [ref] query parameter of the content URL, as Read extracts it: the
    model's [Ref] and the warnings. *)
Definition Read_ref (fc : GitHub.RepositoryContent)
           (data : repositoryFileDataSourceModel) (diags : TF.Diagnostics)
  : repositoryFileDataSourceModel * TF.Diagnostics :=
  match url_Parse_RawQuery (GitHub.GetString (GitHub.ContentURL fc)) with
  | GitHub.Err err =>
      (data, TF.AddWarning diags "Error parsing file URL"
               ("Unable to parse file URL: " ++ Go.Error err))
  | GitHub.Ok rawQuery =>
      match url_ParseQuery rawQuery with
      | GitHub.Err err =>
          (data, TF.AddWarning diags "Error parsing query string"
                   ("Unable to parse query string: " ++ Go.Error err))
      | GitHub.Ok parsedQuery =>
          match find (fun kv => String.eqb (fst kv) "ref") parsedQuery with
          | Some (_, first :: _) => (set_Ref (TF.StringValue first) data, diags)
          | _ => (set_Ref TF.StringNull data, diags)
          end
      end
  end.

(** The commit fields Read copies into the model. *)
Definition Read_commit (commit : GitHub.RepositoryCommit)
           (data : repositoryFileDataSourceModel) : repositoryFileDataSourceModel :=
  let data :=
    set_CommitSHA (TF.StringValue (GitHub.GetString (GitHub.CommitSHA commit)))
      data in
  let committer :=
    match GitHub.InnerCommit commit with
    | Some inner => GitHub.CommitCommitter inner
    | None => None
    end in
  let data :=
    match committer with
    | Some committer =>
        set_CommitEmail
          (TF.StringValue (GitHub.GetString (GitHub.AuthorEmail committer)))
          (set_CommitAuthor
             (TF.StringValue (GitHub.GetString (GitHub.AuthorName committer)))
             data)
    | None => set_CommitEmail TF.StringNull (set_CommitAuthor TF.StringNull data)
    end in
  match GitHub.InnerCommit commit with
  | Some inner =>
      set_CommitMessage
        (TF.StringValue (GitHub.GetString (GitHub.CommitMessage inner))) data
  | None => set_CommitMessage TF.StringNull data
  end.

(** The owner and the repository name Read works on, or the response of an
    early return. *)
Definition Read_repository (d : repositoryFileDataSource)
           (fullName repository : string)
           (resp : Response repositoryFileDataSourceModel)
  : M W (string * string * option (Response repositoryFileDataSourceModel)) :=
  if negb (String.eqb fullName "") then
    let '(owner, repoName, err) := splitRepoFullName strconv_Quote fullName in
    match err with
    | Some err =>
        ret (owner, repoName,
             Some (respAddError resp "Invalid Full Name"
                     ("Unable to parse full_name: " ++ Go.Error err)))
    | None => ret (owner, repoName, None)
    end
  else if negb (String.eqb repository "") then
    '(owner, err) <- getOwner d ;;
    match err with
    | Some err =>
        ret (owner, repository,
             Some (respAddError resp "Missing Owner"
                     ("Either `full_name` must be provided, or `repository` must be provided along with provider-level `owner` configuration or authentication. Error: "
                      ++ Go.Error err)))
    | None => ret (owner, repository, None)
    end
  else
    ret ("", "",
         Some (respAddError resp "Missing Required Attribute"
                 "Either `full_name` or `repository` must be provided.")).

(** [func (d *repositoryFileDataSource) Read].  [None] is the run that ends
    in a nil-pointer panic: GetContents returned neither a file nor a
    directory, and Read calls [fc.GetContent()] on the nil file. *)
Definition Read (d : repositoryFileDataSource)
           (reqConfig : Decoded repositoryFileDataSourceModel)
           (resp : Response repositoryFileDataSourceModel)
  : M W (option (Response repositoryFileDataSourceModel)) :=
  let data := decoded reqConfig in
  let resp :=
    withDiagnostics (TF.Append (Diagnostics resp) (decodeDiags reqConfig)) resp in
  if TF.HasError (Diagnostics resp) then ret (Some resp)
  else
  match client d with
  | None =>
      ret (Some (respAddError resp "Client Error"
                   "GitHub client is not configured. Please ensure a token is provided."))
  | Some _ =>
  let fullName := TF.ValueString (FullName data) in
  let repository := TF.ValueString (Repository data) in
  if negb (String.eqb fullName "") && negb (String.eqb repository "") then
    ret (Some (respAddError resp "Conflicting Attributes"
                 "Cannot specify both `full_name` and `repository`. Please use only one."))
  else
  '(owner, repoName, early) <- Read_repository d fullName repository resp ;;
  match early with
  | Some resp => ret (Some resp)
  | None =>
  let filePath := TF.ValueString (File data) in
  if String.eqb filePath "" then
    ret (Some (respAddError resp "Missing Required Attribute"
                 "The `file` attribute is required."))
  else
  let opts :=
    GitHub.mkGetOptions
      (if TF.String_known (Branch data) then TF.ValueString (Branch data)
       else "") in
  g <- call remote (GitHub.Repositories_GetContents owner repoName filePath opts) ;;
  match g with
  | GitHub.Err err =>
      if Go.hasStatus err Go.StatusNotFound then
        ret (Some (StateSet (set_ID (TF.StringValue "") data) resp))
      else
        ret (Some (respAddError resp "Error fetching GitHub repository file"
                     ("Unable to fetch file " ++ filePath ++ " from repository "
                      ++ owner ++ "/" ++ repoName ++ ": " ++ Go.Error err)))
  | GitHub.Ok (fc, dc) =>
      let data := set_Repository (TF.StringValue repoName) data in
      let data := set_ID (TF.StringValue (repoName ++ "/" ++ filePath)) data in
      let data := set_File (TF.StringValue filePath) data in
      match dc with
      | Some _ => ret (Some (StateSet data resp))
      | None =>
      match fc with
      | None => ret None
      | Some fc =>
      match GetContent fc with
      | GitHub.Err err =>
          ret (Some (respAddError resp "Error reading file content"
                       ("Unable to get content from file " ++ owner ++ "/"
                        ++ repoName ++ "/" ++ filePath ++ ": " ++ Go.Error err)))
      | GitHub.Ok content =>
          let data := set_Content (TF.StringValue content) data in
          let data :=
            set_SHA (TF.StringValue (GitHub.GetString (GitHub.ContentSHA fc)))
              data in
          let '(data, diags) := Read_ref fc data (Diagnostics resp) in
          let ref := TF.ValueString (Ref data) in
          let ref :=
            if String.eqb ref "" && TF.String_known (Branch data)
            then TF.ValueString (Branch data) else ref in
          if negb (String.eqb ref "") then
            c <- getFileCommit owner repoName filePath ref ;;
            match c with
            | GitHub.Err err =>
                ret (Some (StateSet data
                             (withDiagnostics
                                (TF.AddWarning diags
                                   "Error fetching commit information"
                                   ("Unable to fetch commit information for file "
                                    ++ owner ++ "/" ++ repoName ++ "/"
                                    ++ filePath ++ ": " ++ Go.Error err))
                                resp)))
            | GitHub.Ok commit =>
                ret (Some (StateSet (Read_commit commit data)
                             (withDiagnostics diags resp)))
            end
          else ret (Some (StateSet data (withDiagnostics diags resp)))
      end
      end
      end
  end
  end
  end.

End Operations.

End RepositoryFileDataSource.

Module RepositoryBranchResource.

(** [type repositoryBranchResource struct]. *)
Record repositoryBranchResource : Type := mkResource {
  client : option Client;
  owner : string
}.

(** [func (r *repositoryBranchResource) Configure]. *)
Definition Configure (r : repositoryBranchResource)
           (providerData : ProviderData) (diags : TF.Diagnostics)
  : repositoryBranchResource * TF.Diagnostics :=
  match providerData with
  | ProviderDataNil => (r, diags)
  | ProviderDataOther typeName =>
      (r, TF.AddError diags "Unexpected Resource Configure Type"
            ("Expected githubxClientData, got: " ++ typeName
             ++ ". Please report this issue to the provider developers."))
  | ProviderDataClient clientData =>
      (mkResource (ClientOf clientData) (OwnerOf clientData), diags)
  end.

End RepositoryBranchResource.

Module RepositoryResource.

(** [type repositoryResource struct]. *)
Record repositoryResource : Type := mkResource {
  client : option Client;
  owner : string;
  authenticatedUser : string
}.

Section Operations.

Variable W : Type.
Variable remote : Remote W.

Local Open Scope go_scope.

(** [func (r *repositoryResource) Configure]: with a client it also asks the
    remote for the authenticated user. *)
Definition Configure (r : repositoryResource) (providerData : ProviderData)
           (diags : TF.Diagnostics)
  : M W (repositoryResource * TF.Diagnostics) :=
  match providerData with
  | ProviderDataNil => ret (r, diags)
  | ProviderDataOther typeName =>
      ret (r, TF.AddError diags "Unexpected Resource Configure Type"
                ("Expected githubxClientData, got: " ++ typeName
                 ++ ". Please report this issue to the provider developers."))
  | ProviderDataClient clientData =>
      let r :=
        mkResource (ClientOf clientData) (OwnerOf clientData)
          (authenticatedUser r) in
      match client r with
      | None => ret (r, diags)
      | Some _ =>
          u <- call remote (GitHub.Users_Get "") ;;
          match u with
          | GitHub.Ok (Some (GitHub.mkUser (Some login) _ _ _ _ _ _ _ _ _ _ _ _ _ _ _ _)) =>
              ret (mkResource (client r) (owner r) login, diags)
          | _ => ret (r, diags)
          end
      end
  end.

End Operations.

End RepositoryResource.

(* ===================================================================== *)
(** ** The provider: Configure and the authentication sources *)
(* ===================================================================== *)

Module Provider.

(** [type appAuthModel struct]. *)
Record appAuthModel : Type := mkAppAuth {
  AppID : TF.types_Int64;
  InstallationID : TF.types_Int64;
  PEMFile : TF.types_String
}.

(** [type githubxProviderModel struct]. *)
Record githubxProviderModel : Type := mkProviderModel {
  Token : TF.types_String;
  OAuthToken : TF.types_String;
  AppAuth : option appAuthModel;
  BaseURLAttr : TF.types_String;
  Owner : TF.types_String;
  Insecure : TF.types_Bool
}.

(** [*url.URL]: what precedes the path (scheme and authority), the path, and
    what follows it (query and fragment); [String()] puts them together. *)
Record URL : Type := mkURL {
  BeforePath : string;
  Path : string;
  AfterPath : string
}.

Definition URL_String (u : URL) : string :=
  BeforePath u ++ Path u ++ AfterPath u.

(** [provider.ConfigureResponse]. *)
Record ConfigureResponse : Type := mkConfigureResponse {
  ConfigureDiagnostics : TF.Diagnostics;
  ResourceData : option githubxClientData;
  DataSourceData : option githubxClientData
}.

Definition configureAddError (resp : ConfigureResponse)
           (summary detail : string) : ConfigureResponse :=
  mkConfigureResponse (TF.AddError (ConfigureDiagnostics resp) summary detail)
    (ResourceData resp) (DataSourceData resp).

(** The process environment the provider reads: environment variables, the
    outcome of running [gh auth token], [url.Parse], and the exchange of a
    GitHub App key for an installation token (reading and parsing the PEM
    file, signing the JWT, calling the installation-token endpoint), which
    yields the token or the diagnostics of its failure. *)
Record Environment : Type := mkEnvironment {
  Getenv : string -> string;
  gh_auth_token : GitHub.result string;
  url_Parse : string -> GitHub.result URL;
  installationToken : Z -> Z -> string -> URL -> string * TF.Diagnostics
}.

(** [func getGitHubCLIToken() string]. *)
Definition getGitHubCLIToken (env : Environment) : string :=
  match gh_auth_token env with
  | GitHub.Err _ => ""
  | GitHub.Ok output =>
      let token := Go.TrimSpace output in
      if negb (String.eqb token "") then token else ""
  end.

(** [func getGitHubAppToken]: the token and the diagnostics of the response
    it returns. *)
Definition getGitHubAppToken (env : Environment) (appAuth : appAuthModel)
           (baseURL : URL) : string * TF.Diagnostics :=
  let appID := TF.ValueInt64 (AppID appAuth) in
  let installationID := TF.ValueInt64 (InstallationID appAuth) in
  let pemFile := TF.ValueString (PEMFile appAuth) in
  if (appID =? 0)%Z then
    ("", TF.AddError [] "Invalid App ID"
           "GitHub App ID must be provided and greater than 0.")
  else if (installationID =? 0)%Z then
    ("", TF.AddError [] "Invalid Installation ID"
           "GitHub App Installation ID must be provided and greater than 0.")
  else if String.eqb pemFile "" then
    ("", TF.AddError [] "Missing PEM File"
           "GitHub App PEM file path must be provided.")
  else installationToken env appID installationID pemFile baseURL.

(** Steps 1 to 4 of the authentication precedence in Configure: the token
    attribute, the oauth_token attribute, GITHUB_TOKEN, the GitHub CLI. *)
Definition tokenBeforeAppAuth (env : Environment) (config : githubxProviderModel)
  : string :=
  let token := TF.ValueString (Token config) in
  let token :=
    if String.eqb token "" then TF.ValueString (OAuthToken config) else token in
  let token :=
    if String.eqb token "" then Getenv env "GITHUB_TOKEN" else token in
  let token :=
    if String.eqb token "" then
      let ghToken := getGitHubCLIToken env in
      if negb (String.eqb ghToken "") then ghToken else token
    else token in
  token.

(** The HTTP client Configure builds for a token and the insecure flag. *)
Definition httpTransport (token : string) (insecure : bool) : Transport :=
  let transport :=
    if negb (String.eqb token "") then OAuth2Transport token
    else DefaultTransport in
  if insecure then InsecureTransport else transport.

Section Operations.

Variable W : Type.
Variable remote : Remote W.
Variable env : Environment.

Local Open Scope go_scope.

(** [func (p *githubxProvider) Configure]. *)
Definition Configure (reqConfig : Decoded githubxProviderModel)
           (resp : ConfigureResponse) : M W ConfigureResponse :=
  let config := decoded reqConfig in
  let resp :=
    mkConfigureResponse
      (TF.Append (ConfigureDiagnostics resp) (decodeDiags reqConfig))
      (ResourceData resp) (DataSourceData resp) in
  if TF.HasError (ConfigureDiagnostics resp) then ret resp
  else
  let token := tokenBeforeAppAuth env config in
  let baseURLStr := TF.ValueString (BaseURLAttr config) in
  let baseURLStr :=
    if String.eqb baseURLStr "" then Getenv env "GITHUB_BASE_URL"
    else baseURLStr in
  let baseURLStr :=
    if String.eqb baseURLStr "" then "https://api.github.com/"
    else baseURLStr in
  match url_Parse env baseURLStr with
  | GitHub.Err err =>
      ret (configureAddError resp "Invalid Base URL"
             ("Unable to parse base_url: " ++ Go.Error err))
  | GitHub.Ok baseURL =>
  let baseURL :=
    if negb (Go.HasSuffix (Path baseURL) "/")
    then mkURL (BeforePath baseURL) (Path baseURL ++ "/") (AfterPath baseURL)
    else baseURL in
  let '(token, appDiags) :=
    match AppAuth config with
    | Some appAuth =>
        if String.eqb token "" then
          let '(appToken, appDiags) := getGitHubAppToken env appAuth baseURL in
          if TF.HasError appDiags then (token, appDiags)
          else if negb (String.eqb appToken "") then (appToken, [])
          else (token, [])
        else (token, [])
    | None => (token, [])
    end in
  if TF.HasError appDiags then
    ret (mkConfigureResponse
           (TF.Append (ConfigureDiagnostics resp) appDiags)
           (ResourceData resp) (DataSourceData resp))
  else
  let insecure := TF.ValueBool (Insecure config) in
  let insecure :=
    if negb insecure
    then (if String.eqb (Getenv env "GITHUB_INSECURE") "true" then true
          else insecure)
    else insecure in
  let client :=
    mkClient (httpTransport token insecure)
      (if negb (String.eqb (URL_String baseURL) "https://api.github.com/")
       then Some (URL_String baseURL) else None) in
  let owner := TF.ValueString (Owner config) in
  let owner :=
    if String.eqb owner "" then Getenv env "GITHUB_OWNER" else owner in
  owner <-
    (if String.eqb owner "" && negb (String.eqb token "") then
       u <- call remote (GitHub.Users_Get "") ;;
       match u with
       | GitHub.Ok (Some user) => ret (GitHub.GetString (GitHub.Login user))
       | _ => ret owner
       end
     else ret owner) ;;
  let clientData := mkClientData (Some client) owner in
  ret (mkConfigureResponse (ConfigureDiagnostics resp)
         (Some clientData) (Some clientData))
  end.

End Operations.

End Provider.

(* ===================================================================== *)
(** ** Vocabulary of the statements *)
(* ===================================================================== *)

(** The number of occurrences of a byte in a string. *)
Fixpoint countByte (c : ascii) (s : string) : nat :=
  match s with
  | EmptyString => 0
  | String a s' => (if Ascii.eqb a c then 1 else 0) + countByte c s'
  end.

(** The error of an outcome, if any. *)
Definition errOf {A : Type} (r : GitHub.result A) : option Go.error :=
  match r with
  | GitHub.Ok _ => None
  | GitHub.Err e => Some e
  end.

(** A contents write (CreateFile or DeleteFile) in a trace: the options it
    was sent with and the error it got. *)
Definition writeOf (e : GitHub.Event)
  : option (GitHub.RepositoryContentFileOptions * option Go.error) :=
  match e with
  | GitHub.EvCall c r =>
      match c as c0
            return GitHub.result (GitHub.Reply c0) ->
                   option (GitHub.RepositoryContentFileOptions * option Go.error)
      with
      | GitHub.Repositories_CreateFile _ _ _ opts => fun r => Some (opts, errOf r)
      | GitHub.Repositories_DeleteFile _ _ _ opts => fun r => Some (opts, errOf r)
      | _ => fun _ => None
      end r
  | GitHub.EvSleep _ => None
  end.

(** A GetContents call in a trace: the file it returned, if it returned
    one. *)
Definition fetchOf (e : GitHub.Event) : option (option GitHub.RepositoryContent) :=
  match e with
  | GitHub.EvCall c r =>
      match c as c0
            return GitHub.result (GitHub.Reply c0) ->
                   option (option GitHub.RepositoryContent)
      with
      | GitHub.Repositories_GetContents _ _ _ _ =>
          fun r => match r with
                   | GitHub.Ok (fc, _) => Some fc
                   | GitHub.Err _ => Some None
                   end
      | _ => fun _ => None
      end r
  | GitHub.EvSleep _ => None
  end.

Definition isWrite (e : GitHub.Event) : bool :=
  match writeOf e with Some _ => true | None => false end.

Definition isFetch (e : GitHub.Event) : bool :=
  match fetchOf e with Some _ => true | None => false end.

Definition countWrites (tr : list GitHub.Event) : nat :=
  length (filter isWrite tr).

Definition countFetches (tr : list GitHub.Event) : nat :=
  length (filter isFetch tr).

(** The first contents write of a trace. *)
Definition firstWrite (tr : list GitHub.Event)
  : option (GitHub.RepositoryContentFileOptions * option Go.error) :=
  match filter isWrite tr with
  | e :: _ => writeOf e
  | [] => None
  end.

(** An error with the given HTTP status. *)
Definition failedWith (code : Z) (err : option Go.error) : bool :=
  match err with
  | Some e => Go.hasStatus e code
  | None => false
  end.

(** The discipline of a conflict-retry loop, read off its trace: the trace
    is a sequence of writes, each but the last followed by a GetContents; a
    write that is followed by anything failed with status 409; a write that
    follows a GetContents which returned a file carries that file's SHA.
    When [strict], a write follows only a GetContents that returned a file;
    otherwise a write after a GetContents without a file carries the SHA of
    the write before. *)
Fixpoint retryDiscipline (strict : bool) (tr : list GitHub.Event) : Prop :=
  match tr with
  | [] => True
  | w :: rest =>
      match writeOf w with
      | None => False
      | Some (opts, err) =>
          match rest with
          | [] => True
          | g :: rest' =>
              failedWith Go.StatusConflict err = true /\
              match fetchOf g with
              | None => False
              | Some fetched =>
                  match rest' with
                  | [] => True
                  | w' :: _ =>
                      match writeOf w' with
                      | None => False
                      | Some (opts', _) =>
                          match fetched with
                          | Some fc =>
                              GitHub.SHA opts'
                              = Some (GitHub.GetString (GitHub.ContentSHA fc))
                          | None =>
                              strict = false
                              /\ GitHub.SHA opts' = GitHub.SHA opts
                          end
                      end
                      /\ retryDiscipline strict rest'
                  end
              end
          end
      end
  end.

(** What the trace of a retry loop with [n] iterations allowed and current
    options [opts] looks like: it obeys the retry discipline, holds at most
    [n] writes and no more GetContents calls than writes, and, unless the loop
    body never ran, starts with a write that carries [opts]. *)
Definition loopTrace (strict : bool) (n : nat)
           (opts : GitHub.RepositoryContentFileOptions)
           (tr : list GitHub.Event) : Prop :=
  retryDiscipline strict tr
  /\ (countWrites tr <= n)%nat
  /\ (countFetches tr <= countWrites tr)%nat
  /\ (countWrites tr + countFetches tr = length tr)%nat
  /\ match tr with
     | [] => n = 0%nat
     | e :: _ => exists err, writeOf e = Some (opts, err)
     end.

(** The error of the last contents write of a trace ([nil] when it
    succeeded), or [err] when the trace holds no write: the value of the
    variable [err] of a retry loop entered with [err]. *)
Fixpoint lastWriteError (err : option Go.error) (tr : list GitHub.Event)
  : option Go.error :=
  match tr with
  | [] => err
  | e :: tr' =>
      match writeOf e with
      | Some (_, err') => lastWriteError err' tr'
      | None => lastWriteError err tr'
      end
  end.

(** Every event of every run of a computation satisfies [P]. *)
Definition eventsAll {W A : Type} (P : GitHub.Event -> bool) (m : M W A) : Prop :=
  forall w, forallb P (trace_of (m w)) = true.

(** An event that is not a contents write. *)
Definition notWrite (e : GitHub.Event) : bool := negb (isWrite e).

(** A diagnostic list holds an error with the given summary. *)
Definition hasErrorSummary (summary : string) (ds : TF.Diagnostics) : bool :=
  existsb (fun d => TF.isError d && String.eqb (TF.Summary d) summary) ds.

(** A GetContents call that failed with the given status. *)
Definition fetchFailedWith (code : Z) (e : GitHub.Event) : bool :=
  match e with
  | GitHub.EvCall c r =>
      match c as c0 return GitHub.result (GitHub.Reply c0) -> bool with
      | GitHub.Repositories_GetContents _ _ _ _ =>
          fun r => match r with
                   | GitHub.Err ge => Go.hasStatus ge code
                   | GitHub.Ok _ => false
                   end
      | _ => fun _ => false
      end r
  | GitHub.EvSleep _ => false
  end.

(** The last event of a trace. *)
Fixpoint lastEvent (tr : list GitHub.Event) : option GitHub.Event :=
  match tr with
  | [] => None
  | e :: tr' => match tr' with [] => Some e | _ :: _ => lastEvent tr' end
  end.

(** The last thing the operation did was a GetContents that failed with the
    given status. *)
Definition endsWithFetchFailure (code : Z) (tr : list GitHub.Event) : bool :=
  match lastEvent tr with
  | Some e => fetchFailedWith code e
  | None => false
  end.

(** The trace ends with a contents write that failed with [e]. *)
Definition endsWithFailedWrite (e : Go.error) (tr : list GitHub.Event) : Prop :=
  exists pre w opts, tr = (pre ++ [w])%list /\ writeOf w = Some (opts, Some e).

(** A trace is a write-free prefix, the trace of a retry loop, and a
    write-free suffix. *)
Definition aroundRetryLoop (strict : bool) (tr : list GitHub.Event) : Prop :=
  exists pre loop post,
    tr = (pre ++ loop ++ post)%list
    /\ countWrites pre = 0%nat /\ countWrites post = 0%nat
    /\ retryDiscipline strict loop.

(** An event that is not a GetContents call. *)
Definition notFetch (e : GitHub.Event) : bool := negb (isFetch e).

(** The end of Read, after readFile: no state is saved when readFile has
    reported an error. *)
Definition Read_finish (resp0 : Response FileResource.repositoryFileResourceModel)
           (read : FileResource.repositoryFileResourceModel * TF.Diagnostics)
  : Response FileResource.repositoryFileResourceModel :=
  if TF.HasError (snd read) then withDiagnostics (snd read) resp0
  else
    StateSet
      (if negb (TF.ValueBool (FileResource.AutocreateBranch (fst read)))
       then FileResource.set_AutocreateBranchSourceSHA TF.StringNull (fst read)
       else fst read)
      (withDiagnostics (snd read) resp0).

(** A PullRequests.Get call that failed with the given status, and a trace
    that ends on one. *)
Definition pullGetFailedWith (code : Z) (e : GitHub.Event) : bool :=
  match e with
  | GitHub.EvCall c r =>
      match c as c0 return GitHub.result (GitHub.Reply c0) -> bool with
      | GitHub.PullRequests_Get _ _ _ =>
          fun r => match r with
                   | GitHub.Err ge => Go.hasStatus ge code
                   | GitHub.Ok _ => false
                   end
      | _ => fun _ => false
      end r
  | GitHub.EvSleep _ => false
  end.

Definition endsWithPullGetFailure (code : Z) (tr : list GitHub.Event) : bool :=
  match lastEvent tr with
  | Some e => pullGetFailedWith code e
  | None => false
  end.

(* ===================================================================== *)
(** ** Concrete remotes and inputs *)
(* ===================================================================== *)

Module Scenario.

(** A model as decoded without diagnostics, and the response an operation
    starts from. *)
Definition cleanly {Model : Type} (m : Model) : Decoded Model := mkDecoded m [].

Definition fresh {Model : Type} : Response Model := mkResponse [] None.

(** Library functions on well-formed data: content that needs no decoding,
    URLs without a query. *)
Definition plainContent (fc : GitHub.RepositoryContent) : GitHub.result string :=
  GitHub.Ok (GitHub.GetString (GitHub.Content fc)).

Definition noRawQuery (url : string) : GitHub.result string := GitHub.Ok "".

Definition noQuery (raw : string)
  : GitHub.result (list (string * list string)) := GitHub.Ok [].

(** The resource, configured for the owner "octo". *)
Definition fileResource : FileResource.repositoryFileResource :=
  FileResource.mkResource (Some (mkClient DefaultTransport None)) "octo".

(** The state of [a.txt] in repository [repo], last seen with blob SHA
    [sha-old], and a plan that changes its content. *)
Definition stateA : FileResource.repositoryFileResourceModel :=
  FileResource.mkFileModel
    (TF.StringValue "repo") (TF.StringValue "a.txt") (TF.StringValue "old text")
    TF.StringNull TF.StringNull TF.StringNull TF.StringNull TF.StringNull
    TF.StringNull (TF.StringValue "sha-old") (TF.BoolValue false)
    (TF.BoolValue false) (TF.StringValue "main") TF.StringNull
    (TF.StringValue "repo:a.txt").

Definition planA : FileResource.repositoryFileResourceModel :=
  FileResource.mkFileModel
    (TF.StringValue "repo") (TF.StringValue "a.txt") (TF.StringValue "new text")
    TF.StringNull TF.StringUnknown TF.StringUnknown TF.StringNull TF.StringNull
    TF.StringNull TF.StringUnknown (TF.BoolValue false)
    (TF.BoolValue false) (TF.StringValue "main") TF.StringUnknown
    TF.StringUnknown.

(** The file as the remote holds it after somebody else changed it. *)
Definition remoteFile : GitHub.RepositoryContent :=
  GitHub.mkRepositoryContent (Some "sha-new")
    (Some "https://api.github.com/repos/octo/repo/contents/a.txt")
    (Some "") (Some "new text").

Definition httpError (code : Z) (message : string) : Go.error :=
  Go.ErrorResponse (Some code) message.

Definition unprocessable : Go.error := httpError 422 "422 Unprocessable Entity".
Definition conflict : Go.error := httpError 409 "409 Conflict".
Definition serverError : Go.error := httpError 500 "500 Internal Server Error".
Definition notFound : Go.error := httpError 404 "404 Not Found".
Definition rateLimited : Go.error := httpError 429 "429 Too Many Requests".

(** A remote that refuses every contents write with 422. *)
Definition remote422 : Remote unit :=
  mkRemote
    (fun c w =>
       (match c as c0 return GitHub.result (GitHub.Reply c0) with
        | GitHub.Repositories_CreateFile _ _ _ _ => GitHub.Err unprocessable
        | GitHub.Repositories_DeleteFile _ _ _ _ => GitHub.Err unprocessable
        | _ => GitHub.Err (Go.errorString "unexpected call")
        end, w))
    (fun _ w => w).

(** A remote that counts the calls it has answered: the first write is
    refused with 409, the re-fetch that follows fails with 500, every later
    write succeeds and every later GetContents returns the file. *)
Definition remoteFlaky : Remote nat :=
  mkRemote
    (fun c w =>
       (match c as c0 return GitHub.result (GitHub.Reply c0) with
        | GitHub.Repositories_CreateFile _ _ _ _ =>
            if (w =? 0)%nat then GitHub.Err conflict
            else GitHub.Ok (GitHub.mkContentResponse (Some "commit-1"))
        | GitHub.Repositories_GetContents _ _ _ _ =>
            if (w =? 1)%nat then GitHub.Err serverError
            else GitHub.Ok (Some remoteFile, None)
        | _ => GitHub.Err (Go.errorString "unexpected call")
        end, S w))
    (fun _ w => w).

(** A remote on which the file cannot be read: GetContents fails with the
    given error. *)
Definition remoteUnreadable (err : Go.error) : Remote unit :=
  mkRemote
    (fun c w =>
       (match c as c0 return GitHub.result (GitHub.Reply c0) with
        | GitHub.Repositories_GetContents _ _ _ _ => GitHub.Err err
        | GitHub.Repositories_DeleteFile _ _ _ _ => GitHub.Err err
        | _ => GitHub.Err (Go.errorString "unexpected call")
        end, w))
    (fun _ w => w).

(** A remote that knows no user. *)
Definition remoteNoUser : Remote unit :=
  mkRemote
    (fun c w =>
       (match c as c0 return GitHub.result (GitHub.Reply c0) with
        | GitHub.Users_Get _ => GitHub.Err notFound
        | _ => GitHub.Err (Go.errorString "unexpected call")
        end, w))
    (fun _ w => w).

(** The user data source, configured, asked for the user "ghost". *)
Definition userDataSource : UserDataSource.userDataSource :=
  UserDataSource.mkDataSource (Some (mkClient DefaultTransport None)).

Definition ghost : UserDataSource.userDataSourceModel :=
  UserDataSource.mkUserModel (TF.StringValue "ghost") TF.StringNull TF.Int64Null
    TF.StringNull TF.StringNull TF.StringNull TF.StringNull TF.StringNull
    TF.StringNull TF.StringNull TF.StringNull TF.StringNull TF.Int64Null
    TF.Int64Null TF.Int64Null TF.Int64Null TF.StringNull TF.StringNull.

End Scenario.


(* ===================================================================== *)
(** ** Vocabulary of the Configure statements *)
(* ===================================================================== *)

(** Diagnostics that hold exactly one entry, an error whose summary mentions
    the configure type. *)
Definition oneConfigureTypeError (ds : TF.Diagnostics) : Prop :=
  exists d, ds = [d] /\ TF.isError d = true
            /\ Go.Contains (TF.Summary d) "Configure Type" = true.

(** What Configure does to a receiver of type [R], whose client field is
    [client] and whose owner field, when the struct has one, is [owner];
    [Configure r data diags] is the receiver and the response's diagnostics
    after the call, [diags] being the diagnostics before it.
    - Provider data of another type: the receiver is as before and the error
      is added, the only diagnostic when the response was fresh.
    - No provider data: nothing changes.
    - Client data: the client and the owner are those of the data, and no
      diagnostic is added. *)
Definition configureContract (R : Type) (client : R -> option Client)
           (owner : option (R -> string))
           (Configure : R -> ProviderData -> TF.Diagnostics
                        -> R * TF.Diagnostics) : Prop :=
  forall r : R,
    (forall typeName diags,
        fst (Configure r (ProviderDataOther typeName) diags) = r
        /\ (exists summary detail,
               snd (Configure r (ProviderDataOther typeName) diags)
               = TF.AddError diags summary detail
               /\ Go.Contains summary "Configure Type" = true)
        /\ oneConfigureTypeError
             (snd (Configure r (ProviderDataOther typeName) [])))
    /\ (forall diags, Configure r ProviderDataNil diags = (r, diags))
    /\ (forall data diags,
           client (fst (Configure r (ProviderDataClient data) diags))
           = ClientOf data
           /\ match owner with
              | Some ownerField =>
                  ownerField (fst (Configure r (ProviderDataClient data) diags))
                  = OwnerOf data
              | None => True
              end
           /\ snd (Configure r (ProviderDataClient data) diags) = diags).


(* ===================================================================== *)
(** ** Vocabulary of the polling statements *)
(* ===================================================================== *)

Definition isSleep (e : GitHub.Event) : bool :=
  match e with GitHub.EvSleep _ => true | GitHub.EvCall _ _ => false end.

Definition countSleeps (tr : list GitHub.Event) : nat :=
  length (filter isSleep tr).


Definition isPullGet (e : GitHub.Event) : bool :=
  match e with
  | GitHub.EvCall (GitHub.PullRequests_Get _ _ _) _ => true
  | _ => false
  end.

Definition countPullGets (tr : list GitHub.Event) : nat :=
  length (filter isPullGet tr).




Module PullScenario.

(** Pull request 7 of octo/repo, from [feature] into [main]: open, its
    mergeability not computed. *)
Definition pull7 : GitHub.PullRequest :=
  GitHub.mkPullRequest (Some 7%Z) (Some "open") (Some "Add feature") None
    (Some false) None (Some false) None None
    (Some (GitHub.mkPullRequestBranch (Some "feature") (Some "sha-head")))
    (Some (GitHub.mkPullRequestBranch (Some "main") (Some "sha-base"))).

(** A remote on which pull request 7 stays as it is and the one status of
    its head commit stays pending. *)
Definition remotePending : Remote unit :=
  mkRemote
    (fun c w =>
       (match c as c0 return GitHub.result (GitHub.Reply c0) with
        | GitHub.PullRequests_Get _ _ _ => GitHub.Ok pull7
        | GitHub.Repositories_ListStatuses _ _ _ =>
            GitHub.Ok [GitHub.mkRepoStatus (Some "pending") (Some "ci/build")]
        | _ => GitHub.Err (Go.errorString "unexpected call")
        end, w))
    (fun _ w => w).

(** A plan for that pull request, to be merged when ready. *)
Definition plan7 : PullRequestResource.repositoryPullRequestResourceModel :=
  PullRequestResource.mkPullModel
    (TF.StringValue "repo") (TF.StringValue "main") (TF.StringValue "feature")
    (TF.StringValue "Add feature") TF.StringNull (TF.BoolValue true)
    TF.StringNull (TF.BoolValue true) (TF.BoolValue false) (TF.BoolValue false)
    TF.StringUnknown TF.StringUnknown TF.Int64Unknown TF.StringUnknown
    TF.BoolUnknown TF.StringUnknown TF.StringUnknown TF.StringUnknown.

(** The same pull request once GitHub has found it mergeable, and a remote
    that reports it so while its one status stays pending. *)
Definition pull7mergeable : GitHub.PullRequest :=
  GitHub.mkPullRequest (Some 7%Z) (Some "open") (Some "Add feature") None
    (Some false) (Some true) (Some false) None None
    (Some (GitHub.mkPullRequestBranch (Some "feature") (Some "sha-head")))
    (Some (GitHub.mkPullRequestBranch (Some "main") (Some "sha-base"))).

Definition remoteMergeablePending : Remote unit :=
  mkRemote
    (fun c w =>
       (match c as c0 return GitHub.result (GitHub.Reply c0) with
        | GitHub.PullRequests_Get _ _ _ => GitHub.Ok pull7mergeable
        | GitHub.Repositories_ListStatuses _ _ _ =>
            GitHub.Ok [GitHub.mkRepoStatus (Some "pending") (Some "ci/build")]
        | _ => GitHub.Err (Go.errorString "unexpected call")
        end, w))
    (fun _ w => w).

End PullScenario.






(* ===================================================================== *)
(** ** Vocabulary of the provider's Configure statement *)
(* ===================================================================== *)

(** The first non-empty string of a list, the empty string when there is
    none. *)
Fixpoint firstNonEmpty (l : list string) : string :=
  match l with
  | [] => ""
  | s :: rest => if String.eqb s "" then firstNonEmpty rest else s
  end.

(** The four token sources the provider consults first, in the order of the
    precedence: the token attribute, the oauth_token attribute, GITHUB_TOKEN,
    the GitHub CLI. *)
Definition tokenSources (env : Provider.Environment)
           (config : Provider.githubxProviderModel) : list string :=
  [TF.ValueString (Provider.Token config);
   TF.ValueString (Provider.OAuthToken config);
   Provider.Getenv env "GITHUB_TOKEN";
   Provider.getGitHubCLIToken env].

(** The string Configure parses as the base URL, the URL it goes on with,
    and the insecure flag it ends up with. *)
Definition baseURLStrOf (env : Provider.Environment)
           (config : Provider.githubxProviderModel) : string :=
  let baseURLStr := TF.ValueString (Provider.BaseURLAttr config) in
  let baseURLStr :=
    if String.eqb baseURLStr "" then Provider.Getenv env "GITHUB_BASE_URL"
    else baseURLStr in
  if String.eqb baseURLStr "" then "https://api.github.com/" else baseURLStr.

Definition withTrailingSlash (baseURL : Provider.URL) : Provider.URL :=
  if negb (Go.HasSuffix (Provider.Path baseURL) "/")
  then Provider.mkURL (Provider.BeforePath baseURL)
         (Provider.Path baseURL ++ "/") (Provider.AfterPath baseURL)
  else baseURL.




Module ProviderScenario.

(** An environment with GITHUB_TOKEN set and a logged-in GitHub CLI, in which
    every base URL parses to the public API and the App key exchanges for a
    token. *)
Definition envWithToken : Provider.Environment :=
  Provider.mkEnvironment
    (fun name => if String.eqb name "GITHUB_TOKEN" then "env-token" else "")
    (GitHub.Ok "gh-token ")
    (fun _ => GitHub.Ok (Provider.mkURL "https://api.github.com" "/" ""))
    (fun _ _ _ _ => ("app-token", [])).

(** An environment that offers no token at all. *)
Definition envBare : Provider.Environment :=
  Provider.mkEnvironment
    (fun _ => "")
    (GitHub.Err (Go.errorString "exec: gh: executable file not found in $PATH"))
    (fun _ => GitHub.Ok (Provider.mkURL "https://api.github.com" "/" ""))
    (fun _ _ _ _ => ("", [])).



Definition freshResponse : Provider.ConfigureResponse :=
  Provider.mkConfigureResponse [] None None.

End ProviderScenario.


(* ===================================================================== *)
(** ** Vocabulary of the pull-request Create statement *)
(* ===================================================================== *)

Definition isPullCreate (e : GitHub.Event) : bool :=
  match e with
  | GitHub.EvCall (GitHub.PullRequests_Create _ _ _) _ => true
  | _ => false
  end.

Definition countPullCreates (tr : list GitHub.Event) : nat :=
  length (filter isPullCreate tr).

Definition notPullCreate (e : GitHub.Event) : bool := negb (isPullCreate e).

(** The options findExistingPR lists with, and the update that reopens. *)
Definition listOptions (owner baseRef headRef : string)
  : GitHub.PullRequestListOptions :=
  GitHub.mkPullRequestListOptions "all" (owner ++ ":" ++ headRef) baseRef 100.

Definition reopenUpdate : GitHub.PullRequest :=
  GitHub.mkPullRequest None (Some "open") None None None None None None None
    None None.

(** The ID "repository:number". *)
Definition pullID (repoName : string) (number : Z) : TF.types_String :=
  TF.StringValue (repoName ++ ":" ++ Go.itoa number).

(** Closed and not merged. *)
Definition closedUnmerged (pr : GitHub.PullRequest) : bool :=
  String.eqb (GitHub.GetString (GitHub.State pr)) "closed"
  && negb (GitHub.GetBool (GitHub.Merged pr)).

(** The first half of Create has gone on with [pr]: the plan carries the ID
    and the number of [pr], and nothing was added to the response. *)
Definition adopted {W : Type} (repoName : string) (pr : GitHub.PullRequest)
           (resp : Response PullRequestResource.repositoryPullRequestResourceModel)
           (run : option (GitHub.PullRequest
                          * PullRequestResource.repositoryPullRequestResourceModel)
                  * Response PullRequestResource.repositoryPullRequestResourceModel
                  * W * list GitHub.Event) : Prop :=
  exists plan',
    value_of run = (Some (pr, plan'), resp)
    /\ PullRequestResource.ID plan'
       = pullID repoName (GitHub.GetInt (GitHub.Number pr))
    /\ PullRequestResource.Number plan'
       = TF.Int64Value (GitHub.GetInt (GitHub.Number pr)).

(** A remote that keeps pull request [n] for the two refs: from every world
    the list holds it as the first match, and editing or reading number [n]
    returns a pull request with that number. *)
Definition remoteKeeps {W : Type} (R : Remote W)
           (owner repoName baseRef headRef : string) (n : Z) : Prop :=
  forall w,
    (exists prs existing,
        fst (api R (GitHub.PullRequests_List owner repoName
                      (listOptions owner baseRef headRef)) w) = GitHub.Ok prs
        /\ PullRequestResource.firstMatch baseRef headRef prs = Some existing
        /\ GitHub.GetInt (GitHub.Number existing) = n)
    /\ (forall update pr,
           fst (api R (GitHub.PullRequests_Edit owner repoName n update) w)
           = GitHub.Ok pr ->
           GitHub.GetInt (GitHub.Number pr) = n)
    /\ (forall pr,
           fst (api R (GitHub.PullRequests_Get owner repoName n) w)
           = GitHub.Ok pr ->
           GitHub.GetInt (GitHub.Number pr) = n).

(** What a Create that found pull request [n] leaves: no call that creates a
    pull request, and, unless it reports an error, a saved state with the
    number [n], its ID "repository:n" or, when the pull request could not be
    read back (404), empty. *)
Definition adoptedNumber {W : Type} (repoName : string) (n : Z)
           (run : Response PullRequestResource.repositoryPullRequestResourceModel
                  * W * list GitHub.Event) : Prop :=
  countPullCreates (trace_of run) = 0%nat
  /\ (TF.HasError (Diagnostics (value_of run)) = false ->
      exists st,
        SavedState (value_of run) = Some st
        /\ PullRequestResource.Number st = TF.Int64Value n
        /\ (PullRequestResource.ID st = pullID repoName n
            \/ PullRequestResource.ID st = TF.StringValue "")).

Module AdoptScenario.

(** Pull request 7 of octo/repo as it was closed without being merged. *)
Definition pull7closed : GitHub.PullRequest :=
  GitHub.mkPullRequest (Some 7%Z) (Some "closed") (Some "Add feature") None
    (Some false) None (Some false) None None
    (Some (GitHub.mkPullRequestBranch (Some "feature") (Some "sha-head")))
    (Some (GitHub.mkPullRequestBranch (Some "main") (Some "sha-base"))).

(** A remote whose world tells whether pull request 7 has been reopened:
    listing and reading show it closed or open accordingly, editing it
    reopens it. *)
Definition remoteExisting : Remote bool :=
  mkRemote
    (fun c reopened =>
       match c as c0 return GitHub.result (GitHub.Reply c0) * bool with
       | GitHub.PullRequests_List _ _ _ =>
           (GitHub.Ok [if reopened then PullScenario.pull7 else pull7closed],
            reopened)
       | GitHub.PullRequests_Get _ _ _ =>
           (GitHub.Ok (if reopened then PullScenario.pull7 else pull7closed),
            reopened)
       | GitHub.PullRequests_Edit _ _ _ _ => (GitHub.Ok PullScenario.pull7, true)
       | _ => (GitHub.Err (Go.errorString "unexpected call"), reopened)
       end)
    (fun _ w => w).

(** The resource, configured for the owner "octo", and a plan for a pull
    request from [feature] into [main] that is not merged automatically. *)
Definition pullResource : PullRequestResource.repositoryPullRequestResource :=
  PullRequestResource.mkResource (Some (mkClient DefaultTransport None)) "octo".

Definition planFeature : PullRequestResource.repositoryPullRequestResourceModel :=
  PullRequestResource.mkPullModel
    (TF.StringValue "repo") (TF.StringValue "main") (TF.StringValue "feature")
    (TF.StringValue "Add feature") TF.StringNull (TF.BoolValue false)
    TF.StringNull (TF.BoolValue false) (TF.BoolValue false) (TF.BoolValue false)
    TF.StringUnknown TF.StringUnknown TF.Int64Unknown TF.StringUnknown
    TF.BoolUnknown TF.StringUnknown TF.StringUnknown TF.StringUnknown.

End AdoptScenario.


Module ConflictScenario.

(** A remote on which somebody else has changed [a.txt]: its blob SHA is now
    [sha-new]; a write that carries another SHA is refused with 409. *)
Definition remoteMoved : Remote unit :=
  mkRemote
    (fun c w =>
       (match c as c0 return GitHub.result (GitHub.Reply c0) with
        | GitHub.Repositories_CreateFile _ _ _ opts =>
            if String.eqb (GitHub.GetString (GitHub.SHA opts)) "sha-new"
            then GitHub.Ok (GitHub.mkContentResponse (Some "commit-2"))
            else GitHub.Err Scenario.conflict
        | GitHub.Repositories_GetContents _ _ _ _ =>
            GitHub.Ok (Some Scenario.remoteFile, None)
        | _ => GitHub.Err (Go.errorString "unexpected call")
        end, w))
    (fun _ w => w).

End ConflictScenario.


(* ===================================================================== *)
(** ** data_source_repository.go: two-part IDs *)
(* ===================================================================== *)

(** [func buildTwoPartID(part1, part2 string) string]. *)
Definition buildTwoPartID (part1 part2 : string) : string :=
  part1 ++ ":" ++ part2.

(** [func parseTwoPartID(id, part1Name, part2Name string)
     (string, string, error)]: the colon first, then the slash of the old
    format. *)
Definition parseTwoPartID (id part1Name part2Name : string)
  : string * string * option Go.error :=
  let slash :=
    match Go.SplitN id "/" 2 with
    | [part1; part2] => (part1, part2, None)
    | _ =>
        ("", "",
         Some (Go.errorString
                 ("unexpected format of ID (" ++ id ++ "), expected "
                  ++ part1Name ++ ":" ++ part2Name ++ " or "
                  ++ part1Name ++ "/" ++ part2Name)))
    end in
  if Go.Contains id ":" then
    match Go.SplitN id ":" 2 with
    | [part1; part2] => (part1, part2, None)
    | _ => slash
    end
  else slash.

(** The text before and the text after the first byte [c] of a string, if
    it holds one. *)
Fixpoint cut (c : ascii) (s : string) : option (string * string) :=
  match s with
  | EmptyString => None
  | String a s' =>
      if Ascii.eqb a c then Some (EmptyString, s')
      else match cut c s' with
           | Some (before, after) => Some (String a before, after)
           | None => None
           end
  end.


(* ===================================================================== *)
(** ** Vocabulary of the merge statements *)
(* ===================================================================== *)

(** The three merge methods of GitHub, and whether the settings of a
    repository allow a method. *)
Definition knownMethod (method : string) : bool :=
  String.eqb method "squash" || String.eqb method "rebase"
  || String.eqb method "merge".

Definition methodAllowed (repo : GitHub.Repository) (method : string) : bool :=
  if String.eqb method "squash"
  then GitHub.GetBool (GitHub.AllowSquashMerge repo)
  else if String.eqb method "rebase"
  then GitHub.GetBool (GitHub.AllowRebaseMerge repo)
  else if String.eqb method "merge"
  then GitHub.GetBool (GitHub.AllowMergeCommit repo)
  else false.








(* ===================================================================== *)
(** ** Vocabulary of the branch statements *)
(* ===================================================================== *)

(** A Git.CreateRef call, one that creates the reference [name], and a
    Git.GetRef call for [name] that failed. *)
Definition isCreateRef (e : GitHub.Event) : bool :=
  match e with
  | GitHub.EvCall (GitHub.Git_CreateRef _ _ _) _ => true
  | _ => false
  end.

Definition createsRef (name : string) (e : GitHub.Event) : bool :=
  match e with
  | GitHub.EvCall (GitHub.Git_CreateRef _ _ ref) _ =>
      String.eqb (GitHub.GetString (GitHub.Ref ref)) name
  | _ => false
  end.

Definition lookupFailed (name : string) (e : GitHub.Event) : bool :=
  match e with
  | GitHub.EvCall c r =>
      match c as c0 return GitHub.result (GitHub.Reply c0) -> bool with
      | GitHub.Git_GetRef _ _ ref =>
          fun r => match r with
                   | GitHub.Err _ => String.eqb ref name
                   | GitHub.Ok _ => false
                   end
      | _ => fun _ => false
      end r
  | GitHub.EvSleep _ => false
  end.


(* ===================================================================== *)
(** ** Vocabulary of the further file statements *)
(* ===================================================================== *)

(** An event that is not a contents write carrying a SHA. *)
Definition writesWithoutSHA (e : GitHub.Event) : bool :=
  match writeOf e with
  | Some (opts, _) =>
      match GitHub.SHA opts with None => true | Some _ => false end
  | None => true
  end.


(** Two models of the file resource that agree on the fields which the
    file itself decides: content, blob SHA, repository, file, ID, branch. *)
Definition sameFile (a b : FileResource.repositoryFileResourceModel) : Prop :=
  FileResource.Content a = FileResource.Content b
  /\ FileResource.SHA a = FileResource.SHA b
  /\ FileResource.Repository a = FileResource.Repository b
  /\ FileResource.File a = FileResource.File b
  /\ FileResource.ID a = FileResource.ID b
  /\ FileResource.Branch a = FileResource.Branch b.


(** A state of the file resource on a branch, and a remote that answers
    every call with 500. *)
Module BranchScenario.

Definition stateOnBranch : FileResource.repositoryFileResourceModel :=
  FileResource.set_Branch (TF.StringValue "feature") Scenario.stateA.

Definition remoteDown : Remote unit :=
  mkRemote
    (fun c w =>
       (match c as c0 return GitHub.result (GitHub.Reply c0) with
        | GitHub.Git_GetRef _ _ _ => GitHub.Err Scenario.serverError
        | _ => GitHub.Err Scenario.serverError
        end, w))
    (fun _ w => w).

End BranchScenario.


(** A contents write that succeeded. *)
Definition writeSucceeded (e : GitHub.Event) : bool :=
  match writeOf e with
  | Some (_, None) => true
  | _ => false
  end.


(** The state of pull request 7 of octo/repo as Create saved it, and
    [strconv.Atoi] on the one number the scenario needs. *)
Module PullReadScenario.

Definition state7 : PullRequestResource.repositoryPullRequestResourceModel :=
  PullRequestResource.set_ID (TF.StringValue "repo:7")
    (PullRequestResource.set_Number (TF.Int64Value 7)
       AdoptScenario.planFeature).

Definition atoi (s : string) : GitHub.result Z :=
  if String.eqb s "7" then GitHub.Ok 7%Z
  else GitHub.Err (Go.errorString "strconv.Atoi: parsing: invalid syntax").

End PullReadScenario.


(** A status that decides a round of waitForChecks: one that is pending, or
    one that failed. *)
Definition isPending (status : GitHub.RepoStatus) : bool :=
  String.eqb (GitHub.GetString (GitHub.StatusState status)) "pending".

Definition decisive (status : GitHub.RepoStatus) : bool :=
  isPending status
  || String.eqb (GitHub.GetString (GitHub.StatusState status)) "error"
  || String.eqb (GitHub.GetString (GitHub.StatusState status)) "failure".

(** The error waitForChecks returns for a status that failed. *)
Definition checkFailed (status : GitHub.RepoStatus) : Go.error :=
  Go.errorString
    ("status check " ++ GitHub.GetString (GitHub.StatusContext status)
     ++ " failed").


(** [ref.GetObject().GetSHA()]. *)
Definition refSHA (ref : GitHub.Reference) : string :=
  match GitHub.Object ref with
  | Some o => GitHub.GetString (GitHub.ObjectSHA o)
  | None => ""
  end.

(** The four calls that lead Create to a new pull request: the list that
    holds no pull request for the two refs, the lookups of the two branches,
    and the creation. *)
Definition opensPullRequest (owner repoName baseRef headRef : string)
           (prs : list GitHub.PullRequest) (baseObj headObj : GitHub.Reference)
           (newPR : GitHub.NewPullRequest)
           (result : GitHub.result GitHub.PullRequest) : list GitHub.Event :=
  [GitHub.EvCall
     (GitHub.PullRequests_List owner repoName
        (listOptions owner baseRef headRef)) (GitHub.Ok prs);
   GitHub.EvCall (GitHub.Git_GetRef owner repoName ("refs/heads/" ++ baseRef))
     (GitHub.Ok baseObj);
   GitHub.EvCall (GitHub.Git_GetRef owner repoName ("refs/heads/" ++ headRef))
     (GitHub.Ok headObj);
   GitHub.EvCall (GitHub.PullRequests_Create owner repoName newPR) result].

(** A remote without any pull request, on which every branch has a commit
    of its own and pull requests can be created. *)
Module OpenScenario.

Definition remoteNoPull : Remote unit :=
  mkRemote
    (fun c w =>
       (match c as c0 return GitHub.result (GitHub.Reply c0) with
        | GitHub.PullRequests_List _ _ _ => GitHub.Ok []
        | GitHub.Git_GetRef _ _ ref =>
            GitHub.Ok (GitHub.mkReference (Some ref)
                         (Some (GitHub.mkGitObject (Some ("sha of " ++ ref)))))
        | GitHub.PullRequests_Create _ _ _ => GitHub.Ok PullScenario.pull7
        | GitHub.PullRequests_Get _ _ _ => GitHub.Ok PullScenario.pull7
        | _ => GitHub.Err (Go.errorString "unexpected call")
        end, w))
    (fun _ w => w).

End OpenScenario.


(** The two places an owner can be configured in, in the order Configure
    consults them: the owner attribute and GITHUB_OWNER. *)
Definition ownerSources (env : Provider.Environment)
           (config : Provider.githubxProviderModel) : list string :=
  [TF.ValueString (Provider.Owner config); Provider.Getenv env "GITHUB_OWNER"].

(** The token Configure ends up with: the first non-empty of the four
    sources and, with an app_auth block, of the GitHub App token. *)
Definition tokenUsed (env : Provider.Environment)
           (config : Provider.githubxProviderModel) (baseURL0 : Provider.URL)
  : string :=
  firstNonEmpty
    (tokenSources env config
     ++ match Provider.AppAuth config with
        | Some appAuth =>
            [fst (Provider.getGitHubAppToken env appAuth
                    (withTrailingSlash baseURL0))]
        | None => []
        end)%list.

(** The login a lookup of the authenticated user gives, empty when the
    lookup failed or returned no user. *)
Definition loginOf (r : GitHub.result (option GitHub.User)) : string :=
  match r with
  | GitHub.Ok (Some user) => GitHub.GetString (GitHub.Login user)
  | _ => ""
  end.

(** A remote that knows the authenticated user as "octocat". *)
Module OwnerScenario.

Definition octocat : GitHub.User :=
  GitHub.mkUser (Some "octocat") None None None None None None None None None
    None None None None None None None.

Definition remoteUser : Remote unit :=
  mkRemote
    (fun c w =>
       (match c as c0 return GitHub.result (GitHub.Reply c0) with
        | GitHub.Users_Get _ => GitHub.Ok (Some octocat)
        | _ => GitHub.Err (Go.errorString "unexpected call")
        end, w))
    (fun _ w => w).

End OwnerScenario.


(** The update with which Delete closes a pull request, a PullRequests.Edit
    call, and the calls that only look something up: the authenticated user
    or a pull request. *)
Definition closeUpdate : GitHub.PullRequest :=
  GitHub.mkPullRequest None (Some "closed") None None None None None None None
    None None.

Definition isEdit (e : GitHub.Event) : bool :=
  match e with
  | GitHub.EvCall (GitHub.PullRequests_Edit _ _ _ _) _ => true
  | _ => false
  end.

Definition countEdits (tr : list GitHub.Event) : nat :=
  length (filter isEdit tr).

Definition isLookup (e : GitHub.Event) : bool :=
  match e with
  | GitHub.EvCall (GitHub.Users_Get _) _ => true
  | GitHub.EvCall (GitHub.PullRequests_Get _ _ _) _ => true
  | _ => false
  end.


(** An event that is not a PullRequests.Edit call. *)
Definition notEdit (e : GitHub.Event) : bool := negb (isEdit e).

(** Whether Update runs the auto-merge: merge_when_ready has changed and is
    now set. *)
Definition mergeNewlyEnabled
           (plan state : PullRequestResource.repositoryPullRequestResourceModel)
  : bool :=
  negb (TF.Bool_Equal (PullRequestResource.MergeWhenReady plan)
          (PullRequestResource.MergeWhenReady state))
  && TF.ValueBool (PullRequestResource.MergeWhenReady plan).

(** A plan that retitles pull request 7 and a remote that accepts the edit. *)
Module UpdateScenario.

Definition plan7retitled
  : PullRequestResource.repositoryPullRequestResourceModel :=
  PullRequestResource.set_Title (TF.StringValue "Add the feature")
    PullReadScenario.state7.

Definition remoteEditable : Remote unit :=
  mkRemote
    (fun c w =>
       (match c as c0 return GitHub.result (GitHub.Reply c0) with
        | GitHub.PullRequests_Get _ _ _ => GitHub.Ok PullScenario.pull7
        | GitHub.PullRequests_Edit _ _ _ _ => GitHub.Ok PullScenario.pull7
        | _ => GitHub.Err (Go.errorString "unexpected call")
        end, w))
    (fun _ w => w).

End UpdateScenario.



(** The file data source, configured for the owner "octo", asked for
    [a.txt] of the repository [hub/repo] by its full name; [%q] of a string
    without special characters. *)
Module SourceScenario.

Definition fileDataSource : RepositoryFileDataSource.repositoryFileDataSource :=
  RepositoryFileDataSource.mkDataSource
    (Some (mkClient DefaultTransport None)) "octo".

Definition configA : RepositoryFileDataSource.repositoryFileDataSourceModel :=
  RepositoryFileDataSource.mkFileData TF.StringNull (TF.StringValue "hub/repo")
    (TF.StringValue "a.txt") TF.StringNull TF.StringUnknown TF.StringUnknown
    TF.StringUnknown TF.StringUnknown TF.StringUnknown TF.StringUnknown
    TF.StringUnknown TF.StringUnknown.

Definition quote (s : string) : string :=
  Go.str1 Go.dquote ++ s ++ Go.str1 Go.dquote.

End SourceScenario.


(** The error mergeWhenReady returns for a pull request that is closed
    without being merged. *)
Definition notOpen : Go.error := Go.errorString "pull request is not open".

(** Pull request 7 once it is merged, and a remote on which it is. *)
Module MergedScenario.

Definition pull7merged : GitHub.PullRequest :=
  GitHub.mkPullRequest (Some 7%Z) (Some "closed") (Some "Add feature") None
    (Some true) None (Some false)
    (Some (GitHub.mkTimestamp false "2024-05-01T10:00:00Z")) (Some "sha-merge")
    (Some (GitHub.mkPullRequestBranch (Some "feature") (Some "sha-head")))
    (Some (GitHub.mkPullRequestBranch (Some "main") (Some "sha-base"))).

Definition remoteMerged : Remote unit :=
  mkRemote
    (fun c w =>
       (match c as c0 return GitHub.result (GitHub.Reply c0) with
        | GitHub.PullRequests_Get _ _ _ => GitHub.Ok pull7merged
        | _ => GitHub.Err (Go.errorString "unexpected call")
        end, w))
    (fun _ w => w).

End MergedScenario.


(** The events of polling: reading the pull request, listing the statuses of
    its head commit, and sleeping. *)
Definition pollingOnly (e : GitHub.Event) : bool :=
  match e with
  | GitHub.EvCall (GitHub.PullRequests_Get _ _ _) _ => true
  | GitHub.EvCall (GitHub.Repositories_ListStatuses _ _ _) _ => true
  | GitHub.EvSleep _ => true
  | _ => false
  end.

(** A run that first polls and then, at most once and as the last thing it
    does, performs the merge step of mergeWhenReady, whose result is, through
    [wrap], the result of the run. *)
Definition mergesLast {W A : Type} (R : Remote W) (owner repoName : string)
           (number : Z)
           (plan : PullRequestResource.repositoryPullRequestResourceModel)
           (wrap : option Go.error -> A) (run : A * W * list GitHub.Event)
  : Prop :=
  exists pre post,
    trace_of run = (pre ++ post)%list
    /\ forallb pollingOnly pre = true
    /\ (post = []
        \/ exists w',
            post = trace_of (PullRequestResource.mergeNow R owner repoName
                               number plan w')
            /\ value_of run
               = wrap (value_of (PullRequestResource.mergeNow R owner repoName
                                 number plan w'))).


(** Options that carry a commit message which is not empty, and an event
    that is no contents write without one. *)
Definition hasMessage (opts : GitHub.RepositoryContentFileOptions) : bool :=
  match GitHub.Message opts with
  | Some (String _ _) => true
  | _ => false
  end.

Definition writeHasMessage (e : GitHub.Event) : bool :=
  match writeOf e with
  | Some (opts, _) => hasMessage opts
  | None => true
  end.


(* ===================================================================== *)
(** ** data_source_repository.go: deleting and importing a branch *)
(* ===================================================================== *)

Module RepositoryBranchOperations.

Import RepositoryBranchResource.

(** [type repositoryBranchResourceModel struct]. *)
Record repositoryBranchResourceModel : Type := mkBranchModel {
  Repository : TF.types_String;
  Branch : TF.types_String;
  SourceBranch : TF.types_String;
  SourceSHA : TF.types_String;
  ETag : TF.types_String;
  Ref : TF.types_String;
  SHA : TF.types_String;
  ID : TF.types_String
}.

(** What an import leaves in the state: [id], [repository], [branch] and
    [source_branch]. *)
Record ImportedState : Type := mkImported {
  ImportedID : string;
  ImportedRepository : string;
  ImportedBranch : string;
  ImportedSourceBranch : string
}.

(** [func (r *repositoryBranchResource) ImportState]: the diagnostics and
    the state it leaves.  It makes no call. *)
Definition ImportState (reqID : string) (diags : TF.Diagnostics)
  : TF.Diagnostics * option ImportedState :=
  match Go.SplitN reqID ":" 3 with
  | repoName :: branchName :: rest =>
      let sourceBranch :=
        match rest with [sourceBranch] => sourceBranch | _ => "main" end in
      (diags,
       Some (mkImported (buildTwoPartID repoName branchName) repoName
               branchName sourceBranch))
  | _ =>
      (TF.AddError diags "Invalid Import ID"
         "Import ID must be in format 'repository:branch' or 'repository:branch:source_branch'.",
       None)
  end.

Section Operations.

Variable W : Type.
Variable remote : Remote W.

Local Open Scope go_scope.

(** [func (r *repositoryBranchResource) getOwner]. *)
Definition getOwner (r : repositoryBranchResource)
  : M W (string * option Go.error) :=
  if negb (String.eqb (owner r) "") then ret (owner r, None)
  else
    u <- call remote (GitHub.Users_Get "") ;;
    match u with
    | GitHub.Err err =>
        ret ("", Some (Go.errorString
          ("unable to determine owner: provider-level `owner` is not set and unable to fetch authenticated user: "
           ++ Go.Error err)))
    | GitHub.Ok (Some (GitHub.mkUser (Some login) _ _ _ _ _ _ _ _ _ _ _ _ _ _ _ _)) =>
        ret (login, None)
    | GitHub.Ok _ =>
        ret ("", Some (Go.errorString
          "unable to determine owner: provider-level `owner` is not set and authenticated user information is unavailable"))
    end.

(** [func (r *repositoryBranchResource) Delete]. *)
Definition Delete (r : repositoryBranchResource)
           (reqState : Decoded repositoryBranchResourceModel)
           (resp : Response repositoryBranchResourceModel)
  : M W (Response repositoryBranchResourceModel) :=
  let state := decoded reqState in
  let resp :=
    withDiagnostics (TF.Append (Diagnostics resp) (decodeDiags reqState)) resp in
  if TF.HasError (Diagnostics resp) then ret resp
  else
  match client r with
  | None =>
      ret (respAddError resp "Client Error"
             "GitHub client is not configured. Please ensure a token is provided.")
  | Some _ =>
  '(owner, err) <- getOwner r ;;
  match err with
  | Some err =>
      ret (respAddError resp "Missing Owner"
             ("Unable to determine owner: " ++ Go.Error err
              ++ ". Please set provider-level `owner` configuration or ensure authentication is working."))
  | None =>
  let id := TF.ValueString (ID state) in
  let '(repoName, branchName, parseErr) :=
    parseTwoPartID id "repository" "branch" in
  match parseErr with
  | Some parseErr =>
      ret (respAddError resp "Invalid ID"
             ("Invalid ID format: " ++ id
              ++ ". Expected 'repository:branch' or 'repository/branch'. Error: "
              ++ Go.Error parseErr))
  | None =>
  let branchRefName := "refs/heads/" ++ branchName in
  d <- call remote (GitHub.Git_DeleteRef owner repoName branchRefName) ;;
  match d with
  | GitHub.Ok _ => ret resp
  | GitHub.Err err =>
      let failed :=
        respAddError resp "Error deleting branch"
          ("Unable to delete GitHub branch reference " ++ owner ++ "/"
           ++ repoName ++ " (" ++ branchRefName ++ "): " ++ Go.Error err) in
      match Go.AsErrorResponse err with
      | Some (Some statusCode) =>
          if (statusCode =? Go.StatusNotFound)%Z
             || ((statusCode =? Go.StatusUnprocessableEntity)%Z
                 && Go.Contains (Go.Error err) "Reference does not exist")
          then ret resp
          else ret failed
      | _ => ret failed
      end
  end
  end
  end
  end.

End Operations.

End RepositoryBranchOperations.

(** The errors on which the deletion of a branch counts as done: 404, or
    422 with a message that says that the reference does not exist. *)
Definition branchGone (err : Go.error) : bool :=
  Go.hasStatus err Go.StatusNotFound
  || (Go.hasStatus err Go.StatusUnprocessableEntity
      && Go.Contains (Go.Error err) "Reference does not exist").

(** The branch resource, configured for the owner "octo", the state of the
    branch [feature/x] of [repo] with an ID in the old format, and a remote
    on which the reference is already gone. *)
Module BranchDeleteScenario.

Definition branchResource : RepositoryBranchResource.repositoryBranchResource :=
  RepositoryBranchResource.mkResource (Some (mkClient DefaultTransport None))
    "octo".

Definition stateOld : RepositoryBranchOperations.repositoryBranchResourceModel :=
  RepositoryBranchOperations.mkBranchModel (TF.StringValue "repo")
    (TF.StringValue "feature/x") (TF.StringValue "main") TF.StringNull
    TF.StringNull TF.StringNull TF.StringNull (TF.StringValue "repo/feature/x").

Definition alreadyDeleted : Go.error :=
  Scenario.httpError 422 "422 Reference does not exist []".

Definition remoteGone : Remote unit :=
  mkRemote
    (fun c w =>
       (match c as c0 return GitHub.result (GitHub.Reply c0) with
        | GitHub.Git_DeleteRef _ _ _ => GitHub.Err alreadyDeleted
        | _ => GitHub.Err (Go.errorString "unexpected call")
        end, w))
    (fun _ w => w).

End BranchDeleteScenario.


(** [utf8.EncodeRune]: the UTF-8 encoding of a code point. *)
Definition encodeRune (r : Z) : string :=
  if ((0 <=? r) && (r <=? 127))%Z then Go.str1 (Go.byteChar r)
  else if ((0 <=? r) && (r <=? 2047))%Z then
    String (Go.byteChar (Z.lor 192 (Z.shiftr r 6)))
      (Go.str1 (Go.byteChar (Z.lor 128 (Z.land r 63))))
  else
    let r :=
      if ((r <? 0) || (1114111 <? r) || ((55296 <=? r) && (r <=? 57343)))%Z
      then Go.RuneError else r in
    if (r <=? 65535)%Z then
      String (Go.byteChar (Z.lor 224 (Z.shiftr r 12)))
        (String (Go.byteChar (Z.lor 128 (Z.land (Z.shiftr r 6) 63)))
           (Go.str1 (Go.byteChar (Z.lor 128 (Z.land r 63)))))
    else
      String (Go.byteChar (Z.lor 240 (Z.shiftr r 18)))
        (String (Go.byteChar (Z.lor 128 (Z.land (Z.shiftr r 12) 63)))
           (String (Go.byteChar (Z.lor 128 (Z.land (Z.shiftr r 6) 63)))
              (Go.str1 (Go.byteChar (Z.lor 128 (Z.land r 63)))))).

(** A text, by its code points. *)
Fixpoint encodeRunes (rs : list Z) : string :=
  match rs with
  | [] => EmptyString
  | r :: rs' => encodeRune r ++ encodeRunes rs'
  end.

(** A string that starts, or ends, with an ASCII character that is no white
    space; the empty string counts. *)
Definition startsNonSpace (s : string) : bool :=
  match s with
  | EmptyString => true
  | String c _ =>
      (Go.byte c <? Go.RuneSelf)%Z && negb (Go.asciiSpace (Go.byte c))
  end.

Fixpoint endsNonSpace (s : string) : bool :=
  match s with
  | EmptyString => true
  | String c s' =>
      match s' with
      | EmptyString =>
          (Go.byte c <? Go.RuneSelf)%Z && negb (Go.asciiSpace (Go.byte c))
      | String _ _ => endsNonSpace s'
      end
  end.

(** What the decoding functions need to know of the encoding of a rune:
    one ASCII byte; or several bytes of which the first starts a rune, the
    others do not, and the last is not ASCII, and which decode to the
    rune. *)
Inductive encodes (r : Z) : string -> Prop :=
| encodes1 (c : ascii) :
    Go.byte c = r -> (r <? Go.RuneSelf)%Z = true ->
    encodes r (String c "")
| encodes2 (c0 c1 : ascii) :
    (Go.RuneSelf <=? Go.byte c0)%Z = true ->
    (Go.RuneSelf <=? Go.byte c1)%Z = true ->
    Go.RuneStart (Go.byte c0) = true ->
    Go.RuneStart (Go.byte c1) = false ->
    (forall s, Go.DecodeRuneInString (String c0 (String c1 s)) = (r, 2%nat)) ->
    encodes r (String c0 (String c1 ""))
| encodes3 (c0 c1 c2 : ascii) :
    (Go.RuneSelf <=? Go.byte c0)%Z = true ->
    (Go.RuneSelf <=? Go.byte c2)%Z = true ->
    Go.RuneStart (Go.byte c0) = true ->
    Go.RuneStart (Go.byte c1) = false ->
    Go.RuneStart (Go.byte c2) = false ->
    (forall s,
        Go.DecodeRuneInString (String c0 (String c1 (String c2 s)))
        = (r, 3%nat)) ->
    encodes r (String c0 (String c1 (String c2 ""))).



(* ===================================================================== *)
(** ** Vocabulary of the retry statements *)
(* ===================================================================== *)

(** The call of an event, and the error that call returned. *)
Definition callOf (e : GitHub.Event) : option GitHub.Call :=
  match e with
  | GitHub.EvCall c _ => Some c
  | GitHub.EvSleep _ => None
  end.

Definition errorOf (e : GitHub.Event) : option Go.error :=
  match e with
  | GitHub.EvCall _ r => errOf r
  | GitHub.EvSleep _ => None
  end.

(** A trace that starts with the call [c]. *)
Definition startsWithCall (c : GitHub.Call) (tr : list GitHub.Event) : Prop :=
  match tr with
  | e :: _ => callOf e = Some c
  | [] => False
  end.

(** The options of the attempt that follows the re-fetch made after a 409,
    if the loop goes on at all, from the options [opts] of the attempt that
    failed and the file the re-fetch returned ([None] when it returned no
    file or failed).  Update and Delete go on only with a file, and with its
    SHA. *)
Definition retryWithSHA (opts : GitHub.RepositoryContentFileOptions)
           (fetched : option GitHub.RepositoryContent)
  : option GitHub.RepositoryContentFileOptions :=
  match fetched with
  | Some fc =>
      Some (FileResource.opts_set_SHA
              (GitHub.GetString (GitHub.ContentSHA fc)) opts)
  | None => None
  end.

(** Create goes on with the SHA of the file when overwrite_on_create is set
    and stops when it is not; without a file it goes on with the options it
    had. *)
Definition retryCreate (overwrite : bool)
           (opts : GitHub.RepositoryContentFileOptions)
           (fetched : option GitHub.RepositoryContent)
  : option GitHub.RepositoryContentFileOptions :=
  match fetched with
  | Some fc =>
      if overwrite
      then Some (FileResource.opts_set_SHA
                   (GitHub.GetString (GitHub.ContentSHA fc)) opts)
      else None
  | None => Some opts
  end.

(** What follows, in a trace, a contents write that returned [err]; [more]
    tells whether the loop allows another attempt after it.  After a write
    that succeeded no other write is made.  After a write that failed with a
    status other than 409 nothing is called.  After a write that failed with
    409 the call [fetch] is made; then, as [next] decides from the file it
    returned, either nothing else is called, or, when another attempt is
    allowed, the call [write] is made with the options [next] gives. *)
Definition afterWrite
           (write : GitHub.RepositoryContentFileOptions -> GitHub.Call)
           (fetch : GitHub.Call)
           (next : option GitHub.RepositoryContent
                   -> option GitHub.RepositoryContentFileOptions)
           (more : bool) (err : option Go.error) (post : list GitHub.Event)
  : Prop :=
  match err with
  | None => countWrites post = 0%nat
  | Some e =>
      if Go.hasStatus e Go.StatusConflict then
        match post with
        | [] => False
        | g :: rest =>
            callOf g = Some fetch
            /\ match fetchOf g with
               | None => False
               | Some fetched =>
                   match next fetched with
                   | Some opts' =>
                       if more then startsWithCall (write opts') rest
                       else rest = []
                   | None => rest = []
                   end
               end
        end
      else post = []
  end.

(** The whole trace of a retry loop that is entered with [n] attempts
    allowed and the options [opts]: an attempt, and after it what
    [afterWrite] says, the next attempt starting the trace of the loop with
    one attempt less. *)
Fixpoint retryProtocol
         (write : GitHub.RepositoryContentFileOptions -> GitHub.Call)
         (fetch : GitHub.Call)
         (next : GitHub.RepositoryContentFileOptions
                 -> option GitHub.RepositoryContent
                 -> option GitHub.RepositoryContentFileOptions)
         (n : nat) (opts : GitHub.RepositoryContentFileOptions)
         (tr : list GitHub.Event) : Prop :=
  match n with
  | O => tr = []
  | S n' =>
      match tr with
      | [] => False
      | wr :: post =>
          callOf wr = Some (write opts)
          /\ match errorOf wr with
             | None => post = []
             | Some e =>
                 if Go.hasStatus e Go.StatusConflict then
                   match post with
                   | [] => False
                   | g :: rest =>
                       callOf g = Some fetch
                       /\ match fetchOf g with
                          | None => False
                          | Some fetched =>
                              match next opts fetched with
                              | Some opts' =>
                                  retryProtocol write fetch next n' opts' rest
                              | None => rest = []
                              end
                          end
                   end
                 else post = []
             end
      end
  end.

(** A diagnostic list holds a warning with the given summary. *)
Definition hasWarningSummary (summary : string) (ds : TF.Diagnostics) : bool :=
  existsb (fun d => negb (TF.isError d) && String.eqb (TF.Summary d) summary)
          ds.

(** A call that failed with the given status. *)
Definition callFailedWith (code : Z) (e : GitHub.Event) : bool :=
  match errorOf e with
  | Some err => Go.hasStatus err code
  | None => false
  end.

(** A remote that holds one file, [a.txt]: a contents write that carries the
    SHA of the file as the remote holds it replaces the content (the new
    blob has the SHA [sha-3]) or deletes it, one that carries another SHA is
    refused with 409; GetContents returns the file as it is. *)
Module OverwriteScenario.

Definition theirs : GitHub.RepositoryContent :=
  GitHub.mkRepositoryContent (Some "sha-new")
    (Some "https://api.github.com/repos/octo/repo/contents/a.txt")
    (Some "") (Some "their text").

Definition written (content : string) : GitHub.RepositoryContent :=
  GitHub.mkRepositoryContent (Some "sha-3")
    (Some "https://api.github.com/repos/octo/repo/contents/a.txt")
    (Some "") (Some content).

Definition matches (opts : GitHub.RepositoryContentFileOptions)
           (held : option GitHub.RepositoryContent) : bool :=
  match held with
  | Some fc =>
      String.eqb (GitHub.GetString (GitHub.SHA opts))
                 (GitHub.GetString (GitHub.ContentSHA fc))
  | None => false
  end.

Definition remoteHolding : Remote (option GitHub.RepositoryContent) :=
  mkRemote
    (fun c w =>
       match c as c0
             return GitHub.result (GitHub.Reply c0)
                    * option GitHub.RepositoryContent
       with
       | GitHub.Repositories_CreateFile _ _ _ opts =>
           if matches opts w
           then (GitHub.Ok (GitHub.mkContentResponse (Some "commit-2")),
                 Some (written (GitHub.FileContent opts)))
           else (GitHub.Err Scenario.conflict, w)
       | GitHub.Repositories_DeleteFile _ _ _ opts =>
           if matches opts w
           then (GitHub.Ok (GitHub.mkContentResponse (Some "commit-2")), None)
           else (GitHub.Err Scenario.conflict, w)
       | GitHub.Repositories_GetContents _ _ _ _ =>
           match w with
           | Some fc => (GitHub.Ok (Some fc, None), w)
           | None => (GitHub.Err Scenario.notFound, w)
           end
       | _ => (GitHub.Err (Go.errorString "unexpected call"), w)
       end)
    (fun _ w => w).

End OverwriteScenario.

(** Remotes that answer 429: to the lookup of a branch, and to the lookup
    of a commit (the file itself is returned). *)
Module RateLimitScenario.

Definition remoteBranchLimited : Remote unit :=
  mkRemote
    (fun c w =>
       (match c as c0 return GitHub.result (GitHub.Reply c0) with
        | GitHub.Git_GetRef _ _ _ => GitHub.Err Scenario.rateLimited
        | GitHub.Repositories_GetContents _ _ _ _ =>
            GitHub.Ok (Some Scenario.remoteFile, None)
        | _ => GitHub.Err (Go.errorString "unexpected call")
        end, w))
    (fun _ w => w).

Definition remoteCommitLimited : Remote unit :=
  mkRemote
    (fun c w =>
       (match c as c0 return GitHub.result (GitHub.Reply c0) with
        | GitHub.Git_GetRef _ _ _ =>
            GitHub.Ok (GitHub.mkReference (Some "refs/heads/feature") None)
        | GitHub.Repositories_GetContents _ _ _ _ =>
            GitHub.Ok (Some Scenario.remoteFile, None)
        | GitHub.Repositories_GetCommit _ _ _ =>
            GitHub.Err Scenario.rateLimited
        | GitHub.Repositories_ListCommits _ _ _ =>
            GitHub.Err Scenario.rateLimited
        | _ => GitHub.Err (Go.errorString "unexpected call")
        end, w))
    (fun _ w => w).

End RateLimitScenario.


(* ===================================================================== *)
(** * Properties *)
(* ===================================================================== *)

(** ** splitRepoFullName *)

Lemma HasPrefix_slash (c : ascii) (s : string) :
  Go.HasPrefix (String c s) "/" = Ascii.eqb c "/".
Proof.
  unfold Go.HasPrefix. cbn [String.prefix].
  destruct (ascii_dec "/" c) as [E|E]; destruct (Ascii.eqb_spec c "/");
    try congruence; now destruct s.
Qed.

Lemma genSplit_slash_cons (cur : string) (c : ascii) (s : string) :
  Go.genSplit "/" None 0 cur (String c s) =
  if Ascii.eqb c "/" then cur :: Go.genSplit "/" None 0 EmptyString s
  else Go.genSplit "/" None 0 (cur ++ Go.str1 c) s.
Proof.
  cbn [Go.genSplit Go.may_split andb]. rewrite HasPrefix_slash.
  reflexivity.
Qed.

Lemma genSplit_slash_length (s cur : string) :
  length (Go.genSplit "/" None 0 cur s) = S (countByte "/" s).
Proof.
  revert cur. induction s as [|c s IH]; intro cur.
  - reflexivity.
  - rewrite genSplit_slash_cons. cbn [countByte].
    destruct (Ascii.eqb c "/"); cbn [length]; rewrite IH; reflexivity.
Qed.

Lemma append_str1 (cur : string) (c : ascii) (s : string) :
  (cur ++ Go.str1 c) ++ s = cur ++ String c s.
Proof.
  induction cur as [|a cur IH]; cbn; [reflexivity | now rewrite IH].
Qed.

Lemma genSplit_slash_none (s cur : string) :
  countByte "/" s = 0%nat -> Go.genSplit "/" None 0 cur s = [cur ++ s].
Proof.
  revert cur. induction s as [|c s IH]; intros cur H.
  - cbn. f_equal. induction cur as [|a cur IH]; cbn; congruence.
  - rewrite genSplit_slash_cons. cbn [countByte] in H.
    destruct (Ascii.eqb c "/"); [discriminate|].
    rewrite IH by exact H. now rewrite append_str1.
Qed.

Lemma genSplit_slash_two (s cur a b : string) :
  Go.genSplit "/" None 0 cur s = [a; b] ->
  cur ++ s = a ++ "/" ++ b /\ countByte "/" s = 1%nat /\ countByte "/" b = 0%nat.
Proof.
  revert cur. induction s as [|c s IH]; intros cur H.
  - discriminate.
  - rewrite genSplit_slash_cons in H.
    destruct (Ascii.eqb_spec c "/") as [->|Hne].
    + injection H as <- Hrest.
      assert (Hlen : length (Go.genSplit "/" None 0 EmptyString s) = 1%nat)
        by now rewrite Hrest.
      rewrite genSplit_slash_length in Hlen.
      assert (Hz : countByte "/" s = 0%nat) by lia.
      rewrite genSplit_slash_none in Hrest by exact Hz.
      cbn in Hrest. injection Hrest as <-.
      cbn [countByte]. rewrite Hz. cbn. auto.
    + apply IH in H. destruct H as (H1 & H2 & H3).
      rewrite append_str1 in H1. cbn [countByte].
      destruct (Ascii.eqb_spec c "/"); [contradiction|]. auto.
Qed.

Lemma countByte_app (c : ascii) (a b : string) :
  countByte c (a ++ b) = (countByte c a + countByte c b)%nat.
Proof.
  induction a as [|x a IH]; cbn [append countByte]; [reflexivity|].
  rewrite IH. lia.
Qed.

Lemma Split_slash (s : string) :
  Go.Split s "/" = Go.genSplit "/" None 0 EmptyString s.
Proof. reflexivity. Qed.

Lemma genSplit_slash_one_two (s cur : string) :
  countByte "/" s = 1%nat ->
  exists a b, Go.genSplit "/" None 0 cur s = [a; b].
Proof.
  revert cur. induction s as [|c s IH]; intros cur H.
  - discriminate.
  - rewrite genSplit_slash_cons. cbn [countByte] in H.
    destruct (Ascii.eqb c "/").
    + exists cur, s. rewrite genSplit_slash_none by lia. reflexivity.
    + apply IH. exact H.
Qed.

(** C10: [splitRepoFullName s] succeeds exactly when splitting [s] on "/"
    gives two parts, which happens exactly when [s] holds one "/"; the
    results are then the text before and the text after that "/"; otherwise
    it returns an error with two empty strings. *)
Theorem splitRepoFullName_two_parts
        (strconv_Quote : string -> string) (s : string) :
  (forall a b, splitRepoFullName strconv_Quote s = (a, b, None)
               <-> Go.Split s "/" = [a; b])
  /\ ((exists a b, Go.Split s "/" = [a; b]) <-> countByte "/" s = 1%nat)
  /\ (forall a b, Go.Split s "/" = [a; b] ->
                  s = a ++ "/" ++ b
                  /\ countByte "/" a = 0%nat /\ countByte "/" b = 0%nat)
  /\ ((exists a b, Go.Split s "/" = [a; b])
      \/ exists e, splitRepoFullName strconv_Quote s = ("", "", Some e)).
Proof.
  repeat split.
  - unfold splitRepoFullName.
    destruct (Go.Split s "/") as [|x [|y [|z l]]]; intro H;
      try discriminate. now injection H as -> ->.
  - intro H. unfold splitRepoFullName. now rewrite H.
  - intros (a & b & H). rewrite Split_slash in H.
    now apply genSplit_slash_two in H.
  - intro H. rewrite Split_slash. now apply genSplit_slash_one_two.
  - rewrite Split_slash in H. apply genSplit_slash_two in H. now cbn in H.
  - rewrite Split_slash in H.
    pose proof (genSplit_slash_two _ _ H) as (H1 & H2 & H3).
    cbn in H1. subst s.
    rewrite countByte_app in H2. cbn [append countByte] in H2.
    rewrite H3 in H2. change (Ascii.eqb "/" "/") with true in H2.
    cbv iota in H2. lia.
  - rewrite Split_slash in H. now apply genSplit_slash_two in H.
  - unfold splitRepoFullName.
    destruct (Go.Split s "/") as [|x [|y [|z l]]]; eauto.
Qed.

(** ** Running computations *)

Lemma run_bind {W A B : Type} (m : M W A) (k : A -> M W B) (w : W) :
  bind m k w =
  (value_of (k (value_of (m w)) (world_of (m w))),
   world_of (k (value_of (m w)) (world_of (m w))),
   (trace_of (m w) ++ trace_of (k (value_of (m w)) (world_of (m w))))%list).
Proof.
  unfold bind, value_of, world_of, trace_of.
  destruct (m w) as [[a w1] l1]. cbn.
  destruct (k a w1) as [[b w2] l2]. reflexivity.
Qed.

Lemma run_call {W : Type} (R : Remote W) (c : GitHub.Call) (w : W) :
  call R c w = (fst (api R c w), snd (api R c w),
                [GitHub.EvCall c (fst (api R c w))]).
Proof. unfold call. now destruct (api R c w). Qed.

Lemma run_ret {W A : Type} (a : A) (w : W) : ret a w = (a, w, []).
Proof. reflexivity. Qed.

Lemma countWrites_app (a b : list GitHub.Event) :
  countWrites (a ++ b) = (countWrites a + countWrites b)%nat.
Proof. unfold countWrites. now rewrite filter_app, length_app. Qed.

Lemma countFetches_app (a b : list GitHub.Event) :
  countFetches (a ++ b) = (countFetches a + countFetches b)%nat.
Proof. unfold countFetches. now rewrite filter_app, length_app. Qed.

Lemma countWrites_cons (e : GitHub.Event) (l : list GitHub.Event) :
  countWrites (e :: l) = ((if isWrite e then 1 else 0) + countWrites l)%nat.
Proof. unfold countWrites. cbn. now destruct (isWrite e). Qed.

Lemma countFetches_cons (e : GitHub.Event) (l : list GitHub.Event) :
  countFetches (e :: l) = ((if isFetch e then 1 else 0) + countFetches l)%nat.
Proof. unfold countFetches. cbn. now destruct (isFetch e). Qed.

(** One step of a traced computation: expose the reply of the next call. *)
Ltac step :=
  rewrite ?run_bind, ?run_call, ?run_ret;
  cbn [value_of world_of trace_of fst snd app].

Ltac reply R c w r w' :=
  let E := fresh "E" in
  destruct (api R c w) as [r w'] eqn:E;
  cbn [value_of world_of trace_of fst snd app] in *.

(** ** Computations whose events all satisfy a predicate *)

Lemma eventsAll_ret {W A : Type} (P : GitHub.Event -> bool) (a : A) :
  eventsAll P (ret (W := W) a).
Proof. intro w. reflexivity. Qed.

Lemma eventsAll_bind {W A B : Type} (P : GitHub.Event -> bool)
      (m : M W A) (k : A -> M W B) :
  eventsAll P m -> (forall a, eventsAll P (k a)) -> eventsAll P (bind m k).
Proof.
  intros Hm Hk w. rewrite run_bind. cbn [trace_of snd].
  rewrite forallb_app. now rewrite (Hm w), (Hk _ _).
Qed.

Lemma eventsAll_call {W : Type} (P : GitHub.Event -> bool) (R : Remote W)
      (c : GitHub.Call) :
  (forall r, P (GitHub.EvCall c r) = true) -> eventsAll P (call R c).
Proof. intros H w. rewrite run_call. cbn. now rewrite H. Qed.

Lemma eventsAll_Sleep {W : Type} (P : GitHub.Event -> bool) (R : Remote W)
      (d : Z) :
  P (GitHub.EvSleep d) = true -> eventsAll P (Sleep R d).
Proof. intros H w. cbn. now rewrite H. Qed.

Lemma notWrite_count (tr : list GitHub.Event) :
  forallb notWrite tr = true -> countWrites tr = 0%nat.
Proof.
  induction tr as [|e tr IH]; [reflexivity|].
  cbn [forallb]. rewrite andb_true_iff. intros [He Htr].
  rewrite countWrites_cons, (IH Htr). unfold notWrite in He.
  now destruct (isWrite e).
Qed.

(** Syntax-directed proof that all events of a computation satisfy a
    predicate: through binds, returns, calls, and case distinctions. *)
Ltac events_all :=
  repeat first
    [ apply eventsAll_ret
    | apply eventsAll_bind
    | apply eventsAll_call; intro; reflexivity
    | apply eventsAll_Sleep; reflexivity
    | progress intros
    | match goal with
      | |- eventsAll _ (match ?x with _ => _ end) => destruct x
      | |- eventsAll _ (if ?b then _ else _) => destruct b
      | |- eventsAll _ (let '(_, _) := ?x in _) => destruct x
      end ].

(** ** Diagnostics *)

Lemma Diagnostic_Equal_summary (a b : TF.Diagnostic) :
  TF.Diagnostic_Equal a b = true ->
  TF.isError b = TF.isError a /\ TF.Summary b = TF.Summary a.
Proof.
  unfold TF.Diagnostic_Equal. rewrite !andb_true_iff.
  intros [[Hs Hsum] _]. apply String.eqb_eq in Hsum. split; [|congruence].
  unfold TF.isError. destruct (TF.severity a), (TF.severity b);
    cbn in *; congruence.
Qed.

Lemma hasErrorSummary_app (s : string) (a b : TF.Diagnostics) :
  hasErrorSummary s (a ++ b)%list
  = hasErrorSummary s a || hasErrorSummary s b.
Proof. unfold hasErrorSummary. apply existsb_app. Qed.

Lemma hasErrorSummary_AddError (ds : TF.Diagnostics) (summary detail : string) :
  hasErrorSummary summary (TF.AddError ds summary detail) = true.
Proof.
  unfold TF.AddError. cbn [TF.Append].
  destruct (TF.Diagnostics_Contains ds _) eqn:Hc.
  - unfold TF.Diagnostics_Contains in Hc. apply existsb_exists in Hc.
    destruct Hc as (x & Hin & Heq).
    apply Diagnostic_Equal_summary in Heq. cbn in Heq. destruct Heq as [He Hs].
    unfold hasErrorSummary. apply existsb_exists. exists x.
    split; [exact Hin|]. rewrite He, Hs. cbn. apply String.eqb_refl.
  - rewrite hasErrorSummary_app. cbn. rewrite String.eqb_refl.
    now rewrite orb_true_r.
Qed.

Lemma hasErrorSummary_HasError (s : string) (ds : TF.Diagnostics) :
  hasErrorSummary s ds = true -> TF.HasError ds = true.
Proof.
  unfold hasErrorSummary, TF.HasError. rewrite !existsb_exists.
  intros (x & Hin & H). apply andb_true_iff in H. exists x. tauto.
Qed.

Lemma lastEvent_app (a b : list GitHub.Event) :
  b <> [] -> lastEvent (a ++ b) = lastEvent b.
Proof.
  intro Hb. induction a as [|x a IH]; [reflexivity|].
  cbn [app lastEvent]. destruct (a ++ b)%list eqn:E.
  - destruct a, b; cbn in E; congruence.
  - exact IH.
Qed.

Lemma endsWithFailedWrite_app (e : Go.error) (pre tr : list GitHub.Event) :
  endsWithFailedWrite e tr -> endsWithFailedWrite e (pre ++ tr).
Proof.
  intros (p & w & o & -> & Hw). exists (pre ++ p)%list, w, o.
  split; [now rewrite app_assoc|exact Hw].
Qed.

Lemma endsWithFailedWrite_lastEvent (e : Go.error) (tr : list GitHub.Event) :
  endsWithFailedWrite e tr ->
  exists w opts, lastEvent tr = Some w /\ writeOf w = Some (opts, Some e).
Proof.
  intros (p & w & o & -> & Hw). exists w, o. split; [|exact Hw].
  now rewrite lastEvent_app.
Qed.

(** A trace none of whose events satisfies [P] does not end on one. *)
Lemma ends_none (P : GitHub.Event -> bool) (tr : list GitHub.Event) :
  forallb (fun e => negb (P e)) tr = true ->
  match lastEvent tr with Some e => P e | None => false end = false.
Proof.
  induction tr as [|e tr IH]; [reflexivity|].
  cbn [forallb lastEvent]. rewrite andb_true_iff. intros [He Htr].
  destruct tr as [|e' tr'].
  - now destruct (P e).
  - apply IH. exact Htr.
Qed.

(** ** Traces of retry loops *)

Lemma fetch_not_write (g : GitHub.Event) (f : option GitHub.RepositoryContent) :
  fetchOf g = Some f -> writeOf g = None.
Proof. destruct g as [c r|d]; [destruct c|]; cbn; congruence. Qed.

Lemma write_not_fetch (w : GitHub.Event)
      (x : GitHub.RepositoryContentFileOptions * option Go.error) :
  writeOf w = Some x -> fetchOf w = None.
Proof. destruct w as [c r|d]; [destruct c|]; cbn; congruence. Qed.

Lemma loopTrace_nil (strict : bool) (opts : GitHub.RepositoryContentFileOptions) :
  loopTrace strict 0 opts [].
Proof. unfold loopTrace. cbn. repeat split; lia. Qed.

Lemma loopTrace_single (strict : bool) (n : nat)
      (opts : GitHub.RepositoryContentFileOptions) (err : option Go.error)
      (w : GitHub.Event) :
  writeOf w = Some (opts, err) -> loopTrace strict (S n) opts [w].
Proof.
  intro Hw. unfold loopTrace.
  rewrite !countWrites_cons, !countFetches_cons. unfold isWrite, isFetch.
  rewrite (write_not_fetch _ Hw). cbn [retryDiscipline]. rewrite Hw.
  cbn. repeat split; try lia. eauto.
Qed.

Lemma loopTrace_break (strict : bool) (n : nat)
      (opts : GitHub.RepositoryContentFileOptions) (err : option Go.error)
      (w g : GitHub.Event) (f : option GitHub.RepositoryContent) :
  writeOf w = Some (opts, err) ->
  failedWith Go.StatusConflict err = true ->
  fetchOf g = Some f ->
  loopTrace strict (S n) opts [w; g].
Proof.
  intros Hw Hc Hg. unfold loopTrace.
  rewrite !countWrites_cons, !countFetches_cons. unfold isWrite, isFetch.
  rewrite (write_not_fetch _ Hw), (fetch_not_write _ Hg), Hw, Hg.
  cbn [retryDiscipline]. rewrite Hw, Hg.
  cbn. repeat split; try lia; eauto.
Qed.

Lemma loopTrace_retry (strict : bool) (n : nat)
      (opts opts' : GitHub.RepositoryContentFileOptions)
      (err : option Go.error) (w g : GitHub.Event)
      (f : option GitHub.RepositoryContent) (tr : list GitHub.Event) :
  writeOf w = Some (opts, err) ->
  failedWith Go.StatusConflict err = true ->
  fetchOf g = Some f ->
  match f with
  | Some fc => GitHub.SHA opts' = Some (GitHub.GetString (GitHub.ContentSHA fc))
  | None => strict = false /\ GitHub.SHA opts' = GitHub.SHA opts
  end ->
  loopTrace strict n opts' tr ->
  loopTrace strict (S n) opts (w :: g :: tr).
Proof.
  intros Hw Hc Hg Hsha (Hd & Hn & Hf & Hl & Hhead). unfold loopTrace.
  assert (Hww : isWrite w = true) by (unfold isWrite; now rewrite Hw).
  assert (Hwf : isFetch w = false)
    by (unfold isFetch; now rewrite (write_not_fetch _ Hw)).
  assert (Hgw : isWrite g = false)
    by (unfold isWrite; now rewrite (fetch_not_write _ Hg)).
  assert (Hgf : isFetch g = true) by (unfold isFetch; now rewrite Hg).
  rewrite !(countWrites_cons w), !(countFetches_cons w),
          !(countWrites_cons g), !(countFetches_cons g).
  rewrite Hww, Hwf, Hgw, Hgf.
  cbn [retryDiscipline length]. rewrite Hw, Hg.
  split; [|repeat split; try lia; eauto].
  split; [exact Hc|].
  destruct tr as [|w' tr']; [exact I|].
  destruct Hhead as (err' & Hw'). rewrite Hw'. split; assumption.
Qed.

Lemma lastWriteError_write (err : option Go.error) (w : GitHub.Event)
      (x : GitHub.RepositoryContentFileOptions * option Go.error)
      (tr : list GitHub.Event) :
  writeOf w = Some x ->
  lastWriteError err (w :: tr) = lastWriteError (snd x) tr.
Proof. intro H. cbn. rewrite H. now destruct x. Qed.

Lemma lastWriteError_skip (err : option Go.error) (g : GitHub.Event)
      (tr : list GitHub.Event) :
  writeOf g = None -> lastWriteError err (g :: tr) = lastWriteError err tr.
Proof. intro H. cbn. now rewrite H. Qed.

Lemma lastWriteError_quiet (err : option Go.error) (tr : list GitHub.Event) :
  countWrites tr = 0%nat -> lastWriteError err tr = err.
Proof.
  revert err. induction tr as [|e tr IH]; intros err H; [reflexivity|].
  rewrite countWrites_cons in H. unfold isWrite in H. cbn.
  destruct (writeOf e); [discriminate|]. apply IH. lia.
Qed.

Lemma lastWriteError_app (err : option Go.error) (a b : list GitHub.Event) :
  lastWriteError err (a ++ b) = lastWriteError (lastWriteError err a) b.
Proof.
  revert err. induction a as [|e a IH]; intro err; [reflexivity|].
  cbn. destruct (writeOf e) as [[o e']|]; apply IH.
Qed.

Lemma firstWrite_app_quiet (pre tr : list GitHub.Event) :
  countWrites pre = 0%nat -> firstWrite (pre ++ tr) = firstWrite tr.
Proof.
  intro H. unfold firstWrite, countWrites in *. rewrite filter_app.
  destruct (filter isWrite pre); [reflexivity|discriminate].
Qed.

Lemma firstWrite_head (w : GitHub.Event)
      (x : GitHub.RepositoryContentFileOptions * option Go.error)
      (tr : list GitHub.Event) :
  writeOf w = Some x -> firstWrite (w :: tr) = Some x.
Proof.
  intro H. unfold firstWrite. cbn. unfold isWrite. now rewrite H.
Qed.

(** In a trace that obeys the retry discipline, a last write that failed
    with a status other than 409 is the last event: nothing is tried after
    it. *)
Lemma discipline_failed_write_is_last (strict : bool) (e : Go.error)
      (tr : list GitHub.Event) (err : option Go.error) :
  retryDiscipline strict tr ->
  tr <> [] ->
  lastWriteError err tr = Some e ->
  Go.hasStatus e Go.StatusConflict = false ->
  endsWithFailedWrite e tr.
Proof.
  remember (length tr) as n eqn:Hn. revert tr err Hn.
  induction n as [n IH] using lt_wf_ind. intros tr err Hn Hd Hne Hlast Hc.
  destruct tr as [|w rest]; [congruence|].
  cbn [retryDiscipline] in Hd.
  destruct (writeOf w) as [[opts err1]|] eqn:Hw; [|contradiction].
  rewrite (lastWriteError_write _ _ _ Hw) in Hlast. cbn [snd] in Hlast.
  destruct rest as [|g rest'].
  - cbn in Hlast. subst err1. exists [], w, opts. split; [reflexivity|exact Hw].
  - destruct Hd as (H409 & Hd).
    destruct (fetchOf g) as [f|] eqn:Hg; [|contradiction].
    rewrite (lastWriteError_skip _ _ _ (fetch_not_write _ Hg)) in Hlast.
    destruct rest' as [|w' rest''].
    + cbn in Hlast. subst err1. cbn in H409. congruence.
    + destruct (writeOf w') as [[opts' err2]|] eqn:Hw';
        [|destruct Hd as [[] _]].
      destruct Hd as (_ & Hd).
      destruct (IH (length (w' :: rest'')) ltac:(subst n; cbn; lia)
                   (w' :: rest'') err1 eq_refl Hd ltac:(discriminate)
                   Hlast Hc) as (pre & x & o & Hpre & Hx).
      exists (w :: g :: pre), x, o. split; [|exact Hx].
      cbn. now rewrite Hpre.
Qed.

(** ** The repository-file resource: conflict retries *)

Section FileRetries.

Variable W : Type.
Variable remote : Remote W.
Variable GetContent : GitHub.RepositoryContent -> GitHub.result string.
Variable url_Parse_RawQuery : string -> GitHub.result string.
Variable url_ParseQuery : string -> GitHub.result (list (string * list string)).

Import FileResource.

Lemma opts_set_SHA_SHA (sha : string)
      (o : GitHub.RepositoryContentFileOptions) :
  GitHub.SHA (opts_set_SHA sha o) = Some sha.
Proof. reflexivity. Qed.

(** The trace of Update's retry loop. *)
Lemma Update_retry_trace (n : nat) (owner repoName filePath : string)
      (plan : repositoryFileResourceModel)
      (opts : GitHub.RepositoryContentFileOptions)
      (create : option GitHub.RepositoryContentResponse)
      (err : option Go.error) (w : W) :
  loopTrace true n opts
    (trace_of (Update_retry remote n owner repoName filePath plan opts
                 create err w)).
Proof.
  revert opts create err w.
  induction n as [|n IH]; intros opts create err w.
  - apply loopTrace_nil.
  - cbn [Update_retry]. step.
    reply remote (GitHub.Repositories_CreateFile owner repoName filePath opts)
          w r w1.
    destruct r as [c|e].
    + eapply loopTrace_single. reflexivity.
    + destruct (Go.hasStatus e Go.StatusConflict) eqn:Hc;
        [|eapply loopTrace_single; reflexivity].
      step.
      reply remote (GitHub.Repositories_GetContents owner repoName filePath
                      (getOptions plan)) w1 g w2.
      destruct g as [[[fc|] dc]|ge];
        try (eapply loopTrace_break; [reflexivity | exact Hc | reflexivity]).
      eapply loopTrace_retry;
        [reflexivity | exact Hc | reflexivity | | apply IH].
      reflexivity.
Qed.

(** Update's loop is left by falling out of it, with the error of its last
    write; without an error it holds the response of that write. *)
Lemma Update_retry_exit (n : nat) (owner repoName filePath : string)
      (plan : repositoryFileResourceModel)
      (opts : GitHub.RepositoryContentFileOptions) (err : option Go.error)
      (w : W) :
  let run := Update_retry remote n owner repoName filePath plan opts None err w in
  exists create,
    value_of run = Fell create (lastWriteError err (trace_of run))
    /\ (create = None -> lastWriteError err (trace_of run) = err
                         \/ lastWriteError err (trace_of run) <> None).
Proof.
  revert opts err w.
  induction n as [|n IH]; intros opts err w; cbn zeta.
  - cbn. eauto.
  - cbn [Update_retry]. step.
    reply remote (GitHub.Repositories_CreateFile owner repoName filePath opts)
          w r w1.
    destruct r as [c|e].
    + cbn. eexists. split; [reflexivity|discriminate].
    + destruct (Go.hasStatus e Go.StatusConflict) eqn:Hc.
      * step.
        reply remote (GitHub.Repositories_GetContents owner repoName filePath
                        (getOptions plan)) w1 g w2.
        destruct g as [[[fc|] dc]|ge];
          try (cbn; eexists; split; [reflexivity|right; discriminate]).
        cbn [lastWriteError writeOf fetchOf errOf].
        destruct (IH (opts_set_SHA (GitHub.GetString (GitHub.ContentSHA fc)) opts)
                     (Some e) w2) as (create & Hv & Hc').
        exists create. split; [exact Hv|].
        intro Hn. destruct (Hc' Hn) as [-> | Hne]; right; [discriminate|exact Hne].
      * cbn. eexists. split; [reflexivity|right; discriminate].
Qed.

(** The trace of Create's retry loop. *)
Lemma Create_retry_trace (n : nat) (owner repoName filePath : string)
      (plan : repositoryFileResourceModel) (diags : TF.Diagnostics)
      (opts : GitHub.RepositoryContentFileOptions)
      (create : option GitHub.RepositoryContentResponse)
      (err : option Go.error) (w : W) :
  loopTrace false n opts
    (trace_of (Create_retry remote n owner repoName filePath plan diags opts
                 create err w)).
Proof.
  revert opts create err w.
  induction n as [|n IH]; intros opts create err w.
  - apply loopTrace_nil.
  - cbn [Create_retry]. step.
    reply remote (GitHub.Repositories_CreateFile owner repoName filePath opts)
          w r w1.
    destruct r as [c|e].
    + eapply loopTrace_single. reflexivity.
    + destruct (Go.hasStatus e Go.StatusConflict) eqn:Hc;
        [|eapply loopTrace_single; reflexivity].
      step.
      reply remote (GitHub.Repositories_GetContents owner repoName filePath
                      (getOptions plan)) w1 g w2.
      destruct g as [[[fc|] dc]|ge].
      * destruct (TF.ValueBool (OverwriteOnCreate plan)).
        -- eapply loopTrace_retry;
             [reflexivity | exact Hc | reflexivity | | apply IH].
           reflexivity.
        -- eapply loopTrace_break; [reflexivity | exact Hc | reflexivity].
      * eapply loopTrace_retry;
          [reflexivity | exact Hc | reflexivity | | apply IH].
        split; reflexivity.
      * eapply loopTrace_retry;
          [reflexivity | exact Hc | reflexivity | | apply IH].
        split; reflexivity.
Qed.

(** The trace of Delete's retry loop. *)
Lemma Delete_retry_trace (n : nat) (owner repoName filePath : string)
      (state : repositoryFileResourceModel) (diags : TF.Diagnostics)
      (opts : GitHub.RepositoryContentFileOptions)
      (err : option Go.error) (w : W) :
  loopTrace true n opts
    (trace_of (Delete_retry remote n owner repoName filePath state diags opts
                 err w)).
Proof.
  revert opts err w.
  induction n as [|n IH]; intros opts err w.
  - apply loopTrace_nil.
  - cbn [Delete_retry]. step.
    reply remote (GitHub.Repositories_DeleteFile owner repoName filePath opts)
          w r w1.
    destruct r as [c|e]; [eapply loopTrace_single; reflexivity|].
    destruct (Go.AsErrorResponse e) as [[code|]|] eqn:Has;
      try (eapply loopTrace_single; reflexivity).
    destruct (code =? Go.StatusNotFound)%Z eqn:H404;
      [eapply loopTrace_single; reflexivity|].
    destruct (code =? Go.StatusConflict)%Z eqn:H409;
      [|eapply loopTrace_single; reflexivity].
    assert (Hc : failedWith Go.StatusConflict (Some e) = true)
      by (cbn; unfold Go.hasStatus; now rewrite Has).
    step.
    reply remote (GitHub.Repositories_GetContents owner repoName filePath
                    (getOptions state)) w1 g w2.
    destruct g as [[[fc|] dc]|ge].
    + eapply loopTrace_retry;
        [reflexivity | exact Hc | reflexivity | | apply IH].
      reflexivity.
    + eapply loopTrace_break; [reflexivity | exact Hc | reflexivity].
    + destruct (Go.hasStatus ge Go.StatusNotFound);
        (eapply loopTrace_break; [reflexivity | exact Hc | reflexivity]).
Qed.

(** Create's loop is left either by the return that reports an existing
    file, after a write that failed with 409, or by falling out of it with
    the error of its last write. *)
Lemma Create_retry_exit (n : nat) (owner repoName filePath : string)
      (plan : repositoryFileResourceModel) (diags : TF.Diagnostics)
      (opts : GitHub.RepositoryContentFileOptions)
      (create : option GitHub.RepositoryContentResponse)
      (err : option Go.error) (w : W) :
  let run := Create_retry remote n owner repoName filePath plan diags opts
               create err w in
  match value_of run with
  | Returned d =>
      (exists detail, d = TF.AddError diags "File Already Exists" detail)
      /\ exists e, lastWriteError err (trace_of run) = Some e
                   /\ Go.hasStatus e Go.StatusConflict = true
  | Fell _ e => e = lastWriteError err (trace_of run)
  end.
Proof.
  revert opts create err w.
  induction n as [|n IH]; intros opts create err w; cbn zeta.
  - reflexivity.
  - cbn [Create_retry]. step.
    reply remote (GitHub.Repositories_CreateFile owner repoName filePath opts)
          w r w1.
    destruct r as [c|e]; [reflexivity|].
    destruct (Go.hasStatus e Go.StatusConflict) eqn:Hc; [|reflexivity].
    step.
    reply remote (GitHub.Repositories_GetContents owner repoName filePath
                    (getOptions plan)) w1 g w2.
    destruct g as [[[fc|] dc]|ge];
      try (cbn [lastWriteError writeOf fetchOf errOf]; apply IH).
    destruct (TF.ValueBool (OverwriteOnCreate plan)).
    + cbn [lastWriteError writeOf fetchOf errOf]. apply IH.
    + cbn. split; eauto.
Qed.

(** Delete's loop is left either by a return that adds no diagnostic, or by
    falling out of it with the error of its last write. *)
Lemma Delete_retry_exit (n : nat) (owner repoName filePath : string)
      (state : repositoryFileResourceModel) (diags : TF.Diagnostics)
      (opts : GitHub.RepositoryContentFileOptions)
      (err : option Go.error) (w : W) :
  let run := Delete_retry remote n owner repoName filePath state diags opts
               err w in
  match value_of run with
  | Returned d =>
      d = diags
      /\ (lastWriteError err (trace_of run) = None
          \/ exists e, lastWriteError err (trace_of run) = Some e
                       /\ (Go.hasStatus e Go.StatusNotFound = true
                           \/ endsWithFetchFailure Go.StatusNotFound
                                (trace_of run) = true))
  | Fell _ e => e = lastWriteError err (trace_of run)
  end.
Proof.
  revert opts err w.
  induction n as [|n IH]; intros opts err w; cbn zeta.
  - reflexivity.
  - cbn [Delete_retry]. step.
    reply remote (GitHub.Repositories_DeleteFile owner repoName filePath opts)
          w r w1.
    destruct r as [c|e]; [cbn; auto|].
    destruct (Go.AsErrorResponse e) as [[code|]|] eqn:Has; try reflexivity.
    destruct (code =? Go.StatusNotFound)%Z eqn:H404.
    { cbn. split; [reflexivity|]. right. exists e. split; [reflexivity|].
      left. unfold Go.hasStatus. now rewrite Has. }
    destruct (code =? Go.StatusConflict)%Z eqn:H409; [|reflexivity].
    step.
    reply remote (GitHub.Repositories_GetContents owner repoName filePath
                    (getOptions state)) w1 g w2.
    destruct g as [[[fc|] dc]|ge]; try reflexivity.
    + cbn [lastWriteError writeOf fetchOf errOf].
      specialize (IH (opts_set_SHA (GitHub.GetString (GitHub.ContentSHA fc))
                                   opts) (Some e) w2).
      cbn zeta in IH.
      destruct (value_of (Delete_retry remote n owner repoName filePath state
                            diags _ (Some e) w2)); [|exact IH].
      destruct IH as (Hd & [Hn | (e' & He' & [H | H])]); split; auto.
      * right. exists e'. auto.
      * right. exists e'. split; [exact He'|]. right.
        unfold endsWithFetchFailure in *. cbn [lastEvent].
        destruct (trace_of _) as [|x l]; [discriminate|exact H].
    + destruct (Go.hasStatus ge Go.StatusNotFound) eqn:Hge; [|reflexivity].
      cbn. split; [reflexivity|]. right. exists e.
      split; [reflexivity|]. right. unfold endsWithFetchFailure. cbn.
      exact Hge.
Qed.

(** A DeleteFile that fails with 404 makes Delete's loop return. *)
Lemma Delete_retry_not_found (n : nat) (owner repoName filePath : string)
      (state : repositoryFileResourceModel) (diags : TF.Diagnostics)
      (opts : GitHub.RepositoryContentFileOptions)
      (err : option Go.error) (w : W) (e : Go.error) :
  let run := Delete_retry remote n owner repoName filePath state diags opts
               err w in
  (forall e', err = Some e' -> Go.hasStatus e' Go.StatusNotFound = false) ->
  lastWriteError err (trace_of run) = Some e ->
  Go.hasStatus e Go.StatusNotFound = true ->
  value_of run = Returned diags.
Proof.
  revert opts err w.
  induction n as [|n IH]; intros opts err w; cbn zeta.
  - cbn. intros Herr Hl He. rewrite (Herr _ Hl) in He. discriminate.
  - cbn [Delete_retry]. step.
    reply remote (GitHub.Repositories_DeleteFile owner repoName filePath opts)
          w r w1.
    intros Herr.
    destruct r as [c|e0]; [reflexivity|].
    destruct (Go.AsErrorResponse e0) as [[code|]|] eqn:Has;
      try (cbn; intros Hl He; injection Hl as <-;
           unfold Go.hasStatus in He; rewrite Has in He; discriminate).
    destruct (code =? Go.StatusNotFound)%Z eqn:H404; [reflexivity|].
    destruct (code =? Go.StatusConflict)%Z eqn:H409.
    2:{ cbn. intros Hl He. injection Hl as <-.
        unfold Go.hasStatus in He. rewrite Has in He. congruence. }
    step.
    reply remote (GitHub.Repositories_GetContents owner repoName filePath
                    (getOptions state)) w1 g w2.
    assert (He0 : Go.hasStatus e0 Go.StatusNotFound = false)
      by (unfold Go.hasStatus; now rewrite Has).
    destruct g as [[[fc|] dc]|ge].
    + cbn [lastWriteError writeOf fetchOf errOf]. apply IH.
      intros e' He'. now injection He' as <-.
    + cbn. intros Hl He. congruence.
    + destruct (Go.hasStatus ge Go.StatusNotFound) eqn:Hge; [reflexivity|].
      cbn. intros Hl He. congruence.
Qed.

(** The helpers of the resource make no contents write. *)
Lemma getOwner_notWrite (r : repositoryFileResource) :
  eventsAll notWrite (getOwner remote r).
Proof. unfold getOwner. events_all. Qed.

Lemma checkAndCreateBranchIfNeeded_notWrite (owner repo : string)
      (model : repositoryFileResourceModel) (diags : TF.Diagnostics) :
  eventsAll notWrite (checkAndCreateBranchIfNeeded remote owner repo model diags).
Proof.
  unfold checkAndCreateBranchIfNeeded, checkRepositoryBranchExists. events_all.
Qed.

Lemma readFile_notWrite (owner repoName filePath : string)
      (model : repositoryFileResourceModel) (diags : TF.Diagnostics) :
  eventsAll notWrite
    (readFile remote GetContent url_Parse_RawQuery url_ParseQuery
       owner repoName filePath model diags).
Proof. unfold readFile, getFileCommit. events_all. Qed.

(** When the branch check lets the operation go on, it has added no
    diagnostic. *)
Lemma checkAndCreateBranchIfNeeded_ok (owner repo : string)
      (model : repositoryFileResourceModel) (diags : TF.Diagnostics) (w : W) :
  forall model' diags',
    value_of (checkAndCreateBranchIfNeeded remote owner repo model diags w)
    = (true, model', diags') ->
    diags' = diags.
Proof.
  intros model' diags'.
  unfold checkAndCreateBranchIfNeeded, checkRepositoryBranchExists.
  repeat (first
    [ progress step
    | match goal with
      | |- context [api remote ?c ?w] => destruct (api remote c w) as [[?|?] ?]
      | |- context [if ?b then _ else _] => destruct b
      | |- context [match ?x with _ => _ end] => destruct x
      end ]);
    cbn; intro H; now inversion H.
Qed.

Lemma buildFileOptions_SHA (model : repositoryFileResourceModel)
      (content : string) (opts : GitHub.RepositoryContentFileOptions)
      (diags : TF.Diagnostics) :
  buildFileOptions model content = (Some opts, diags) -> GitHub.SHA opts = None.
Proof.
  unfold buildFileOptions.
  destruct (TF.String_known (CommitAuthor model)),
           (TF.String_known (CommitEmail model)); cbn;
    intro H; inversion H; reflexivity.
Qed.

(** Closes a goal about the writes of a trace made of write-free parts. *)
Ltac quiet :=
  cbn [value_of world_of trace_of fst snd ret];
  rewrite ?countWrites_app; cbn [countWrites filter length app]; lia.

(** How a run of Update is built around its retry loop: either it makes no
    contents write at all, or its trace is a write-free prefix, the trace of
    the loop entered with the options that carry the state's SHA, and a
    write-free suffix; when the loop ends with an error, the run ends there
    with the diagnostic "Error updating file". *)
Lemma Update_shape (r : repositoryFileResource)
      (reqPlan reqState : Decoded repositoryFileResourceModel)
      (resp : Response repositoryFileResourceModel) (w : W) :
  let run := Update remote GetContent url_Parse_RawQuery url_ParseQuery
                    r reqPlan reqState resp w in
  countWrites (trace_of run) = 0%nat
  \/ exists pre owner repoName filePath plan opts w0 resp0,
      let loop := Update_retry remote (Z.to_nat maxRetries) owner repoName
                    filePath plan opts None None w0 in
      countWrites pre = 0%nat
      /\ GitHub.SHA opts
         = (if TF.String_known (SHA (decoded reqState))
            then Some (TF.ValueString (SHA (decoded reqState))) else None)
      /\ SavedState resp0 = SavedState resp
      /\ TF.HasError (Diagnostics resp0) = false
      /\ match value_of loop with
         | Fell _ (Some err) =>
             trace_of run = (pre ++ trace_of loop)%list
             /\ exists detail,
                 value_of run = respAddError resp0 "Error updating file" detail
         | _ =>
             exists post, trace_of run = (pre ++ trace_of loop ++ post)%list
                          /\ countWrites post = 0%nat
         end.
Proof.
  cbn zeta. unfold Update.
  set (resp1 := withDiagnostics _ (withDiagnostics _ resp)).
  assert (Hsaved : SavedState resp1 = SavedState resp) by reflexivity.
  clearbody resp1.
  destruct (TF.HasError (Diagnostics resp1)) eqn:Hok; [left; reflexivity|].
  destruct (client r); [|left; reflexivity].
  rewrite run_bind.
  pose proof (notWrite_count _ (getOwner_notWrite r w)) as Hown.
  destruct (getOwner remote r w) as [[[owner err] w1] tr1].
  cbn [value_of world_of trace_of fst snd] in *.
  destruct err; [left; quiet|].
  destruct (String.eqb _ ""); [left; quiet|].
  destruct (Go.SplitN _ ":" 2) as [|repoName [|filePath [|x l]]];
    try (left; quiet).
  rewrite run_bind.
  pose proof (notWrite_count _
    (checkAndCreateBranchIfNeeded_notWrite owner repoName (decoded reqPlan)
       (Diagnostics resp1) w1)) as Hbr.
  pose proof (checkAndCreateBranchIfNeeded_ok owner repoName (decoded reqPlan)
                (Diagnostics resp1) w1) as Hdiags.
  destruct (checkAndCreateBranchIfNeeded remote owner repoName
              (decoded reqPlan) (Diagnostics resp1) w1)
    as [[[[ok plan] diags] w2] tr2].
  cbn [value_of world_of trace_of fst snd] in *.
  destruct ok; cbn [negb]; [|left; quiet].
  rewrite (Hdiags _ _ eq_refl) in *. clear Hdiags.
  destruct (buildFileOptions plan _) as [opts diags0] eqn:Hb.
  destruct (TF.HasError diags0); [left; quiet|].
  destruct opts as [opts|]; [|left; quiet].
  pose proof (buildFileOptions_SHA _ _ Hb) as Hsha.
  set (opts1 := if TF.String_known (SHA (decoded reqState)) then _ else opts).
  assert (Hsha1 : GitHub.SHA opts1
                  = if TF.String_known (SHA (decoded reqState))
                    then Some (TF.ValueString (SHA (decoded reqState)))
                    else None)
    by (subst opts1; destruct (TF.String_known _); [reflexivity|exact Hsha]).
  clearbody opts1.
  right. exists (tr1 ++ tr2)%list, owner, repoName, filePath.
  destruct (defaultMessage opts1 filePath);
    [ exists (set_CommitMessage (TF.StringValue ("Update " ++ filePath)) plan),
             (opts_set_Message ("Update " ++ filePath) opts1)
    | exists plan, opts1 ];
    exists w2, (withDiagnostics (Diagnostics resp1) resp1);
    (split; [quiet|]); (split; [exact Hsha1|]); (split; [exact Hsaved|]);
    (split; [exact Hok|]);
    cbn zeta; rewrite run_bind;
    match goal with
    | |- context [Update_retry remote ?n ?o ?rn ?f ?pl ?op None None w2] =>
        destruct (Update_retry remote n o rn f pl op None None w2)
          as [[exit w3] tr3]
    end;
    cbn [value_of world_of trace_of fst snd];
    destruct exit as [d|[create|] [err|]];
    try (split; [now rewrite app_assoc, app_nil_r | eexists; reflexivity]);
    try (exists []; split; [now rewrite !app_nil_r, app_assoc | reflexivity]);
    (eexists; split; [rewrite app_assoc; reflexivity|]);
    apply notWrite_count;
    match goal with
    | |- forallb notWrite (trace_of (?m ?w)) = true =>
        refine ((_ : eventsAll notWrite m) w)
    end;
    (apply eventsAll_bind; [apply readFile_notWrite|]); events_all.
Qed.

(** The branch check leaves the blob SHA of the model alone. *)
Lemma checkAndCreateBranchIfNeeded_SHA (owner repo : string)
      (model : repositoryFileResourceModel) (diags : TF.Diagnostics) (w : W) :
  SHA (snd (fst (value_of
         (checkAndCreateBranchIfNeeded remote owner repo model diags w))))
  = SHA model.
Proof.
  unfold checkAndCreateBranchIfNeeded, checkRepositoryBranchExists.
  repeat (first
    [ progress step
    | match goal with
      | |- context [api remote ?c ?w] => destruct (api remote c w) as [[?|?] ?]
      | |- context [if ?b then _ else _] => destruct b
      | |- context [match ?x with _ => _ end] => destruct x
      end ]);
    reflexivity.
Qed.

(** How a run of Delete is built around its retry loop. *)
Lemma Delete_shape (r : repositoryFileResource)
      (reqState : Decoded repositoryFileResourceModel)
      (resp : Response repositoryFileResourceModel) (w : W) :
  let run := Delete remote r reqState resp w in
  countWrites (trace_of run) = 0%nat
  \/ exists pre owner repoName filePath state opts w0 resp0,
      let loop := Delete_retry remote (Z.to_nat maxRetries) owner repoName
                    filePath state (Diagnostics resp0) opts None w0 in
      countWrites pre = 0%nat
      /\ GitHub.SHA opts
         = (if TF.String_known (SHA (decoded reqState))
            then Some (TF.ValueString (SHA (decoded reqState))) else None)
      /\ SavedState resp0 = SavedState resp
      /\ TF.HasError (Diagnostics resp0) = false
      /\ trace_of run = (pre ++ trace_of loop)%list
      /\ match value_of loop with
         | Returned d => value_of run = withDiagnostics d resp0
         | Fell _ (Some err) =>
             exists detail,
               value_of run = respAddError resp0 "Error deleting file" detail
         | Fell _ None => value_of run = resp0
         end.
Proof.
  cbn zeta. unfold Delete.
  set (resp1 := withDiagnostics _ resp).
  assert (Hsaved : SavedState resp1 = SavedState resp) by reflexivity.
  clearbody resp1.
  destruct (TF.HasError (Diagnostics resp1)) eqn:Hok; [left; reflexivity|].
  destruct (client r); [|left; reflexivity].
  rewrite run_bind.
  pose proof (notWrite_count _ (getOwner_notWrite r w)) as Hown.
  destruct (getOwner remote r w) as [[[owner err] w1] tr1].
  cbn [value_of world_of trace_of fst snd] in *.
  destruct err; [left; quiet|].
  destruct (String.eqb _ ""); [left; quiet|].
  destruct (Go.SplitN _ ":" 2) as [|repoName [|filePath [|x l]]];
    try (left; quiet).
  rewrite run_bind.
  pose proof (notWrite_count _
    (checkAndCreateBranchIfNeeded_notWrite owner repoName (decoded reqState)
       (Diagnostics resp1) w1)) as Hbr.
  pose proof (checkAndCreateBranchIfNeeded_ok owner repoName (decoded reqState)
                (Diagnostics resp1) w1) as Hdiags.
  pose proof (checkAndCreateBranchIfNeeded_SHA owner repoName
                (decoded reqState) (Diagnostics resp1) w1) as Hkeep.
  destruct (checkAndCreateBranchIfNeeded remote owner repoName
              (decoded reqState) (Diagnostics resp1) w1)
    as [[[[ok state] diags] w2] tr2].
  cbn [value_of world_of trace_of fst snd] in *.
  destruct ok; cbn [negb]; [|left; quiet].
  rewrite (Hdiags _ _ eq_refl) in *. clear Hdiags.
  destruct (buildFileOptions state "") as [opts diags0] eqn:Hb.
  destruct (TF.HasError diags0); [left; quiet|].
  destruct opts as [opts|]; [|left; quiet].
  pose proof (buildFileOptions_SHA _ _ Hb) as Hsha.
  set (opts1 := if defaultMessage opts filePath then _ else opts).
  assert (Hsha1 : GitHub.SHA opts1 = None)
    by (subst opts1; destruct (defaultMessage opts filePath);
        [exact Hsha|exact Hsha]).
  clearbody opts1.
  set (opts2 := if TF.String_known (SHA state) then _ else opts1).
  assert (Hsha2 : GitHub.SHA opts2
                  = if TF.String_known (SHA (decoded reqState))
                    then Some (TF.ValueString (SHA (decoded reqState)))
                    else None)
    by (subst opts2; rewrite <- Hkeep;
        destruct (TF.String_known (SHA state)); [reflexivity|exact Hsha1]).
  clearbody opts2.
  right.
  exists (tr1 ++ tr2)%list, owner, repoName, filePath, state, opts2, w2,
         (withDiagnostics (Diagnostics resp1) resp1).
  split; [quiet|]. split; [exact Hsha2|]. split; [exact Hsaved|].
  split; [exact Hok|].
  cbn zeta. rewrite run_bind.
  cbn [Diagnostics withDiagnostics].
  destruct (Delete_retry remote (Z.to_nat maxRetries) owner repoName filePath
              state (Diagnostics resp1) opts2 None w2) as [[exit w3] tr3].
  cbn [value_of world_of trace_of fst snd].
  destruct exit as [d|create [err|]]; cbn [ret trace_of snd];
    rewrite app_nil_r, app_assoc; (split; [reflexivity|]);
    try reflexivity.
  eexists; reflexivity.
Qed.

(** How a run of Create is built around its retry loop. *)
Lemma Create_shape (r : repositoryFileResource)
      (reqPlan : Decoded repositoryFileResourceModel)
      (resp : Response repositoryFileResourceModel) (w : W) :
  let run := Create remote GetContent url_Parse_RawQuery url_ParseQuery
                    r reqPlan resp w in
  countWrites (trace_of run) = 0%nat
  \/ exists pre owner repoName filePath plan opts w0 resp0,
      let loop := Create_retry remote (Z.to_nat maxRetries) owner repoName
                    filePath plan (Diagnostics resp0) opts None None w0 in
      countWrites pre = 0%nat
      /\ SavedState resp0 = SavedState resp
      /\ TF.HasError (Diagnostics resp0) = false
      /\ match value_of loop with
         | Returned d =>
             trace_of run = (pre ++ trace_of loop)%list
             /\ value_of run = withDiagnostics d resp0
         | Fell _ (Some err) =>
             trace_of run = (pre ++ trace_of loop)%list
             /\ exists detail,
                 value_of run = respAddError resp0 "Error creating file" detail
         | Fell _ None =>
             exists post, trace_of run = (pre ++ trace_of loop ++ post)%list
                          /\ countWrites post = 0%nat
         end.
Proof.
  cbn zeta. unfold Create.
  set (resp1 := withDiagnostics _ resp).
  assert (Hsaved : SavedState resp1 = SavedState resp) by reflexivity.
  clearbody resp1.
  destruct (TF.HasError (Diagnostics resp1)) eqn:Hok; [left; reflexivity|].
  destruct (client r); [|left; reflexivity].
  rewrite run_bind.
  pose proof (notWrite_count _ (getOwner_notWrite r w)) as Hown.
  destruct (getOwner remote r w) as [[[owner err] w1] tr1].
  cbn [value_of world_of trace_of fst snd] in *.
  destruct err; [left; quiet|].
  set (repoName := TF.ValueString (Repository (decoded reqPlan))).
  set (filePath := TF.ValueString (File (decoded reqPlan))).
  rewrite run_bind.
  pose proof (notWrite_count _
    (checkAndCreateBranchIfNeeded_notWrite owner repoName (decoded reqPlan)
       (Diagnostics resp1) w1)) as Hbr.
  pose proof (checkAndCreateBranchIfNeeded_ok owner repoName (decoded reqPlan)
                (Diagnostics resp1) w1) as Hdiags.
  destruct (checkAndCreateBranchIfNeeded remote owner repoName
              (decoded reqPlan) (Diagnostics resp1) w1)
    as [[[[ok plan] diags] w2] tr2].
  cbn [value_of world_of trace_of fst snd] in *.
  destruct ok; cbn [negb]; [|left; quiet].
  rewrite (Hdiags _ _ eq_refl) in *. clear Hdiags.
  destruct (buildFileOptions plan _) as [opts diags0] eqn:Hb.
  destruct (TF.HasError diags0); [left; quiet|].
  destruct opts as [opts|]; [|left; quiet].
  match goal with
  | |- context [let '(_, _) := ?x in _] => destruct x as [opts1 plan1]
  end.
  rewrite run_bind.
  match goal with
  | |- context [trace_of (?m w2)] =>
      assert (Hpre : countWrites (trace_of (m w2)) = 0%nat);
      [ apply notWrite_count; refine ((_ : eventsAll notWrite m) w2);
        events_all
      | destruct (m w2) as [[opts2 w3] tr3] ]
  end.
  cbn [value_of world_of trace_of fst snd] in *.
  right.
  exists (tr1 ++ tr2 ++ tr3)%list, owner, repoName, filePath, plan1, opts2, w3,
         (withDiagnostics (Diagnostics resp1) resp1).
  split; [quiet|]. split; [exact Hsaved|]. split; [exact Hok|].
  cbn zeta. rewrite run_bind. cbn [Diagnostics withDiagnostics].
  destruct (Create_retry remote (Z.to_nat maxRetries) owner repoName filePath
              plan1 (Diagnostics resp1) opts2 None None w3)
    as [[exit w4] tr4].
  cbn [value_of world_of trace_of fst snd].
  destruct exit as [d|create [err|]].
  - cbn. rewrite app_nil_r, <- !app_assoc. split; reflexivity.
  - cbn. rewrite app_nil_r, <- !app_assoc. split; [reflexivity|].
    destruct create; eexists; reflexivity.
  - eexists. split; [rewrite <- !app_assoc; reflexivity|].
    apply notWrite_count.
    match goal with
    | |- forallb notWrite (trace_of (?m ?w)) = true =>
        refine ((_ : eventsAll notWrite m) w)
    end.
    apply eventsAll_bind; [apply readFile_notWrite|]. events_all.
Qed.

(** *** What the three operations do, read off their traces *)

(** Update makes at most five writes, around one retry loop. *)
Lemma Update_bounded (r : repositoryFileResource)
      (reqPlan reqState : Decoded repositoryFileResourceModel)
      (resp : Response repositoryFileResourceModel) (w : W) :
  let run := Update remote GetContent url_Parse_RawQuery url_ParseQuery
                    r reqPlan reqState resp w in
  (countWrites (trace_of run) <= 5)%nat /\ aroundRetryLoop true (trace_of run).
Proof.
  cbn zeta.
  destruct (Update_shape r reqPlan reqState resp w)
    as [H0 | (pre & owner & repoName & filePath & plan & opts & w0 & resp0
              & Hpre & _ & _ & _ & H)].
  - split; [lia|]. exists (trace_of (Update remote GetContent url_Parse_RawQuery
                                      url_ParseQuery r reqPlan reqState resp w)),
                         [], [].
    rewrite app_nil_r. repeat split; auto.
  - cbn zeta in H.
    pose proof (Update_retry_trace (Z.to_nat maxRetries) owner repoName
                  filePath plan opts None None w0) as (Hd & Hn & _).
    change (Z.to_nat maxRetries) with 5%nat in *.
    destruct (value_of (Update_retry remote 5 owner repoName filePath plan opts
                          None None w0)) as [d|c [err|]].
    + destruct H as (post & -> & Hpost). split.
      * rewrite !countWrites_app. lia.
      * exists pre, (trace_of (Update_retry remote 5 owner repoName filePath
                                 plan opts None None w0)), post. auto.
    + destruct H as (-> & _). split.
      * rewrite !countWrites_app. lia.
      * exists pre, (trace_of (Update_retry remote 5 owner repoName filePath
                                 plan opts None None w0)), [].
        rewrite app_nil_r. auto.
    + destruct H as (post & -> & Hpost). split.
      * rewrite !countWrites_app. lia.
      * exists pre, (trace_of (Update_retry remote 5 owner repoName filePath
                                 plan opts None None w0)), post. auto.
Qed.

(** When the last write of an Update has failed, the run ends with the
    diagnostic "Error updating file" and saves no state; when the failure is
    not a 409, that write is the last thing the run did. *)
Lemma Update_failure (r : repositoryFileResource)
      (reqPlan reqState : Decoded repositoryFileResourceModel)
      (resp : Response repositoryFileResourceModel) (w : W) (e : Go.error) :
  let run := Update remote GetContent url_Parse_RawQuery url_ParseQuery
                    r reqPlan reqState resp w in
  lastWriteError None (trace_of run) = Some e ->
  hasErrorSummary "Error updating file" (Diagnostics (value_of run)) = true
  /\ SavedState (value_of run) = SavedState resp
  /\ (Go.hasStatus e Go.StatusConflict = false ->
      endsWithFailedWrite e (trace_of run)).
Proof.
  cbn zeta. intro Hlast.
  destruct (Update_shape r reqPlan reqState resp w)
    as [H0 | (pre & owner & repoName & filePath & plan & opts & w0 & resp0
              & Hpre & _ & Hsaved & _ & H)].
  - rewrite (lastWriteError_quiet _ _ H0) in Hlast. discriminate.
  - cbn zeta in H.
    pose proof (Update_retry_trace (Z.to_nat maxRetries) owner repoName
                  filePath plan opts None None w0) as (Hd & _ & _ & _ & Hhead).
    destruct (Update_retry_exit (Z.to_nat maxRetries) owner repoName filePath
                plan opts None w0) as (create & Hv & _).
    cbn zeta in Hv. rewrite Hv in H.
    destruct (lastWriteError None
                (trace_of (Update_retry remote (Z.to_nat maxRetries) owner
                             repoName filePath plan opts None None w0)))
      as [err|] eqn:Hloop.
    + destruct H as (Htr & detail & Hval).
      rewrite Htr, lastWriteError_app, (lastWriteError_quiet _ _ Hpre), Hloop
        in Hlast.
      injection Hlast as ->. rewrite Hval. cbn [respAddError withDiagnostics
        Diagnostics SavedState].
      split; [apply hasErrorSummary_AddError|]. split; [exact Hsaved|].
      intro Hc. rewrite Htr. apply endsWithFailedWrite_app.
      eapply discipline_failed_write_is_last; eauto.
      intro Hnil. rewrite Hnil in Hloop. discriminate.
    + assert (Hex : exists post,
                 trace_of (Update remote GetContent url_Parse_RawQuery
                             url_ParseQuery r reqPlan reqState resp w)
                 = (pre ++ trace_of (Update_retry remote (Z.to_nat maxRetries)
                                       owner repoName filePath plan opts
                                       None None w0) ++ post)%list
                 /\ countWrites post = 0%nat)
        by (destruct create; exact H).
      destruct Hex as (post & Htr & Hpost).
      rewrite Htr, !lastWriteError_app, (lastWriteError_quiet _ _ Hpre), Hloop,
        (lastWriteError_quiet _ _ Hpost) in Hlast. discriminate.
Qed.

(** Create makes at most five writes, around one retry loop. *)
Lemma Create_bounded (r : repositoryFileResource)
      (reqPlan : Decoded repositoryFileResourceModel)
      (resp : Response repositoryFileResourceModel) (w : W) :
  let run := Create remote GetContent url_Parse_RawQuery url_ParseQuery
                    r reqPlan resp w in
  (countWrites (trace_of run) <= 5)%nat /\ aroundRetryLoop false (trace_of run).
Proof.
  cbn zeta.
  destruct (Create_shape r reqPlan resp w)
    as [H0 | (pre & owner & repoName & filePath & plan & opts & w0 & resp0
              & Hpre & _ & _ & H)].
  - split; [lia|]. exists (trace_of (Create remote GetContent url_Parse_RawQuery
                                      url_ParseQuery r reqPlan resp w)),
                         [], [].
    rewrite app_nil_r. repeat split; auto.
  - cbn zeta in H.
    pose proof (Create_retry_trace (Z.to_nat maxRetries) owner repoName
                  filePath plan (Diagnostics resp0) opts None None w0)
      as (Hd & Hn & _).
    change (Z.to_nat maxRetries) with 5%nat in *.
    set (loop := Create_retry remote 5 owner repoName filePath plan
                   (Diagnostics resp0) opts None None w0) in *.
    assert (Hex : exists post,
               trace_of (Create remote GetContent url_Parse_RawQuery
                           url_ParseQuery r reqPlan resp w)
               = (pre ++ trace_of loop ++ post)%list
               /\ countWrites post = 0%nat).
    { destruct (value_of loop) as [d|c [err|]].
      - destruct H as (-> & _). exists []. now rewrite app_nil_r.
      - destruct H as (-> & _). exists []. now rewrite app_nil_r.
      - exact H. }
    destruct Hex as (post & -> & Hpost). split.
    + rewrite !countWrites_app. lia.
    + exists pre, (trace_of loop), post. auto.
Qed.

(** When the last write of a Create has failed, the run ends with an error
    diagnostic, "Error creating file" or "File Already Exists", and saves no
    state; when the failure is not a 409, that write is the last thing the
    run did and the diagnostic is "Error creating file". *)
Lemma Create_failure (r : repositoryFileResource)
      (reqPlan : Decoded repositoryFileResourceModel)
      (resp : Response repositoryFileResourceModel) (w : W) (e : Go.error) :
  let run := Create remote GetContent url_Parse_RawQuery url_ParseQuery
                    r reqPlan resp w in
  lastWriteError None (trace_of run) = Some e ->
  (hasErrorSummary "Error creating file" (Diagnostics (value_of run)) = true
   \/ hasErrorSummary "File Already Exists" (Diagnostics (value_of run)) = true)
  /\ SavedState (value_of run) = SavedState resp
  /\ (Go.hasStatus e Go.StatusConflict = false ->
      endsWithFailedWrite e (trace_of run)
      /\ hasErrorSummary "Error creating file" (Diagnostics (value_of run))
         = true).
Proof.
  cbn zeta. intro Hlast.
  destruct (Create_shape r reqPlan resp w)
    as [H0 | (pre & owner & repoName & filePath & plan & opts & w0 & resp0
              & Hpre & Hsaved & _ & H)].
  - rewrite (lastWriteError_quiet _ _ H0) in Hlast. discriminate.
  - cbn zeta in H.
    pose proof (Create_retry_trace (Z.to_nat maxRetries) owner repoName
                  filePath plan (Diagnostics resp0) opts None None w0)
      as (Hd & _).
    pose proof (Create_retry_exit (Z.to_nat maxRetries) owner repoName filePath
                  plan (Diagnostics resp0) opts None None w0) as Hexit.
    cbn zeta in Hexit.
    set (loop := Create_retry remote (Z.to_nat maxRetries) owner repoName
                   filePath plan (Diagnostics resp0) opts None None w0) in *.
    assert (Hne : forall x, lastWriteError None (trace_of loop) = Some x ->
                            trace_of loop <> [])
      by (intros x Hx Hnil; rewrite Hnil in Hx; discriminate).
    destruct (value_of loop) as [d|c [err|]].
    + destruct H as (Htr & Hval).
      destruct Hexit as ((detail & ->) & e' & He' & Hc').
      rewrite Htr, lastWriteError_app, (lastWriteError_quiet _ _ Hpre), He'
        in Hlast.
      injection Hlast as ->. rewrite Hval.
      cbn [withDiagnostics Diagnostics SavedState].
      split; [right; apply hasErrorSummary_AddError|].
      split; [exact Hsaved|]. congruence.
    + destruct H as (Htr & detail & Hval).
      rewrite Htr, lastWriteError_app, (lastWriteError_quiet _ _ Hpre),
        <- Hexit in Hlast.
      injection Hlast as ->. rewrite Hval.
      cbn [respAddError withDiagnostics Diagnostics SavedState].
      split; [left; apply hasErrorSummary_AddError|].
      split; [exact Hsaved|]. intro Hc.
      split; [|apply hasErrorSummary_AddError].
      rewrite Htr. apply endsWithFailedWrite_app.
      eapply discipline_failed_write_is_last; eauto.
    + destruct H as (post & Htr & Hpost).
      rewrite Htr, !lastWriteError_app, (lastWriteError_quiet _ _ Hpre),
        <- Hexit, (lastWriteError_quiet _ _ Hpost) in Hlast.
      discriminate.
Qed.

(** Delete makes at most five writes, around one retry loop. *)
Lemma Delete_bounded (r : repositoryFileResource)
      (reqState : Decoded repositoryFileResourceModel)
      (resp : Response repositoryFileResourceModel) (w : W) :
  let run := Delete remote r reqState resp w in
  (countWrites (trace_of run) <= 5)%nat /\ aroundRetryLoop true (trace_of run).
Proof.
  cbn zeta.
  destruct (Delete_shape r reqState resp w)
    as [H0 | (pre & owner & repoName & filePath & state & opts & w0 & resp0
              & Hpre & _ & _ & _ & -> & _)].
  - split; [lia|]. exists (trace_of (Delete remote r reqState resp w)), [], [].
    rewrite app_nil_r. repeat split; auto.
  - pose proof (Delete_retry_trace (Z.to_nat maxRetries) owner repoName
                  filePath state (Diagnostics resp0) opts None w0)
      as (Hd & Hn & _).
    change (Z.to_nat maxRetries) with 5%nat in *. split.
    + rewrite !countWrites_app. lia.
    + exists pre, (trace_of (Delete_retry remote 5 owner repoName filePath state
                               (Diagnostics resp0) opts None w0)), [].
      rewrite app_nil_r. auto.
Qed.

(** When the last write of a Delete has failed with a status other than 404:
    unless the run ended on a GetContents that failed with 404, it ends with
    the diagnostic "Error deleting file"; when the failure is not a 409
    either, that write is the last thing the run did. *)
Lemma Delete_failure (r : repositoryFileResource)
      (reqState : Decoded repositoryFileResourceModel)
      (resp : Response repositoryFileResourceModel) (w : W) (e : Go.error) :
  let run := Delete remote r reqState resp w in
  lastWriteError None (trace_of run) = Some e ->
  Go.hasStatus e Go.StatusNotFound = false ->
  (endsWithFetchFailure Go.StatusNotFound (trace_of run) = false ->
   hasErrorSummary "Error deleting file" (Diagnostics (value_of run)) = true)
  /\ (Go.hasStatus e Go.StatusConflict = false ->
      endsWithFailedWrite e (trace_of run)
      /\ hasErrorSummary "Error deleting file" (Diagnostics (value_of run))
         = true)
  /\ SavedState (value_of run) = SavedState resp.
Proof.
  cbn zeta. intros Hlast H404.
  destruct (Delete_shape r reqState resp w)
    as [H0 | (pre & owner & repoName & filePath & state & opts & w0 & resp0
              & Hpre & _ & Hsaved & _ & Htr & H)].
  - rewrite (lastWriteError_quiet _ _ H0) in Hlast. discriminate.
  - cbn zeta in H.
    pose proof (Delete_retry_trace (Z.to_nat maxRetries) owner repoName
                  filePath state (Diagnostics resp0) opts None w0)
      as (Hd & _).
    pose proof (Delete_retry_exit (Z.to_nat maxRetries) owner repoName filePath
                  state (Diagnostics resp0) opts None w0) as Hexit.
    cbn zeta in Hexit.
    set (loop := Delete_retry remote (Z.to_nat maxRetries) owner repoName
                   filePath state (Diagnostics resp0) opts None w0) in *.
    rewrite Htr, lastWriteError_app, (lastWriteError_quiet _ _ Hpre) in Hlast.
    assert (Hne : trace_of loop <> [])
      by (intro Hnil; rewrite Hnil in Hlast; discriminate).
    assert (Hfetch : endsWithFetchFailure Go.StatusNotFound (trace_of loop)
                     = false ->
                     hasErrorSummary "Error deleting file"
                       (Diagnostics (value_of (Delete remote r reqState resp w)))
                     = true).
    { intro Hf. destruct (value_of loop) as [d|c [err|]].
      - destruct Hexit as (_ & [Hn | (e' & He' & [Hx | Hx])]); congruence.
      - destruct H as (detail & ->). apply hasErrorSummary_AddError.
      - congruence. }
    assert (Hend : endsWithFetchFailure Go.StatusNotFound
                     (trace_of (Delete remote r reqState resp w))
                   = endsWithFetchFailure Go.StatusNotFound (trace_of loop))
      by (rewrite Htr; unfold endsWithFetchFailure;
          now rewrite lastEvent_app).
    split; [|split].
    + intro Hf. apply Hfetch. now rewrite <- Hend.
    + intro Hc.
      assert (Hw : endsWithFailedWrite e (trace_of loop))
        by (eapply discipline_failed_write_is_last; eauto).
      split; [rewrite Htr; now apply endsWithFailedWrite_app|].
      apply Hfetch. unfold endsWithFetchFailure.
      destruct (endsWithFailedWrite_lastEvent Hw) as (x & o & -> & Hx).
      destruct x as [c r0|d]; [destruct c|]; cbn in Hx |- *;
        congruence || reflexivity.
    + destruct (value_of loop) as [d|c [err|]].
      * rewrite H. exact Hsaved.
      * destruct H as (detail & ->). exact Hsaved.
      * rewrite H. exact Hsaved.
Qed.

(** A DeleteFile that fails with 404 ends Delete without a diagnostic: the
    file is taken as deleted already. *)
Lemma Delete_not_found (r : repositoryFileResource)
      (reqState : Decoded repositoryFileResourceModel)
      (resp : Response repositoryFileResourceModel) (w : W) (e : Go.error) :
  let run := Delete remote r reqState resp w in
  lastWriteError None (trace_of run) = Some e ->
  Go.hasStatus e Go.StatusNotFound = true ->
  TF.HasError (Diagnostics (value_of run)) = false
  /\ SavedState (value_of run) = SavedState resp
  /\ endsWithFailedWrite e (trace_of run).
Proof.
  cbn zeta. intros Hlast H404.
  destruct (Delete_shape r reqState resp w)
    as [H0 | (pre & owner & repoName & filePath & state & opts & w0 & resp0
              & Hpre & _ & Hsaved & Hok & Htr & H)].
  - rewrite (lastWriteError_quiet _ _ H0) in Hlast. discriminate.
  - cbn zeta in H.
    pose proof (Delete_retry_trace (Z.to_nat maxRetries) owner repoName
                  filePath state (Diagnostics resp0) opts None w0)
      as (Hd & _).
    rewrite Htr, lastWriteError_app, (lastWriteError_quiet _ _ Hpre) in Hlast.
    pose proof (@Delete_retry_not_found (Z.to_nat maxRetries) owner repoName
                  filePath state (Diagnostics resp0) opts None w0 e
                  ltac:(discriminate) Hlast H404) as Hret.
    cbn zeta in Hret. rewrite Hret in H. rewrite H.
    cbn [withDiagnostics Diagnostics SavedState].
    split; [exact Hok|]. split; [exact Hsaved|].
    rewrite Htr. apply endsWithFailedWrite_app.
    eapply discipline_failed_write_is_last; eauto.
    + intro Hnil. rewrite Hnil in Hlast. discriminate.
    + unfold Go.hasStatus in *.
      destruct (Go.AsErrorResponse e) as [[code|]|]; try discriminate.
      apply Z.eqb_eq in H404. subst code. reflexivity.
Qed.

(** *** Reading a file *)

(** readFile starts with its GetContents call; when that call fails with
    429 the function adds "Rate Limit Exceeded" and does nothing else. *)
Lemma readFile_rate_limited (owner repoName filePath : string)
      (model : repositoryFileResourceModel) (diags : TF.Diagnostics)
      (w w' : W) (e : Go.error) :
  api remote
      (GitHub.Repositories_GetContents owner repoName filePath (getOptions model))
      w = (GitHub.Err e, w') ->
  Go.hasStatus e Go.StatusTooManyRequests = true ->
  readFile remote GetContent url_Parse_RawQuery url_ParseQuery
           owner repoName filePath model diags w
  = (model,
     TF.AddError diags "Rate Limit Exceeded"
       ("GitHub API rate limit exceeded: " ++ Go.Error e),
     w',
     [GitHub.EvCall
        (GitHub.Repositories_GetContents owner repoName filePath
           (getOptions model)) (GitHub.Err e)]).
Proof.
  intros Hapi H429. unfold readFile. step. rewrite Hapi.
  cbn [fst snd value_of world_of trace_of].
  unfold Go.hasStatus in H429.
  destruct (Go.AsErrorResponse e) as [[code|]|]; try discriminate.
  rewrite H429. reflexivity.
Qed.

(** When the GetContents call of readFile fails with 404, the function
    empties the ID and adds no diagnostic. *)
Lemma readFile_not_found (owner repoName filePath : string)
      (model : repositoryFileResourceModel) (diags : TF.Diagnostics)
      (w w' : W) (e : Go.error) :
  api remote
      (GitHub.Repositories_GetContents owner repoName filePath (getOptions model))
      w = (GitHub.Err e, w') ->
  Go.hasStatus e Go.StatusNotFound = true ->
  readFile remote GetContent url_Parse_RawQuery url_ParseQuery
           owner repoName filePath model diags w
  = (set_ID (TF.StringValue "") model, diags, w',
     [GitHub.EvCall
        (GitHub.Repositories_GetContents owner repoName filePath
           (getOptions model)) (GitHub.Err e)]).
Proof.
  intros Hapi H404. unfold readFile. step. rewrite Hapi.
  cbn [fst snd value_of world_of trace_of].
  unfold Go.hasStatus in H404.
  destruct (Go.AsErrorResponse e) as [[code|]|]; try discriminate.
  apply Z.eqb_eq in H404. subst code. reflexivity.
Qed.

(** A run of readFile that ends on a failed GetContents is a run whose
    first and only call failed. *)
Lemma readFile_ends_on_fetch (code : Z) (owner repoName filePath : string)
      (model : repositoryFileResourceModel) (diags : TF.Diagnostics) (w : W) :
  endsWithFetchFailure code
    (trace_of (readFile remote GetContent url_Parse_RawQuery url_ParseQuery
                 owner repoName filePath model diags w)) = true ->
  exists e w',
    api remote
        (GitHub.Repositories_GetContents owner repoName filePath
           (getOptions model)) w = (GitHub.Err e, w')
    /\ Go.hasStatus e code = true.
Proof.
  unfold readFile, getFileCommit. step.
  reply remote (GitHub.Repositories_GetContents owner repoName filePath
                  (getOptions model)) w r w1.
  destruct r as [[[fc|] dc]|e].
  - repeat (first
      [ progress step
      | match goal with
        | |- context [api remote ?c ?w] =>
            destruct (api remote c w) as [[?|?] ?]
        | |- context [if ?b then _ else _] => destruct b
        | |- context [match ?x with _ => _ end] => destruct x
        end ]);
      cbn; discriminate.
  - cbn. discriminate.
  - intro H. exists e, w1. split; [reflexivity|].
    destruct (Go.AsErrorResponse e) as [[c|]|];
      try destruct (c =? Go.StatusTooManyRequests)%Z;
      try destruct (c =? Go.StatusNotFound)%Z; exact H.
Qed.

Lemma fetchFailedWith_isFetch (code : Z) (e : GitHub.Event) :
  fetchFailedWith code e = true -> isFetch e = true.
Proof.
  destruct e as [c r|d]; [destruct c|]; cbn; try congruence.
  intros _. unfold isFetch. cbn. now destruct r as [[? ?]|?].
Qed.

Lemma notFetch_ends (code : Z) (tr : list GitHub.Event) :
  forallb notFetch tr = true -> endsWithFetchFailure code tr = false.
Proof.
  intro H. apply ends_none. rewrite forallb_forall in *. intros e He.
  specialize (H e He). unfold notFetch in H.
  destruct (fetchFailedWith code e) eqn:Hf; [|reflexivity].
  now rewrite (fetchFailedWith_isFetch _ _ Hf) in H.
Qed.

Lemma getOwner_notFetch (r : repositoryFileResource) :
  eventsAll notFetch (getOwner remote r).
Proof. unfold getOwner. events_all. Qed.

Lemma checkRepositoryBranchExists_notFetch (owner repo branch : string) :
  eventsAll notFetch (checkRepositoryBranchExists remote owner repo branch).
Proof. unfold checkRepositoryBranchExists. events_all. Qed.

Lemma readFile_trace_nonempty (owner repoName filePath : string)
      (model : repositoryFileResourceModel) (diags : TF.Diagnostics) (w : W) :
  trace_of (readFile remote GetContent url_Parse_RawQuery url_ParseQuery
              owner repoName filePath model diags w) <> [].
Proof. unfold readFile. step. discriminate. Qed.

(** How a run of Read is built: either it does not end on a failed
    GetContents, or it ends with a run of readFile whose result decides the
    response. *)
Lemma Read_shape (r : repositoryFileResource)
      (reqState : Decoded repositoryFileResourceModel)
      (resp : Response repositoryFileResourceModel) (w : W) :
  let run := Read remote GetContent url_Parse_RawQuery url_ParseQuery
                  r reqState resp w in
  (forall code, endsWithFetchFailure code (trace_of run) = false)
  \/ exists pre owner repoName filePath state w0 resp0,
      let rf := readFile remote GetContent url_Parse_RawQuery url_ParseQuery
                         owner repoName filePath state (Diagnostics resp0) w0 in
      SavedState resp0 = SavedState resp
      /\ TF.HasError (Diagnostics resp0) = false
      /\ trace_of run = (pre ++ trace_of rf)%list
      /\ value_of run = Read_finish resp0 (value_of rf).
Proof.
  cbn zeta. unfold Read.
  set (resp1 := withDiagnostics _ resp).
  assert (Hsaved : SavedState resp1 = SavedState resp) by reflexivity.
  clearbody resp1.
  destruct (TF.HasError (Diagnostics resp1)) eqn:Hok;
    [left; reflexivity|].
  destruct (client r); [|left; reflexivity].
  rewrite run_bind.
  pose proof (getOwner_notFetch r w) as Hown.
  destruct (getOwner remote r w) as [[[owner err] w1] tr1].
  cbn [value_of world_of trace_of fst snd] in *.
  assert (Hquiet : forall code, endsWithFetchFailure code (tr1 ++ []) = false)
    by (intro code; rewrite app_nil_r; now apply notFetch_ends).
  destruct err; [left; exact Hquiet|].
  destruct (String.eqb _ ""); [left; exact Hquiet|].
  destruct (Go.SplitN _ ":" 2) as [|repoName [|filePath [|x l]]];
    try (left; exact Hquiet).
  assert (Hfinish :
    forall (pre : list GitHub.Event) (state : repositoryFileResourceModel)
           (w0 : W),
      exists pre' owner' repoName' filePath' state' w0' resp0,
        SavedState resp0 = SavedState resp
        /\ TF.HasError (Diagnostics resp0) = false
        /\ (pre ++ trace_of
               (bind (readFile remote GetContent url_Parse_RawQuery
                        url_ParseQuery owner repoName filePath state
                        (Diagnostics resp1))
                     (fun x =>
                        let '(state0, diags) := x in
                        if TF.HasError (Diagnostics (withDiagnostics diags resp1))
                        then ret (withDiagnostics diags resp1)
                        else ret (StateSet
                                    (if negb (TF.ValueBool
                                                (AutocreateBranch state0))
                                     then set_AutocreateBranchSourceSHA
                                            TF.StringNull state0
                                     else state0)
                                    (withDiagnostics diags resp1))) w0))%list
           = (pre' ++ trace_of
                (readFile remote GetContent url_Parse_RawQuery url_ParseQuery
                   owner' repoName' filePath' state' (Diagnostics resp0) w0'))%list
        /\ value_of
             (bind (readFile remote GetContent url_Parse_RawQuery
                      url_ParseQuery owner repoName filePath state
                      (Diagnostics resp1))
                   (fun x =>
                      let '(state0, diags) := x in
                      if TF.HasError (Diagnostics (withDiagnostics diags resp1))
                      then ret (withDiagnostics diags resp1)
                      else ret (StateSet
                                  (if negb (TF.ValueBool
                                              (AutocreateBranch state0))
                                   then set_AutocreateBranchSourceSHA
                                          TF.StringNull state0
                                   else state0)
                                  (withDiagnostics diags resp1))) w0)
           = Read_finish resp0
               (value_of
                  (readFile remote GetContent url_Parse_RawQuery url_ParseQuery
                     owner' repoName' filePath' state' (Diagnostics resp0) w0'))).
  { intros pre state w0.
    exists pre, owner, repoName, filePath, state, w0, resp1.
    split; [exact Hsaved|]. split; [exact Hok|].
    rewrite run_bind. cbn [value_of world_of trace_of fst snd].
    destruct (readFile remote GetContent url_Parse_RawQuery url_ParseQuery
                owner repoName filePath state (Diagnostics resp1) w0)
      as [[[state0 diags] w2] tr2].
    cbn [value_of world_of trace_of fst snd]. unfold Read_finish.
    cbn [fst snd Diagnostics withDiagnostics].
    destruct (TF.HasError diags); cbn; now rewrite app_nil_r. }
  destruct (TF.String_known (Branch (decoded reqState))).
  - rewrite run_bind.
    pose proof (checkRepositoryBranchExists_notFetch owner repoName
                  (TF.ValueString (Branch (decoded reqState))) w1) as Hbr.
    destruct (checkRepositoryBranchExists remote owner repoName
                (TF.ValueString (Branch (decoded reqState))) w1)
      as [[e w2] tr2].
    cbn [value_of world_of trace_of fst snd] in *.
    destruct e as [e|].
    + destruct (TF.ValueBool (AutocreateBranch (decoded reqState))).
      * right. rewrite app_assoc. apply Hfinish.
      * left. intro code. cbn. rewrite app_nil_r. apply notFetch_ends.
        rewrite forallb_app. now rewrite Hown, Hbr.
    + right. rewrite app_assoc. apply Hfinish.
  - right. apply Hfinish.
Qed.

(** A Read that ends on a GetContents failing with 429 reports "Rate Limit
    Exceeded" and saves no state. *)
Lemma Read_rate_limited (r : repositoryFileResource)
      (reqState : Decoded repositoryFileResourceModel)
      (resp : Response repositoryFileResourceModel) (w : W) :
  let run := Read remote GetContent url_Parse_RawQuery url_ParseQuery
                  r reqState resp w in
  endsWithFetchFailure Go.StatusTooManyRequests (trace_of run) = true ->
  hasErrorSummary "Rate Limit Exceeded" (Diagnostics (value_of run)) = true
  /\ SavedState (value_of run) = SavedState resp.
Proof.
  cbn zeta. intro Hend.
  destruct (Read_shape r reqState resp w)
    as [H0 | (pre & owner & repoName & filePath & state & w0 & resp0
              & Hsaved & Hok & Htr & Hval)].
  - rewrite H0 in Hend. discriminate.
  - cbn zeta in *. rewrite Htr in Hend. unfold endsWithFetchFailure in Hend.
    rewrite lastEvent_app in Hend by apply readFile_trace_nonempty.
    destruct (@readFile_ends_on_fetch _ owner repoName filePath state
                (Diagnostics resp0) w0 Hend) as (e & w' & Hapi & He).
    rewrite Hval,
      (@readFile_rate_limited owner repoName filePath state (Diagnostics resp0)
         w0 w' e Hapi He).
    unfold Read_finish. cbn [value_of fst snd].
    rewrite (hasErrorSummary_HasError _ _ (hasErrorSummary_AddError _ _ _)).
    cbn [withDiagnostics Diagnostics SavedState].
    split; [apply hasErrorSummary_AddError|exact Hsaved].
Qed.

(** A Read that ends on a GetContents failing with 404 adds no error and
    saves the state with an empty ID. *)
Lemma Read_not_found (r : repositoryFileResource)
      (reqState : Decoded repositoryFileResourceModel)
      (resp : Response repositoryFileResourceModel) (w : W) :
  let run := Read remote GetContent url_Parse_RawQuery url_ParseQuery
                  r reqState resp w in
  endsWithFetchFailure Go.StatusNotFound (trace_of run) = true ->
  TF.HasError (Diagnostics (value_of run)) = false
  /\ exists st, SavedState (value_of run) = Some st
                /\ ID st = TF.StringValue "".
Proof.
  cbn zeta. intro Hend.
  destruct (Read_shape r reqState resp w)
    as [H0 | (pre & owner & repoName & filePath & state & w0 & resp0
              & Hsaved & Hok & Htr & Hval)].
  - rewrite H0 in Hend. discriminate.
  - cbn zeta in *. rewrite Htr in Hend. unfold endsWithFetchFailure in Hend.
    rewrite lastEvent_app in Hend by apply readFile_trace_nonempty.
    destruct (@readFile_ends_on_fetch _ owner repoName filePath state
                (Diagnostics resp0) w0 Hend) as (e & w' & Hapi & He).
    rewrite Hval,
      (@readFile_not_found owner repoName filePath state (Diagnostics resp0)
         w0 w' e Hapi He).
    unfold Read_finish. cbn [value_of fst snd]. rewrite Hok.
    cbn [StateSet withDiagnostics Diagnostics SavedState].
    split; [exact Hok|]. eexists. split; [reflexivity|].
    now destruct (negb _).
Qed.

End FileRetries.

Lemma hasStatus_unique (e : Go.error) (c1 c2 : Z) :
  Go.hasStatus e c1 = true -> c1 <> c2 -> Go.hasStatus e c2 = false.
Proof.
  unfold Go.hasStatus. destruct (Go.AsErrorResponse e) as [[c|]|];
    try discriminate.
  intros H1 Hne. apply Z.eqb_eq in H1. subst c. now apply Z.eqb_neq.
Qed.

Lemma firstWrite_quiet (tr : list GitHub.Event) :
  countWrites tr = 0%nat -> firstWrite tr = None.
Proof.
  unfold firstWrite, countWrites. now destruct (filter isWrite tr).
Qed.

Lemma firstWrite_loop (strict : bool) (n : nat)
      (opts : GitHub.RepositoryContentFileOptions)
      (pre loop post : list GitHub.Event)
      (x : GitHub.RepositoryContentFileOptions * option Go.error) :
  countWrites pre = 0%nat ->
  loopTrace strict (S n) opts loop ->
  firstWrite (pre ++ loop ++ post) = Some x ->
  fst x = opts.
Proof.
  intros Hpre (_ & _ & _ & _ & Hhead) Hfirst.
  rewrite (firstWrite_app_quiet pre _ Hpre) in Hfirst.
  destruct loop as [|e rest]; [discriminate|].
  destruct Hhead as (err & He). cbn [app] in Hfirst.
  rewrite (firstWrite_head _ _ He) in Hfirst. now injection Hfirst as <-.
Qed.

(** ** The pull-request resource: reading *)

Section PullRequestReads.

Variable W : Type.
Variable remote : Remote W.
Variable strconv_Atoi : string -> GitHub.result Z.

Import PullRequestResource.

(** When the PullRequests.Get call of readPullRequest fails with 404, the
    function empties the ID and adds no diagnostic. *)
Lemma readPullRequest_not_found (owner repoName : string) (number : Z)
      (model : repositoryPullRequestResourceModel) (diags : TF.Diagnostics)
      (w w' : W) (e : Go.error) :
  api remote (GitHub.PullRequests_Get owner repoName number) w
  = (GitHub.Err e, w') ->
  Go.hasStatus e Go.StatusNotFound = true ->
  readPullRequest remote owner repoName number model diags w
  = (set_ID (TF.StringValue "") model, diags, w',
     [GitHub.EvCall (GitHub.PullRequests_Get owner repoName number)
        (GitHub.Err e)]).
Proof.
  intros Hapi H404. unfold readPullRequest. step. rewrite Hapi.
  cbn [fst snd value_of world_of trace_of]. now rewrite H404.
Qed.

(** readPullRequest makes one call. *)
Lemma readPullRequest_trace (owner repoName : string) (number : Z)
      (model : repositoryPullRequestResourceModel) (diags : TF.Diagnostics)
      (w : W) :
  trace_of (readPullRequest remote owner repoName number model diags w)
  = [GitHub.EvCall (GitHub.PullRequests_Get owner repoName number)
       (fst (api remote (GitHub.PullRequests_Get owner repoName number) w))].
Proof.
  unfold readPullRequest. step.
  destruct (api remote (GitHub.PullRequests_Get owner repoName number) w)
    as [[pr|e] w1]; cbn [fst snd]; [reflexivity|].
  now destruct (Go.hasStatus e Go.StatusNotFound).
Qed.

(** A Read that ends on a PullRequests.Get failing with 404 adds no error
    and saves the state with an empty ID. *)
Lemma PullRequest_Read_not_found (r : repositoryPullRequestResource)
      (reqState : Decoded repositoryPullRequestResourceModel)
      (resp : Response repositoryPullRequestResourceModel) (w : W) :
  let run := Read remote strconv_Atoi r reqState resp w in
  endsWithPullGetFailure Go.StatusNotFound (trace_of run) = true ->
  TF.HasError (Diagnostics (value_of run)) = false
  /\ exists st, SavedState (value_of run) = Some st
                /\ ID st = TF.StringValue "".
Proof.
  cbn zeta. unfold Read.
  set (resp1 := withDiagnostics _ resp). clearbody resp1.
  destruct (TF.HasError (Diagnostics resp1)) eqn:Hok; [discriminate|].
  destruct (client r); [|discriminate].
  rewrite run_bind.
  assert (Hown : eventsAll (fun e => negb (pullGetFailedWith Go.StatusNotFound e))
                   (getOwner remote r))
    by (unfold getOwner; events_all).
  specialize (Hown w).
  destruct (getOwner remote r w) as [[[owner err] w1] tr1].
  cbn [value_of world_of trace_of fst snd] in *.
  assert (Hquiet : endsWithPullGetFailure Go.StatusNotFound (tr1 ++ []) = false)
    by (rewrite app_nil_r; now apply ends_none).
  destruct err; [cbn [ret trace_of snd]; now rewrite Hquiet|].
  destruct (Go.SplitN _ ":" 2) as [|repoName [|numberStr [|x l]]];
    try (cbn [ret trace_of snd]; now rewrite Hquiet).
  destruct (strconv_Atoi numberStr) as [number|];
    [|cbn [ret trace_of snd]; now rewrite Hquiet].
  rewrite run_bind.
  pose proof (readPullRequest_trace owner repoName number (decoded reqState)
                (Diagnostics resp1) w1) as Htr.
  destruct (api remote (GitHub.PullRequests_Get owner repoName number) w1)
    as [p w2] eqn:Hapi.
  cbn [fst] in Htr.
  destruct (pullGetFailedWith Go.StatusNotFound
              (GitHub.EvCall (GitHub.PullRequests_Get owner repoName number) p))
    eqn:Hp.
  - destruct p as [pr|e]; [discriminate|]. cbn in Hp.
    rewrite (@readPullRequest_not_found owner repoName number
               (decoded reqState) (Diagnostics resp1) w1 w2 e Hapi Hp).
    cbn [value_of world_of trace_of fst snd Diagnostics withDiagnostics].
    rewrite Hok. intros _.
    cbn [value_of world_of trace_of fst snd ret Diagnostics withDiagnostics
         StateSet SavedState].
    split; [exact Hok|]. eexists. split; [reflexivity|].
    now destruct (_ && _).
  - rewrite Htr.
    destruct (value_of (readPullRequest remote owner repoName number
                          (decoded reqState) (Diagnostics resp1) w1))
      as [state diags].
    unfold endsWithPullGetFailure.
    destruct (TF.HasError (Diagnostics (withDiagnostics diags resp1)));
      cbn [ret trace_of snd app]; rewrite lastEvent_app by discriminate;
      cbn [lastEvent]; rewrite Hp; discriminate.
Qed.

End PullRequestReads.

(* ===================================================================== *)
(** * The repository-file resource: the statements *)
(* ===================================================================== *)

(** What follows the conflict: on a remote where the file has moved on, the
    first write of Update carries the SHA of the state and is refused with
    409; the loop fetches the file and writes again with the SHA it fetched;
    that write succeeds, and Update ends without a diagnostic. *)
Example update_after_conflict :
  let run :=
    FileResource.Update ConflictScenario.remoteMoved Scenario.plainContent
      Scenario.noRawQuery Scenario.noQuery Scenario.fileResource
      (Scenario.cleanly Scenario.planA) (Scenario.cleanly Scenario.stateA)
      Scenario.fresh tt in
  map (fun e => match writeOf e with
                | Some (opts, err) => Some (GitHub.SHA opts, err)
                | None => None
                end) (trace_of run)
  = [Some (Some "sha-old", Some Scenario.conflict); None;
     Some (Some "sha-new", None); None]
  /\ Diagnostics (value_of run) = []
  /\ option_map FileResource.SHA (SavedState (value_of run))
     = Some (TF.StringValue "sha-new").
Proof. vm_compute. repeat split. Qed.

(** C1, as stated, fails: an Update whose CreateFile is refused with 422
    makes one attempt, re-fetches nothing, and reports "Error updating file"
    at once, the attempts not being exhausted. *)
Lemma update_422_is_not_retried :
  let run := FileResource.Update Scenario.remote422 Scenario.plainContent
               Scenario.noRawQuery Scenario.noQuery Scenario.fileResource
               (Scenario.cleanly Scenario.planA)
               (Scenario.cleanly Scenario.stateA) Scenario.fresh tt in
  lastWriteError None (trace_of run) = Some Scenario.unprocessable
  /\ Go.hasStatus Scenario.unprocessable Go.StatusUnprocessableEntity = true
  /\ countWrites (trace_of run) = 1%nat
  /\ countFetches (trace_of run) = 0%nat
  /\ length (trace_of run) = 1%nat
  /\ TF.HasError (Diagnostics (value_of run)) = true
  /\ hasErrorSummary "Error updating file" (Diagnostics (value_of run)) = true.
Proof. vm_compute. repeat split. Qed.

(** C6, as stated, fails: in a Create whose first CreateFile is refused with
    409, the GetContents re-fetch fails with 500; that error is not reported,
    a second attempt is made, and the operation ends without any
    diagnostic. *)
Lemma create_retries_after_failed_refetch :
  let run := FileResource.Create Scenario.remoteFlaky Scenario.plainContent
               Scenario.noRawQuery Scenario.noQuery Scenario.fileResource
               (Scenario.cleanly Scenario.planA) Scenario.fresh 0%nat in
  nth_error (trace_of run) 1
  = Some (GitHub.EvCall
            (GitHub.Repositories_GetContents "octo" "repo" "a.txt"
               (GitHub.mkGetOptions ""))
            (GitHub.Err Scenario.serverError))
  /\ Go.hasStatus Scenario.serverError Go.StatusNotFound = false
  /\ Go.hasStatus Scenario.serverError Go.StatusConflict = false
  /\ Go.hasStatus Scenario.serverError Go.StatusUnprocessableEntity = false
  /\ Go.hasStatus Scenario.serverError Go.StatusTooManyRequests = false
  /\ countWrites (trace_of run) = 2%nat
  /\ Diagnostics (value_of run) = []
  /\ SavedState (value_of run) <> None.
Proof. vm_compute. repeat split. discriminate. Qed.

(** C2, as stated, fails: the Read of the user data source is an operation
    that reads a remote object; when the lookup of the user receives 404 it
    reports the error "Error fetching GitHub user" and sets no state. *)
Lemma user_lookup_reports_not_found :
  let run := UserDataSource.Read Scenario.remoteNoUser Scenario.userDataSource
               (Scenario.cleanly Scenario.ghost) Scenario.fresh tt in
  trace_of run
  = [GitHub.EvCall (GitHub.Users_Get "ghost") (GitHub.Err Scenario.notFound)]
  /\ Go.hasStatus Scenario.notFound Go.StatusNotFound = true
  /\ TF.HasError (Diagnostics (value_of run)) = true
  /\ Diagnostics (value_of run)
     = [TF.mkDiagnostic TF.SeverityError "Error fetching GitHub user"
          "Unable to fetch user ghost: 404 Not Found"]
  /\ SavedState (value_of run) = None.
Proof. vm_compute. repeat split. Qed.

(** C2, amended: the 404 handling is that of the file resource's read, of
    the pull-request resource's read and of the file resource's Delete.  When
    the GetContents call of readFile fails with 404, readFile empties the ID
    and adds no diagnostic, and a Read that ends this way saves the state with
    the empty ID and no error; the same holds for readPullRequest and the
    pull-request Read when PullRequests.Get fails with 404; a Delete whose
    DeleteFile fails with 404 stops there without an error diagnostic. *)
Theorem not_found_is_not_an_error
        (W : Type) (remote : Remote W)
        (GetContent : GitHub.RepositoryContent -> GitHub.result string)
        (url_Parse_RawQuery : string -> GitHub.result string)
        (url_ParseQuery : string -> GitHub.result (list (string * list string)))
        (strconv_Atoi : string -> GitHub.result Z) :
  (forall owner repoName filePath model diags w w' e,
      api remote
          (GitHub.Repositories_GetContents owner repoName filePath
             (FileResource.getOptions model)) w = (GitHub.Err e, w') ->
      Go.hasStatus e Go.StatusNotFound = true ->
      FileResource.readFile remote GetContent url_Parse_RawQuery url_ParseQuery
        owner repoName filePath model diags w
      = (FileResource.set_ID (TF.StringValue "") model, diags, w',
         [GitHub.EvCall
            (GitHub.Repositories_GetContents owner repoName filePath
               (FileResource.getOptions model)) (GitHub.Err e)]))
  /\ (forall r reqState resp w,
         let run := FileResource.Read remote GetContent url_Parse_RawQuery
                      url_ParseQuery r reqState resp w in
         endsWithFetchFailure Go.StatusNotFound (trace_of run) = true ->
         TF.HasError (Diagnostics (value_of run)) = false
         /\ exists st, SavedState (value_of run) = Some st
                       /\ FileResource.ID st = TF.StringValue "")
  /\ (forall owner repoName number model diags w w' e,
         api remote (GitHub.PullRequests_Get owner repoName number) w
         = (GitHub.Err e, w') ->
         Go.hasStatus e Go.StatusNotFound = true ->
         PullRequestResource.readPullRequest remote owner repoName number
           model diags w
         = (PullRequestResource.set_ID (TF.StringValue "") model, diags, w',
            [GitHub.EvCall (GitHub.PullRequests_Get owner repoName number)
               (GitHub.Err e)]))
  /\ (forall r reqState resp w,
         let run := PullRequestResource.Read remote strconv_Atoi r reqState
                      resp w in
         endsWithPullGetFailure Go.StatusNotFound (trace_of run) = true ->
         TF.HasError (Diagnostics (value_of run)) = false
         /\ exists st, SavedState (value_of run) = Some st
                       /\ PullRequestResource.ID st = TF.StringValue "")
  /\ (forall r reqState resp w e,
         let run := FileResource.Delete remote r reqState resp w in
         lastWriteError None (trace_of run) = Some e ->
         Go.hasStatus e Go.StatusNotFound = true ->
         TF.HasError (Diagnostics (value_of run)) = false
         /\ SavedState (value_of run) = SavedState resp
         /\ endsWithFailedWrite e (trace_of run)).
Proof.
  split; [|split; [|split; [|split]]].
  - intros. now apply readFile_not_found.
  - intros r reqState resp w. apply Read_not_found.
  - intros. now apply readPullRequest_not_found.
  - intros r reqState resp w. apply PullRequest_Read_not_found.
  - intros r reqState resp w e. apply Delete_not_found.
Qed.

(** The statement at work: a Read and a Delete of [a.txt] on a remote where
    the file is gone. *)
Lemma not_found_is_not_an_error_witness :
  (let run := FileResource.Read (Scenario.remoteUnreadable Scenario.notFound)
                Scenario.plainContent Scenario.noRawQuery Scenario.noQuery
                Scenario.fileResource (Scenario.cleanly Scenario.stateA)
                Scenario.fresh tt in
   TF.HasError (Diagnostics (value_of run)) = false
   /\ exists st, SavedState (value_of run) = Some st
                 /\ FileResource.ID st = TF.StringValue "")
  /\ (let run := FileResource.Delete (Scenario.remoteUnreadable Scenario.notFound)
                   Scenario.fileResource (Scenario.cleanly Scenario.stateA)
                   Scenario.fresh tt in
      TF.HasError (Diagnostics (value_of run)) = false
      /\ SavedState (value_of run) = None
      /\ endsWithFailedWrite Scenario.notFound (trace_of run)).
Proof.
  pose proof (@not_found_is_not_an_error unit
                (Scenario.remoteUnreadable Scenario.notFound)
                Scenario.plainContent Scenario.noRawQuery Scenario.noQuery
                (fun _ => GitHub.Ok 1%Z)) as (_ & Hread & _ & _ & Hdelete).
  split.
  - apply Hread. vm_compute. reflexivity.
  - apply (Hdelete Scenario.fileResource (Scenario.cleanly Scenario.stateA)
             Scenario.fresh tt Scenario.notFound).
    + vm_compute. reflexivity.
    + vm_compute. reflexivity.
Defined.

(* ===================================================================== *)
(** * Configure: the statements *)
(* ===================================================================== *)

Lemma configure_type_summaries :
  Go.Contains "Unexpected Resource Configure Type" "Configure Type" = true
  /\ Go.Contains "Unexpected Data Source Configure Type" "Configure Type" = true.
Proof. split; vm_compute; reflexivity. Qed.

Lemma oneConfigureTypeError_AddError (summary detail : string) :
  Go.Contains summary "Configure Type" = true ->
  oneConfigureTypeError (TF.AddError [] summary detail).
Proof.
  intro H. exists (TF.mkDiagnostic TF.SeverityError summary detail).
  repeat split; assumption.
Qed.

Ltac configure_type_error :=
  intros typeName diags; split; [reflexivity | split];
  [ do 2 eexists; split; [reflexivity | apply configure_type_summaries]
  | apply oneConfigureTypeError_AddError; apply configure_type_summaries ].

Ltac configure_cases :=
  intro r; split; [configure_type_error | split];
  [ reflexivity | intros data diags; split; [|split]; reflexivity ].

(** The Configure of the repository resource makes its one remote call, for
    the authenticated user, only after it has stored a client. *)
Lemma RepositoryResource_Configure_quiet (W : Type) (remote : Remote W)
      (r : RepositoryResource.repositoryResource) (diags : TF.Diagnostics)
      (w : W) :
  (forall typeName,
      trace_of (RepositoryResource.Configure remote r
                  (ProviderDataOther typeName) diags w) = [])
  /\ trace_of (RepositoryResource.Configure remote r ProviderDataNil diags w)
     = [].
Proof. split; reflexivity. Qed.

Lemma RepositoryResource_Configure_client (W : Type) (remote : Remote W)
      (r : RepositoryResource.repositoryResource) (data : githubxClientData)
      (diags : TF.Diagnostics) (w : W) :
  let out := value_of (RepositoryResource.Configure remote r
                         (ProviderDataClient data) diags w) in
  RepositoryResource.client (fst out) = ClientOf data
  /\ RepositoryResource.owner (fst out) = OwnerOf data
  /\ snd out = diags.
Proof.
  destruct data as [[c|] o]; [|cbn; auto].
  unfold RepositoryResource.Configure, bind, call, value_of.
  cbn [RepositoryResource.client RepositoryResource.owner ClientOf OwnerOf].
  destruct (api remote (GitHub.Users_Get "") w) as [u w1].
  destruct u as [[[[login|] ? ? ? ? ? ? ? ? ? ? ? ? ? ? ? ?]|]|err];
    cbn; auto.
Qed.

(** C7. Every Configure among the resources and data sources (the user,
    repository, repository-branch and repository-file data sources; the
    repository, repository-branch, repository-file and pull-request
    resources) treats its provider data alike.  Provider data that is not a
    [githubxClientData] adds the error whose summary contains
    "Configure Type" (on a fresh response it is the one diagnostic) and
    leaves the receiver, hence its client, as it was; nil provider data
    changes nothing and adds no diagnostic; client data, and nothing else,
    sets the client and, where the struct has one, the owner.  The
    repository resource's Configure makes no remote call in the first two
    cases. *)
Theorem configure_accepts_only_client_data
        (W : Type) (remote : Remote W) (w : W) :
  configureContract UserDataSource.client None UserDataSource.Configure
  /\ configureContract RepositoryDataSource.client
       (Some RepositoryDataSource.owner) RepositoryDataSource.Configure
  /\ configureContract RepositoryBranchDataSource.client
       (Some RepositoryBranchDataSource.owner)
       RepositoryBranchDataSource.Configure
  /\ configureContract RepositoryFileDataSource.client
       (Some RepositoryFileDataSource.owner)
       RepositoryFileDataSource.Configure
  /\ configureContract RepositoryBranchResource.client
       (Some RepositoryBranchResource.owner)
       RepositoryBranchResource.Configure
  /\ configureContract FileResource.client (Some FileResource.owner)
       FileResource.Configure
  /\ configureContract PullRequestResource.client
       (Some PullRequestResource.owner) PullRequestResource.Configure
  /\ configureContract RepositoryResource.client
       (Some RepositoryResource.owner)
       (fun r data diags =>
          value_of (RepositoryResource.Configure remote r data diags w))
  /\ (forall r data diags,
         data = ProviderDataNil \/ (exists t, data = ProviderDataOther t) ->
         trace_of (RepositoryResource.Configure remote r data diags w) = []).
Proof.
  repeat match goal with |- _ /\ _ => split end.
  1-7: configure_cases.
  - intro r. split; [configure_type_error | split].
    + reflexivity.
    + intros data diags.
      apply (RepositoryResource_Configure_client remote r data diags w).
  - intros r data diags [->|[t ->]]; reflexivity.
Qed.

(* ===================================================================== *)
(** * The polling loops of the pull-request resource *)
(* ===================================================================== *)






Lemma countSleeps_call (c : GitHub.Call) (r : GitHub.result (GitHub.Reply c)) :
  countSleeps [GitHub.EvCall c r] = 0%nat.
Proof. reflexivity. Qed.


Lemma countPullGets_get (o r : string) (n : Z)
      (x : GitHub.result (GitHub.Reply (GitHub.PullRequests_Get o r n))) :
  countPullGets [GitHub.EvCall (GitHub.PullRequests_Get o r n) x] = 1%nat.
Proof. reflexivity. Qed.



Section Polling.

Import PullRequestResource.

Variable W : Type.
Variable remote : Remote W.
Variables (owner repoName : string) (number : Z).










End Polling.





(** With a plan that waits for checks, on a remote where the pull request is
    mergeable and its status stays pending, each of the 30 attempts of
    mergeWhenReady runs a waitForChecks to exhaustion: 30 sleeps of its own
    and 30 times 60 of waitForChecks. *)
Example merge_waiting_for_checks :
  let merge :=
    PullRequestResource.mergeWhenReady PullScenario.remoteMergeablePending
      "octo" "repo" 7 PullScenario.plan7 tt in
  value_of merge
  = Some (Go.errorString "pull request not ready to merge after 30 attempts")
  /\ countSleeps (trace_of merge) = 1830%nat
  /\ countPullGets (trace_of merge) = 1830%nat.
Proof. vm_compute. repeat split. Qed.

(* ===================================================================== *)
(** * The provider's Configure: the authentication precedence *)
(* ===================================================================== *)

Lemma firstNonEmpty_app (l l' : list string) :
  firstNonEmpty (l ++ l')%list
  = if String.eqb (firstNonEmpty l) "" then firstNonEmpty l'
    else firstNonEmpty l.
Proof.
  induction l as [|s l IH]; cbn [app firstNonEmpty]; [reflexivity|].
  destruct (String.eqb s "") eqn:E; [exact IH | now rewrite E].
Qed.

(** Steps 1 to 4 of Configure take the first non-empty of the four
    sources. *)
Lemma tokenBeforeAppAuth_first (env : Provider.Environment)
      (config : Provider.githubxProviderModel) :
  Provider.tokenBeforeAppAuth env config
  = firstNonEmpty (tokenSources env config).
Proof.
  unfold Provider.tokenBeforeAppAuth, tokenSources. cbv zeta.
  cbn [firstNonEmpty].
  destruct (String.eqb (TF.ValueString (Provider.Token config)) "") eqn:E1;
    [|rewrite ?E1; reflexivity].
  destruct (String.eqb (TF.ValueString (Provider.OAuthToken config)) "") eqn:E2;
    [|rewrite ?E2; reflexivity].
  destruct (String.eqb (Provider.Getenv env "GITHUB_TOKEN") "") eqn:E3;
    [|rewrite ?E3; reflexivity].
  destruct (String.eqb (Provider.getGitHubCLIToken env) "") eqn:E4;
    cbn [negb]; [|reflexivity].
  now apply String.eqb_eq.
Qed.





(* ===================================================================== *)
(** * The pull-request resource's Create and an existing pull request *)
(* ===================================================================== *)

Lemma countPullCreates_app (a b : list GitHub.Event) :
  countPullCreates (a ++ b) = (countPullCreates a + countPullCreates b)%nat.
Proof. unfold countPullCreates. now rewrite filter_app, length_app. Qed.

Lemma countPullCreates_quiet (tr : list GitHub.Event) :
  forallb notPullCreate tr = true -> countPullCreates tr = 0%nat.
Proof.
  unfold countPullCreates, notPullCreate.
  induction tr as [|e tr IH]; [reflexivity|].
  cbn [forallb filter]. intro H. apply andb_prop in H. destruct H as [He Htr].
  destruct (isPullCreate e); [discriminate|]. now apply IH.
Qed.

Section PullRequestCreate.

Import PullRequestResource.

Variable W : Type.
Variable remote : Remote W.

(** The first half of Create when the list holds a pull request for the two
    refs: one that is closed and not merged is edited to be open, and
    Create goes on with the pull request the edit returned; any other is
    taken as it is, without a further call. *)
Lemma Create_adoptOrCreate_existing
      (owner repoName baseRef headRef title : string)
      (plan : repositoryPullRequestResourceModel)
      (resp : Response repositoryPullRequestResourceModel) (w : W)
      (prs : list GitHub.PullRequest) (existing : GitHub.PullRequest) :
  fst (api remote (GitHub.PullRequests_List owner repoName
                     (listOptions owner baseRef headRef)) w) = GitHub.Ok prs ->
  firstMatch baseRef headRef prs = Some existing ->
  let run :=
    Create_adoptOrCreate remote owner repoName baseRef headRef title plan resp w in
  let w1 := snd (api remote (GitHub.PullRequests_List owner repoName
                               (listOptions owner baseRef headRef)) w) in
  let list := GitHub.EvCall (GitHub.PullRequests_List owner repoName
                               (listOptions owner baseRef headRef))
                (GitHub.Ok prs) in
  let number := GitHub.GetInt (GitHub.Number existing) in
  let reply :=
    fst (api remote (GitHub.PullRequests_Edit owner repoName number
                       reopenUpdate) w1) in
  if closedUnmerged existing
  then trace_of run
       = [list;
          GitHub.EvCall (GitHub.PullRequests_Edit owner repoName number
                           reopenUpdate) reply]
       /\ world_of run
          = snd (api remote (GitHub.PullRequests_Edit owner repoName number
                               reopenUpdate) w1)
       /\ match reply with
          | GitHub.Ok reopened => adopted repoName reopened resp run
          | GitHub.Err err =>
              fst (value_of run) = None
              /\ hasErrorSummary "Error reopening pull request"
                   (Diagnostics (snd (value_of run))) = true
          end
  else trace_of run = [list] /\ world_of run = w1
       /\ adopted repoName existing resp run.
Proof.
  intros Hlist Hfind run. subst run.
  destruct (Create_adoptOrCreate remote owner repoName baseRef headRef title
              plan resp w) as [[v wf] tr] eqn:Hrun.
  cbv zeta. unfold adopted. cbn [value_of world_of trace_of fst snd].
  unfold Create_adoptOrCreate, findExistingPR in Hrun.
  unfold listOptions in *.
  unfold bind at 1 in Hrun. unfold bind at 1 in Hrun.
  unfold call at 1 in Hrun.
  destruct (api remote (GitHub.PullRequests_List owner repoName _) w)
    as [l w1].
  cbn [fst snd] in *. subst l. cbn [ret] in Hrun. rewrite Hfind in Hrun.
  unfold closedUnmerged.
  destruct (String.eqb (GitHub.GetString (GitHub.State existing)) "closed"
            && negb (GitHub.GetBool (GitHub.Merged existing))).
  - unfold bind, call in Hrun. unfold reopenUpdate.
    destruct (api remote (GitHub.PullRequests_Edit owner repoName _ _) w1)
      as [[reopened|err] w2];
      cbn [ret fst snd app] in Hrun |- *; injection Hrun as <- <- <-;
      (split; [reflexivity|]); (split; [reflexivity|]).
    + eexists. repeat split.
    + split; [reflexivity|]. apply hasErrorSummary_AddError.
  - cbn [ret app] in Hrun. injection Hrun as <- <- <-.
    split; [reflexivity|]. split; [reflexivity|].
    eexists. repeat split.
Qed.

(** None of the calls made after the first half of Create creates a pull
    request. *)
Lemma waitForChecks_loop_noCreate (owner repoName : string) (number : Z) :
  forall (fuel : nat) (attempt : Z),
    eventsAll notPullCreate
      (waitForChecks_loop remote fuel attempt owner repoName number).
Proof.
  induction fuel as [|fuel IH]; intro attempt; cbn [waitForChecks_loop];
    events_all; apply IH.
Qed.

Lemma mergeNow_noCreate (owner repoName : string) (number : Z)
      (plan : repositoryPullRequestResourceModel) :
  eventsAll notPullCreate (mergeNow remote owner repoName number plan).
Proof. unfold mergeNow. events_all. Qed.

Lemma mergeWhenReady_loop_noCreate (owner repoName : string) (number : Z)
      (plan : repositoryPullRequestResourceModel) (cf : nat) :
  forall (fuel : nat) (attempt : Z),
    eventsAll notPullCreate
      (mergeWhenReady_loop remote fuel cf attempt owner repoName number plan).
Proof.
  induction fuel as [|fuel IH]; intro attempt; cbn [mergeWhenReady_loop];
    cbv zeta; events_all; cbv zeta; events_all;
    first [ apply IH | apply waitForChecks_loop_noCreate ].
Qed.

Lemma handleAutoMerge_noCreate (owner repoName : string) (number : Z)
      (plan : repositoryPullRequestResourceModel) :
  eventsAll notPullCreate (handleAutoMerge remote owner repoName number plan).
Proof.
  unfold handleAutoMerge.
  destruct (TF.ValueBool (MergeWhenReady plan)); [|apply eventsAll_ret].
  unfold mergeWhenReady. apply eventsAll_bind.
  - apply mergeWhenReady_loop_noCreate.
  - intros [e|]; apply eventsAll_ret.
Qed.

Lemma HasError_respAddError {Model : Type} (resp : Response Model)
      (summary detail : string) :
  TF.HasError (Diagnostics (respAddError resp summary detail)) = true.
Proof.
  unfold respAddError, withDiagnostics. cbn [Diagnostics].
  eapply hasErrorSummary_HasError. apply hasErrorSummary_AddError.
Qed.

(** readPullRequest for pull request [n], on a model that carries the number
    [n], when the remote returns number [n] for it: it makes one call, and
    unless it adds an error the model still carries the number [n], its ID
    untouched or, after a 404, empty. *)
Lemma readPullRequest_keeps (owner repoName : string) (n : Z)
      (model : repositoryPullRequestResourceModel) (diags : TF.Diagnostics)
      (w : W) :
  (forall pr,
      fst (api remote (GitHub.PullRequests_Get owner repoName n) w)
      = GitHub.Ok pr ->
      GitHub.GetInt (GitHub.Number pr) = n) ->
  Number model = TF.Int64Value n ->
  let run := readPullRequest remote owner repoName n model diags w in
  countPullCreates (trace_of run) = 0%nat
  /\ (TF.HasError (snd (value_of run)) = false ->
      Number (fst (value_of run)) = TF.Int64Value n
      /\ (ID (fst (value_of run)) = ID model
          \/ ID (fst (value_of run)) = TF.StringValue "")).
Proof.
  intros Hecho Hnumber run. subst run.
  destruct (readPullRequest remote owner repoName n model diags w)
    as [[[model' diags'] w1] tr] eqn:Hrun.
  cbn [value_of trace_of fst snd].
  unfold readPullRequest, bind, call in Hrun.
  destruct (api remote (GitHub.PullRequests_Get owner repoName n) w)
    as [[pr|err] w2].
  - specialize (Hecho pr eq_refl).
    destruct (GitHub.MergedAt pr) as [mergedAt|];
      [destruct (negb (GitHub.IsZero mergedAt)
                 && GitHub.GetBool (GitHub.Merged pr))|];
      destruct (negb (String.eqb (GitHub.GetString (GitHub.MergeCommitSHA pr))
                        "")
                && GitHub.GetBool (GitHub.Merged pr));
      destruct (GitHub.Head pr); destruct (GitHub.Base pr);
      cbn [ret app] in Hrun; injection Hrun as <- <- <- <-;
      (split; [reflexivity|]); intros _; cbn; rewrite Hecho; auto.
  - destruct (Go.hasStatus err Go.StatusNotFound);
      cbn [ret app] in Hrun; injection Hrun as <- <- <- <-;
      (split; [reflexivity|]).
    + intros _. cbn. auto.
    + intro H. exfalso. revert H.
      match goal with
      | |- TF.HasError ?d = false -> _ =>
          assert (Ht : TF.HasError d = true)
            by (eapply hasErrorSummary_HasError; apply hasErrorSummary_AddError)
      end.
      congruence.
Qed.

Lemma countPullCreates_nil : countPullCreates [] = 0%nat.
Proof. reflexivity. Qed.

(** Create on a remote that keeps pull request [n] for the refs of the
    plan, by a resource that knows its owner. *)
Lemma Create_adopts (r : repositoryPullRequestResource)
      (reqPlan : Decoded repositoryPullRequestResourceModel)
      (resp : Response repositoryPullRequestResourceModel) (n : Z) (w : W) :
  let plan := decoded reqPlan in
  let repoName := TF.ValueString (Repository plan) in
  remoteKeeps remote (owner r) repoName (TF.ValueString (BaseRef plan))
    (TF.ValueString (HeadRef plan)) n ->
  owner r <> "" ->
  adoptedNumber repoName n (Create remote r reqPlan resp w).
Proof.
  intros plan repoName Hkeeps Howner. unfold adoptedNumber.
  destruct (Create remote r reqPlan resp w) as [[out wf] tr] eqn:Hrun.
  cbn [value_of trace_of fst snd].
  unfold Create in Hrun. cbv zeta in Hrun. fold plan in Hrun.
  fold repoName in Hrun.
  set (resp1 := withDiagnostics _ resp) in Hrun.
  destruct (TF.HasError (Diagnostics resp1)) eqn:Herr1.
  { cbn [ret] in Hrun. injection Hrun as <- <- <-.
    split; [reflexivity | congruence]. }
  destruct (client r) as [c|].
  2:{ cbn [ret] in Hrun. injection Hrun as <- <- <-.
      split; [reflexivity|]. rewrite HasError_respAddError. discriminate. }
  unfold bind at 1 in Hrun. unfold getOwner in Hrun.
  apply String.eqb_neq in Howner. rewrite Howner in Hrun.
  cbn [negb ret] in Hrun.
  destruct (String.eqb (TF.ValueString (BaseRef plan))
                       (TF.ValueString (HeadRef plan))).
  { cbn [ret app] in Hrun. injection Hrun as <- <- <-.
    split; [reflexivity|]. rewrite HasError_respAddError. discriminate. }
  unfold bind at 1 in Hrun.
  destruct (Hkeeps w) as ((prs & existing & Hlist & Hfind & Hnum) & _ & _).
  pose proof (@Create_adoptOrCreate_existing (owner r) repoName
                (TF.ValueString (BaseRef plan)) (TF.ValueString (HeadRef plan))
                (TF.ValueString (Title plan)) plan resp1 w prs existing
                Hlist Hfind) as Hadopt.
  cbv zeta in Hadopt. rewrite Hnum in Hadopt.
  destruct (Create_adoptOrCreate remote (owner r) repoName
              (TF.ValueString (BaseRef plan)) (TF.ValueString (HeadRef plan))
              (TF.ValueString (Title plan)) plan resp1 w)
    as [[[chosen resp2] w2] tr2].
  unfold adopted in Hadopt.
  cbn [value_of world_of trace_of fst snd] in Hadopt.
  assert (Hfirst :
            countPullCreates tr2 = 0%nat
            /\ match chosen with
               | None => TF.HasError (Diagnostics resp2) = true
               | Some (pr, plan') =>
                   resp2 = resp1
                   /\ GitHub.GetInt (GitHub.Number pr) = n
                   /\ ID plan' = pullID repoName n
                   /\ Number plan' = TF.Int64Value n
               end).
  { destruct (closedUnmerged existing).
    - destruct Hadopt as (Htr & _ & Hreply). rewrite Htr.
      split; [reflexivity|].
      destruct (Hkeeps (snd (api remote
                               (GitHub.PullRequests_List (owner r) repoName
                                  (listOptions (owner r)
                                     (TF.ValueString (BaseRef plan))
                                     (TF.ValueString (HeadRef plan)))) w)))
        as (_ & Hedit & _).
      specialize (Hedit reopenUpdate).
      destruct (fst (api remote (GitHub.PullRequests_Edit (owner r) repoName n
                                   reopenUpdate) _)) as [reopened|err].
      + destruct Hreply as (plan' & Hv & Hid & Hno).
        injection Hv as -> ->. rewrite (Hedit reopened eq_refl) in Hid, Hno.
        repeat split; [apply Hedit; reflexivity | assumption..].
      + destruct Hreply as [Hnone Herr]. cbn [fst] in Hnone. subst chosen.
        cbn [snd] in Herr. eapply hasErrorSummary_HasError. exact Herr.
    - destruct Hadopt as (Htr & _ & (plan' & Hv & Hid & Hno)). rewrite Htr.
      split; [reflexivity|].
      injection Hv as -> ->. rewrite Hnum in Hid, Hno.
      repeat split; assumption. }
  destruct Hfirst as [Hc2 Hchosen].
  destruct chosen as [[pr plan']|].
  2:{ cbn [ret app] in Hrun. injection Hrun as <- <- <-.
      rewrite ?countPullCreates_app, Hc2, ?countPullCreates_nil.
      split; [reflexivity | congruence]. }
  destruct Hchosen as (-> & Hpr & Hid & Hno).
  rewrite Hpr in Hrun.
  unfold bind at 1 in Hrun.
  assert (Hmerge :
            forall b : bool,
              eventsAll notPullCreate
                (if b then handleAutoMerge remote (owner r) repoName n plan'
                 else ret None)).
  { intros [|]; [apply handleAutoMerge_noCreate | apply eventsAll_ret]. }
  match type of Hrun with
  | context [(if ?b then ?x else ?y) w2] =>
      pose proof (Hmerge b w2) as Hm;
      destruct ((if b then x else y) w2) as [[err w3] tr3]
  end.
  cbn [trace_of snd] in Hm. apply countPullCreates_quiet in Hm.
  destruct err as [err|].
  { cbn [ret app] in Hrun. injection Hrun as <- <- <-.
    rewrite ?countPullCreates_app, Hc2, Hm, ?countPullCreates_nil.
    split; [reflexivity|]. rewrite HasError_respAddError. discriminate. }
  unfold bind at 1 in Hrun.
  destruct (Hkeeps w3) as (_ & _ & Hecho).
  pose proof (@readPullRequest_keeps (owner r) repoName n plan'
                (Diagnostics resp1) w3 Hecho Hno) as Hread.
  cbv zeta in Hread.
  destruct (readPullRequest remote (owner r) repoName n plan'
              (Diagnostics resp1) w3) as [[[plan3 diags3] w4] tr4].
  cbn [value_of trace_of fst snd] in Hread. destruct Hread as [Hc4 Hkeep].
  cbn [Diagnostics withDiagnostics] in Hrun.
  destruct (TF.HasError diags3) eqn:Herr3;
    cbn [ret app] in Hrun; injection Hrun as <- <- <-;
    rewrite ?countPullCreates_app, Hc2, Hm, Hc4, ?countPullCreates_nil;
    (split; [reflexivity|]); cbn [Diagnostics withDiagnostics StateSet SavedState].
  - congruence.
  - intros _. exists plan3. split; [reflexivity|].
    destruct (Hkeep eq_refl) as [Hn3 Hid3]. split; [assumption|].
    destruct Hid3 as [Hid3|Hid3]; [left; congruence | right; assumption].
Qed.

End PullRequestCreate.

(** C8. A Create that finds a pull request for the base and head refs of
    the plan does not create another.
    - In its first half ([Create_adoptOrCreate]), when the list holds a
      match, there is no call that creates a pull request: a match that is
      closed and not merged is edited to be open, and Create goes on with the
      pull request the edit returned; any other match is taken as it is,
      without a further call.  The plan gets the ID "repository:number" and
      the number of the pull request Create goes on with.
    - On a remote that keeps pull request [n] for these refs, a Create and a
      second Create with the same arguments, run where the first one left
      the remote, both make no creating call and, unless they report an
      error, both save a state with the number [n]. *)
Theorem existing_pull_request_is_adopted (W : Type) (remote : Remote W) :
  (forall (owner repoName baseRef headRef title : string)
          (plan : PullRequestResource.repositoryPullRequestResourceModel)
          (resp : Response PullRequestResource.repositoryPullRequestResourceModel)
          (w : W) (prs : list GitHub.PullRequest)
          (existing : GitHub.PullRequest),
      let list := GitHub.PullRequests_List owner repoName
                    (listOptions owner baseRef headRef) in
      let edit := GitHub.PullRequests_Edit owner repoName
                    (GitHub.GetInt (GitHub.Number existing)) reopenUpdate in
      let run :=
        PullRequestResource.Create_adoptOrCreate remote owner repoName baseRef
          headRef title plan resp w in
      fst (api remote list w) = GitHub.Ok prs ->
      PullRequestResource.firstMatch baseRef headRef prs = Some existing ->
      countPullCreates (trace_of run) = 0%nat
      /\ if closedUnmerged existing
         then exists reply,
             trace_of run
             = [GitHub.EvCall list (GitHub.Ok prs); GitHub.EvCall edit reply]
             /\ match reply with
                | GitHub.Ok reopened => adopted repoName reopened resp run
                | GitHub.Err _ =>
                    fst (value_of run) = None
                    /\ hasErrorSummary "Error reopening pull request"
                         (Diagnostics (snd (value_of run))) = true
                end
         else trace_of run = [GitHub.EvCall list (GitHub.Ok prs)]
              /\ adopted repoName existing resp run)
  /\ (forall (r : PullRequestResource.repositoryPullRequestResource)
             (reqPlan : Decoded PullRequestResource.repositoryPullRequestResourceModel)
             (resp : Response PullRequestResource.repositoryPullRequestResourceModel)
             (n : Z) (w : W),
         let plan := decoded reqPlan in
         let repoName := TF.ValueString (PullRequestResource.Repository plan) in
         let first := PullRequestResource.Create remote r reqPlan resp w in
         let second :=
           PullRequestResource.Create remote r reqPlan resp (world_of first) in
         remoteKeeps remote (PullRequestResource.owner r) repoName
           (TF.ValueString (PullRequestResource.BaseRef plan))
           (TF.ValueString (PullRequestResource.HeadRef plan)) n ->
         PullRequestResource.owner r <> "" ->
         adoptedNumber repoName n first /\ adoptedNumber repoName n second).
Proof.
  split.
  - intros owner repoName baseRef headRef title plan resp w prs existing
           list edit run Hlist Hfind.
    pose proof (@Create_adoptOrCreate_existing W remote owner repoName baseRef
                  headRef title plan resp w prs existing Hlist Hfind) as H.
    cbv zeta in H. fold list in H. fold edit in H. fold run in H.
    destruct (closedUnmerged existing).
    + destruct H as (Htr & _ & Hreply). rewrite Htr.
      split; [reflexivity|]. eexists. split; [reflexivity | exact Hreply].
    + destruct H as (Htr & _ & Hadopted). rewrite Htr.
      split; [reflexivity|]. split; [reflexivity | exact Hadopted].
  - intros r reqPlan resp n w plan repoName first second Hkeeps Howner.
    split; apply Create_adopts; assumption.
Qed.

Lemma existing_pull_request_is_adopted_witness :
  let first :=
    PullRequestResource.Create AdoptScenario.remoteExisting
      AdoptScenario.pullResource (Scenario.cleanly AdoptScenario.planFeature)
      Scenario.fresh false in
  let second :=
    PullRequestResource.Create AdoptScenario.remoteExisting
      AdoptScenario.pullResource (Scenario.cleanly AdoptScenario.planFeature)
      Scenario.fresh (world_of first) in
  (adoptedNumber "repo" 7 first /\ adoptedNumber "repo" 7 second)
  /\ TF.HasError (Diagnostics (value_of first)) = false
  /\ TF.HasError (Diagnostics (value_of second)) = false.
Proof.
  intros first second. split; [|split; reflexivity].
  destruct (existing_pull_request_is_adopted AdoptScenario.remoteExisting)
    as [_ H].
  apply (H AdoptScenario.pullResource
           (Scenario.cleanly AdoptScenario.planFeature) Scenario.fresh 7%Z
           false).
  - intro w. split; [|split].
    + destruct w; do 2 eexists; (split; [reflexivity|]); split; reflexivity.
    + intros update pr Hpr. cbn in Hpr. injection Hpr as <-. reflexivity.
    + intros pr Hpr. cbn in Hpr. injection Hpr as <-.
      destruct w; reflexivity.
  - discriminate.
Defined.

(* ===================================================================== *)
(** * Further properties: identifiers *)
(* ===================================================================== *)

Lemma HasPrefix_char (a c : ascii) (s : string) :
  Go.HasPrefix (String a s) (Go.str1 c) = Ascii.eqb a c.
Proof.
  unfold Go.HasPrefix, Go.str1. cbn [String.prefix].
  destruct (ascii_dec c a) as [E|E]; destruct (Ascii.eqb_spec a c);
    try congruence; now destruct s.
Qed.

Lemma append_nil_r (s : string) : s ++ "" = s.
Proof. induction s as [|a s IH]; cbn; congruence. Qed.

Lemma append_assoc (a b c : string) : (a ++ b) ++ c = a ++ b ++ c.
Proof. induction a as [|x a IH]; cbn; congruence. Qed.

(** With one part left to give, the rest of the string is that part. *)
Lemma genSplit_last (sep : string) (s cur : string) :
  Go.genSplit sep (Some 1%nat) 0 cur s = [cur ++ s].
Proof.
  revert cur. induction s as [|a s IH]; intro cur.
  - cbn. now rewrite append_nil_r.
  - cbn [Go.genSplit Go.may_split Nat.ltb Nat.leb andb].
    rewrite IH. now rewrite append_str1.
Qed.

(** [SplitN(s, string(c), 2)] cuts at the first [c]. *)
Lemma genSplit_two_cut (c : ascii) (s cur : string) :
  Go.genSplit (Go.str1 c) (Some 2%nat) 0 cur s
  = match cut c s with
    | Some (before, after) => [cur ++ before; after]
    | None => [cur ++ s]
    end.
Proof.
  revert cur. induction s as [|a s IH]; intro cur.
  - cbn. now rewrite append_nil_r.
  - cbn [Go.genSplit cut]. rewrite HasPrefix_char.
    cbn [Go.may_split Nat.ltb Nat.leb andb].
    destruct (Ascii.eqb a c).
    + cbn [Go.dec_limit Nat.sub Go.str1 String.length].
      rewrite genSplit_last. cbn. now rewrite append_nil_r.
    + rewrite IH. destruct (cut c s) as [[before after]|];
        now rewrite append_str1.
Qed.

Lemma SplitN_two_cut (c : ascii) (s : string) :
  Go.SplitN s (Go.str1 c) 2
  = match cut c s with
    | Some (before, after) => [before; after]
    | None => [s]
    end.
Proof.
  unfold Go.SplitN. cbn [Z.eqb Z.ltb Z.compare Z.to_nat Pos.to_nat Pos.iter_op
                         Nat.add].
  rewrite genSplit_two_cut. now destruct (cut c s) as [[? ?]|].
Qed.

Lemma cut_some (c : ascii) (s before after : string) :
  cut c s = Some (before, after) ->
  s = before ++ String c after /\ countByte c before = 0%nat.
Proof.
  revert before. induction s as [|a s IH]; intros before H; [discriminate|].
  cbn [cut] in H. destruct (Ascii.eqb_spec a c) as [->|Hne].
  - injection H as <- <-. now split.
  - destruct (cut c s) as [[x y]|]; [|discriminate].
    injection H as <- <-. destruct (IH x eq_refl) as [-> Hx].
    split; [reflexivity|]. cbn [countByte].
    destruct (Ascii.eqb_spec a c); [contradiction | exact Hx].
Qed.

Lemma cut_none (c : ascii) (s : string) :
  cut c s = None <-> countByte c s = 0%nat.
Proof.
  induction s as [|a s IH]; [now split|].
  cbn [cut countByte]. destruct (Ascii.eqb a c).
  - split; [discriminate | intro H; cbn in H; lia].
  - cbn [Nat.add]. rewrite <- IH.
    destruct (cut c s) as [[x y]|]; split; congruence.
Qed.

Lemma cut_app (c : ascii) (before after : string) :
  countByte c before = 0%nat ->
  cut c (before ++ String c after) = Some (before, after).
Proof.
  induction before as [|a before IH]; intro H.
  - cbn. now rewrite Ascii.eqb_refl.
  - cbn [countByte] in H. cbn [append cut].
    destruct (Ascii.eqb a c); [discriminate|]. now rewrite IH.
Qed.

Lemma Contains_char (c : ascii) (s : string) :
  Go.Contains s (Go.str1 c)
  = match cut c s with Some _ => true | None => false end.
Proof.
  induction s as [|a s IH]; [reflexivity|].
  cbn [Go.Contains cut]. rewrite HasPrefix_char, IH.
  destruct (Ascii.eqb a c); [reflexivity|].
  now destruct (cut c s) as [[? ?]|].
Qed.

(** [SplitN(part1 + ":" + part2, ":", 2)] gives back the two parts when the
    first holds no colon. *)
Lemma SplitN_colon_join (part1 part2 : string) :
  countByte ":" part1 = 0%nat ->
  Go.SplitN (part1 ++ ":" ++ part2) ":" 2 = [part1; part2].
Proof.
  intro H.
  change (Go.SplitN (part1 ++ ":" ++ part2) ":" 2)
    with (Go.SplitN (part1 ++ String ":" part2) (Go.str1 ":") 2).
  rewrite SplitN_two_cut.
  change (part1 ++ ":" ++ part2) with (part1 ++ String ":" part2).
  now rewrite cut_app.
Qed.

(** parseTwoPartID by the first colon, or else the first slash. *)
Lemma parseTwoPartID_cut (id name1 name2 : string) :
  parseTwoPartID id name1 name2
  = match cut ":" id with
    | Some (part1, part2) => (part1, part2, None)
    | None =>
        match cut "/" id with
        | Some (part1, part2) => (part1, part2, None)
        | None =>
            ("", "",
             Some (Go.errorString
                     ("unexpected format of ID (" ++ id ++ "), expected "
                      ++ name1 ++ ":" ++ name2 ++ " or "
                      ++ name1 ++ "/" ++ name2)))
        end
    end.
Proof.
  unfold parseTwoPartID.
  change (Go.Contains id ":") with (Go.Contains id (Go.str1 ":")).
  change (Go.SplitN id ":" 2) with (Go.SplitN id (Go.str1 ":") 2).
  change (Go.SplitN id "/" 2) with (Go.SplitN id (Go.str1 "/") 2).
  rewrite Contains_char, !SplitN_two_cut.
  destruct (cut ":" id) as [[a b]|]; [reflexivity|].
  now destruct (cut "/" id) as [[a b]|].
Qed.

(** X1. An ID made by buildTwoPartID from a first part without a colon is
    parsed back by parseTwoPartID into the same two parts, whatever the
    second part holds. *)
Theorem parseTwoPartID_buildTwoPartID (part1 part2 name1 name2 : string) :
  countByte ":" part1 = 0%nat ->
  parseTwoPartID (buildTwoPartID part1 part2) name1 name2 = (part1, part2, None).
Proof.
  intro H. rewrite parseTwoPartID_cut. unfold buildTwoPartID.
  change (part1 ++ ":" ++ part2) with (part1 ++ String ":" part2).
  now rewrite cut_app.
Qed.

Lemma parseTwoPartID_buildTwoPartID_witness :
  countByte ":" "repo" = 0%nat
  /\ parseTwoPartID (buildTwoPartID "repo" "feature/a:b") "repository" "branch"
     = ("repo", "feature/a:b", None).
Proof.
  split; [reflexivity|].
  apply (parseTwoPartID_buildTwoPartID "repo" "feature/a:b"). reflexivity.
Defined.

(** X2. parseTwoPartID cuts an ID that holds a colon at its first colon; an
    ID without a colon that holds a slash is cut at its first slash (the old
    format); the cut-off first part holds no separator.  It fails, with
    two empty strings, exactly on an ID that holds neither a colon nor a
    slash. *)
Theorem parseTwoPartID_parts (id name1 name2 : string) :
  (forall part1 part2,
      parseTwoPartID id name1 name2 = (part1, part2, None) ->
      (id = part1 ++ ":" ++ part2 /\ countByte ":" part1 = 0%nat)
      \/ (countByte ":" id = 0%nat
          /\ id = part1 ++ "/" ++ part2 /\ countByte "/" part1 = 0%nat))
  /\ ((exists e, parseTwoPartID id name1 name2 = ("", "", Some e))
      <-> countByte ":" id = 0%nat /\ countByte "/" id = 0%nat).
Proof.
  rewrite parseTwoPartID_cut.
  destruct (cut ":" id) as [[c1 c2]|] eqn:Hc.
  - apply cut_some in Hc. destruct Hc as [Hid Hc1]. split.
    + intros part1 part2 H. injection H as <- <-. left. now split.
    + split; [intros [e H]; discriminate|].
      intros [H _]. rewrite Hid, countByte_app in H. cbn in H. lia.
  - apply cut_none in Hc.
    destruct (cut "/" id) as [[s1 s2]|] eqn:Hs.
    + apply cut_some in Hs. destruct Hs as [Hid Hs1]. split.
      * intros part1 part2 H. injection H as <- <-. right. now repeat split.
      * split; [intros [e H]; discriminate|].
        intros [_ H]. rewrite Hid, countByte_app in H. cbn in H. lia.
    + apply cut_none in Hs. split.
      * intros part1 part2 H. discriminate.
      * split; [intros _; now split | intros _; eexists; reflexivity].
Qed.

(* ===================================================================== *)
(** * Further properties: merging a pull request *)
(* ===================================================================== *)

Ltac by_method x :=
  let E1 := fresh "E" in
  let E2 := fresh "E" in
  let E3 := fresh "E" in
  destruct (String.eqb_spec x "squash") as [E1|E1];
  [subst x
  |destruct (String.eqb_spec x "rebase") as [E2|E2];
   [subst x
   |destruct (String.eqb_spec x "merge") as [E3|E3]; [subst x|]]].

(** X3. The merge method mergeWhenReady settles on, given the settings of
    the repository.  For a requested method that is one of squash, rebase
    and merge, the method chosen is one the repository allows, and it is the
    requested one whenever that is allowed; there is an error only when the
    repository allows none of the three.  Any other requested method is
    passed on unchecked. *)
Theorem chooseMergeMethod_allowed (repo : GitHub.Repository) (method : string) :
  match PullRequestResource.chooseMergeMethod repo method with
  | GitHub.Ok chosen =>
      if knownMethod method
      then methodAllowed repo chosen = true
           /\ (methodAllowed repo method = true -> chosen = method)
      else chosen = method
  | GitHub.Err _ =>
      knownMethod method = true /\ forall x, methodAllowed repo x = false
  end.
Proof.
  unfold PullRequestResource.chooseMergeMethod, knownMethod, methodAllowed.
  destruct (GitHub.GetBool (GitHub.AllowSquashMerge repo)) eqn:Hs;
    destruct (GitHub.GetBool (GitHub.AllowMergeCommit repo)) eqn:Hm;
    destruct (GitHub.GetBool (GitHub.AllowRebaseMerge repo)) eqn:Hr;
    by_method method; cbn; rewrite ?Hs, ?Hm, ?Hr;
    repeat split; auto; try discriminate; try congruence;
    try (intro x; by_method x; cbn; rewrite ?Hs, ?Hm, ?Hr; reflexivity).
Qed.

(** X4. The method mergeWhenReady tries after the merge was refused with
    405: it differs from the method that was refused and the repository
    allows it; there is none only when the repository allows no other of
    the three methods. *)
Theorem alternativeMethod_allowed (repo : GitHub.Repository) (method : string) :
  match PullRequestResource.alternativeMethod repo method with
  | Some other => other <> method /\ methodAllowed repo other = true
  | None =>
      forall x, knownMethod x = true -> x <> method ->
                methodAllowed repo x = false
  end.
Proof.
  unfold PullRequestResource.alternativeMethod, knownMethod, methodAllowed.
  destruct (GitHub.GetBool (GitHub.AllowSquashMerge repo)) eqn:Hs;
    destruct (GitHub.GetBool (GitHub.AllowMergeCommit repo)) eqn:Hm;
    destruct (GitHub.GetBool (GitHub.AllowRebaseMerge repo)) eqn:Hr;
    by_method method; cbn; rewrite ?Hs, ?Hm, ?Hr;
    repeat split; auto; try discriminate; try congruence;
    try (intros x Hx Hne; by_method x; cbn in *; rewrite ?Hs, ?Hm, ?Hr;
         congruence).
Qed.


(** The next remote call of a run that is spelled out in [Hrun]: its reply
    [r] and the world [w'] it leaves. *)
Ltac next_call Hrun r w' :=
  cbv beta iota zeta in Hrun;
  match type of Hrun with
  | context [api ?R ?c ?w] => destruct (api R c w) as [r w']
  end;
  cbv beta iota zeta in Hrun.


(* ===================================================================== *)
(** * Further properties: the repository-file resource *)
(* ===================================================================== *)

Lemma HasError_AddError (ds : TF.Diagnostics) (summary detail : string) :
  TF.HasError (TF.AddError ds summary detail) = true.
Proof. eapply hasErrorSummary_HasError. apply hasErrorSummary_AddError. Qed.

Ltac branch_case Hrun :=
  cbv beta iota zeta in Hrun; cbn [app] in Hrun;
  injection Hrun as <- <- <- <- <-;
  cbn [value_of trace_of fst snd length existsb isCreateRef createsRef
       lookupFailed orb GitHub.GetString GitHub.Ref];
  rewrite ?String.eqb_refl, ?HasError_AddError;
  repeat split; intros; try discriminate; try congruence; try lia; auto.

(** X6. The branch check that precedes every write of the file resource.
    It returns true without touching the diagnostics, or false with an error
    added.  It makes no call when the model names no branch, and at most
    three calls otherwise.  It creates a branch only when the model has
    autocreate_branch set and the lookup of the model's branch failed, and
    the reference it then creates is that branch. *)
Theorem checkAndCreateBranchIfNeeded_creates
        (W : Type) (remote : Remote W) (owner repo : string)
        (model : FileResource.repositoryFileResourceModel)
        (diags : TF.Diagnostics) (w : W) :
  let run :=
    FileResource.checkAndCreateBranchIfNeeded remote owner repo model diags w in
  let ok := fst (fst (value_of run)) in
  let branchRefName :=
    "refs/heads/" ++ TF.ValueString (FileResource.Branch model) in
  (ok = true -> snd (value_of run) = diags)
  /\ (ok = false -> TF.HasError (snd (value_of run)) = true)
  /\ (TF.String_known (FileResource.Branch model) = false ->
      trace_of run = [])
  /\ (length (trace_of run) <= 3)%nat
  /\ (existsb isCreateRef (trace_of run) = true ->
      TF.ValueBool (FileResource.AutocreateBranch model) = true
      /\ existsb (createsRef branchRefName) (trace_of run) = true
      /\ match trace_of run with
         | e :: _ => lookupFailed branchRefName e = true
         | [] => False
         end).
Proof.
  intros run ok branchRefName. subst run ok branchRefName.
  destruct (FileResource.checkAndCreateBranchIfNeeded remote owner repo model
              diags w) as [[[[ok model'] diags'] wf] tr] eqn:Hrun.
  unfold FileResource.checkAndCreateBranchIfNeeded,
    FileResource.checkRepositoryBranchExists, bind, call, ret in Hrun.
  unfold TF.String_known.
  destruct (TF.String_IsNull (FileResource.Branch model));
    [branch_case Hrun|].
  destruct (TF.String_IsUnknown (FileResource.Branch model));
    [branch_case Hrun|].
  cbn [orb] in Hrun.
  next_call Hrun lookup w1. destruct lookup as [ref|err]; [branch_case Hrun|].
  destruct (TF.ValueBool (FileResource.AutocreateBranch model));
    cbn [negb] in Hrun; [|branch_case Hrun].
  destruct (TF.String_known (FileResource.AutocreateBranchSourceSHA model)
            && negb (String.eqb
                       (TF.ValueString
                          (FileResource.AutocreateBranchSourceSHA model)) "")).
  - next_call Hrun created w2. destruct created; branch_case Hrun.
  - next_call Hrun source w2. destruct source as [ref|err']; [|branch_case Hrun].
    destruct (GitHub.Object ref) as [[[sha|]]|]; try branch_case Hrun.
    next_call Hrun created w3. destruct created; branch_case Hrun.
Qed.

Lemma notWrite_withoutSHA (tr : list GitHub.Event) :
  forallb notWrite tr = true -> forallb writesWithoutSHA tr = true.
Proof.
  induction tr as [|e tr IH]; [reflexivity|].
  cbn [forallb]. rewrite !andb_true_iff. intros [He Htr].
  split; [|now apply IH].
  unfold notWrite, isWrite, writesWithoutSHA in *.
  now destruct (writeOf e).
Qed.

Section FileCreate.

Import FileResource.

Variable W : Type.
Variable remote : Remote W.
Variable GetContent : GitHub.RepositoryContent -> GitHub.result string.
Variable url_Parse_RawQuery : string -> GitHub.result string.
Variable url_ParseQuery : string -> GitHub.result (list (string * list string)).

Lemma checkAndCreateBranchIfNeeded_Overwrite (owner repo : string)
      (model : repositoryFileResourceModel) (diags : TF.Diagnostics) (w : W) :
  OverwriteOnCreate
    (snd (fst (value_of
       (checkAndCreateBranchIfNeeded remote owner repo model diags w))))
  = OverwriteOnCreate model.
Proof.
  unfold checkAndCreateBranchIfNeeded, checkRepositoryBranchExists.
  repeat (first
    [ progress step
    | match goal with
      | |- context [api remote ?c ?w] => destruct (api remote c w) as [[?|?] ?]
      | |- context [if ?b then _ else _] => destruct b
      | |- context [match ?x with _ => _ end] => destruct x
      end ]);
    reflexivity.
Qed.

(** Without overwrite_on_create the retry loop of Create never changes the
    options it sends. *)
Lemma Create_retry_without_SHA (owner repoName filePath : string)
      (plan : repositoryFileResourceModel) (diags : TF.Diagnostics)
      (opts : GitHub.RepositoryContentFileOptions) :
  TF.ValueBool (OverwriteOnCreate plan) = false ->
  GitHub.SHA opts = None ->
  forall (n : nat) (create : option GitHub.RepositoryContentResponse)
         (err : option Go.error) (w : W),
    forallb writesWithoutSHA
      (trace_of (Create_retry remote n owner repoName filePath plan diags opts
                   create err w)) = true.
Proof.
  intros Hover Hsha.
  assert (Hwrite : forall r,
             writesWithoutSHA
               (GitHub.EvCall
                  (GitHub.Repositories_CreateFile owner repoName filePath opts)
                  r) = true).
  { intro r. unfold writesWithoutSHA. cbn [writeOf]. now rewrite Hsha. }
  induction n as [|n IH]; intros create err w; [reflexivity|].
  destruct (Create_retry remote (S n) owner repoName filePath plan diags opts
              create err w) as [[v wf] tr] eqn:Hrun.
  cbn [trace_of snd]. cbn [Create_retry] in Hrun.
  unfold bind, call, ret in Hrun.
  next_call Hrun r w1. destruct r as [c|e].
  { cbn [app] in Hrun. injection Hrun as <- <- <-.
    cbn [forallb]. now rewrite Hwrite. }
  destruct (Go.hasStatus e Go.StatusConflict).
  2:{ cbn [app] in Hrun. injection Hrun as <- <- <-.
      cbn [forallb]. now rewrite Hwrite. }
  next_call Hrun fc w2. rewrite Hover in Hrun.
  specialize (IH None (Some e) w2).
  destruct fc as [[[fc|] dc]|e2]; cbv beta iota zeta in Hrun;
    try (destruct (Create_retry remote n owner repoName filePath plan diags
                     opts None (Some e) w2) as [[v' w'] tr'];
         cbn [trace_of snd] in IH);
    cbn [app] in Hrun; injection Hrun as <- <- <-;
    cbn [forallb]; rewrite Hwrite, ?IH; reflexivity.
Qed.

End FileCreate.

(** X7. A Create of the file resource whose plan does not set
    overwrite_on_create never sends a SHA: none of its CreateFile calls
    names a blob to replace, also after a conflict. *)
Theorem Create_without_overwrite_sends_no_SHA
        (W : Type) (remote : Remote W)
        (GetContent : GitHub.RepositoryContent -> GitHub.result string)
        (url_Parse_RawQuery : string -> GitHub.result string)
        (url_ParseQuery : string -> GitHub.result (list (string * list string)))
        (r : FileResource.repositoryFileResource)
        (reqPlan : Decoded FileResource.repositoryFileResourceModel)
        (resp : Response FileResource.repositoryFileResourceModel) (w : W) :
  TF.ValueBool (FileResource.OverwriteOnCreate (decoded reqPlan)) = false ->
  forallb writesWithoutSHA
    (trace_of (FileResource.Create remote GetContent url_Parse_RawQuery
                 url_ParseQuery r reqPlan resp w)) = true.
Proof.
  intro Hover. unfold FileResource.Create.
  set (resp1 := withDiagnostics _ resp). clearbody resp1.
  destruct (TF.HasError (Diagnostics resp1)); [reflexivity|].
  destruct (FileResource.client r); [|reflexivity].
  rewrite run_bind.
  pose proof (notWrite_withoutSHA _ (getOwner_notWrite remote r w)) as Hown.
  destruct (FileResource.getOwner remote r w) as [[[owner err] w1] tr1].
  cbn [value_of world_of trace_of fst snd] in *.
  rewrite forallb_app, Hown. cbn [andb].
  destruct err; [reflexivity|].
  set (repoName := TF.ValueString (FileResource.Repository (decoded reqPlan))).
  set (filePath := TF.ValueString (FileResource.File (decoded reqPlan))).
  rewrite run_bind.
  pose proof (notWrite_withoutSHA _
    (checkAndCreateBranchIfNeeded_notWrite remote owner repoName
       (decoded reqPlan) (Diagnostics resp1) w1)) as Hbr.
  pose proof (checkAndCreateBranchIfNeeded_Overwrite remote owner repoName
                (decoded reqPlan) (Diagnostics resp1) w1) as Hkeep.
  destruct (FileResource.checkAndCreateBranchIfNeeded remote owner repoName
              (decoded reqPlan) (Diagnostics resp1) w1)
    as [[[[ok plan] diags] w2] tr2].
  cbn [value_of world_of trace_of fst snd] in *.
  rewrite forallb_app, Hbr. cbn [andb].
  destruct ok; cbn [negb]; [|reflexivity].
  destruct (FileResource.buildFileOptions plan _) as [opts diags0] eqn:Hb.
  destruct (TF.HasError diags0); [reflexivity|].
  destruct opts as [opts|]; [|reflexivity].
  apply buildFileOptions_SHA in Hb.
  assert (Hplan : TF.ValueBool (FileResource.OverwriteOnCreate plan) = false)
    by (rewrite Hkeep; exact Hover).
  match goal with
  | |- context [let '(_, _) := ?x in _] =>
      assert (Hopts : GitHub.SHA (fst x) = None
                      /\ TF.ValueBool (FileResource.OverwriteOnCreate (snd x)) = false)
        by (destruct (GitHub.Message opts) as [[|? ?]|]; split; assumption);
      destruct x as [opts1 plan1]
  end.
  cbn [fst snd] in Hopts. destruct Hopts as [Hsha1 Hover1].
  rewrite Hover1. rewrite run_bind. cbn [ret value_of world_of trace_of fst snd app].
  rewrite run_bind.
  pose proof (@Create_retry_without_SHA W remote owner repoName filePath plan1
                (Diagnostics (withDiagnostics diags resp1)) opts1 Hover1 Hsha1
                (Z.to_nat FileResource.maxRetries) None None w2) as Hloop.
  destruct (FileResource.Create_retry remote (Z.to_nat FileResource.maxRetries) owner repoName filePath
              plan1 (Diagnostics (withDiagnostics diags resp1)) opts1 None None
              w2) as [[exit w4] tr4].
  cbn [value_of world_of trace_of fst snd] in *.
  rewrite forallb_app, Hloop. cbn [andb].
  destruct exit as [d|create [e|]]; try reflexivity.
  apply notWrite_withoutSHA.
  match goal with
  | |- forallb notWrite (trace_of (?m ?w)) = true =>
      refine ((_ : eventsAll notWrite m) w)
  end.
  apply eventsAll_bind; [apply readFile_notWrite|]. events_all.
Qed.

Lemma Create_without_overwrite_sends_no_SHA_witness :
  let run :=
    FileResource.Create Scenario.remoteFlaky Scenario.plainContent
      Scenario.noRawQuery Scenario.noQuery Scenario.fileResource
      (Scenario.cleanly Scenario.planA) Scenario.fresh 0%nat in
  countWrites (trace_of run) = 2%nat
  /\ forallb writesWithoutSHA (trace_of run) = true.
Proof.
  split; [reflexivity|].
  apply (@Create_without_overwrite_sends_no_SHA nat Scenario.remoteFlaky
           Scenario.plainContent Scenario.noRawQuery Scenario.noQuery
           Scenario.fileResource (Scenario.cleanly Scenario.planA)
           Scenario.fresh 0%nat).
  reflexivity.
Defined.

Lemma Errors_AddWarning (ds : TF.Diagnostics) (summary detail : string) :
  TF.Errors (TF.AddWarning ds summary detail) = TF.Errors ds.
Proof.
  unfold TF.AddWarning, TF.Errors. cbn [TF.Append].
  destruct (TF.Diagnostics_Contains ds _); [reflexivity|].
  rewrite filter_app. cbn. apply app_nil_r.
Qed.

Section FileRead.

Import FileResource.

Variable W : Type.
Variable remote : Remote W.
Variable GetContent : GitHub.RepositoryContent -> GitHub.result string.
Variable url_Parse_RawQuery : string -> GitHub.result string.
Variable url_ParseQuery : string -> GitHub.result (list (string * list string)).

Lemma readFile_ref_keeps (fc : GitHub.RepositoryContent)
      (model : repositoryFileResourceModel) (diags : TF.Diagnostics) :
  let out := readFile_ref url_Parse_RawQuery url_ParseQuery fc model diags in
  sameFile (fst out) model /\ TF.Errors (snd out) = TF.Errors diags.
Proof.
  unfold readFile_ref, sameFile.
  destruct (url_Parse_RawQuery _) as [rawQuery|err];
    [destruct (url_ParseQuery rawQuery) as [parsed|err];
     [destruct (find _ parsed) as [[k [|first rest]]|]|]|];
    cbn [fst snd]; rewrite ?Errors_AddWarning; repeat split.
Qed.

Lemma readFile_commit_keeps (commit : GitHub.RepositoryCommit)
      (model : repositoryFileResourceModel) :
  sameFile (readFile_commit commit model) model.
Proof.
  unfold readFile_commit, sameFile.
  destruct (GitHub.InnerCommit commit) as [inner|]; [|repeat split].
  cbv zeta.
  destruct (TF.String_IsNull (CommitMessage model)
            || TF.String_IsUnknown (CommitMessage model));
    (destruct (GitHub.CommitCommitter inner) as [committer|]; [|repeat split]);
    repeat match goal with
           | |- context [if ?b then _ else _] => destruct b
           end; repeat split.
Qed.

End FileRead.

(** X8. readFile on a file whose content can be read.  It adds no error,
    whatever happens when it goes on to look up the commit (a failure there
    is a warning); the model gets the content and the blob SHA of the file,
    the repository and the file name, and keeps its ID and its branch.  It
    makes at most three calls. *)
Theorem readFile_content_is_read
        (W : Type) (remote : Remote W)
        (GetContent : GitHub.RepositoryContent -> GitHub.result string)
        (url_Parse_RawQuery : string -> GitHub.result string)
        (url_ParseQuery : string -> GitHub.result (list (string * list string)))
        (owner repoName filePath : string)
        (model : FileResource.repositoryFileResourceModel)
        (diags : TF.Diagnostics) (w : W)
        (fc : GitHub.RepositoryContent)
        (dc : option (list GitHub.RepositoryContent)) (content : string) :
  fst (api remote
         (GitHub.Repositories_GetContents owner repoName filePath
            (FileResource.getOptions model)) w) = GitHub.Ok (Some fc, dc) ->
  GetContent fc = GitHub.Ok content ->
  let run :=
    FileResource.readFile remote GetContent url_Parse_RawQuery url_ParseQuery
      owner repoName filePath model diags w in
  let model' := fst (value_of run) in
  TF.Errors (snd (value_of run)) = TF.Errors diags
  /\ FileResource.Content model' = TF.StringValue content
  /\ FileResource.SHA model'
     = TF.StringValue (GitHub.GetString (GitHub.ContentSHA fc))
  /\ FileResource.Repository model' = TF.StringValue repoName
  /\ FileResource.File model' = TF.StringValue filePath
  /\ FileResource.ID model' = FileResource.ID model
  /\ FileResource.Branch model' = FileResource.Branch model
  /\ (length (trace_of run) <= 3)%nat.
Proof.
  intros Hget Hcontent run model'. subst model' run.
  destruct (FileResource.readFile remote GetContent url_Parse_RawQuery
              url_ParseQuery owner repoName filePath model diags w)
    as [[[m' d'] wf] tr] eqn:Hrun.
  cbn [value_of trace_of fst snd].
  unfold FileResource.readFile, FileResource.getFileCommit, bind, call, ret
    in Hrun.
  next_call Hrun r w1. cbn [fst] in Hget. subst r.
  cbv beta iota zeta in Hrun. rewrite Hcontent in Hrun.
  match type of Hrun with
  | context [FileResource.readFile_ref ?a ?b ?c ?m ?d] =>
      pose proof (readFile_ref_keeps a b c m d) as Href;
      destruct (FileResource.readFile_ref a b c m d) as [m1 d1]
  end.
  cbv zeta in Href. cbn [fst snd] in Href.
  destruct Href as [(H1 & H2 & H3 & H4 & H5 & H6) He].
  cbn in H1, H2, H3, H4, H5, H6.
  assert (Hdone : forall m,
             sameFile m m1 ->
             FileResource.Content m = TF.StringValue content
             /\ FileResource.SHA m
                = TF.StringValue (GitHub.GetString (GitHub.ContentSHA fc))
             /\ FileResource.Repository m = TF.StringValue repoName
             /\ FileResource.File m = TF.StringValue filePath
             /\ FileResource.ID m = FileResource.ID model
             /\ FileResource.Branch m = FileResource.Branch model).
  { intros m (K1 & K2 & K3 & K4 & K5 & K6).
    repeat split; congruence. }
  assert (Hself : sameFile m1 m1) by (repeat split).
  repeat (cbv beta iota zeta in Hrun;
          match type of Hrun with
          | context [api ?R ?c ?w] => destruct (api R c w) as [[?|?] ?]
          | context [if ?b then _ else _] => destruct b
          | context [match ?x with [] => _ | _ :: _ => _ end] => destruct x
          end);
    cbv beta iota zeta in Hrun; cbn [app] in Hrun;
    injection Hrun as <- <- <- <-;
    rewrite ?Errors_AddWarning;
    (split; [exact He|]);
    lazymatch goal with
    | |- context [FileResource.readFile_commit ?c m1] =>
        destruct (Hdone _ (readFile_commit_keeps c m1))
          as (K1 & K2 & K3 & K4 & K5 & K6)
    | |- _ => destruct (Hdone _ Hself) as (K1 & K2 & K3 & K4 & K5 & K6)
    end;
    repeat split; try assumption; cbn [length]; lia.
Qed.

Lemma readFile_content_is_read_witness :
  let run :=
    FileResource.readFile Scenario.remoteFlaky Scenario.plainContent
      Scenario.noRawQuery Scenario.noQuery "octo" "repo" "a.txt" Scenario.stateA
      [] 0%nat in
  TF.Errors (snd (value_of run)) = []
  /\ FileResource.Content (fst (value_of run)) = TF.StringValue "new text"
  /\ FileResource.ID (fst (value_of run)) = TF.StringValue "repo:a.txt".
Proof.
  destruct (@readFile_content_is_read nat Scenario.remoteFlaky
              Scenario.plainContent Scenario.noRawQuery Scenario.noQuery
              "octo" "repo" "a.txt" Scenario.stateA [] 0%nat
              Scenario.remoteFile None "new text" eq_refl eq_refl)
    as (He & Hc & _ & _ & _ & Hid & _).
  repeat split; assumption.
Defined.

(** X9. Read of a file kept on a branch, without autocreate_branch: when the
    lookup of the branch fails, with whatever error, Read adds no diagnostic,
    saves the state with an empty ID (the resource is dropped) and asks the
    remote nothing else: the file is not read. *)
Theorem Read_drops_file_when_branch_lookup_fails
        (W : Type) (remote : Remote W)
        (GetContent : GitHub.RepositoryContent -> GitHub.result string)
        (url_Parse_RawQuery : string -> GitHub.result string)
        (url_ParseQuery : string -> GitHub.result (list (string * list string)))
        (r : FileResource.repositoryFileResource)
        (reqState : Decoded FileResource.repositoryFileResourceModel)
        (resp : Response FileResource.repositoryFileResourceModel) (w : W)
        (c : Client) (repoName filePath branch : string) (e : Go.error) :
  TF.HasError (TF.Append (Diagnostics resp) (decodeDiags reqState)) = false ->
  FileResource.client r = Some c ->
  FileResource.owner r <> "" ->
  FileResource.ID (decoded reqState)
  = TF.StringValue (repoName ++ ":" ++ filePath) ->
  countByte ":" repoName = 0%nat ->
  FileResource.Branch (decoded reqState) = TF.StringValue branch ->
  TF.ValueBool (FileResource.AutocreateBranch (decoded reqState)) = false ->
  fst (api remote
         (GitHub.Git_GetRef (FileResource.owner r) repoName
            ("refs/heads/" ++ branch)) w) = GitHub.Err e ->
  let run :=
    FileResource.Read remote GetContent url_Parse_RawQuery url_ParseQuery
      r reqState resp w in
  Diagnostics (value_of run)
  = TF.Append (Diagnostics resp) (decodeDiags reqState)
  /\ SavedState (value_of run)
     = Some (FileResource.set_ID (TF.StringValue "") (decoded reqState))
  /\ trace_of run
     = [GitHub.EvCall
          (GitHub.Git_GetRef (FileResource.owner r) repoName
             ("refs/heads/" ++ branch)) (GitHub.Err e)].
Proof.
  intros Hok Hclient Howner Hid Hrepo Hbranch Hauto Hget run. subst run.
  destruct (FileResource.Read remote GetContent url_Parse_RawQuery
              url_ParseQuery r reqState resp w) as [[v wf] tr] eqn:Hrun.
  cbn [value_of trace_of fst snd].
  unfold FileResource.Read, FileResource.getOwner,
    FileResource.checkRepositoryBranchExists in Hrun.
  cbn [Diagnostics withDiagnostics] in Hrun.
  rewrite Hok, Hclient in Hrun.
  assert (Hne : String.eqb (FileResource.owner r) "" = false)
    by (now apply String.eqb_neq).
  rewrite Hne in Hrun. cbn [negb] in Hrun.
  unfold bind, call, ret in Hrun. cbv beta iota zeta in Hrun.
  rewrite Hid in Hrun. cbn [TF.ValueString] in Hrun.
  assert (Hnonempty : String.eqb (repoName ++ ":" ++ filePath) "" = false).
  { apply String.eqb_neq. destruct repoName; discriminate. }
  rewrite Hnonempty, (@SplitN_colon_join repoName filePath Hrepo), Hbranch in Hrun.
  cbn [TF.String_known TF.String_IsNull TF.String_IsUnknown negb andb
       TF.ValueString] in Hrun.
  next_call Hrun ans w1. cbn [fst] in Hget. subst ans.
  cbv beta iota zeta in Hrun. rewrite Hauto in Hrun.
  injection Hrun as <- <- <-.
  cbn [StateSet Diagnostics SavedState withDiagnostics app].
  repeat split.
Qed.

Lemma Read_drops_file_when_branch_lookup_fails_witness :
  let run :=
    FileResource.Read BranchScenario.remoteDown Scenario.plainContent
      Scenario.noRawQuery Scenario.noQuery Scenario.fileResource
      (Scenario.cleanly BranchScenario.stateOnBranch) Scenario.fresh tt in
  Diagnostics (value_of run) = []
  /\ SavedState (value_of run)
     = Some (FileResource.set_ID (TF.StringValue "")
               BranchScenario.stateOnBranch)
  /\ length (trace_of run) = 1%nat.
Proof.
  destruct (@Read_drops_file_when_branch_lookup_fails unit
              BranchScenario.remoteDown Scenario.plainContent
              Scenario.noRawQuery Scenario.noQuery Scenario.fileResource
              (Scenario.cleanly BranchScenario.stateOnBranch) Scenario.fresh tt
              (mkClient DefaultTransport None) "repo" "a.txt" "feature"
              Scenario.serverError)
    as (Hd & Hs & Ht);
    [reflexivity | reflexivity | discriminate | reflexivity | reflexivity
    | reflexivity | reflexivity | reflexivity |].
  cbv zeta. rewrite Hd, Hs, Ht. repeat split.
Defined.

Section FileCreateState.

Import FileResource.

Variable W : Type.
Variable remote : Remote W.
Variable GetContent : GitHub.RepositoryContent -> GitHub.result string.
Variable url_Parse_RawQuery : string -> GitHub.result string.
Variable url_ParseQuery : string -> GitHub.result (list (string * list string)).

(** readFile leaves the ID as it is, or empties it. *)
Lemma readFile_ID (owner repoName filePath : string)
      (model : repositoryFileResourceModel) (diags : TF.Diagnostics) (w : W) :
  let out :=
    fst (value_of (readFile remote GetContent url_Parse_RawQuery url_ParseQuery
                     owner repoName filePath model diags w)) in
  ID out = ID model \/ ID out = TF.StringValue "".
Proof.
  cbv zeta.
  destruct (readFile remote GetContent url_Parse_RawQuery url_ParseQuery
              owner repoName filePath model diags w)
    as [[[m' d'] wf] tr] eqn:Hrun.
  cbn [value_of fst].
  unfold readFile, getFileCommit, bind, call, ret in Hrun.
  next_call Hrun r w1.
  destruct r as [[[fc|] dc]|err]; cbv beta iota zeta in Hrun.
  - destruct (GetContent fc) as [content|err];
      [|injection Hrun as <- <- <- <-; now left].
    match type of Hrun with
    | context [readFile_ref ?a ?b ?c ?m ?d] =>
        pose proof (readFile_ref_keeps a b c m d) as Href;
        destruct (readFile_ref a b c m d) as [m1 d1]
    end.
    cbv zeta in Href. cbn [fst snd] in Href.
    destruct Href as [(_ & _ & _ & _ & H5 & _) _]. cbn in H5.
    left.
    repeat (cbv beta iota zeta in Hrun;
            match type of Hrun with
            | context [api ?R ?c ?w] => destruct (api R c w) as [[?|?] ?]
            | context [if ?b then _ else _] => destruct b
            | context [match ?x with [] => _ | _ :: _ => _ end] => destruct x
            end);
      cbv beta iota zeta in Hrun; injection Hrun as <- <- <- <-;
      lazymatch goal with
      | |- context [readFile_commit ?c m1] =>
          destruct (readFile_commit_keeps c m1) as (_ & _ & _ & _ & K5 & _);
          congruence
      | |- _ => exact H5
      end.
  - injection Hrun as <- <- <- <-. now right.
  - destruct (Go.AsErrorResponse err) as [[code|]|];
      repeat match type of Hrun with
             | context [if ?b then _ else _] => destruct b
             end;
      injection Hrun as <- <- <- <-; (now left) || (now right).
Qed.

(** Create's loop is left without an error only after a write that
    succeeded, unless it made no call at all. *)
Lemma Create_retry_wrote (owner repoName filePath : string)
      (plan : repositoryFileResourceModel) (diags : TF.Diagnostics) :
  forall (n : nat) (opts : GitHub.RepositoryContentFileOptions)
         (create : option GitHub.RepositoryContentResponse)
         (err : option Go.error) (w : W) (c : option GitHub.RepositoryContentResponse),
    value_of (Create_retry remote n owner repoName filePath plan diags opts
                create err w) = Fell c None ->
    (n = 0%nat /\ err = None)
    \/ existsb writeSucceeded
         (trace_of (Create_retry remote n owner repoName filePath plan diags
                      opts create err w)) = true.
Proof.
  induction n as [|n IH]; intros opts create err w c.
  { cbn. intro H. left. split; [reflexivity|congruence]. }
  intro Hval. right.
  destruct (Create_retry remote (S n) owner repoName filePath plan diags opts
              create err w) as [[v wf] tr] eqn:Hrun.
  cbn [value_of trace_of fst snd] in *. subst v.
  cbn [Create_retry] in Hrun.
  unfold bind, call, ret in Hrun.
  next_call Hrun r w1. destruct r as [ok|e].
  { cbn [app] in Hrun. injection Hrun as _ _ <-. reflexivity. }
  destruct (Go.hasStatus e Go.StatusConflict).
  2:{ cbn [app] in Hrun. discriminate Hrun. }
  next_call Hrun fc w2.
  assert (Hrec : forall opts',
             fst (fst (Create_retry remote n owner repoName filePath plan diags
                         opts' None (Some e) w2)) = Fell c None ->
             existsb writeSucceeded
               (snd (Create_retry remote n owner repoName filePath plan diags
                       opts' None (Some e) w2)) = true).
  { intros opts' H.
    destruct (IH opts' None (Some e) w2 c H) as [[_ Hno]|Hyes];
      [discriminate Hno|exact Hyes]. }
  destruct fc as [[[fc|] dc]|e2]; cbv beta iota zeta in Hrun;
    try destruct (TF.ValueBool (OverwriteOnCreate plan));
    try discriminate Hrun;
    match type of Hrun with
    | context [Create_retry remote n owner repoName filePath plan diags ?o
                 None (Some e) w2] =>
        specialize (Hrec o);
        destruct (Create_retry remote n owner repoName filePath plan diags o
                    None (Some e) w2) as [[v' w'] tr']
    end;
    cbn [fst snd] in Hrec; cbn [app] in Hrun;
    injection Hrun as Hv _ <-; cbn [existsb];
    rewrite (Hrec Hv); now rewrite !orb_true_r.
Qed.

End FileCreateState.

(** X10. Create of the file resource saves a state only after a CreateFile
    call that succeeded, and never together with an error; the ID it saves
    is [repository:file], or empty when the file could not be found when it
    was read back. *)
Theorem Create_saves_state_only_after_a_write
        (W : Type) (remote : Remote W)
        (GetContent : GitHub.RepositoryContent -> GitHub.result string)
        (url_Parse_RawQuery : string -> GitHub.result string)
        (url_ParseQuery : string -> GitHub.result (list (string * list string)))
        (r : FileResource.repositoryFileResource)
        (reqPlan : Decoded FileResource.repositoryFileResourceModel)
        (resp : Response FileResource.repositoryFileResourceModel) (w : W) :
  let run :=
    FileResource.Create remote GetContent url_Parse_RawQuery url_ParseQuery
      r reqPlan resp w in
  SavedState (value_of run) <> SavedState resp ->
  existsb writeSucceeded (trace_of run) = true
  /\ TF.HasError (Diagnostics (value_of run)) = false
  /\ exists st,
      SavedState (value_of run) = Some st
      /\ (FileResource.ID st
          = TF.StringValue
              (TF.ValueString (FileResource.Repository (decoded reqPlan))
               ++ ":" ++ TF.ValueString (FileResource.File (decoded reqPlan)))
          \/ FileResource.ID st = TF.StringValue "").
Proof.
  cbv zeta. unfold FileResource.Create.
  set (resp1 := withDiagnostics _ resp).
  assert (Hsaved : SavedState resp1 = SavedState resp) by reflexivity.
  clearbody resp1.
  assert (Hsame : forall (v : Response FileResource.repositoryFileResourceModel)
                         (P : Prop),
             SavedState v = SavedState resp1 ->
             SavedState v <> SavedState resp -> P).
  { intros v P Hv Hne. exfalso. apply Hne. now rewrite Hv. }
  destruct (TF.HasError (Diagnostics resp1)) eqn:Hok;
    [now apply Hsame|].
  destruct (FileResource.client r); [|now apply Hsame].
  rewrite run_bind.
  destruct (FileResource.getOwner remote r w) as [[[owner err] w1] tr1].
  cbn [value_of world_of trace_of fst snd] in *.
  destruct err; [now apply Hsame|].
  set (repoName := TF.ValueString (FileResource.Repository (decoded reqPlan))).
  set (filePath := TF.ValueString (FileResource.File (decoded reqPlan))).
  rewrite run_bind.
  destruct (FileResource.checkAndCreateBranchIfNeeded remote owner repoName
              (decoded reqPlan) (Diagnostics resp1) w1)
    as [[[[ok plan] diags] w2] tr2].
  cbn [value_of world_of trace_of fst snd] in *.
  destruct ok; cbn [negb]; [|now apply Hsame].
  destruct (FileResource.buildFileOptions plan _) as [opts diags0].
  destruct (TF.HasError diags0); [now apply Hsame|].
  destruct opts as [opts|]; [|now apply Hsame].
  match goal with
  | |- context [let '(_, _) := ?x in _] => destruct x as [opts1 plan1]
  end.
  rewrite run_bind.
  match goal with
  | |- context [trace_of (?m w2)] => destruct (m w2) as [[opts2 w3] tr3]
  end.
  cbn [value_of world_of trace_of fst snd] in *.
  rewrite run_bind.
  pose proof (@Create_retry_wrote W remote owner repoName filePath plan1
                (Diagnostics (withDiagnostics diags resp1))
                (Z.to_nat FileResource.maxRetries) opts2 None None w3) as Hloop.
  destruct (FileResource.Create_retry remote (Z.to_nat FileResource.maxRetries)
              owner repoName filePath plan1
              (Diagnostics (withDiagnostics diags resp1)) opts2 None None w3)
    as [[exit w4] tr4].
  cbn [value_of world_of trace_of fst snd] in *.
  destruct exit as [d|create [e|]]; try now apply Hsame.
  destruct (Hloop create eq_refl) as [[Hzero _]|Hwrote];
    [discriminate Hzero|].
  rewrite run_bind.
  match goal with
  | |- context [FileResource.readFile remote GetContent url_Parse_RawQuery
                  url_ParseQuery owner repoName filePath ?m ?d w4] =>
      pose proof (@readFile_ID W remote GetContent url_Parse_RawQuery
                    url_ParseQuery owner repoName filePath m d w4) as Hid;
      destruct (FileResource.readFile remote GetContent url_Parse_RawQuery
                  url_ParseQuery owner repoName filePath m d w4)
        as [[[plan2 diags2] w5] tr5];
      assert (Hid0 : FileResource.ID m
                     = TF.StringValue (repoName ++ ":" ++ filePath))
        by (now destruct create)
  end.
  cbv zeta in Hid. cbn [value_of world_of trace_of fst snd] in *.
  rewrite Hid0 in Hid. clear Hid0.
  destruct (TF.HasError (Diagnostics (withDiagnostics diags2 _))) eqn:Herr;
    [now apply Hsame|].
  intros _. cbn [ret value_of trace_of fst snd StateSet Diagnostics SavedState].
  split.
  { rewrite !existsb_app, Hwrote. now rewrite ?orb_true_r, ?orb_true_l. }
  split; [exact Herr|].
  eexists. split; [reflexivity|].
  repeat match goal with
         | |- context [if ?b then _ else _] => destruct b
         end; exact Hid.
Qed.

Lemma Create_saves_state_only_after_a_write_witness :
  let run :=
    FileResource.Create Scenario.remoteFlaky Scenario.plainContent
      Scenario.noRawQuery Scenario.noQuery Scenario.fileResource
      (Scenario.cleanly Scenario.planA) Scenario.fresh 0%nat in
  existsb writeSucceeded (trace_of run) = true
  /\ TF.HasError (Diagnostics (value_of run)) = false.
Proof.
  destruct (@Create_saves_state_only_after_a_write nat Scenario.remoteFlaky
              Scenario.plainContent Scenario.noRawQuery Scenario.noQuery
              Scenario.fileResource (Scenario.cleanly Scenario.planA)
              Scenario.fresh 0%nat)
    as (Hw & He & _); [discriminate|].
  split; assumption.
Defined.

(** X11. readPullRequest on a pull request the remote returns: the model
    takes the pull request's state and merged flag, keeps its ID, and gets no
    diagnostic.  For a pull request that is not merged, merged_at and
    merge_commit_sha are null, whatever the remote sent in these fields; a
    pull request without a head keeps the head ref and SHA of the model. *)
Theorem readPullRequest_unmerged_has_no_merge_fields
        (W : Type) (remote : Remote W) (owner repoName : string) (number : Z)
        (model : PullRequestResource.repositoryPullRequestResourceModel)
        (diags : TF.Diagnostics) (w : W) (pr : GitHub.PullRequest) :
  fst (api remote (GitHub.PullRequests_Get owner repoName number) w)
  = GitHub.Ok pr ->
  let run :=
    PullRequestResource.readPullRequest remote owner repoName number model
      diags w in
  let model' := fst (value_of run) in
  snd (value_of run) = diags
  /\ PullRequestResource.ID model' = PullRequestResource.ID model
  /\ PullRequestResource.State model'
     = TF.StringValue (GitHub.GetString (GitHub.State pr))
  /\ PullRequestResource.Merged model'
     = TF.BoolValue (GitHub.GetBool (GitHub.Merged pr))
  /\ (GitHub.GetBool (GitHub.Merged pr) = false ->
      PullRequestResource.MergedAt model' = TF.StringNull
      /\ PullRequestResource.MergeCommitSHA model' = TF.StringNull)
  /\ (GitHub.Head pr = None ->
      PullRequestResource.HeadRef model' = PullRequestResource.HeadRef model
      /\ PullRequestResource.HeadSHA model' = PullRequestResource.HeadSHA model).
Proof.
  intros Hget run model'. subst model' run.
  destruct (PullRequestResource.readPullRequest remote owner repoName number
              model diags w) as [[[m' d'] wf] tr] eqn:Hrun.
  cbn [value_of fst snd].
  unfold PullRequestResource.readPullRequest, bind, call, ret in Hrun.
  next_call Hrun ans w1. cbn [fst] in Hget. subst ans.
  cbv beta iota zeta in Hrun.
  destruct (GitHub.GetBool (GitHub.Merged pr)) eqn:Hmerged;
    destruct (GitHub.MergedAt pr) as [mergedAt|];
    try destruct (GitHub.IsZero mergedAt);
    destruct (String.eqb (GitHub.GetString (GitHub.MergeCommitSHA pr)) "");
    destruct (GitHub.Head pr); destruct (GitHub.Base pr);
    cbn [negb andb app] in Hrun; injection Hrun as <- <- <- <-;
    repeat split; intros; try discriminate; reflexivity.
Qed.

Lemma readPullRequest_unmerged_has_no_merge_fields_witness :
  let run :=
    PullRequestResource.readPullRequest AdoptScenario.remoteExisting "octo"
      "repo" 7 PullReadScenario.state7 [] false in
  PullRequestResource.State (fst (value_of run)) = TF.StringValue "closed"
  /\ PullRequestResource.MergedAt (fst (value_of run)) = TF.StringNull
  /\ PullRequestResource.MergeCommitSHA (fst (value_of run)) = TF.StringNull.
Proof.
  destruct (@readPullRequest_unmerged_has_no_merge_fields bool
              AdoptScenario.remoteExisting "octo" "repo" 7
              PullReadScenario.state7 [] false AdoptScenario.pull7closed
              eq_refl)
    as (_ & _ & Hstate & _ & Hnull & _).
  destruct (Hnull eq_refl) as [Hat Hsha].
  repeat split; assumption.
Defined.

(** What readPullRequest leaves when the pull request is returned. *)
Lemma readPullRequest_unmerged_status
      (W : Type) (remote : Remote W) (owner repoName : string) (number : Z)
      (model : PullRequestResource.repositoryPullRequestResourceModel)
      (diags : TF.Diagnostics) (w : W) (pr : GitHub.PullRequest) :
  fst (api remote (GitHub.PullRequests_Get owner repoName number) w)
  = GitHub.Ok pr ->
  let run :=
    PullRequestResource.readPullRequest remote owner repoName number model
      diags w in
  trace_of run
  = [GitHub.EvCall (GitHub.PullRequests_Get owner repoName number)
       (GitHub.Ok pr)]
  /\ snd (value_of run) = diags
  /\ PullRequestResource.ID (fst (value_of run)) = PullRequestResource.ID model
  /\ PullRequestResource.State (fst (value_of run))
     = TF.StringValue (GitHub.GetString (GitHub.State pr))
  /\ PullRequestResource.Merged (fst (value_of run))
     = TF.BoolValue (GitHub.GetBool (GitHub.Merged pr)).
Proof.
  intros Hget run. subst run.
  destruct (PullRequestResource.readPullRequest remote owner repoName number
              model diags w) as [[[m' d'] wf] tr] eqn:Hrun.
  cbn [value_of trace_of fst snd].
  unfold PullRequestResource.readPullRequest, bind, call, ret in Hrun.
  next_call Hrun ans w1. cbn [fst] in Hget. subst ans.
  cbv beta iota zeta in Hrun.
  destruct (GitHub.MergedAt pr) as [mergedAt|];
    try destruct (negb (GitHub.IsZero mergedAt)
                  && GitHub.GetBool (GitHub.Merged pr));
    destruct (negb (String.eqb (GitHub.GetString (GitHub.MergeCommitSHA pr)) "")
              && GitHub.GetBool (GitHub.Merged pr));
    destruct (GitHub.Head pr); destruct (GitHub.Base pr);
    cbn [app] in Hrun; injection Hrun as <- <- <- <-;
    repeat split.
Qed.


(** X12. Read of the pull-request resource, when the pull request named by
    the ID can be read: it makes that one call, reports no error and saves
    the state; the saved ID is empty when the pull request is closed and not
    merged (the resource is dropped), and the ID of the prior state
    otherwise, also for a merged pull request. *)
Theorem Read_drops_closed_unmerged_pull_request
        (W : Type) (remote : Remote W)
        (strconv_Atoi : string -> GitHub.result Z)
        (r : PullRequestResource.repositoryPullRequestResource)
        (reqState : Decoded PullRequestResource.repositoryPullRequestResourceModel)
        (resp : Response PullRequestResource.repositoryPullRequestResourceModel)
        (w : W) (c : Client) (repoName numberStr : string) (number : Z)
        (pr : GitHub.PullRequest) :
  TF.HasError (TF.Append (Diagnostics resp) (decodeDiags reqState)) = false ->
  PullRequestResource.client r = Some c ->
  PullRequestResource.owner r <> "" ->
  PullRequestResource.ID (decoded reqState)
  = TF.StringValue (repoName ++ ":" ++ numberStr) ->
  countByte ":" repoName = 0%nat ->
  strconv_Atoi numberStr = GitHub.Ok number ->
  fst (api remote
         (GitHub.PullRequests_Get (PullRequestResource.owner r) repoName number)
         w) = GitHub.Ok pr ->
  let run := PullRequestResource.Read remote strconv_Atoi r reqState resp w in
  trace_of run
  = [GitHub.EvCall
       (GitHub.PullRequests_Get (PullRequestResource.owner r) repoName number)
       (GitHub.Ok pr)]
  /\ Diagnostics (value_of run)
     = TF.Append (Diagnostics resp) (decodeDiags reqState)
  /\ exists st,
      SavedState (value_of run) = Some st
      /\ PullRequestResource.State st
         = TF.StringValue (GitHub.GetString (GitHub.State pr))
      /\ PullRequestResource.ID st
         = if closedUnmerged pr then TF.StringValue ""
           else TF.StringValue (repoName ++ ":" ++ numberStr).
Proof.
  intros Hok Hclient Howner Hid Hrepo Hatoi Hget run. subst run.
  destruct (PullRequestResource.Read remote strconv_Atoi r reqState resp w)
    as [[v wf] tr] eqn:Hrun.
  cbn [value_of trace_of fst snd].
  unfold PullRequestResource.Read, PullRequestResource.getOwner in Hrun.
  cbn [Diagnostics withDiagnostics] in Hrun.
  rewrite Hok, Hclient in Hrun.
  assert (Hne : String.eqb (PullRequestResource.owner r) "" = false)
    by (now apply String.eqb_neq).
  rewrite Hne in Hrun. cbn [negb] in Hrun.
  unfold bind at 1 in Hrun. unfold ret at 1 in Hrun.
  cbv beta iota zeta in Hrun.
  rewrite Hid in Hrun. cbn [TF.ValueString] in Hrun.
  rewrite (@SplitN_colon_join repoName numberStr Hrepo), Hatoi in Hrun.
  pose proof (@readPullRequest_unmerged_status W remote
                (PullRequestResource.owner r) repoName number
                (decoded reqState)
                (TF.Append (Diagnostics resp) (decodeDiags reqState)) w pr Hget)
    as (Htr & Hd & Hidkeep & Hstate & Hmerged).
  unfold bind in Hrun.
  destruct (PullRequestResource.readPullRequest remote
              (PullRequestResource.owner r) repoName number (decoded reqState)
              (TF.Append (Diagnostics resp) (decodeDiags reqState)) w)
    as [[[st d] w1] tr1].
  cbn [value_of trace_of fst snd] in *. subst d tr1.
  cbv beta iota zeta in Hrun. cbn [Diagnostics withDiagnostics] in Hrun.
  rewrite Hok in Hrun. unfold ret in Hrun.
  injection Hrun as <- <- <-.
  cbn [StateSet Diagnostics SavedState app].
  split; [reflexivity|]. split; [reflexivity|].
  eexists. split; [reflexivity|].
  rewrite Hstate, Hmerged. cbn [TF.ValueString TF.ValueBool].
  unfold closedUnmerged.
  destruct (String.eqb (GitHub.GetString (GitHub.State pr)) "closed"
            && negb (GitHub.GetBool (GitHub.Merged pr)));
    cbn [PullRequestResource.set_ID PullRequestResource.State
         PullRequestResource.ID];
    (split; [exact Hstate|]); [reflexivity|].
  rewrite Hidkeep. exact Hid.
Qed.

Lemma Read_drops_closed_unmerged_pull_request_witness :
  let run :=
    PullRequestResource.Read AdoptScenario.remoteExisting PullReadScenario.atoi
      AdoptScenario.pullResource (Scenario.cleanly PullReadScenario.state7)
      Scenario.fresh false in
  length (trace_of run) = 1%nat
  /\ exists st, SavedState (value_of run) = Some st
                /\ PullRequestResource.ID st = TF.StringValue "".
Proof.
  destruct (@Read_drops_closed_unmerged_pull_request bool
              AdoptScenario.remoteExisting PullReadScenario.atoi
              AdoptScenario.pullResource
              (Scenario.cleanly PullReadScenario.state7) Scenario.fresh false
              (mkClient DefaultTransport None) "repo" "7" 7
              AdoptScenario.pull7closed)
    as (Htr & _ & st & Hst & _ & Hid);
    [reflexivity | reflexivity | discriminate | reflexivity | reflexivity
    | reflexivity | reflexivity |].
  cbv zeta. rewrite Htr. split; [reflexivity|].
  exists st. split; [exact Hst | exact Hid].
Defined.

(** The scan of waitForChecks stops at the first decisive status. *)
Lemma scanStatuses_find (statuses : list GitHub.RepoStatus) :
  PullRequestResource.scanStatuses statuses
  = match find decisive statuses with
    | None => (true, None)
    | Some status =>
        if isPending status then (false, None)
        else (true, Some (GitHub.GetString (GitHub.StatusContext status)))
    end.
Proof.
  induction statuses as [|status rest IH]; [reflexivity|].
  cbn [PullRequestResource.scanStatuses find].
  destruct (String.eqb (GitHub.GetString (GitHub.StatusState status)) "pending")
    eqn:Ep.
  { replace (decisive status) with true
      by (unfold decisive, isPending; now rewrite Ep).
    unfold isPending. now rewrite Ep. }
  destruct (String.eqb (GitHub.GetString (GitHub.StatusState status)) "error"
            || String.eqb (GitHub.GetString (GitHub.StatusState status))
                 "failure") eqn:Ef.
  - replace (decisive status) with true
      by (unfold decisive, isPending; rewrite Ep; cbn [orb]; now rewrite Ef).
    unfold isPending. now rewrite Ep.
  - replace (decisive status) with false
      by (unfold decisive, isPending; rewrite Ep; cbn [orb]; now rewrite Ef).
    exact IH.
Qed.

(** X13. The first round of waitForChecks is decided by the first status
    of the head commit, in the order of the list, that is pending or has
    failed.  Without such a status (no status at all, or only others, such
    as successes) the function returns nil at once; when it is a failed
    status, the function returns its error at once, also when a pending
    status follows; when it is a pending status, the function sleeps and
    polls again, also when a failed status follows. *)
Theorem waitForChecks_first_decisive_status
        (W : Type) (remote : Remote W) (owner repoName : string) (number : Z)
        (w w1 : W) (pr : GitHub.PullRequest)
        (statuses : list GitHub.RepoStatus) :
  api remote (GitHub.PullRequests_Get owner repoName number) w
  = (GitHub.Ok pr, w1) ->
  fst (api remote
         (GitHub.Repositories_ListStatuses owner repoName
            (PullRequestResource.HeadSHAOf pr)) w1) = GitHub.Ok statuses ->
  let run := PullRequestResource.waitForChecks remote owner repoName number w in
  match find decisive statuses with
  | None => value_of run = None /\ length (trace_of run) = 2%nat
  | Some status =>
      if isPending status then (1 <= countSleeps (trace_of run))%nat
      else value_of run = Some (checkFailed status)
           /\ length (trace_of run) = 2%nat
  end.
Proof.
  intros Hget Hlist run. subst run.
  destruct (PullRequestResource.waitForChecks remote owner repoName number w)
    as [[v wf] tr] eqn:Hrun.
  cbn [value_of trace_of fst snd].
  unfold PullRequestResource.waitForChecks in Hrun.
  change PullRequestResource.checksFuel
    with (S (Z.to_nat PullRequestResource.checksMaxAttempts)) in Hrun.
  cbn [PullRequestResource.waitForChecks_loop] in Hrun.
  change (0 <? PullRequestResource.checksMaxAttempts)%Z with true in Hrun.
  unfold bind, call, ret, Sleep in Hrun.
  rewrite Hget in Hrun. cbv beta iota zeta in Hrun.
  next_call Hrun ans w2. cbn [fst] in Hlist. subst ans.
  cbv beta iota zeta in Hrun. rewrite scanStatuses_find in Hrun.
  destruct (find decisive statuses) as [status|] eqn:Hfind.
  - assert (Hlen : (length statuses =? 0)%nat = false)
      by (destruct statuses; [discriminate Hfind | reflexivity]).
    destruct (isPending status).
    + cbn [andb] in Hrun. rewrite Hlen in Hrun.
      destruct (PullRequestResource.waitForChecks_loop remote _ _ owner
                  repoName number (elapse remote _ w2)) as [[v' w'] tr'].
      destruct v'; cbv beta iota zeta in Hrun; injection Hrun as <- <- <-;
        unfold countSleeps; cbn [app filter isSleep length]; lia.
    + cbv beta iota zeta in Hrun. injection Hrun as <- <- <-.
      split; reflexivity.
  - destruct (true && (0 <? length statuses)%nat) eqn:Hpos;
      [|destruct (length statuses =? 0)%nat eqn:Hlen].
    + cbv beta iota zeta in Hrun. injection Hrun as <- <- <-.
      split; reflexivity.
    + cbv beta iota zeta in Hrun. injection Hrun as <- <- <-.
      split; reflexivity.
    + exfalso. destruct statuses; cbn in Hpos, Hlen; discriminate.
Qed.

Lemma waitForChecks_first_decisive_status_witness :
  (1 <= countSleeps
          (trace_of
             (PullRequestResource.waitForChecks PullScenario.remotePending
                "octo" "repo" 7 tt)))%nat.
Proof.
  apply (@waitForChecks_first_decisive_status unit PullScenario.remotePending
           "octo" "repo" 7 tt tt PullScenario.pull7
           [GitHub.mkRepoStatus (Some "pending") (Some "ci/build")]
           eq_refl eq_refl).
Defined.

Section PullRequestOpen.

Import PullRequestResource.

Variable W : Type.
Variable remote : Remote W.

Lemma getOwner_noCreate (r : repositoryPullRequestResource) :
  eventsAll notPullCreate (getOwner remote r).
Proof. unfold getOwner. events_all. Qed.

Lemma readPullRequest_noCreate (owner repoName : string) (number : Z)
      (model : repositoryPullRequestResourceModel) (diags : TF.Diagnostics) :
  eventsAll notPullCreate
    (readPullRequest remote owner repoName number model diags).
Proof.
  intro w. rewrite readPullRequest_trace. reflexivity.
Qed.

(** The first half of Create calls PullRequests.Create only as the last of
    four calls, after a list without a match and two branch lookups that
    gave different commits. *)
Lemma Create_adoptOrCreate_opens (owner repoName baseRef headRef title : string)
      (plan : repositoryPullRequestResourceModel)
      (resp : Response repositoryPullRequestResourceModel) (w : W) :
  let run := Create_adoptOrCreate remote owner repoName baseRef headRef title
               plan resp w in
  countPullCreates (trace_of run) <> 0%nat ->
  exists prs baseObj headObj newPR result,
    trace_of run
    = opensPullRequest owner repoName baseRef headRef prs baseObj headObj
        newPR result
    /\ firstMatch baseRef headRef prs = None
    /\ refSHA baseObj <> refSHA headObj
    /\ GitHub.NewTitle newPR = Some title
    /\ GitHub.NewHead newPR = Some headRef
    /\ GitHub.NewBase newPR = Some baseRef.
Proof.
  intros run. subst run.
  destruct (Create_adoptOrCreate remote owner repoName baseRef headRef title
              plan resp w) as [[v wf] tr] eqn:Hrun.
  cbn [trace_of snd].
  unfold Create_adoptOrCreate, findExistingPR, getBranchSHAs, bind, call, ret
    in Hrun.
  next_call Hrun prs w1.
  destruct prs as [prs|err]; cbv beta iota zeta in Hrun;
    [|injection Hrun as <- <- <-; intro H; now contradiction H].
  destruct (firstMatch baseRef headRef prs) as [existing|] eqn:Hmatch.
  { destruct (String.eqb (GitHub.GetString (GitHub.State existing)) "closed"
              && negb (GitHub.GetBool (GitHub.Merged existing))).
    - next_call Hrun edited w2.
      destruct edited; cbv beta iota zeta in Hrun;
        injection Hrun as <- <- <-; intro H; now contradiction H.
    - injection Hrun as <- <- <-. intro H. now contradiction H. }
  next_call Hrun baseObj w2.
  destruct baseObj as [baseObj|err]; cbv beta iota zeta in Hrun;
    [|injection Hrun as <- <- <-; intro H; now contradiction H].
  next_call Hrun headObj w3.
  destruct headObj as [headObj|err]; cbv beta iota zeta in Hrun;
    [|injection Hrun as <- <- <-; intro H; now contradiction H].
  fold (refSHA baseObj) in Hrun. fold (refSHA headObj) in Hrun.
  destruct (String.eqb (refSHA baseObj) (refSHA headObj)) eqn:Hsame.
  { injection Hrun as <- <- <-. intro H. now contradiction H. }
  next_call Hrun created w4. intros _.
  exists prs, baseObj, headObj.
  exists (GitHub.mkNewPullRequest (Some title) (Some headRef) (Some baseRef)
            (if TF.String_known (Body plan)
             then Some (TF.ValueString (Body plan)) else None)
            (Some (TF.ValueBool (MaintainerCanModify plan)))).
  exists created.
  split; [|split; [exact Hmatch|split; [now apply String.eqb_neq|]]].
  - destruct created as [pr|err]; cbv beta iota zeta in Hrun;
      repeat match type of Hrun with
             | context [if ?b then _ else _] => destruct b
             end;
      injection Hrun as <- <- <-; reflexivity.
  - repeat split.
Qed.

End PullRequestOpen.

(** X14. Create of the pull-request resource calls PullRequests.Create at
    most once, and only after it has listed the pull requests of the
    repository without finding one for the two refs and has looked up the
    two branches and found them at different commits; the new pull request
    carries the title, the head and the base of the plan. *)
Theorem Create_opens_pull_request_only_for_differing_branches
        (W : Type) (remote : Remote W)
        (r : PullRequestResource.repositoryPullRequestResource)
        (reqPlan : Decoded PullRequestResource.repositoryPullRequestResourceModel)
        (resp : Response PullRequestResource.repositoryPullRequestResourceModel)
        (w : W) :
  let plan := decoded reqPlan in
  let repoName := TF.ValueString (PullRequestResource.Repository plan) in
  let baseRef := TF.ValueString (PullRequestResource.BaseRef plan) in
  let headRef := TF.ValueString (PullRequestResource.HeadRef plan) in
  let run := PullRequestResource.Create remote r reqPlan resp w in
  countPullCreates (trace_of run) <> 0%nat ->
  exists owner pre post prs baseObj headObj newPR result,
    trace_of run
    = (pre
       ++ opensPullRequest owner repoName baseRef headRef prs baseObj headObj
            newPR result
       ++ post)%list
    /\ countPullCreates pre = 0%nat
    /\ countPullCreates post = 0%nat
    /\ PullRequestResource.firstMatch baseRef headRef prs = None
    /\ refSHA baseObj <> refSHA headObj
    /\ GitHub.NewTitle newPR
       = Some (TF.ValueString (PullRequestResource.Title plan))
    /\ GitHub.NewHead newPR = Some headRef
    /\ GitHub.NewBase newPR = Some baseRef.
Proof.
  intros plan repoName baseRef headRef run. subst run.
  unfold PullRequestResource.Create. cbv zeta.
  fold plan. fold repoName. fold baseRef. fold headRef.
  set (resp1 := withDiagnostics _ resp). clearbody resp1.
  destruct (TF.HasError (Diagnostics resp1));
    [intro H; now contradiction H|].
  destruct (PullRequestResource.client r); [|intro H; now contradiction H].
  rewrite run_bind.
  pose proof (countPullCreates_quiet _ (getOwner_noCreate remote r w)) as Hown.
  destruct (PullRequestResource.getOwner remote r w)
    as [[[owner err] w1] tr1].
  cbn [value_of world_of trace_of fst snd] in *.
  destruct err.
  { cbn [ret trace_of snd]. rewrite countPullCreates_app, Hown.
    intro H. now contradiction H. }
  destruct (String.eqb baseRef headRef).
  { cbn [ret trace_of snd]. rewrite countPullCreates_app, Hown.
    intro H. now contradiction H. }
  rewrite run_bind.
  pose proof (@Create_adoptOrCreate_opens W remote owner repoName baseRef
                headRef (TF.ValueString (PullRequestResource.Title plan)) plan
                resp1 w1) as Hopen.
  cbv zeta in Hopen.
  destruct (PullRequestResource.Create_adoptOrCreate remote owner repoName
              baseRef headRef (TF.ValueString (PullRequestResource.Title plan))
              plan resp1 w1) as [[[chosen resp2] w2] tr2].
  cbn [value_of world_of trace_of fst snd] in *.
  assert (Hclose : forall rest,
             countPullCreates rest = 0%nat ->
             countPullCreates (tr1 ++ tr2 ++ rest) <> 0%nat ->
             exists owner pre post prs baseObj headObj newPR result,
               (tr1 ++ tr2 ++ rest)%list
               = (pre
                  ++ opensPullRequest owner repoName baseRef headRef prs
                       baseObj headObj newPR result
                  ++ post)%list
               /\ countPullCreates pre = 0%nat
               /\ countPullCreates post = 0%nat
               /\ PullRequestResource.firstMatch baseRef headRef prs = None
               /\ refSHA baseObj <> refSHA headObj
               /\ GitHub.NewTitle newPR
                  = Some (TF.ValueString (PullRequestResource.Title plan))
               /\ GitHub.NewHead newPR = Some headRef
               /\ GitHub.NewBase newPR = Some baseRef).
  { intros post Hpost Hcount.
    rewrite !countPullCreates_app, Hown, Hpost, Nat.add_0_r in Hcount.
    destruct (Hopen Hcount)
      as (prs & baseObj & headObj & newPR & result & Htr & Hrest).
    exists owner, tr1, post, prs, baseObj, headObj, newPR, result.
    rewrite Htr. split; [reflexivity|]. split; [exact Hown|].
    split; [exact Hpost | exact Hrest]. }
  destruct chosen as [[pr plan']|]; [|apply Hclose; reflexivity].
  rewrite run_bind.
  assert (Hmerge :
            forall b : bool,
              eventsAll notPullCreate
                (if b
                 then PullRequestResource.handleAutoMerge remote owner repoName
                        (GitHub.GetInt (GitHub.Number pr)) plan'
                 else ret None)).
  { intros [|]; [apply handleAutoMerge_noCreate | apply eventsAll_ret]. }
  match goal with
  | |- context [(if ?b then ?x else ?y) w2] =>
      pose proof (countPullCreates_quiet _ (Hmerge b w2)) as Hm;
      destruct ((if b then x else y) w2) as [[err w3] tr3]
  end.
  cbn [value_of world_of trace_of fst snd] in *.
  destruct err as [err|].
  { cbn [ret trace_of snd]. apply Hclose.
    now rewrite countPullCreates_app, Hm. }
  rewrite run_bind.
  pose proof (countPullCreates_quiet _
                (readPullRequest_noCreate remote owner repoName
                   (GitHub.GetInt (GitHub.Number pr)) plan'
                   (Diagnostics resp2) w3)) as Hread.
  destruct (PullRequestResource.readPullRequest remote owner repoName
              (GitHub.GetInt (GitHub.Number pr)) plan' (Diagnostics resp2) w3)
    as [[[plan3 diags3] w4] tr4].
  cbn [value_of world_of trace_of fst snd] in *.
  destruct (TF.HasError (Diagnostics (withDiagnostics diags3 resp2)));
    cbn [ret trace_of snd]; apply Hclose;
    now rewrite !countPullCreates_app, Hm, Hread.
Qed.

Lemma Create_opens_pull_request_only_for_differing_branches_witness :
  let run :=
    PullRequestResource.Create OpenScenario.remoteNoPull
      AdoptScenario.pullResource (Scenario.cleanly AdoptScenario.planFeature)
      Scenario.fresh tt in
  exists owner pre post prs baseObj headObj newPR result,
    trace_of run
    = (pre
       ++ opensPullRequest owner "repo" "main" "feature" prs baseObj headObj
            newPR result
       ++ post)%list
    /\ refSHA baseObj <> refSHA headObj.
Proof.
  destruct (@Create_opens_pull_request_only_for_differing_branches unit
              OpenScenario.remoteNoPull AdoptScenario.pullResource
              (Scenario.cleanly AdoptScenario.planFeature) Scenario.fresh tt)
    as (owner & pre & post & prs & baseObj & headObj & newPR & result
        & Htr & _ & _ & _ & Hdiff & _); [discriminate|].
  exists owner, pre, post, prs, baseObj, headObj, newPR, result.
  split; [exact Htr | exact Hdiff].
Defined.

Lemma HasError_app (a b : TF.Diagnostics) :
  TF.HasError (a ++ b)%list = TF.HasError a || TF.HasError b.
Proof. unfold TF.HasError. apply existsb_app. Qed.

(** Appending diagnostics keeps and brings errors. *)
Lemma HasError_Append (new ds : TF.Diagnostics) :
  TF.HasError (TF.Append ds new) = TF.HasError ds || TF.HasError new.
Proof.
  revert ds. induction new as [|d rest IH]; intro ds.
  - cbn. now rewrite orb_false_r.
  - cbn [TF.Append].
    change (TF.HasError (d :: rest)) with (TF.isError d || TF.HasError rest).
    destruct (TF.Diagnostics_Contains ds d) eqn:Hc.
    + rewrite IH. destruct (TF.isError d) eqn:Hd; [|reflexivity].
      unfold TF.Diagnostics_Contains in Hc. apply existsb_exists in Hc.
      destruct Hc as (x & Hin & Heq).
      assert (Hds : TF.HasError ds = true).
      { unfold TF.HasError. apply existsb_exists. exists x.
        split; [exact Hin|].
        unfold TF.Diagnostic_Equal in Heq.
        apply andb_true_iff in Heq. destruct Heq as [Heq _].
        apply andb_true_iff in Heq. destruct Heq as [Hsev _].
        unfold TF.isError in *.
        destruct (TF.severity d), (TF.severity x); try discriminate;
          reflexivity. }
      now rewrite Hds.
    + rewrite IH, HasError_app. cbn [TF.HasError existsb].
      now rewrite orb_false_r, orb_assoc.
Qed.

(** The owner Configure goes on with before it asks the remote. *)
Lemma firstNonEmpty_ownerSources (env : Provider.Environment)
      (config : Provider.githubxProviderModel) :
  (if String.eqb (TF.ValueString (Provider.Owner config)) ""
   then Provider.Getenv env "GITHUB_OWNER"
   else TF.ValueString (Provider.Owner config))
  = firstNonEmpty (ownerSources env config).
Proof.
  unfold ownerSources. cbn [firstNonEmpty].
  destruct (String.eqb (TF.ValueString (Provider.Owner config)) "");
    [|reflexivity].
  destruct (String.eqb (Provider.Getenv env "GITHUB_OWNER") "") eqn:E;
    [now apply String.eqb_eq | reflexivity].
Qed.

(** The end of Configure: the lookup of the authenticated user, made only
    for an empty owner and a non-empty token. *)
Lemma Configure_owner (W : Type) (remote : Remote W) (explicit token : string)
      (finish : string -> Provider.ConfigureResponse) (w : W) :
  let lookup := fst (api remote (GitHub.Users_Get "") w) in
  let run :=
    bind (if String.eqb explicit "" && negb (String.eqb token "")
          then bind (call remote (GitHub.Users_Get ""))
                 (fun u =>
                    match u with
                    | GitHub.Ok (Some user) =>
                        ret (GitHub.GetString (GitHub.Login user))
                    | _ => ret explicit
                    end)
          else ret explicit)
      (fun owner => ret (finish owner)) w in
  if String.eqb explicit "" && negb (String.eqb token "")
  then trace_of run = [GitHub.EvCall (GitHub.Users_Get "") lookup]
       /\ value_of run = finish (loginOf lookup)
  else trace_of run = [] /\ value_of run = finish explicit.
Proof.
  cbv zeta.
  destruct (String.eqb explicit "") eqn:Hexplicit; cbn [andb];
    [|split; reflexivity].
  destruct (String.eqb token ""); cbn [negb]; [split; reflexivity|].
  apply String.eqb_eq in Hexplicit. subst explicit.
  unfold bind, call, ret.
  destruct (api remote (GitHub.Users_Get "") w) as [[[user|]|err] w1];
    split; reflexivity.
Qed.

(** X15. A Configure of the provider that reports no error resolves the
    owner in a fixed order: the owner attribute, then GITHUB_OWNER; only
    when both are empty and a token was found does it ask the remote, once,
    for the authenticated user, whose login becomes the owner.  When that
    lookup fails the owner stays empty and no diagnostic is added; in every
    other case Configure makes no call at all. *)
Theorem owner_is_resolved_in_order
        (W : Type) (remote : Remote W) (env : Provider.Environment)
        (reqConfig : Decoded Provider.githubxProviderModel)
        (resp : Provider.ConfigureResponse) (w : W)
        (baseURL0 : Provider.URL) :
  let config := decoded reqConfig in
  let diags :=
    TF.Append (Provider.ConfigureDiagnostics resp) (decodeDiags reqConfig) in
  let run := Provider.Configure remote env reqConfig resp w in
  let explicit := firstNonEmpty (ownerSources env config) in
  let token := tokenUsed env config baseURL0 in
  let lookup := fst (api remote (GitHub.Users_Get "") w) in
  TF.HasError diags = false ->
  Provider.url_Parse env (baseURLStrOf env config) = GitHub.Ok baseURL0 ->
  TF.HasError (Provider.ConfigureDiagnostics (value_of run)) = false ->
  exists client owner,
    Provider.ResourceData (value_of run)
    = Some (mkClientData (Some client) owner)
    /\ Provider.DataSourceData (value_of run)
       = Some (mkClientData (Some client) owner)
    /\ Provider.ConfigureDiagnostics (value_of run) = diags
    /\ if String.eqb explicit "" && negb (String.eqb token "")
       then trace_of run = [GitHub.EvCall (GitHub.Users_Get "") lookup]
            /\ owner = loginOf lookup
       else trace_of run = [] /\ owner = explicit.
Proof.
  intros config diags run explicit token lookup Hdiags Hparse.
  subst run. unfold Provider.Configure. cbv zeta.
  cbn [Provider.ConfigureDiagnostics Provider.ResourceData
       Provider.DataSourceData].
  fold config. fold diags. rewrite Hdiags.
  unfold baseURLStrOf in Hparse. cbv zeta in Hparse. rewrite Hparse.
  rewrite tokenBeforeAppAuth_first, firstNonEmpty_ownerSources.
  fold explicit. fold (withTrailingSlash baseURL0).
  assert (Hfinish : forall (tok : string) (insecure : bool)
                           (base : option string),
             tok = token ->
             forall run : Provider.ConfigureResponse * W * list GitHub.Event,
               run
               = bind (if String.eqb explicit "" && negb (String.eqb tok "")
                       then bind (call remote (GitHub.Users_Get ""))
                              (fun u =>
                                 match u with
                                 | GitHub.Ok (Some user) =>
                                     ret (GitHub.GetString (GitHub.Login user))
                                 | _ => ret explicit
                                 end)
                       else ret explicit)
                   (fun owner =>
                      ret (Provider.mkConfigureResponse diags
                             (Some (mkClientData
                                      (Some (mkClient
                                               (Provider.httpTransport tok
                                                  insecure) base)) owner))
                             (Some (mkClientData
                                      (Some (mkClient
                                               (Provider.httpTransport tok
                                                  insecure) base)) owner)))) w ->
               TF.HasError (Provider.ConfigureDiagnostics (value_of run))
               = false ->
               exists client owner,
                 Provider.ResourceData (value_of run)
                 = Some (mkClientData (Some client) owner)
                 /\ Provider.DataSourceData (value_of run)
                    = Some (mkClientData (Some client) owner)
                 /\ Provider.ConfigureDiagnostics (value_of run) = diags
                 /\ if String.eqb explicit "" && negb (String.eqb token "")
                    then trace_of run
                         = [GitHub.EvCall (GitHub.Users_Get "") lookup]
                         /\ owner = loginOf lookup
                    else trace_of run = [] /\ owner = explicit).
  { intros tok insecure base -> run0 -> _.
    pose proof (Configure_owner remote explicit token
                  (fun owner =>
                     Provider.mkConfigureResponse diags
                       (Some (mkClientData
                                (Some (mkClient
                                         (Provider.httpTransport token insecure)
                                         base)) owner))
                       (Some (mkClientData
                                (Some (mkClient
                                         (Provider.httpTransport token insecure)
                                         base)) owner))) w) as Hown.
    cbv zeta in Hown. fold lookup in Hown.
    destruct (String.eqb explicit "" && negb (String.eqb token ""));
      destruct Hown as [Htr Hv]; rewrite Htr, Hv;
      do 2 eexists; repeat split. }
  unfold tokenUsed in token.
  destruct (Provider.AppAuth config) as [appAuth|] eqn:Happ.
  2:{ eapply Hfinish; cycle 1; [reflexivity|].
      subst token. rewrite ?Happ. now rewrite app_nil_r. }
  assert (Htoken : token
                   = if String.eqb (firstNonEmpty (tokenSources env config)) ""
                     then firstNonEmpty
                            [fst (Provider.getGitHubAppToken env appAuth
                                    (withTrailingSlash baseURL0))]
                     else firstNonEmpty (tokenSources env config)).
  { subst token. rewrite ?Happ. apply firstNonEmpty_app. }
  destruct (String.eqb (firstNonEmpty (tokenSources env config)) "")
    eqn:Efirst.
  2:{ eapply Hfinish; cycle 1; [reflexivity|]. now rewrite Htoken. }
  destruct (Provider.getGitHubAppToken env appAuth (withTrailingSlash baseURL0))
    as [appToken appDiags].
  cbn [fst snd firstNonEmpty] in Htoken.
  destruct (TF.HasError appDiags) eqn:Eapp.
  { rewrite Eapp. cbn [ret value_of fst Provider.ConfigureDiagnostics].
    rewrite HasError_Append, Eapp, orb_true_r. discriminate. }
  destruct (String.eqb appToken "") eqn:Etoken; cbn [negb];
    cbn [TF.HasError existsb];
    (eapply Hfinish; cycle 1; [reflexivity|]); rewrite Htoken.
  - now apply String.eqb_eq in Efirst.
  - reflexivity.
Qed.

Lemma owner_is_resolved_in_order_witness :
  let config :=
    Provider.mkProviderModel (TF.StringValue "t0ken") TF.StringNull None
      TF.StringNull TF.StringNull TF.BoolNull in
  let run :=
    Provider.Configure OwnerScenario.remoteUser ProviderScenario.envBare
      (Scenario.cleanly config) ProviderScenario.freshResponse tt in
  exists client,
    Provider.ResourceData (value_of run)
    = Some (mkClientData (Some client) "octocat")
    /\ length (trace_of run) = 1%nat.
Proof.
  intros config run.
  destruct (@owner_is_resolved_in_order unit OwnerScenario.remoteUser
              ProviderScenario.envBare (Scenario.cleanly config)
              ProviderScenario.freshResponse tt
              (Provider.mkURL "https://api.github.com" "/" "")
              eq_refl eq_refl eq_refl)
    as (client & owner & Hdata & _ & _ & Htr & Howner).
  exists client. fold run in Hdata, Htr.
  rewrite Hdata, Htr, Howner. split; reflexivity.
Defined.

Lemma PullRequest_getOwner_isLookup (W : Type) (remote : Remote W)
      (r : PullRequestResource.repositoryPullRequestResource) :
  eventsAll isLookup (PullRequestResource.getOwner remote r).
Proof. unfold PullRequestResource.getOwner. events_all. Qed.

(** X16. Delete of the pull-request resource never touches the saved
    state, and changes nothing on the remote but for one case: after it has
    read a pull request that is open and not merged, it edits that pull
    request once, to close it, as its last call.  A pull request that is
    merged or already closed is left alone, and nothing is ever merged and
    no branch deleted. *)
Theorem Delete_closes_only_an_open_pull_request
        (W : Type) (remote : Remote W)
        (strconv_Atoi : string -> GitHub.result Z)
        (r : PullRequestResource.repositoryPullRequestResource)
        (reqState : Decoded PullRequestResource.repositoryPullRequestResourceModel)
        (resp : Response PullRequestResource.repositoryPullRequestResourceModel)
        (w : W) :
  let run := PullRequestResource.Delete remote strconv_Atoi r reqState resp w in
  SavedState (value_of run) = SavedState resp
  /\ (forallb isLookup (trace_of run) = true
      \/ exists pre owner repoName number pr result,
          trace_of run
          = (pre
             ++ [GitHub.EvCall (GitHub.PullRequests_Get owner repoName number)
                   (GitHub.Ok pr);
                 GitHub.EvCall
                   (GitHub.PullRequests_Edit owner repoName number closeUpdate)
                   result])%list
          /\ forallb isLookup pre = true
          /\ GitHub.GetBool (GitHub.Merged pr) = false
          /\ GitHub.GetString (GitHub.State pr) = "open").
Proof.
  cbv zeta. unfold PullRequestResource.Delete.
  set (resp1 := withDiagnostics _ resp).
  assert (Hsaved : SavedState resp1 = SavedState resp) by reflexivity.
  clearbody resp1.
  destruct (TF.HasError (Diagnostics resp1));
    [split; [exact Hsaved | left; reflexivity]|].
  destruct (PullRequestResource.client r);
    [|split; [exact Hsaved | left; reflexivity]].
  step.
  pose proof (PullRequest_getOwner_isLookup remote r w) as Hown.
  destruct (PullRequestResource.getOwner remote r w)
    as [[[owner err] w1] tr1].
  cbn [value_of world_of trace_of fst snd] in *.
  assert (Hquiet : forallb isLookup (tr1 ++ []) = true)
    by (now rewrite app_nil_r).
  destruct err; [split; [exact Hsaved | left; exact Hquiet]|].
  destruct (Go.SplitN _ ":" 2) as [|repoName [|numberStr [|x l]]];
    try (split; [exact Hsaved | left; exact Hquiet]).
  destruct (strconv_Atoi numberStr) as [number|];
    [|split; [exact Hsaved | left; exact Hquiet]].
  step.
  destruct (api remote (GitHub.PullRequests_Get owner repoName number) w1)
    as [[pr|e] w2]; cbn [fst snd].
  2:{ destruct (Go.hasStatus e Go.StatusNotFound); cbn [ret value_of trace_of
                                                        fst snd app];
        (split; [exact Hsaved|]); left;
        rewrite forallb_app, Hown; reflexivity. }
  destruct (GitHub.GetBool (GitHub.Merged pr)) eqn:Hmerged.
  { cbn [ret value_of trace_of fst snd app]. split; [exact Hsaved|].
    left. rewrite forallb_app, Hown. reflexivity. }
  destruct (String.eqb (GitHub.GetString (GitHub.State pr)) "open") eqn:Hopen.
  2:{ cbn [ret value_of trace_of fst snd app]. split; [exact Hsaved|].
      left. rewrite forallb_app, Hown. reflexivity. }
  apply String.eqb_eq in Hopen.
  step.
  destruct (api remote
              (GitHub.PullRequests_Edit owner repoName number
                 (GitHub.mkPullRequest None (Some "closed") None None None None
                    None None None None None)) w2) as [result w3].
  cbn [fst snd].
  split.
  - destruct result; exact Hsaved.
  - right. exists tr1, owner, repoName, number, pr, result.
    split; [|repeat split; assumption].
    destruct result; reflexivity.
Qed.

(** X17. Delete of the pull-request resource succeeds without a change
    when there is nothing to close: when the pull request named by the ID is
    gone (404), merged, or in another state than open, Delete makes the one
    call that reads it and adds no diagnostic. *)
Theorem Delete_leaves_finished_pull_request
        (W : Type) (remote : Remote W)
        (strconv_Atoi : string -> GitHub.result Z)
        (r : PullRequestResource.repositoryPullRequestResource)
        (reqState : Decoded PullRequestResource.repositoryPullRequestResourceModel)
        (resp : Response PullRequestResource.repositoryPullRequestResourceModel)
        (w : W) (c : Client) (repoName numberStr : string) (number : Z) :
  let lookup :=
    fst (api remote
           (GitHub.PullRequests_Get (PullRequestResource.owner r) repoName
              number) w) in
  TF.HasError (TF.Append (Diagnostics resp) (decodeDiags reqState)) = false ->
  PullRequestResource.client r = Some c ->
  PullRequestResource.owner r <> "" ->
  PullRequestResource.ID (decoded reqState)
  = TF.StringValue (repoName ++ ":" ++ numberStr) ->
  countByte ":" repoName = 0%nat ->
  strconv_Atoi numberStr = GitHub.Ok number ->
  match lookup with
  | GitHub.Err e => Go.hasStatus e Go.StatusNotFound = true
  | GitHub.Ok pr =>
      GitHub.GetBool (GitHub.Merged pr) = true
      \/ GitHub.GetString (GitHub.State pr) <> "open"
  end ->
  let run := PullRequestResource.Delete remote strconv_Atoi r reqState resp w in
  trace_of run
  = [GitHub.EvCall
       (GitHub.PullRequests_Get (PullRequestResource.owner r) repoName number)
       lookup]
  /\ Diagnostics (value_of run)
     = TF.Append (Diagnostics resp) (decodeDiags reqState)
  /\ SavedState (value_of run) = SavedState resp.
Proof.
  intros lookup Hok Hclient Howner Hid Hrepo Hatoi Hdone run. subst run.
  unfold PullRequestResource.Delete, PullRequestResource.getOwner.
  cbv zeta. cbn [Diagnostics withDiagnostics].
  rewrite Hok, Hclient.
  assert (Hne : String.eqb (PullRequestResource.owner r) "" = false)
    by (now apply String.eqb_neq).
  rewrite Hne. cbn [negb]. step.
  rewrite Hid. cbn [TF.ValueString].
  rewrite (@SplitN_colon_join repoName numberStr Hrepo), Hatoi.
  step. fold lookup.
  destruct lookup as [pr|e].
  - destruct (GitHub.GetBool (GitHub.Merged pr)) eqn:Hmerged;
      [repeat split|].
    destruct Hdone as [Hdone|Hdone]; [discriminate|].
    apply String.eqb_neq in Hdone. rewrite Hdone. repeat split.
  - rewrite Hdone. repeat split.
Qed.

Lemma Delete_leaves_finished_pull_request_witness :
  let run :=
    PullRequestResource.Delete AdoptScenario.remoteExisting
      PullReadScenario.atoi AdoptScenario.pullResource
      (Scenario.cleanly PullReadScenario.state7) Scenario.fresh false in
  length (trace_of run) = 1%nat /\ Diagnostics (value_of run) = [].
Proof.
  destruct (@Delete_leaves_finished_pull_request bool
              AdoptScenario.remoteExisting PullReadScenario.atoi
              AdoptScenario.pullResource
              (Scenario.cleanly PullReadScenario.state7) Scenario.fresh false
              (mkClient DefaultTransport None) "repo" "7" 7)
    as (Htr & Hd & _);
    [reflexivity | reflexivity | discriminate | reflexivity | reflexivity
    | reflexivity | right; discriminate |].
  cbv zeta. rewrite Htr, Hd. split; reflexivity.
Defined.

Lemma isLookup_notEdit (tr : list GitHub.Event) :
  forallb isLookup tr = true -> forallb notEdit tr = true.
Proof.
  induction tr as [|e tr IH]; [reflexivity|].
  cbn [forallb]. rewrite !andb_true_iff. intros [He Htr].
  split; [|now apply IH].
  destruct e as [c r|d]; [destruct c|]; try discriminate He; reflexivity.
Qed.

Section PullRequestUpdate.

Import PullRequestResource.

Variable W : Type.
Variable remote : Remote W.

Lemma readPullRequest_isLookup (owner repoName : string) (number : Z)
      (model : repositoryPullRequestResourceModel) (diags : TF.Diagnostics) :
  eventsAll isLookup (readPullRequest remote owner repoName number model diags).
Proof. intro w. rewrite readPullRequest_trace. reflexivity. Qed.

Lemma waitForChecks_loop_noEdit (owner repoName : string) (number : Z) :
  forall (fuel : nat) (attempt : Z),
    eventsAll notEdit
      (waitForChecks_loop remote fuel attempt owner repoName number).
Proof.
  induction fuel as [|fuel IH]; intro attempt; cbn [waitForChecks_loop];
    events_all; apply IH.
Qed.

Lemma mergeNow_noEdit (owner repoName : string) (number : Z)
      (plan : repositoryPullRequestResourceModel) :
  eventsAll notEdit (mergeNow remote owner repoName number plan).
Proof. unfold mergeNow. events_all. Qed.

Lemma mergeWhenReady_loop_noEdit (owner repoName : string) (number : Z)
      (plan : repositoryPullRequestResourceModel) (cf : nat) :
  forall (fuel : nat) (attempt : Z),
    eventsAll notEdit
      (mergeWhenReady_loop remote fuel cf attempt owner repoName number plan).
Proof.
  induction fuel as [|fuel IH]; intro attempt; cbn [mergeWhenReady_loop];
    cbv zeta; events_all; cbv zeta; events_all;
    first [ apply IH | apply waitForChecks_loop_noEdit ].
Qed.

Lemma handleAutoMerge_noEdit (owner repoName : string) (number : Z)
      (plan : repositoryPullRequestResourceModel) :
  eventsAll notEdit (handleAutoMerge remote owner repoName number plan).
Proof.
  unfold handleAutoMerge.
  destruct (TF.ValueBool (MergeWhenReady plan)); [|apply eventsAll_ret].
  unfold mergeWhenReady. apply eventsAll_bind.
  - apply mergeWhenReady_loop_noEdit.
  - intros [e|]; apply eventsAll_ret.
Qed.

End PullRequestUpdate.

(** X18. Update of the pull-request resource makes at most one change of
    the pull request itself: either it only looks things up, or its trace
    is lookups, one PullRequests.Edit, and calls that are no edits.  That
    edit sends the title of the plan, never a state (Update neither closes
    nor reopens) and a base only when base_ref differs between plan and
    state.  Unless merge_when_ready has changed and is now set, nothing but
    lookups follows the edit: Update does not merge. *)
Theorem Update_edits_once_and_keeps_state
        (W : Type) (remote : Remote W)
        (strconv_Atoi : string -> GitHub.result Z)
        (r : PullRequestResource.repositoryPullRequestResource)
        (reqPlan reqState
         : Decoded PullRequestResource.repositoryPullRequestResourceModel)
        (resp : Response PullRequestResource.repositoryPullRequestResourceModel)
        (w : W) :
  let plan := decoded reqPlan in
  let state := decoded reqState in
  let run :=
    PullRequestResource.Update remote strconv_Atoi r reqPlan reqState resp w in
  forallb isLookup (trace_of run) = true
  \/ exists pre owner repoName number update result post,
      trace_of run
      = (pre
         ++ [GitHub.EvCall
               (GitHub.PullRequests_Edit owner repoName number update) result]
         ++ post)%list
      /\ forallb isLookup pre = true
      /\ forallb notEdit post = true
      /\ (mergeNewlyEnabled plan state = false ->
          forallb isLookup post = true)
      /\ GitHub.State update = None
      /\ GitHub.Title update
         = Some (TF.ValueString (PullRequestResource.Title plan))
      /\ (GitHub.Base update = None
          <-> TF.String_Equal (PullRequestResource.BaseRef plan)
                (PullRequestResource.BaseRef state) = true).
Proof.
  cbv zeta. unfold PullRequestResource.Update.
  set (resp1 := withDiagnostics _ (withDiagnostics _ resp)). clearbody resp1.
  destruct (TF.HasError (Diagnostics resp1)); [left; reflexivity|].
  destruct (PullRequestResource.client r); [|left; reflexivity].
  step.
  pose proof (PullRequest_getOwner_isLookup remote r w) as Hown.
  destruct (PullRequestResource.getOwner remote r w)
    as [[[owner err] w1] tr1].
  cbn [value_of world_of trace_of fst snd] in *.
  assert (Hquiet : forallb isLookup (tr1 ++ []) = true)
    by (now rewrite app_nil_r).
  destruct err; [left; exact Hquiet|].
  destruct (Go.SplitN _ ":" 2) as [|repoName [|numberStr [|x l]]];
    try (left; exact Hquiet).
  destruct (strconv_Atoi numberStr) as [number|]; [|left; exact Hquiet].
  step.
  match goal with
  | |- context [GitHub.PullRequests_Edit owner repoName number ?u] =>
      set (update := u)
  end.
  destruct (api remote
              (GitHub.PullRequests_Edit owner repoName number update) w1)
    as [result w2].
  cbn [fst snd].
  right. exists tr1, owner, repoName, number, update, result.
  assert (Hupdate :
            GitHub.State update = None
            /\ GitHub.Title update
               = Some (TF.ValueString
                         (PullRequestResource.Title (decoded reqPlan)))
            /\ (GitHub.Base update = None
                <-> TF.String_Equal
                      (PullRequestResource.BaseRef (decoded reqPlan))
                      (PullRequestResource.BaseRef (decoded reqState)) = true)).
  { subst update. cbn [GitHub.State GitHub.Title GitHub.Base].
    split; [reflexivity|]. split; [reflexivity|].
    destruct (TF.String_Equal _ _); cbn [negb]; split; intro H;
      try reflexivity; discriminate H. }
  clearbody update.
  destruct result as [edited|err].
  2:{ exists []. cbn [ret value_of trace_of fst snd app].
      split; [reflexivity|]. split; [exact Hown|].
      split; [reflexivity|]. split; [reflexivity | exact Hupdate]. }
  step. fold (mergeNewlyEnabled (decoded reqPlan) (decoded reqState)).
  assert (Hmerge :
            forall b : bool,
              eventsAll notEdit
                (if b
                 then PullRequestResource.handleAutoMerge remote owner repoName
                        number (decoded reqPlan)
                 else ret None)).
  { intros [|]; [apply handleAutoMerge_noEdit | apply eventsAll_ret]. }
  specialize (Hmerge (mergeNewlyEnabled (decoded reqPlan) (decoded reqState)) w2).
  assert (Hidle : mergeNewlyEnabled (decoded reqPlan) (decoded reqState) = false ->
                  trace_of
                    ((if mergeNewlyEnabled (decoded reqPlan) (decoded reqState)
                      then PullRequestResource.handleAutoMerge remote owner
                             repoName number (decoded reqPlan)
                      else ret None) w2) = [])
    by (intros ->; reflexivity).
  destruct ((if mergeNewlyEnabled (decoded reqPlan) (decoded reqState)
             then PullRequestResource.handleAutoMerge remote owner repoName
                    number (decoded reqPlan)
             else ret None) w2) as [[err w3] tr3].
  cbn [value_of world_of trace_of fst snd] in *.
  destruct err as [err|].
  { exists (tr3 ++ [])%list. cbn [ret value_of trace_of fst snd app].
    split; [reflexivity|]. split; [exact Hown|].
    rewrite app_nil_r. split; [exact Hmerge|].
    split; [|exact Hupdate].
    intro Hno. now rewrite (Hidle Hno). }
  step.
  pose proof (readPullRequest_isLookup remote owner repoName number
                (decoded reqPlan) (Diagnostics resp1) w3) as Hread.
  destruct (PullRequestResource.readPullRequest remote owner repoName number
              (decoded reqPlan) (Diagnostics resp1) w3)
    as [[[plan3 diags3] w4] tr4].
  cbn [value_of world_of trace_of fst snd] in *.
  exists (tr3 ++ tr4)%list.
  split.
  { destruct (TF.HasError (Diagnostics (withDiagnostics diags3 resp1)));
      cbn [ret trace_of snd]; now rewrite app_nil_r. }
  split; [exact Hown|].
  split; [rewrite forallb_app, Hmerge; now apply isLookup_notEdit|].
  split; [|exact Hupdate].
  intro Hno. rewrite (Hidle Hno). exact Hread.
Qed.

Example Update_retitles_pull_request :
  let run :=
    PullRequestResource.Update UpdateScenario.remoteEditable
      PullReadScenario.atoi AdoptScenario.pullResource
      (Scenario.cleanly UpdateScenario.plan7retitled)
      (Scenario.cleanly PullReadScenario.state7) Scenario.fresh tt in
  countEdits (trace_of run) = 1%nat
  /\ length (trace_of run) = 2%nat
  /\ TF.HasError (Diagnostics (value_of run)) = false.
Proof. repeat split. Qed.


Section FileDataSourceRead.

Import RepositoryFileDataSource.

Variable W : Type.
Variable remote : Remote W.
Variable strconv_Quote : string -> string.
Variable GetContent : GitHub.RepositoryContent -> GitHub.result string.
Variable url_Parse_RawQuery : string -> GitHub.result string.
Variable url_ParseQuery : string -> GitHub.result (list (string * list string)).



End FileDataSourceRead.



(** [Split(owner + "/" + repo, "/")] gives back the two parts when neither
    holds a slash. *)
Lemma genSplit_slash_join (a b cur : string) :
  countByte "/" a = 0%nat -> countByte "/" b = 0%nat ->
  Go.genSplit "/" None 0 cur (a ++ "/" ++ b) = [cur ++ a; b].
Proof.
  revert cur. induction a as [|c a IH]; intros cur Ha Hb.
  - change ("" ++ "/" ++ b) with (String "/" b).
    rewrite genSplit_slash_cons. change (Ascii.eqb "/" "/") with true.
    cbv iota. rewrite genSplit_slash_none by exact Hb.
    now rewrite append_nil_r.
  - cbn [append]. rewrite genSplit_slash_cons. cbn [countByte] in Ha.
    destruct (Ascii.eqb c "/"); [discriminate|].
    rewrite IH by assumption. now rewrite append_str1.
Qed.

Lemma splitRepoFullName_join (strconv_Quote : string -> string)
      (owner repo : string) :
  countByte "/" owner = 0%nat -> countByte "/" repo = 0%nat ->
  splitRepoFullName strconv_Quote (owner ++ "/" ++ repo) = (owner, repo, None).
Proof.
  intros Ho Hr. unfold splitRepoFullName. rewrite Split_slash.
  now rewrite genSplit_slash_join.
Qed.

(** X20. Read of the file data source with a full name [owner/repo]: the
    file is read from that owner's repository, by a GetContents call that
    is the first call of the run, with the configured branch as its ref;
    the owner the provider was configured with is not used and the
    authenticated user is not asked for. *)
Theorem FileDataSource_Read_uses_full_name
        (W : Type) (remote : Remote W)
        (strconv_Quote : string -> string)
        (GetContent : GitHub.RepositoryContent -> GitHub.result string)
        (url_Parse_RawQuery : string -> GitHub.result string)
        (url_ParseQuery : string -> GitHub.result (list (string * list string)))
        (d : RepositoryFileDataSource.repositoryFileDataSource)
        (reqConfig
         : Decoded RepositoryFileDataSource.repositoryFileDataSourceModel)
        (resp : Response RepositoryFileDataSource.repositoryFileDataSourceModel)
        (w : W) (c : Client) (owner repoName filePath : string) :
  let data := decoded reqConfig in
  let opts :=
    GitHub.mkGetOptions
      (if TF.String_known (RepositoryFileDataSource.Branch data)
       then TF.ValueString (RepositoryFileDataSource.Branch data) else "") in
  let get := GitHub.Repositories_GetContents owner repoName filePath opts in
  TF.HasError (TF.Append (Diagnostics resp) (decodeDiags reqConfig)) = false ->
  RepositoryFileDataSource.client d = Some c ->
  RepositoryFileDataSource.FullName data
  = TF.StringValue (owner ++ "/" ++ repoName) ->
  countByte "/" owner = 0%nat ->
  countByte "/" repoName = 0%nat ->
  TF.ValueString (RepositoryFileDataSource.Repository data) = "" ->
  RepositoryFileDataSource.File data = TF.StringValue filePath ->
  filePath <> "" ->
  exists rest,
    trace_of
      (RepositoryFileDataSource.Read remote strconv_Quote GetContent
         url_Parse_RawQuery url_ParseQuery d reqConfig resp w)
    = GitHub.EvCall get (fst (api remote get w)) :: rest
    /\ forallb (fun e => match e with
                         | GitHub.EvCall (GitHub.Users_Get _) _ => false
                         | _ => true
                         end) rest = true.
Proof.
  intros data opts get Hok Hclient Hfull Ho Hr Hrepo Hfile Hpath.
  destruct (RepositoryFileDataSource.Read remote strconv_Quote GetContent
              url_Parse_RawQuery url_ParseQuery d reqConfig resp w)
    as [[v wf] tr] eqn:Hrun.
  cbn [trace_of snd].
  unfold RepositoryFileDataSource.Read, RepositoryFileDataSource.Read_repository,
    RepositoryFileDataSource.getFileCommit, bind, call, ret in Hrun.
  cbn [Diagnostics withDiagnostics] in Hrun. fold data in Hrun.
  rewrite Hok, Hclient, Hfull, Hrepo, Hfile in Hrun.
  cbn [TF.ValueString] in Hrun.
  assert (Hne : String.eqb (owner ++ "/" ++ repoName) "" = false)
    by (apply String.eqb_neq; destruct owner; discriminate).
  apply String.eqb_neq in Hpath.
  rewrite Hne, Hpath, String.eqb_refl in Hrun. cbn [negb andb] in Hrun.
  rewrite (@splitRepoFullName_join strconv_Quote owner repoName Ho Hr) in Hrun.
  cbv beta iota zeta in Hrun. fold opts in Hrun. fold get in Hrun.
  destruct (api remote get w) as [g w1]. cbn [fst].
  repeat (cbv beta iota zeta in Hrun;
          match type of Hrun with
          | context [RepositoryFileDataSource.Read_ref ?p ?q ?fc ?m ?ds] =>
              destruct (RepositoryFileDataSource.Read_ref p q fc m ds)
          | context [api ?R ?c ?w] => destruct (api R c w) as [[?|?] ?]
          | context [if ?b then _ else _] => destruct b
          | context [GetContent ?x] => destruct (GetContent x)
          | context [match ?x with _ => _ end] => is_var x; destruct x
          end);
    cbv beta iota zeta in Hrun; cbn [app] in Hrun;
    injection Hrun as _ _ <-; eexists; split; reflexivity.
Qed.

Lemma FileDataSource_Read_uses_full_name_witness :
  exists rest,
    trace_of
      (RepositoryFileDataSource.Read Scenario.remoteFlaky SourceScenario.quote
         Scenario.plainContent Scenario.noRawQuery Scenario.noQuery
         SourceScenario.fileDataSource (Scenario.cleanly SourceScenario.configA)
         Scenario.fresh 0%nat)
    = GitHub.EvCall
        (GitHub.Repositories_GetContents "hub" "repo" "a.txt"
           (GitHub.mkGetOptions ""))
        (GitHub.Ok (Some Scenario.remoteFile, None)) :: rest.
Proof.
  destruct (@FileDataSource_Read_uses_full_name nat Scenario.remoteFlaky
              SourceScenario.quote Scenario.plainContent Scenario.noRawQuery
              Scenario.noQuery SourceScenario.fileDataSource
              (Scenario.cleanly SourceScenario.configA) Scenario.fresh 0%nat
              (mkClient DefaultTransport None) "hub" "repo" "a.txt")
    as (rest & Htr & _);
    [reflexivity | reflexivity | reflexivity | reflexivity | reflexivity
    | reflexivity | reflexivity | discriminate |].
  exists rest. exact Htr.
Defined.

(** X22. mergeWhenReady on a pull request that is no longer open: it reads
    the pull request once and returns at once, without approving, merging,
    sleeping or deleting a branch; the result is nil when the pull request
    is merged, and the error "pull request is not open" otherwise. *)
Theorem mergeWhenReady_leaves_closed_pull_request
        (W : Type) (remote : Remote W) (owner repoName : string) (number : Z)
        (plan : PullRequestResource.repositoryPullRequestResourceModel)
        (w : W) (pr : GitHub.PullRequest) :
  fst (api remote (GitHub.PullRequests_Get owner repoName number) w)
  = GitHub.Ok pr ->
  GitHub.GetString (GitHub.State pr) <> "open" ->
  let run :=
    PullRequestResource.mergeWhenReady remote owner repoName number plan w in
  trace_of run
  = [GitHub.EvCall (GitHub.PullRequests_Get owner repoName number)
       (GitHub.Ok pr)]
  /\ value_of run
     = if GitHub.GetBool (GitHub.Merged pr) then None else Some notOpen.
Proof.
  intros Hget Hstate run. subst run.
  destruct (PullRequestResource.mergeWhenReady remote owner repoName number
              plan w) as [[v wf] tr] eqn:Hrun.
  cbn [value_of trace_of fst snd].
  unfold PullRequestResource.mergeWhenReady in Hrun.
  change PullRequestResource.mergeFuel
    with (S (Z.to_nat PullRequestResource.mergeMaxAttempts)) in Hrun.
  cbn [PullRequestResource.mergeWhenReady_loop] in Hrun.
  change (0 <? PullRequestResource.mergeMaxAttempts)%Z with true in Hrun.
  unfold bind at 1 2 in Hrun. unfold call in Hrun.
  cbv beta iota zeta in Hrun.
  destruct (api remote (GitHub.PullRequests_Get owner repoName number) w)
    as [ans w1].
  cbn [fst] in Hget. subst ans. cbv beta iota zeta in Hrun.
  apply String.eqb_neq in Hstate. rewrite Hstate in Hrun.
  cbn [negb] in Hrun.
  destruct (GitHub.GetBool (GitHub.Merged pr));
    cbn [ret app] in Hrun; injection Hrun as <- <- <-; split; reflexivity.
Qed.

Lemma mergeWhenReady_leaves_closed_pull_request_witness :
  let run :=
    PullRequestResource.mergeWhenReady MergedScenario.remoteMerged "octo" "repo"
      7 PullScenario.plan7 tt in
  length (trace_of run) = 1%nat /\ value_of run = None.
Proof.
  destruct (@mergeWhenReady_leaves_closed_pull_request unit
              MergedScenario.remoteMerged "octo" "repo" 7 PullScenario.plan7 tt
              MergedScenario.pull7merged eq_refl)
    as [Htr Hv]; [discriminate|].
  cbv zeta. rewrite Htr, Hv. split; reflexivity.
Defined.

Section MergeOnce.

Import PullRequestResource.

Variable W : Type.
Variable remote : Remote W.

Lemma waitForChecks_loop_polling (owner repoName : string) (number : Z) :
  forall (fuel : nat) (attempt : Z),
    eventsAll pollingOnly
      (waitForChecks_loop remote fuel attempt owner repoName number).
Proof.
  induction fuel as [|fuel IH]; intro attempt; cbn [waitForChecks_loop];
    events_all; apply IH.
Qed.

(** Polling events in front of a run keep its shape. *)
Lemma mergesLast_after {A : Type} (owner repoName : string) (number : Z)
      (plan : repositoryPullRequestResourceModel) (wrap : option Go.error -> A)
      (polled : list GitHub.Event) (v : A) (w' : W) (tr : list GitHub.Event) :
  forallb pollingOnly polled = true ->
  mergesLast remote owner repoName number plan wrap (v, w', tr) ->
  forall w'', mergesLast remote owner repoName number plan wrap
                (v, w'', (polled ++ tr)%list).
Proof.
  intros Hpolled (pre & post & Htr & Hpre & Hpost) w''.
  cbn [trace_of value_of fst snd] in *. subst tr.
  exists (polled ++ pre)%list, post.
  cbn [trace_of value_of fst snd].
  split; [now rewrite app_assoc|].
  split; [now rewrite forallb_app, Hpolled, Hpre | exact Hpost].
Qed.

Lemma mergesLast_polled {A : Type} (owner repoName : string) (number : Z)
      (plan : repositoryPullRequestResourceModel) (wrap : option Go.error -> A)
      (polled : list GitHub.Event) (v : A) (w' : W) :
  forallb pollingOnly polled = true ->
  mergesLast remote owner repoName number plan wrap (v, w', polled).
Proof.
  intro Hpolled. exists polled, []. cbn [trace_of snd].
  split; [now rewrite app_nil_r|]. split; [exact Hpolled | now left].
Qed.

Lemma mergesLast_merge (owner repoName : string) (number : Z)
      (plan : repositoryPullRequestResourceModel) (w : W) :
  mergesLast remote owner repoName number plan Some
    (bind (mergeNow remote owner repoName number plan)
       (fun e => ret (Some e)) w).
Proof.
  exists [], (trace_of (mergeNow remote owner repoName number plan w)).
  rewrite run_bind. cbn [ret value_of world_of trace_of fst snd app].
  split; [now rewrite app_nil_r|]. split; [reflexivity|].
  right. exists w. split; reflexivity.
Qed.

(** The loop of mergeWhenReady polls, and performs the merge step at most
    once, as the last thing it does. *)
Lemma mergeWhenReady_loop_mergesLast (owner repoName : string) (number : Z)
      (plan : repositoryPullRequestResourceModel) (cf : nat) :
  forall (fuel : nat) (attempt : Z) (w : W),
    mergesLast remote owner repoName number plan Some
      (mergeWhenReady_loop remote fuel cf attempt owner repoName number plan w).
Proof.
  induction fuel as [|fuel IH]; intros attempt w; cbn [mergeWhenReady_loop];
    cbv zeta.
  { now apply mergesLast_polled. }
  destruct (attempt <? mergeMaxAttempts)%Z; [|now apply mergesLast_polled].
  rewrite run_bind, run_call. cbn [value_of world_of trace_of fst snd].
  destruct (api remote (GitHub.PullRequests_Get owner repoName number) w)
    as [[pr|err] w1]; cbn [fst snd]; [|now apply mergesLast_polled].
  assert (Hagain :
            forall (polled : list GitHub.Event) (w0 w'' : W),
              forallb pollingOnly polled = true ->
              let again :=
                bind (Sleep remote pollInterval)
                  (fun _ => mergeWhenReady_loop remote fuel cf (attempt + 1)
                              owner repoName number plan) w0 in
              mergesLast remote owner repoName number plan Some
                (value_of again, w'', (polled ++ trace_of again)%list)).
  { intros polled w0 w'' Hpolled again. subst again.
    rewrite run_bind. cbn [Sleep value_of world_of trace_of fst snd].
    pose proof (IH (attempt + 1)%Z (elapse remote pollInterval w0)) as Hrec.
    destruct (mergeWhenReady_loop remote fuel cf (attempt + 1) owner repoName
                number plan (elapse remote pollInterval w0))
      as [[v w2] tr2].
    cbn [value_of world_of trace_of fst snd].
    change (polled ++ [GitHub.EvSleep pollInterval] ++ tr2)%list
      with (polled ++ GitHub.EvSleep pollInterval :: tr2)%list.
    replace (polled ++ GitHub.EvSleep pollInterval :: tr2)%list
      with ((polled ++ [GitHub.EvSleep pollInterval]) ++ tr2)%list
      by (now rewrite <- app_assoc).
    apply (@mergesLast_after _ owner repoName number plan Some _ v w2 tr2);
      [|exact Hrec].
    now rewrite forallb_app, Hpolled. }
  set (get := GitHub.EvCall (GitHub.PullRequests_Get owner repoName number)
                (GitHub.Ok pr)).
  assert (Hget : forallb pollingOnly [get] = true) by reflexivity.
  destruct (negb (String.eqb (GitHub.GetString (GitHub.State pr)) "open")).
  { destruct (GitHub.GetBool (GitHub.Merged pr)); now apply mergesLast_polled. }
  destruct (GitHub.Mergeable pr) as [[|]|];
    try (apply (Hagain [get] w1 _ Hget)).
  destruct (TF.ValueBool (WaitForChecks plan)).
  2:{ pose proof (mergesLast_merge owner repoName number plan w1) as Hm.
      destruct (bind (mergeNow remote owner repoName number plan)
                  (fun e => ret (Some e)) w1) as [[v w2] tr2].
      apply (@mergesLast_after _ owner repoName number plan Some [get] v w2 tr2
               Hget Hm). }
  rewrite run_bind.
  pose proof (waitForChecks_loop_polling owner repoName number cf 0%Z w1)
    as Hchecks.
  destruct (waitForChecks_loop remote cf 0 owner repoName number w1)
    as [[c w2] trc].
  cbn [value_of world_of trace_of fst snd] in *.
  assert (Hboth : forallb pollingOnly ([get] ++ trc) = true)
    by (now rewrite forallb_app, Hget, Hchecks).
  destruct c as [[e|]|].
  - rewrite app_assoc. apply (Hagain ([get] ++ trc)%list w2 _ Hboth).
  - pose proof (mergesLast_merge owner repoName number plan w2) as Hm.
    destruct (bind (mergeNow remote owner repoName number plan)
                (fun e => ret (Some e)) w2) as [[v w3] tr3].
    cbn [value_of world_of trace_of fst snd].
    rewrite app_assoc.
    apply (@mergesLast_after _ owner repoName number plan Some
             ([get] ++ trc)%list v w3 tr3 Hboth Hm).
  - cbn [ret value_of world_of trace_of fst snd].
    rewrite app_assoc, app_nil_r. now apply mergesLast_polled.
Qed.

End MergeOnce.

(** X23. Every run of mergeWhenReady polls (reads of the pull request,
    lists of its statuses, sleeps) and performs the merge step (approval,
    merge, deletion of the branch) at most once, as the last thing it does;
    the result of the merge step is then the result of mergeWhenReady: a
    merge that failed is not tried again in a later round. *)
Theorem mergeWhenReady_merges_at_most_once
        (W : Type) (remote : Remote W) (owner repoName : string) (number : Z)
        (plan : PullRequestResource.repositoryPullRequestResourceModel)
        (w : W) :
  mergesLast remote owner repoName number plan (fun e => e)
    (PullRequestResource.mergeWhenReady remote owner repoName number plan w).
Proof.
  unfold PullRequestResource.mergeWhenReady. rewrite run_bind.
  destruct (@mergeWhenReady_loop_mergesLast W remote owner repoName number plan
              PullRequestResource.checksFuel PullRequestResource.mergeFuel 0%Z
              w) as (pre & post & Htr & Hpre & Hpost).
  destruct (PullRequestResource.mergeWhenReady_loop remote
              PullRequestResource.mergeFuel PullRequestResource.checksFuel 0
              owner repoName number plan w) as [[v w1] tr].
  cbn [value_of world_of trace_of fst snd] in *.
  exists pre, post.
  assert (Hret : forall e : option Go.error,
             trace_of (ret (W := W) e w1) = []) by reflexivity.
  destruct v as [e|]; cbn [ret value_of trace_of fst snd];
    rewrite app_nil_r; (split; [exact Htr|]); (split; [exact Hpre|]);
    destruct Hpost as [Hnil|(w' & Hpost & Hv)];
    try (now left); try discriminate Hv.
  right. exists w'. split; [exact Hpost|]. now injection Hv as ->.
Qed.

Lemma notWrite_hasMessage (tr : list GitHub.Event) :
  forallb notWrite tr = true -> forallb writeHasMessage tr = true.
Proof.
  induction tr as [|e tr IH]; [reflexivity|].
  cbn [forallb]. rewrite !andb_true_iff. intros [He Htr].
  split; [|now apply IH].
  unfold notWrite, isWrite, writeHasMessage in *.
  now destruct (writeOf e).
Qed.

Lemma defaultMessage_hasMessage (opts : GitHub.RepositoryContentFileOptions)
      (filePath : string) :
  FileResource.defaultMessage opts filePath = false -> hasMessage opts = true.
Proof.
  unfold FileResource.defaultMessage, hasMessage.
  destruct (GitHub.Message opts) as [[|a m]|]; [discriminate|reflexivity|].
  discriminate.
Qed.

Section FileMessages.

Import FileResource.

Variable W : Type.
Variable remote : Remote W.

Lemma Create_retry_hasMessage (owner repoName filePath : string)
      (plan : repositoryFileResourceModel) (diags : TF.Diagnostics) :
  forall (n : nat) (opts : GitHub.RepositoryContentFileOptions)
         (create : option GitHub.RepositoryContentResponse)
         (err : option Go.error) (w : W),
    hasMessage opts = true ->
    forallb writeHasMessage
      (trace_of (Create_retry remote n owner repoName filePath plan diags opts
                   create err w)) = true.
Proof.
  induction n as [|n IH]; intros opts create err w Hmsg; [reflexivity|].
  cbn [Create_retry]. step. cbn [forallb].
  change (writeHasMessage
            (GitHub.EvCall
               (GitHub.Repositories_CreateFile owner repoName filePath opts)
               (fst (api remote
                       (GitHub.Repositories_CreateFile owner repoName filePath
                          opts) w))))
    with (hasMessage opts).
  rewrite Hmsg. cbn [andb].
  destruct (api remote
              (GitHub.Repositories_CreateFile owner repoName filePath opts) w)
    as [[c|e] w1]; cbn [fst snd]; [reflexivity|].
  destruct (Go.hasStatus e Go.StatusConflict); [|reflexivity].
  step. cbn [forallb andb].
  change (writeHasMessage
            (GitHub.EvCall
               (GitHub.Repositories_GetContents owner repoName filePath
                  (getOptions plan))
               (fst (api remote
                       (GitHub.Repositories_GetContents owner repoName filePath
                          (getOptions plan)) w1))))
    with true.
  cbn [andb].
  destruct (api remote
              (GitHub.Repositories_GetContents owner repoName filePath
                 (getOptions plan)) w1) as [[[[fc|] dc]|e2] w2];
    cbn [fst snd]; try (apply IH; exact Hmsg).
  destruct (TF.ValueBool (OverwriteOnCreate plan)); [|reflexivity].
  apply IH. exact Hmsg.
Qed.

Lemma Update_retry_hasMessage (owner repoName filePath : string)
      (plan : repositoryFileResourceModel) :
  forall (n : nat) (opts : GitHub.RepositoryContentFileOptions)
         (create : option GitHub.RepositoryContentResponse)
         (err : option Go.error) (w : W),
    hasMessage opts = true ->
    forallb writeHasMessage
      (trace_of (Update_retry remote n owner repoName filePath plan opts
                   create err w)) = true.
Proof.
  induction n as [|n IH]; intros opts create err w Hmsg; [reflexivity|].
  cbn [Update_retry]. step. cbn [forallb].
  change (writeHasMessage
            (GitHub.EvCall
               (GitHub.Repositories_CreateFile owner repoName filePath opts)
               (fst (api remote
                       (GitHub.Repositories_CreateFile owner repoName filePath
                          opts) w))))
    with (hasMessage opts).
  rewrite Hmsg. cbn [andb].
  destruct (api remote
              (GitHub.Repositories_CreateFile owner repoName filePath opts) w)
    as [[c|e] w1]; cbn [fst snd]; [reflexivity|].
  destruct (Go.hasStatus e Go.StatusConflict); [|reflexivity].
  step. cbn [forallb andb].
  change (writeHasMessage
            (GitHub.EvCall
               (GitHub.Repositories_GetContents owner repoName filePath
                  (getOptions plan))
               (fst (api remote
                       (GitHub.Repositories_GetContents owner repoName filePath
                          (getOptions plan)) w1))))
    with true.
  cbn [andb].
  destruct (api remote
              (GitHub.Repositories_GetContents owner repoName filePath
                 (getOptions plan)) w1) as [[[[fc|] dc]|e2] w2];
    cbn [fst snd]; try reflexivity.
  apply IH. exact Hmsg.
Qed.

Lemma Delete_retry_hasMessage (owner repoName filePath : string)
      (state : repositoryFileResourceModel) (diags : TF.Diagnostics) :
  forall (n : nat) (opts : GitHub.RepositoryContentFileOptions)
         (err : option Go.error) (w : W),
    hasMessage opts = true ->
    forallb writeHasMessage
      (trace_of (Delete_retry remote n owner repoName filePath state diags opts
                   err w)) = true.
Proof.
  induction n as [|n IH]; intros opts err w Hmsg; [reflexivity|].
  cbn [Delete_retry]. step. cbn [forallb].
  change (writeHasMessage
            (GitHub.EvCall
               (GitHub.Repositories_DeleteFile owner repoName filePath opts)
               (fst (api remote
                       (GitHub.Repositories_DeleteFile owner repoName filePath
                          opts) w))))
    with (hasMessage opts).
  rewrite Hmsg. cbn [andb].
  destruct (api remote
              (GitHub.Repositories_DeleteFile owner repoName filePath opts) w)
    as [[c|e] w1]; cbn [fst snd]; [reflexivity|].
  destruct (Go.AsErrorResponse e) as [[code|]|]; try reflexivity.
  destruct (code =? Go.StatusNotFound)%Z; [reflexivity|].
  destruct (code =? Go.StatusConflict)%Z; [|reflexivity].
  step. cbn [forallb andb].
  change (writeHasMessage
            (GitHub.EvCall
               (GitHub.Repositories_GetContents owner repoName filePath
                  (getOptions state))
               (fst (api remote
                       (GitHub.Repositories_GetContents owner repoName filePath
                          (getOptions state)) w1))))
    with true.
  cbn [andb].
  destruct (api remote
              (GitHub.Repositories_GetContents owner repoName filePath
                 (getOptions state)) w1) as [[[[fc|] dc]|e2] w2];
    cbn [fst snd]; try reflexivity.
  - apply IH. exact Hmsg.
  - now destruct (Go.hasStatus e2 Go.StatusNotFound).
Qed.

End FileMessages.

(** X21. Every contents write of the file resource carries a commit
    message that is not empty: in all runs of Create, Update and Delete,
    each CreateFile and DeleteFile call has one, also the calls repeated
    after a conflict.  Where the configuration gives none (or an empty one)
    the resource supplies "Add", "Update" or "Delete" followed by the file
    path. *)
Theorem every_write_has_a_commit_message
        (W : Type) (remote : Remote W)
        (GetContent : GitHub.RepositoryContent -> GitHub.result string)
        (url_Parse_RawQuery : string -> GitHub.result string)
        (url_ParseQuery : string -> GitHub.result (list (string * list string)))
        (r : FileResource.repositoryFileResource)
        (reqPlan reqState : Decoded FileResource.repositoryFileResourceModel)
        (resp : Response FileResource.repositoryFileResourceModel) (w : W) :
  forallb writeHasMessage
    (trace_of (FileResource.Create remote GetContent url_Parse_RawQuery
                 url_ParseQuery r reqPlan resp w)) = true
  /\ forallb writeHasMessage
       (trace_of (FileResource.Update remote GetContent url_Parse_RawQuery
                    url_ParseQuery r reqPlan reqState resp w)) = true
  /\ forallb writeHasMessage
       (trace_of (FileResource.Delete remote r reqState resp w)) = true.
Proof.
  assert (Hread : forall owner repoName filePath model diags
                         (k : FileResource.repositoryFileResourceModel
                              * TF.Diagnostics ->
                              M W (Response
                                     FileResource.repositoryFileResourceModel))
                         w0,
             (forall x, eventsAll notWrite (k x)) ->
             forallb writeHasMessage
               (trace_of
                  (bind (FileResource.readFile remote GetContent
                           url_Parse_RawQuery url_ParseQuery owner repoName
                           filePath model diags) k w0)) = true).
  { intros owner repoName filePath model diags k w0 Hk.
    apply notWrite_hasMessage.
    refine ((_ : eventsAll notWrite (bind _ k)) w0).
    apply eventsAll_bind; [apply readFile_notWrite | exact Hk]. }
  split; [|split].
  - unfold FileResource.Create.
    set (resp1 := withDiagnostics _ resp). clearbody resp1.
    destruct (TF.HasError (Diagnostics resp1)); [reflexivity|].
    destruct (FileResource.client r); [|reflexivity].
    rewrite run_bind.
    pose proof (notWrite_hasMessage _ (getOwner_notWrite remote r w)) as Hown.
    destruct (FileResource.getOwner remote r w) as [[[owner err] w1] tr1].
    cbn [value_of world_of trace_of fst snd] in *.
    rewrite forallb_app, Hown. cbn [andb].
    destruct err; [reflexivity|].
    set (repoName := TF.ValueString (FileResource.Repository (decoded reqPlan))).
    set (filePath := TF.ValueString (FileResource.File (decoded reqPlan))).
    rewrite run_bind.
    pose proof (notWrite_hasMessage _
      (checkAndCreateBranchIfNeeded_notWrite remote owner repoName
         (decoded reqPlan) (Diagnostics resp1) w1)) as Hbr.
    destruct (FileResource.checkAndCreateBranchIfNeeded remote owner repoName
                (decoded reqPlan) (Diagnostics resp1) w1)
      as [[[[ok plan] diags] w2] tr2].
    cbn [value_of world_of trace_of fst snd] in *.
    rewrite forallb_app, Hbr. cbn [andb].
    destruct ok; cbn [negb]; [|reflexivity].
    destruct (FileResource.buildFileOptions plan _) as [opts diags0].
    destruct (TF.HasError diags0); [reflexivity|].
    destruct opts as [opts|]; [|reflexivity].
    match goal with
    | |- context [let '(_, _) := ?x in _] =>
        assert (Hopts : hasMessage (fst x) = true)
          by (unfold hasMessage;
              destruct (GitHub.Message opts) as [[|? ?]|] eqn:Hm;
              cbn [fst FileResource.opts_set_Message GitHub.Message];
              rewrite ?Hm; reflexivity);
        destruct x as [opts1 plan1]
    end.
    cbn [fst] in Hopts.
    rewrite run_bind.
    match goal with
    | |- context [trace_of (?m w2)] =>
        assert (Hpre : forallb writeHasMessage (trace_of (m w2)) = true
                       /\ hasMessage (value_of (m w2)) = true);
        [ destruct (TF.ValueBool (FileResource.OverwriteOnCreate plan1));
          [|split; [reflexivity | exact Hopts]];
          rewrite run_bind, run_call;
          cbn [value_of world_of trace_of fst snd];
          destruct (api remote _ w2) as [[[[fc|] dc]|e] w3];
          split; first [reflexivity | exact Hopts]
        | destruct (m w2) as [[opts2 w3] tr3] ]
    end.
    cbn [value_of world_of trace_of fst snd] in *.
    destruct Hpre as [Hpre Hopts2].
    rewrite forallb_app, Hpre. cbn [andb].
    rewrite run_bind.
    pose proof (@Create_retry_hasMessage W remote owner repoName filePath plan1
                  (Diagnostics (withDiagnostics diags resp1))
                  (Z.to_nat FileResource.maxRetries) opts2 None None w3 Hopts2)
      as Hloop.
    destruct (FileResource.Create_retry remote
                (Z.to_nat FileResource.maxRetries) owner repoName filePath
                plan1 (Diagnostics (withDiagnostics diags resp1)) opts2 None
                None w3) as [[exit w4] tr4].
    cbn [value_of world_of trace_of fst snd] in *.
    rewrite forallb_app, Hloop. cbn [andb].
    destruct exit as [d|create [e|]]; try reflexivity.
    apply Hread. events_all.
  - unfold FileResource.Update.
    set (resp1 := withDiagnostics _ (withDiagnostics _ resp)). clearbody resp1.
    destruct (TF.HasError (Diagnostics resp1)); [reflexivity|].
    destruct (FileResource.client r); [|reflexivity].
    rewrite run_bind.
    pose proof (notWrite_hasMessage _ (getOwner_notWrite remote r w)) as Hown.
    destruct (FileResource.getOwner remote r w) as [[[owner err] w1] tr1].
    cbn [value_of world_of trace_of fst snd] in *.
    rewrite forallb_app, Hown. cbn [andb].
    destruct err; [reflexivity|].
    destruct (String.eqb _ ""); [reflexivity|].
    destruct (Go.SplitN _ ":" 2) as [|repoName [|filePath [|x l]]];
      try reflexivity.
    rewrite run_bind.
    pose proof (notWrite_hasMessage _
      (checkAndCreateBranchIfNeeded_notWrite remote owner repoName
         (decoded reqPlan) (Diagnostics resp1) w1)) as Hbr.
    destruct (FileResource.checkAndCreateBranchIfNeeded remote owner repoName
                (decoded reqPlan) (Diagnostics resp1) w1)
      as [[[[ok plan] diags] w2] tr2].
    cbn [value_of world_of trace_of fst snd] in *.
    rewrite forallb_app, Hbr. cbn [andb].
    destruct ok; cbn [negb]; [|reflexivity].
    destruct (FileResource.buildFileOptions plan _) as [opts diags0].
    destruct (TF.HasError diags0); [reflexivity|].
    destruct opts as [opts|]; [|reflexivity].
    match goal with
    | |- context [let '(_, _) := ?x in _] =>
        assert (Hopts : hasMessage (fst x) = true);
        [ match goal with
          | |- context [FileResource.defaultMessage ?o filePath] =>
              destruct (FileResource.defaultMessage o filePath) eqn:Hdef;
              [reflexivity
              |exact (defaultMessage_hasMessage _ _ Hdef)]
          end
        | destruct x as [opts1 plan1] ]
    end.
    cbn [fst] in Hopts.
    rewrite run_bind.
    pose proof (@Update_retry_hasMessage W remote owner repoName filePath plan1
                  (Z.to_nat FileResource.maxRetries) opts1 None None w2 Hopts)
      as Hloop.
    destruct (FileResource.Update_retry remote
                (Z.to_nat FileResource.maxRetries) owner repoName filePath
                plan1 opts1 None None w2) as [[exit w4] tr4].
    cbn [value_of world_of trace_of fst snd] in *.
    rewrite forallb_app, Hloop. cbn [andb].
    destruct exit as [d|[create|] [e|]]; try reflexivity.
    apply Hread. events_all.
  - unfold FileResource.Delete.
    set (resp1 := withDiagnostics _ resp). clearbody resp1.
    destruct (TF.HasError (Diagnostics resp1)); [reflexivity|].
    destruct (FileResource.client r); [|reflexivity].
    rewrite run_bind.
    pose proof (notWrite_hasMessage _ (getOwner_notWrite remote r w)) as Hown.
    destruct (FileResource.getOwner remote r w) as [[[owner err] w1] tr1].
    cbn [value_of world_of trace_of fst snd] in *.
    rewrite forallb_app, Hown. cbn [andb].
    destruct err; [reflexivity|].
    destruct (String.eqb _ ""); [reflexivity|].
    destruct (Go.SplitN _ ":" 2) as [|repoName [|filePath [|x l]]];
      try reflexivity.
    rewrite run_bind.
    pose proof (notWrite_hasMessage _
      (checkAndCreateBranchIfNeeded_notWrite remote owner repoName
         (decoded reqState) (Diagnostics resp1) w1)) as Hbr.
    destruct (FileResource.checkAndCreateBranchIfNeeded remote owner repoName
                (decoded reqState) (Diagnostics resp1) w1)
      as [[[[ok state] diags] w2] tr2].
    cbn [value_of world_of trace_of fst snd] in *.
    rewrite forallb_app, Hbr. cbn [andb].
    destruct ok; cbn [negb]; [|reflexivity].
    destruct (FileResource.buildFileOptions state _) as [opts diags0].
    destruct (TF.HasError diags0); [reflexivity|].
    destruct opts as [opts|]; [|reflexivity].
    rewrite run_bind.
    match goal with
    | |- context [FileResource.Delete_retry remote ?n owner repoName filePath
                    state ?ds ?o None w2] =>
        assert (Hopts : hasMessage o = true);
        [ destruct (FileResource.defaultMessage opts filePath) eqn:Hdef;
          destruct (TF.String_known (FileResource.SHA state));
          first [reflexivity | exact (defaultMessage_hasMessage _ _ Hdef)]
        | pose proof (@Delete_retry_hasMessage W remote owner repoName filePath
                        state ds n o None w2 Hopts) as Hloop;
          destruct (FileResource.Delete_retry remote n owner repoName filePath
                      state ds o None w2) as [[exit w4] tr4] ]
    end.
    cbn [value_of world_of trace_of fst snd] in *.
    rewrite forallb_app, Hloop. cbn [andb].
    destruct exit as [d|create [e|]]; reflexivity.
Qed.

(** [SplitN(s, string(c), 3)] cuts at the first two [c]. *)
Lemma genSplit_three_cut (c : ascii) (s cur : string) :
  Go.genSplit (Go.str1 c) (Some 3%nat) 0 cur s
  = match cut c s with
    | Some (before, after) =>
        (cur ++ before)
          :: match cut c after with
             | Some (second, third) => [second; third]
             | None => [after]
             end
    | None => [cur ++ s]
    end.
Proof.
  revert cur. induction s as [|a s IH]; intro cur.
  - cbn. now rewrite append_nil_r.
  - cbn [Go.genSplit cut]. rewrite HasPrefix_char.
    cbn [Go.may_split Nat.ltb Nat.leb andb].
    destruct (Ascii.eqb a c).
    + cbn [Go.dec_limit Nat.sub Go.str1 String.length].
      rewrite genSplit_two_cut, append_nil_r.
      now destruct (cut c s) as [[second third]|].
    + rewrite IH. destruct (cut c s) as [[before after]|];
        now rewrite append_str1.
Qed.

Lemma SplitN_three_cut (c : ascii) (s : string) :
  Go.SplitN s (Go.str1 c) 3
  = match cut c s with
    | Some (before, after) =>
        before
          :: match cut c after with
             | Some (second, third) => [second; third]
             | None => [after]
             end
    | None => [s]
    end.
Proof.
  unfold Go.SplitN. cbn [Z.eqb Z.ltb Z.compare Z.to_nat Pos.to_nat Pos.iter_op
                         Nat.add].
  rewrite genSplit_three_cut. now destruct (cut c s) as [[? ?]|].
Qed.

(** X24. ImportState of the file resource for an import ID
    [repository:file] or [repository:file:branch], repository and file
    without a colon: it reads that file, on that branch when the ID names a
    non-empty one, by its one call; when the file is returned it adds no
    diagnostic and leaves the ID [repository:file], the repository, the
    file, overwrite_on_create false, and the branch only when one was named.
    The ID it leaves is one that Read splits into the same repository and
    file. *)
Theorem ImportState_reads_the_named_file
        (W : Type) (remote : Remote W)
        (r : FileResource.repositoryFileResource) (diags : TF.Diagnostics)
        (w : W) (c : Client) (repoName filePath : string)
        (branch : option string) :
  let reqID :=
    repoName ++ ":" ++ filePath
    ++ match branch with Some b => ":" ++ b | None => "" end in
  let ref := match branch with Some b => b | None => "" end in
  let get :=
    GitHub.Repositories_GetContents (FileResource.owner r) repoName filePath
      (GitHub.mkGetOptions ref) in
  let run := FileResource.ImportState remote r reqID diags w in
  FileResource.client r = Some c ->
  FileResource.owner r <> "" ->
  countByte ":" repoName = 0%nat ->
  countByte ":" filePath = 0%nat ->
  trace_of run = [GitHub.EvCall get (fst (api remote get w))]
  /\ (forall fc dc,
         fst (api remote get w) = GitHub.Ok (Some fc, dc) ->
         value_of run
         = Some (diags,
                 Some (FileResource.mkImported (repoName ++ ":" ++ filePath)
                         repoName filePath false
                         (if String.eqb ref "" then None else Some ref))))
  /\ Go.SplitN (repoName ++ ":" ++ filePath) ":" 2 = [repoName; filePath].
Proof.
  intros reqID ref get run Hclient Howner Hrepo Hfile.
  assert (Hsplit : Go.SplitN reqID ":" 3
                   = repoName :: filePath
                       :: match branch with Some b => [b] | None => [] end).
  { change (Go.SplitN reqID ":" 3) with (Go.SplitN reqID (Go.str1 ":") 3).
    rewrite SplitN_three_cut. subst reqID.
    change (repoName ++ ":" ++ filePath
            ++ match branch with Some b => ":" ++ b | None => "" end)
      with (repoName
            ++ String ":" (filePath
                           ++ match branch with
                              | Some b => String ":" b
                              | None => ""
                              end)).
    rewrite (@cut_app ":" repoName _ Hrepo).
    destruct branch as [b|].
    - now rewrite (@cut_app ":" filePath b Hfile).
    - rewrite append_nil_r.
      apply cut_none in Hfile. now rewrite Hfile. }
  split; [|split; [|exact (@SplitN_colon_join repoName filePath Hrepo)]].
  - subst run. unfold FileResource.ImportState, FileResource.getOwner.
    rewrite Hsplit, Hclient.
    apply String.eqb_neq in Howner. rewrite Howner. cbn [negb].
    step.
    assert (Hopts : (if negb (String.eqb
                                match
                                  match branch with Some b => [b] | None => [] end
                                with
                                | [b] => b
                                | _ => ""
                                end "")
                     then match
                            match branch with Some b => [b] | None => [] end
                          with
                          | [b] => b
                          | _ => ""
                          end
                     else "") = ref).
    { subst ref. destruct branch as [b|]; [|reflexivity].
      destruct (String.eqb b "") eqn:E; [|reflexivity].
      now apply String.eqb_eq in E. }
    rewrite Hopts. fold get. step.
    now destruct (fst (api remote get w)) as [[[fc|] dc]|err].
  - intros fc dc Hget. subst run.
    unfold FileResource.ImportState, FileResource.getOwner.
    rewrite Hsplit, Hclient.
    apply String.eqb_neq in Howner. rewrite Howner. cbn [negb].
    step.
    assert (Hbranch : match
                        match branch with Some b => [b] | None => [] end
                      with
                      | [b] => b
                      | _ => ""
                      end = ref)
      by (subst ref; now destruct branch).
    rewrite Hbranch.
    assert (Hopts : (if negb (String.eqb ref "") then ref else "") = ref).
    { destruct (String.eqb ref "") eqn:E; [|reflexivity].
      now apply String.eqb_eq in E. }
    rewrite Hopts. fold get. step. rewrite Hget.
    cbn [ret value_of fst]. now destruct (String.eqb ref "").
Qed.

Lemma ImportState_reads_the_named_file_witness :
  let run :=
    FileResource.ImportState ConflictScenario.remoteMoved Scenario.fileResource
      "repo:a.txt:feature" [] tt in
  length (trace_of run) = 1%nat
  /\ value_of run
     = Some ([], Some (FileResource.mkImported "repo:a.txt" "repo" "a.txt"
                         false (Some "feature"))).
Proof.
  destruct (@ImportState_reads_the_named_file unit ConflictScenario.remoteMoved
              Scenario.fileResource [] tt (mkClient DefaultTransport None)
              "repo" "a.txt" (Some "feature"))
    as (Htr & Hv & _);
    [reflexivity | discriminate | reflexivity | reflexivity |].
  split.
  - exact (f_equal (@length GitHub.Event) Htr).
  - exact (Hv Scenario.remoteFile None eq_refl).
Defined.

(** X25. Delete of the branch resource, for a state whose ID parses (in
    either format, [repository:branch] or the older [repository/branch]):
    it makes one call, the deletion of the reference [refs/heads/branch] of
    that repository.  It adds no diagnostic when the deletion succeeds and
    when the branch is already gone (404, or 422 "Reference does not
    exist"); every other failure is reported as an error. *)
Theorem Branch_Delete_accepts_missing_branch
        (W : Type) (remote : Remote W)
        (r : RepositoryBranchResource.repositoryBranchResource)
        (reqState
         : Decoded RepositoryBranchOperations.repositoryBranchResourceModel)
        (resp : Response RepositoryBranchOperations.repositoryBranchResourceModel)
        (w : W) (c : Client) (repoName branchName : string) :
  let diags := TF.Append (Diagnostics resp) (decodeDiags reqState) in
  let del :=
    GitHub.Git_DeleteRef (RepositoryBranchResource.owner r) repoName
      ("refs/heads/" ++ branchName) in
  let run := RepositoryBranchOperations.Delete remote r reqState resp w in
  TF.HasError diags = false ->
  RepositoryBranchResource.client r = Some c ->
  RepositoryBranchResource.owner r <> "" ->
  parseTwoPartID
    (TF.ValueString (RepositoryBranchOperations.ID (decoded reqState)))
    "repository" "branch" = (repoName, branchName, None) ->
  trace_of run = [GitHub.EvCall del (fst (api remote del w))]
  /\ SavedState (value_of run) = SavedState resp
  /\ match fst (api remote del w) with
     | GitHub.Ok _ => Diagnostics (value_of run) = diags
     | GitHub.Err err =>
         if branchGone err then Diagnostics (value_of run) = diags
         else TF.HasError (Diagnostics (value_of run)) = true
     end.
Proof.
  intros diags del run Hok Hclient Howner Hparse. subst run.
  unfold RepositoryBranchOperations.Delete, RepositoryBranchOperations.getOwner.
  cbv zeta. cbn [Diagnostics withDiagnostics]. fold diags.
  rewrite Hok, Hclient.
  apply String.eqb_neq in Howner. rewrite Howner. cbn [negb].
  step. rewrite Hparse. step. fold del.
  destruct (fst (api remote del w)) as [done|err]; [repeat split|].
  unfold branchGone, Go.hasStatus.
  destruct (Go.AsErrorResponse err) as [[code|]|]; cbn [orb andb].
  - destruct ((code =? Go.StatusNotFound)%Z
              || (code =? Go.StatusUnprocessableEntity)%Z
                 && Go.Contains (Go.Error err) "Reference does not exist");
      repeat split. apply HasError_respAddError.
  - repeat split. apply HasError_respAddError.
  - repeat split. apply HasError_respAddError.
Qed.

Lemma Branch_Delete_accepts_missing_branch_witness :
  let run :=
    RepositoryBranchOperations.Delete BranchDeleteScenario.remoteGone
      BranchDeleteScenario.branchResource
      (Scenario.cleanly BranchDeleteScenario.stateOld) Scenario.fresh tt in
  trace_of run
  = [GitHub.EvCall (GitHub.Git_DeleteRef "octo" "repo" "refs/heads/feature/x")
       (GitHub.Err BranchDeleteScenario.alreadyDeleted)]
  /\ Diagnostics (value_of run) = [].
Proof.
  destruct (@Branch_Delete_accepts_missing_branch unit
              BranchDeleteScenario.remoteGone
              BranchDeleteScenario.branchResource
              (Scenario.cleanly BranchDeleteScenario.stateOld) Scenario.fresh
              tt (mkClient DefaultTransport None) "repo" "feature/x")
    as (Htr & _ & Hd);
    [reflexivity | reflexivity | discriminate | reflexivity |].
  split; [exact Htr | exact Hd].
Defined.

(** X26. ImportState of the branch resource.  An import ID without a colon
    is refused with an error; every other ID is accepted without a
    diagnostic and read as [repository:branch] or
    [repository:branch:source_branch], the repository and the branch
    holding no colon and the source branch being "main" when none is
    named.  The ID that is left in the state parses, with parseTwoPartID,
    into that repository and that branch. *)
Theorem Branch_ImportState_parts (reqID : string) (diags : TF.Diagnostics) :
  match RepositoryBranchOperations.ImportState reqID diags with
  | (diags', Some st) =>
      let repoName := RepositoryBranchOperations.ImportedRepository st in
      let branchName := RepositoryBranchOperations.ImportedBranch st in
      let sourceBranch := RepositoryBranchOperations.ImportedSourceBranch st in
      diags' = diags
      /\ countByte ":" repoName = 0%nat
      /\ (reqID = repoName ++ ":" ++ branchName
          /\ countByte ":" branchName = 0%nat /\ sourceBranch = "main"
          \/ reqID = repoName ++ ":" ++ branchName ++ ":" ++ sourceBranch
             /\ countByte ":" branchName = 0%nat)
      /\ parseTwoPartID (RepositoryBranchOperations.ImportedID st)
           "repository" "branch" = (repoName, branchName, None)
  | (diags', None) =>
      countByte ":" reqID = 0%nat /\ TF.HasError diags' = true
  end.
Proof.
  unfold RepositoryBranchOperations.ImportState.
  change (Go.SplitN reqID ":" 3) with (Go.SplitN reqID (Go.str1 ":") 3).
  rewrite SplitN_three_cut.
  destruct (cut ":" reqID) as [[repoName rest]|] eqn:Hfirst.
  2:{ split; [now apply cut_none | apply HasError_AddError]. }
  destruct (cut_some _ _ Hfirst) as [Hid Hrepo].
  assert (Hparse : forall branchName,
             parseTwoPartID (buildTwoPartID repoName branchName)
               "repository" "branch" = (repoName, branchName, None)).
  { intro branchName. rewrite parseTwoPartID_cut. unfold buildTwoPartID.
    change (repoName ++ ":" ++ branchName)
      with (repoName ++ String ":" branchName).
    now rewrite (@cut_app ":" repoName branchName Hrepo). }
  destruct (cut ":" rest) as [[branchName sourceBranch]|] eqn:Hsecond;
    cbv zeta;
    cbn [RepositoryBranchOperations.ImportedRepository
         RepositoryBranchOperations.ImportedBranch
         RepositoryBranchOperations.ImportedSourceBranch
         RepositoryBranchOperations.ImportedID].
  - destruct (cut_some _ _ Hsecond) as [Hrest Hbranch].
    split; [reflexivity|]. split; [exact Hrepo|].
    split; [|apply Hparse].
    right. split; [|exact Hbranch]. now rewrite Hid, Hrest.
  - split; [reflexivity|]. split; [exact Hrepo|].
    split; [|apply Hparse].
    left. split; [exact Hid|]. split; [now apply cut_none | reflexivity].
Qed.

(** ** strings.TrimSpace *)

Lemma string_length_app (a b : string) :
  String.length (a ++ b) = (String.length a + String.length b)%nat.
Proof. induction a as [|c a IH]; cbn; [reflexivity|now rewrite IH]. Qed.

Lemma string_app_assoc (a b c : string) : (a ++ b) ++ c = a ++ b ++ c.
Proof. induction a as [|x a IH]; cbn; [reflexivity|now rewrite IH]. Qed.

Lemma string_app_nil_r (a : string) : a ++ "" = a.
Proof. induction a as [|x a IH]; cbn; [reflexivity|now rewrite IH]. Qed.

Lemma sliceFrom_app (p x : string) : Go.sliceFrom (String.length p) (p ++ x) = x.
Proof. induction p as [|c p IH]; cbn; [now destruct x|exact IH]. Qed.

Lemma sliceTo_app (p x : string) : Go.sliceTo (String.length p) (p ++ x) = p.
Proof. induction p as [|c p IH]; cbn; [reflexivity|now rewrite IH]. Qed.

Lemma get_app (p x : string) (k : nat) :
  String.get (String.length p + k) (p ++ x) = String.get k x.
Proof. induction p as [|c p IH]; cbn; [reflexivity|exact IH]. Qed.

Lemma byteAt_app (p x : string) (k : nat) (i : Z) :
  i = Z.of_nat (String.length p + k) ->
  Go.byteAt (p ++ x) i = Go.byteAt x (Z.of_nat k).
Proof.
  intros ->. unfold Go.byteAt. now rewrite !Nat2Z.id, get_app.
Qed.

Lemma encodeRunes_app (a b : list Z) :
  encodeRunes (a ++ b) = encodeRunes a ++ encodeRunes b.
Proof.
  induction a as [|r a IH]; cbn; [reflexivity|].
  now rewrite IH, string_app_assoc.
Qed.

(** The white space of Unicode, one code point after the other. *)
Lemma IsSpace_cases (r : Z) :
  Go.IsSpace r = true ->
  In r [9; 10; 11; 12; 13; 32; 133; 160; 5760; 8192; 8193; 8194; 8195; 8196;
        8197; 8198; 8199; 8200; 8201; 8202; 8232; 8233; 8239; 8287; 12288]%Z.
Proof.
  unfold Go.IsSpace. intro H. cbn [In].
  destruct (r <=? 255)%Z eqn:E;
    repeat rewrite ?orb_true_iff, ?andb_true_iff, ?Z.eqb_eq, ?Z.leb_le in H;
    lia.
Qed.

Lemma IsSpace_encodes (r : Z) :
  Go.IsSpace r = true -> encodes r (encodeRune r).
Proof.
  intro H. apply IsSpace_cases in H. cbn [In] in H.
  repeat (destruct H as [<-|H];
          [first [ now apply encodes1
                 | apply encodes2; (reflexivity || (intro s; reflexivity))
                 | apply encodes3; (reflexivity || (intro s; reflexivity)) ]|]).
  contradiction.
Qed.

Lemma encodes_length (r : Z) (e : string) :
  encodes r e -> (1 <= String.length e)%nat.
Proof. destruct 1; cbn; lia. Qed.

(** ** Decoding *)

Lemma Decode_ascii (c : ascii) (s : string) :
  (Go.byte c <? Go.RuneSelf)%Z = true ->
  Go.DecodeRuneInString (String c s) = (Go.byte c, 1%nat).
Proof. intro H. cbn [Go.DecodeRuneInString]. now rewrite H. Qed.

Lemma Decode_encodes (r : Z) (e s : string) :
  encodes r e -> Go.DecodeRuneInString (e ++ s) = (r, String.length e).
Proof.
  destruct 1 as [c Hc Hr|c0 c1 _ _ _ _ Hd|c0 c1 c2 _ _ _ _ _ Hd]; cbn [append].
  - subst r. now apply Decode_ascii.
  - apply Hd.
  - apply Hd.
Qed.

Ltac ztest :=
  match goal with
  | |- context [if (?a <? ?b)%Z then _ else _] =>
      let E := fresh "E" in destruct (a <? b)%Z eqn:E; try lia
  | |- context [if (?a =? ?b)%Z then _ else _] =>
      let E := fresh "E" in destruct (a =? b)%Z eqn:E; try lia
  | |- context [if negb (?a =? ?b)%Z then _ else _] =>
      let E := fresh "E" in destruct (a =? b)%Z eqn:E; try lia
  end.

Lemma DecodeLast_ascii (p : string) (c : ascii) :
  (Go.byte c <? Go.RuneSelf)%Z = true ->
  Go.DecodeLastRuneInString (p ++ String c "") = (Go.byte c, 1%nat).
Proof.
  intro H. unfold Go.DecodeLastRuneInString.
  rewrite string_length_app. cbn [String.length].
  rewrite (@byteAt_app p (String c "") 0) by lia.
  change (Go.byteAt (String c "") (Z.of_nat 0)) with (Go.byte c).
  rewrite H. ztest. reflexivity.
Qed.

Lemma DecodeLast_encodes (r : Z) (p e : string) :
  encodes r e ->
  Go.DecodeLastRuneInString (p ++ e) = (r, String.length e).
Proof.
  destruct 1 as [c Hc Hr|c0 c1 H0 H1 S0 S1 Hd|c0 c1 c2 H0 H2 S0 S1 S2 Hd].
  - subst r. now apply DecodeLast_ascii.
  - unfold Go.DecodeLastRuneInString.
    rewrite string_length_app. cbn [String.length].
    set (n := String.length p).
    rewrite (@byteAt_app p (String c0 (String c1 "")) 1) by lia.
    change (Go.byteAt (String c0 (String c1 "")) (Z.of_nat 1))
      with (Go.byte c1).
    unfold Go.UTFMax. cbn [Go.lastRuneStart].
    rewrite (@byteAt_app p (String c0 (String c1 "")) 0) by lia.
    change (Go.byteAt (String c0 (String c1 "")) (Z.of_nat 0))
      with (Go.byte c0).
    rewrite S0. do 3 ztest.
    replace (Z.to_nat (Z.max 0 (Z.of_nat (n + 2) - 1 - 1))) with n by lia.
    unfold n. rewrite sliceFrom_app, Hd. fold n. ztest. reflexivity.
  - unfold Go.DecodeLastRuneInString.
    rewrite string_length_app. cbn [String.length].
    set (n := String.length p).
    rewrite (@byteAt_app p (String c0 (String c1 (String c2 ""))) 2) by lia.
    change (Go.byteAt (String c0 (String c1 (String c2 ""))) (Z.of_nat 2))
      with (Go.byte c2).
    unfold Go.UTFMax. cbn [Go.lastRuneStart].
    rewrite (@byteAt_app p (String c0 (String c1 (String c2 ""))) 1) by lia.
    change (Go.byteAt (String c0 (String c1 (String c2 ""))) (Z.of_nat 1))
      with (Go.byte c1).
    rewrite S1.
    rewrite (@byteAt_app p (String c0 (String c1 (String c2 ""))) 0) by lia.
    change (Go.byteAt (String c0 (String c1 (String c2 ""))) (Z.of_nat 0))
      with (Go.byte c0).
    rewrite S0. do 4 ztest.
    replace (Z.to_nat (Z.max 0 (Z.of_nat (n + 3) - 1 - 1 - 1))) with n by lia.
    unfold n. rewrite sliceFrom_app, Hd. fold n. ztest. reflexivity.
Qed.

(** ** The runes of white space at the start *)

Lemma encodeRunes_length (rs : list Z) :
  forallb Go.IsSpace rs = true ->
  (List.length rs <= String.length (encodeRunes rs))%nat.
Proof.
  induction rs as [|r rs IH]; cbn [forallb encodeRunes List.length];
    [cbn; lia|].
  intro H. apply andb_prop in H. destruct H as [Hr Hrs].
  rewrite string_length_app.
  pose proof (encodes_length (IsSpace_encodes _ Hr)). specialize (IH Hrs). lia.
Qed.

(** An ASCII byte that is no white space is no white space as a rune. *)
Lemma asciiSpace_IsSpace (b : Z) :
  (b <? Go.RuneSelf)%Z = true -> Go.IsSpace b = Go.asciiSpace b.
Proof.
  unfold Go.RuneSelf, Go.IsSpace, Go.asciiSpace. intro H.
  replace (b <=? 255)%Z with true by lia.
  replace (b =? 133)%Z with false by lia.
  replace (b =? 160)%Z with false by lia.
  now rewrite !orb_false_r.
Qed.

Lemma indexFunc_spaces (pre : list Z) :
  forall (p : string) (n : nat) (c : ascii) (t : string),
    forallb Go.IsSpace pre = true ->
    (List.length pre < n)%nat ->
    (Go.byte c <? Go.RuneSelf)%Z = true ->
    Go.asciiSpace (Go.byte c) = false ->
    Go.indexFunc n (p ++ encodeRunes pre ++ String c t) Go.IsSpace false
      (String.length p)
    = Z.of_nat (String.length p + String.length (encodeRunes pre)).
Proof.
  induction pre as [|r pre IH]; intros p n c t Hpre Hn Hc Hs.
  - destruct n as [|n]; [cbn in Hn; lia|].
    cbn [encodeRunes append Go.indexFunc String.length].
    rewrite string_length_app. cbn [String.length].
    replace (String.length p <? String.length p + S (String.length t))%nat
      with true by lia.
    rewrite sliceFrom_app, (Decode_ascii _ _ Hc).
    rewrite (asciiSpace_IsSpace _ Hc), Hs. cbn [Bool.eqb].
    f_equal. lia.
  - destruct n as [|n]; [cbn in Hn; lia|].
    cbn [forallb] in Hpre. apply andb_prop in Hpre. destruct Hpre as [Hr Hpre].
    cbn [encodeRunes Go.indexFunc].
    pose proof (IsSpace_encodes _ Hr) as He.
    pose proof (encodes_length He) as Hl.
    rewrite !string_length_app.
    replace (String.length p <?
             String.length p
             + (String.length (encodeRune r) + String.length (encodeRunes pre)
                + String.length (String c t)))%nat
      with true by lia.
    rewrite sliceFrom_app, string_app_assoc, (Decode_encodes _ He), Hr.
    cbn [Bool.eqb].
    rewrite <- (string_app_assoc p (encodeRune r)), <- string_length_app.
    rewrite (IH (p ++ encodeRune r) n c t Hpre); [|cbn in Hn; lia|exact Hc
                                                  |exact Hs].
    rewrite string_length_app. f_equal. lia.
Qed.

Lemma indexFunc_all_spaces (pre : list Z) :
  forall (p : string) (n : nat),
    forallb Go.IsSpace pre = true ->
    Go.indexFunc n (p ++ encodeRunes pre) Go.IsSpace false (String.length p)
    = (-1)%Z.
Proof.
  induction pre as [|r pre IH]; intros p n Hpre.
  - destruct n as [|n]; [reflexivity|].
    cbn [encodeRunes Go.indexFunc]. rewrite string_app_nil_r.
    now rewrite Nat.ltb_irrefl.
  - destruct n as [|n]; [reflexivity|].
    cbn [forallb] in Hpre. apply andb_prop in Hpre. destruct Hpre as [Hr Hpre].
    cbn [encodeRunes Go.indexFunc].
    pose proof (IsSpace_encodes _ Hr) as He.
    pose proof (encodes_length He) as Hl.
    rewrite !string_length_app.
    replace (String.length p <?
             String.length p
             + (String.length (encodeRune r) + String.length (encodeRunes pre)))%nat
      with true by lia.
    rewrite sliceFrom_app, (Decode_encodes _ He), Hr. cbn [Bool.eqb].
    rewrite <- (string_app_assoc p (encodeRune r)), <- string_length_app.
    exact (IH (p ++ encodeRune r) n Hpre).
Qed.

Lemma TrimLeftFunc_spaces (pre : list Z) (c : ascii) (t : string) :
  forallb Go.IsSpace pre = true ->
  (Go.byte c <? Go.RuneSelf)%Z = true ->
  Go.asciiSpace (Go.byte c) = false ->
  Go.TrimLeftFunc (encodeRunes pre ++ String c t) Go.IsSpace = String c t.
Proof.
  intros Hpre Hc Hs. unfold Go.TrimLeftFunc.
  pose proof (encodeRunes_length _ Hpre) as Hl.
  rewrite (@indexFunc_spaces pre "" _ c t Hpre); [|idtac|exact Hc|exact Hs].
  - cbn [String.length Nat.add].
    replace (Z.of_nat (String.length (encodeRunes pre)) =? -1)%Z with false
      by lia.
    now rewrite Nat2Z.id, sliceFrom_app.
  - rewrite string_length_app. cbn [String.length]. lia.
Qed.

Lemma TrimLeftFunc_all_spaces (pre : list Z) :
  forallb Go.IsSpace pre = true ->
  Go.TrimLeftFunc (encodeRunes pre) Go.IsSpace = "".
Proof.
  intro Hpre. unfold Go.TrimLeftFunc.
  now rewrite (@indexFunc_all_spaces pre "" _ Hpre).
Qed.

(** ** The runes of white space at the end *)

Lemma lastIndexFunc_spaces (post : list Z) :
  forall (t junk : string) (c : ascii) (n : nat),
    forallb Go.IsSpace post = true ->
    (List.length post < n)%nat ->
    (Go.byte c <? Go.RuneSelf)%Z = true ->
    Go.asciiSpace (Go.byte c) = false ->
    Go.lastIndexFunc n ((t ++ String c "") ++ encodeRunes post ++ junk)
      Go.IsSpace false
      (String.length ((t ++ String c "") ++ encodeRunes post))
    = Z.of_nat (String.length t).
Proof.
  induction post as [|r post IH] using rev_ind; intros t junk c n Hpost Hn Hc Hs.
  - destruct n as [|n]; [cbn in Hn; lia|].
    cbn [encodeRunes append Go.lastIndexFunc]. rewrite string_app_nil_r.
    rewrite sliceTo_app, (DecodeLast_ascii _ _ Hc).
    rewrite string_length_app. cbn [String.length].
    replace (0 <? String.length t + 1)%nat with true by lia.
    rewrite (asciiSpace_IsSpace _ Hc), Hs. cbn [Bool.eqb]. f_equal. lia.
  - destruct n as [|n]; [cbn in Hn; lia|].
    rewrite forallb_app in Hpost. apply andb_prop in Hpost.
    destruct Hpost as [Hpost Hr]. cbn [forallb] in Hr.
    rewrite andb_true_r in Hr.
    rewrite encodeRunes_app. cbn [encodeRunes]. rewrite string_app_nil_r.
    pose proof (IsSpace_encodes _ Hr) as He.
    pose proof (encodes_length He) as Hl.
    cbn [Go.lastIndexFunc].
    rewrite <- !string_app_assoc.
    rewrite sliceTo_app.
    rewrite (DecodeLast_encodes _ He), Hr. cbn [Bool.eqb].
    rewrite (string_length_app _ (encodeRune r)).
    replace (0 <? String.length ((t ++ String c "") ++ encodeRunes post)
                  + String.length (encodeRune r))%nat with true
      by (rewrite !string_length_app; cbn [String.length]; lia).
    replace (String.length ((t ++ String c "") ++ encodeRunes post)
             + String.length (encodeRune r) - String.length (encodeRune r))%nat
      with (String.length ((t ++ String c "") ++ encodeRunes post)) by lia.
    rewrite (string_app_assoc _ (encodeRune r) junk).
    rewrite (string_app_assoc (t ++ String c "") (encodeRunes post)).
    apply IH; try assumption. rewrite length_app in Hn. cbn in Hn. lia.
Qed.

Lemma TrimRightFunc_spaces (post : list Z) (t : string) (c : ascii) :
  forallb Go.IsSpace post = true ->
  (Go.byte c <? Go.RuneSelf)%Z = true ->
  Go.asciiSpace (Go.byte c) = false ->
  Go.TrimRightFunc ((t ++ String c "") ++ encodeRunes post) Go.IsSpace
  = t ++ String c "".
Proof.
  intros Hpost Hc Hs. unfold Go.TrimRightFunc.
  pose proof (encodeRunes_length _ Hpost) as Hl.
  pose proof (@lastIndexFunc_spaces post t "" c
                (String.length ((t ++ String c "") ++ encodeRunes post))
                Hpost) as H.
  rewrite string_app_nil_r in H. rewrite H; [|idtac|exact Hc|exact Hs].
  - rewrite <- (string_app_nil_r (encodeRunes post)) at 1.
    rewrite (string_app_assoc t).
    rewrite (@byteAt_app t (String c "" ++ encodeRunes post ++ "") 0) by lia.
    change (Go.byteAt (String c "" ++ encodeRunes post ++ "") (Z.of_nat 0))
      with (Go.byte c).
    replace (Go.RuneSelf <=? Go.byte c)%Z with false by lia.
    rewrite andb_false_r.
    replace (Z.to_nat (Z.of_nat (String.length t) + 1))
      with (String.length (t ++ String c ""))
      by (rewrite string_length_app; cbn [String.length]; lia).
    apply sliceTo_app.
  - rewrite !string_length_app. cbn [String.length]. lia.
Qed.

Lemma TrimRightFunc_empty : Go.TrimRightFunc "" Go.IsSpace = "".
Proof. reflexivity. Qed.

(** ** TrimSpace *)

Lemma TrimSpace_stop_spaces (post : list Z) :
  forall (t junk : string) (c : ascii),
    forallb Go.IsSpace post = true ->
    (Go.byte c <? Go.RuneSelf)%Z = true ->
    Go.asciiSpace (Go.byte c) = false ->
    Go.TrimSpace_stop ((t ++ String c "") ++ encodeRunes post ++ junk)
      (String.length ((t ++ String c "") ++ encodeRunes post))
    = t ++ String c "".
Proof.
  induction post as [|r post IH] using rev_ind; intros t junk c Hpost Hc Hs.
  - cbn [encodeRunes append]. rewrite string_app_nil_r.
    rewrite string_length_app. cbn [String.length].
    rewrite Nat.add_1_r. cbn [Go.TrimSpace_stop].
    rewrite (string_app_assoc t).
    rewrite (@byteAt_app t (String c "" ++ junk) 0) by lia.
    change (Go.byteAt (String c "" ++ junk) (Z.of_nat 0)) with (Go.byte c).
    replace (Go.RuneSelf <=? Go.byte c)%Z with false by lia.
    rewrite Hs. cbn [negb].
    replace (S (String.length t)) with (String.length (t ++ String c ""))
      by (rewrite string_length_app; cbn [String.length]; lia).
    rewrite <- string_app_assoc. apply sliceTo_app.
  - rewrite forallb_app in Hpost. apply andb_prop in Hpost.
    destruct Hpost as [Hpost Hr]. cbn [forallb] in Hr.
    rewrite andb_true_r in Hr.
    rewrite encodeRunes_app. cbn [encodeRunes]. rewrite string_app_nil_r.
    pose proof (IsSpace_encodes _ Hr) as He.
    assert (Hright : Go.TrimRightFunc
                       ((t ++ String c "") ++ encodeRunes post ++ encodeRune r)
                       Go.IsSpace
                     = t ++ String c "").
    { pose proof (@TrimRightFunc_spaces (post ++ [r]) t c) as H.
      rewrite encodeRunes_app in H. cbn [encodeRunes] in H.
      rewrite string_app_nil_r in H. apply H; [|exact Hc|exact Hs].
      rewrite forallb_app, Hpost. cbn. now rewrite Hr. }
    specialize (IH t (encodeRune r ++ junk) c Hpost Hc Hs).
    rewrite <- (string_app_assoc (encodeRunes post)) in IH.
    set (tok := t ++ String c "") in *.
    remember (encodeRune r) as e eqn:Ee.
    assert (Hcut : forall (head : string) (last : ascii),
               e = head ++ String last "" ->
               Go.TrimSpace_stop
                 (tok ++ (encodeRunes post ++ e) ++ junk)
                 (String.length (tok ++ encodeRunes post ++ e))
               = if (Go.RuneSelf <=? Go.byte last)%Z
                 then Go.TrimRightFunc (tok ++ encodeRunes post ++ e) Go.IsSpace
                 else if negb (Go.asciiSpace (Go.byte last))
                      then tok ++ encodeRunes post ++ e
                      else Go.TrimSpace_stop
                             (tok ++ (encodeRunes post ++ e) ++ junk)
                             (String.length (tok ++ encodeRunes post ++ head))).
    { intros head last E.
      assert (Hlen : String.length (tok ++ encodeRunes post ++ e)
                     = S (String.length (tok ++ encodeRunes post ++ head))).
      { rewrite E, !string_length_app. cbn [String.length]. lia. }
      rewrite Hlen. cbn [Go.TrimSpace_stop]. rewrite <- Hlen.
      assert (Hs0 : tok ++ (encodeRunes post ++ e) ++ junk
                    = (tok ++ encodeRunes post ++ e) ++ junk)
        by (now rewrite !string_app_assoc).
      rewrite Hs0, sliceTo_app.
      assert (Hs1 : (tok ++ encodeRunes post ++ e) ++ junk
                    = (tok ++ encodeRunes post ++ head)
                        ++ String last "" ++ junk)
        by (rewrite E; now rewrite !string_app_assoc).
      assert (Hb : Go.byteAt ((tok ++ encodeRunes post ++ e) ++ junk)
                     (Z.of_nat
                        (String.length (tok ++ encodeRunes post ++ head)))
                   = Go.byte last).
      { rewrite Hs1.
        rewrite (@byteAt_app (tok ++ encodeRunes post ++ head)
                   (String last "" ++ junk) 0) by lia.
        reflexivity. }
      rewrite Hb. reflexivity. }
    clear Ee.
    destruct He as [c1 Hc1 Hr1|c0 c1 H0 H1 _ _ _|c0 c1 c2 H0 H2 _ _ _ _].
    + rewrite (Hcut "" c1 eq_refl).
      replace (Go.RuneSelf <=? Go.byte c1)%Z with false by lia.
      rewrite Hc1, <- (asciiSpace_IsSpace _ Hr1), Hr. cbn [negb].
      cbn [append]. rewrite string_app_nil_r. exact IH.
    + rewrite (Hcut (String c0 "") c1 eq_refl), H1. exact Hright.
    + rewrite (Hcut (String c0 (String c1 "")) c2 eq_refl), H2.
      exact Hright.
Qed.

(** TrimSpace of a token between white space: the token. *)
Lemma TrimSpace_token (pre post : list Z) (t : string) (c0 c : ascii)
      (t0 : string) :
  forallb Go.IsSpace pre = true ->
  forallb Go.IsSpace post = true ->
  String c0 t0 = t ++ String c "" ->
  (Go.byte c0 <? Go.RuneSelf)%Z = true ->
  Go.asciiSpace (Go.byte c0) = false ->
  (Go.byte c <? Go.RuneSelf)%Z = true ->
  Go.asciiSpace (Go.byte c) = false ->
  Go.TrimSpace (encodeRunes pre ++ String c0 t0 ++ encodeRunes post)
  = String c0 t0.
Proof.
  intros Hpre Hpost Etok Hc0 Hs0 Hc Hs.
  induction pre as [|r pre IH].
  - cbn [encodeRunes append Go.TrimSpace].
    replace (Go.RuneSelf <=? Go.byte c0)%Z with false by lia.
    rewrite Hs0. cbn [negb].
    change (String c0 (t0 ++ encodeRunes post))
      with (String c0 t0 ++ encodeRunes post).
    rewrite Etok.
    pose proof (@TrimSpace_stop_spaces post t "" c Hpost Hc Hs) as H.
    now rewrite string_app_nil_r in H.
  - cbn [forallb] in Hpre. apply andb_prop in Hpre. destruct Hpre as [Hr Hpre].
    specialize (IH Hpre).
    assert (Hslow : Go.TrimFunc
                      (encodeRunes (r :: pre) ++ String c0 t0
                       ++ encodeRunes post) Go.IsSpace = String c0 t0).
    { unfold Go.TrimFunc.
      change (String c0 t0 ++ encodeRunes post)
        with (String c0 (t0 ++ encodeRunes post)).
      rewrite (@TrimLeftFunc_spaces (r :: pre) c0 (t0 ++ encodeRunes post));
        [|cbn [forallb]; now rewrite Hr|exact Hc0|exact Hs0].
      change (String c0 (t0 ++ encodeRunes post))
        with (String c0 t0 ++ encodeRunes post).
      rewrite Etok. apply TrimRightFunc_spaces; assumption. }
    pose proof (IsSpace_encodes _ Hr) as He.
    revert Hslow. cbn [encodeRunes].
    inversion He as [c1 Hc1 Hr1 E|c1 c2 H1 _ _ _ _ E|c1 c2 c3 H1 _ _ _ _ _ E];
      intro Hslow; cbn [append Go.TrimSpace].
    + replace (Go.RuneSelf <=? Go.byte c1)%Z with false by lia.
      rewrite Hc1, <- (asciiSpace_IsSpace _ Hr1), Hr. cbn [negb]. exact IH.
    + rewrite H1. exact Hslow.
    + rewrite H1. exact Hslow.
Qed.

(** TrimSpace of white space: nothing. *)
Lemma TrimSpace_spaces (sp : list Z) :
  forallb Go.IsSpace sp = true -> Go.TrimSpace (encodeRunes sp) = "".
Proof.
  induction sp as [|r sp IH]; [reflexivity|].
  intro Hsp. pose proof Hsp as Hall.
  cbn [forallb] in Hsp. apply andb_prop in Hsp. destruct Hsp as [Hr Hsp].
  specialize (IH Hsp).
  assert (Hslow : Go.TrimFunc (encodeRunes (r :: sp)) Go.IsSpace = "").
  { unfold Go.TrimFunc. now rewrite (TrimLeftFunc_all_spaces _ Hall). }
  pose proof (IsSpace_encodes _ Hr) as He.
  revert Hslow. cbn [encodeRunes].
  inversion He as [c1 Hc1 Hr1 E|c1 c2 H1 _ _ _ _ E|c1 c2 c3 H1 _ _ _ _ _ E];
    intro Hslow; cbn [append Go.TrimSpace].
  - replace (Go.RuneSelf <=? Go.byte c1)%Z with false by lia.
    rewrite Hc1, <- (asciiSpace_IsSpace _ Hr1), Hr. cbn [negb]. exact IH.
  - rewrite H1. exact Hslow.
  - rewrite H1. exact Hslow.
Qed.

Lemma endsNonSpace_last (s : string) :
  s <> "" -> endsNonSpace s = true ->
  exists t c,
    s = t ++ String c ""
    /\ (Go.byte c <? Go.RuneSelf)%Z = true
    /\ Go.asciiSpace (Go.byte c) = false.
Proof.
  induction s as [|c s IH]; [congruence|]. intros _ H.
  destruct s as [|c' s].
  - cbn in H. apply andb_prop in H. destruct H as [H1 H2].
    exists "", c. split; [reflexivity|]. split; [exact H1|].
    now apply negb_true_iff.
  - destruct IH as (t & d & E & H1 & H2); [discriminate|exact H|].
    exists (String c t), d. split; [cbn; now rewrite <- E|]. now split.
Qed.

(** TrimSpace of a token that starts and ends with an ASCII character that
    is no white space, between white space: the token. *)
Lemma TrimSpace_trims (pre post : list Z) (token : string) :
  forallb Go.IsSpace pre = true ->
  forallb Go.IsSpace post = true ->
  startsNonSpace token = true ->
  endsNonSpace token = true ->
  Go.TrimSpace (encodeRunes pre ++ token ++ encodeRunes post) = token.
Proof.
  intros Hpre Hpost Hstart Hend.
  destruct token as [|c0 t0].
  - cbn [append]. rewrite <- encodeRunes_app. apply TrimSpace_spaces.
    now rewrite forallb_app, Hpre, Hpost.
  - destruct (@endsNonSpace_last (String c0 t0)) as (t & c & E & Hc & Hs);
      [discriminate|exact Hend|].
    cbn [startsNonSpace] in Hstart. apply andb_prop in Hstart.
    destruct Hstart as [Hc0 Hs0]. apply negb_true_iff in Hs0.
    exact (@TrimSpace_token pre post t c0 c t0 Hpre Hpost E Hc0 Hs0 Hc Hs).
Qed.

(** X27. The token taken from the GitHub CLI is the output of
    [gh auth token] without the white space around it, the white space of
    Unicode included (U+0085, U+00A0, U+2028 and the like, in UTF-8): an
    output that is a token between white space, such as the newline the CLI
    prints after it, gives exactly that token, for a token that starts and
    ends with an ASCII character that is no white space; an output of white
    space only gives no token. *)
Theorem getGitHubCLIToken_trims (env : Provider.Environment)
        (pre post : list Z) (token : string) :
  Provider.gh_auth_token env
  = GitHub.Ok (encodeRunes pre ++ token ++ encodeRunes post) ->
  forallb Go.IsSpace pre = true ->
  forallb Go.IsSpace post = true ->
  startsNonSpace token = true ->
  endsNonSpace token = true ->
  Provider.getGitHubCLIToken env = token.
Proof.
  intros Hout Hpre Hpost Hstart Hend.
  unfold Provider.getGitHubCLIToken. rewrite Hout.
  cbv zeta. rewrite (@TrimSpace_trims pre post token Hpre Hpost Hstart Hend).
  destruct (String.eqb token "") eqn:E; cbn [negb]; [|reflexivity].
  apply String.eqb_eq in E. now subst token.
Qed.

(** The statement at work: the token followed by a space, and the token
    between no-break spaces (U+00A0) and before a newline. *)
Lemma getGitHubCLIToken_trims_witness :
  Provider.getGitHubCLIToken ProviderScenario.envWithToken = "gh-token"
  /\ Provider.getGitHubCLIToken
       (Provider.mkEnvironment
          (Provider.Getenv ProviderScenario.envWithToken)
          (GitHub.Ok
             (encodeRunes [160%Z] ++ "gh-token" ++ encodeRunes [160%Z; 10%Z]))
          (Provider.url_Parse ProviderScenario.envWithToken)
          (Provider.installationToken ProviderScenario.envWithToken))
     = "gh-token".
Proof.
  split.
  - apply (@getGitHubCLIToken_trims ProviderScenario.envWithToken []
             [32%Z] "gh-token"); reflexivity.
  - apply (@getGitHubCLIToken_trims _ [160%Z] [160%Z; 10%Z] "gh-token");
      reflexivity.
Defined.

(* ===================================================================== *)
(** * The repository-file resource: the retry loops, call by call *)
(* ===================================================================== *)

(* ===================================================================== *)
(** * The retry loops of the repository-file resource, step by step *)
(* ===================================================================== *)

Lemma callOf_CreateFile (e : GitHub.Event) (owner repo path : string)
      (opts : GitHub.RepositoryContentFileOptions) :
  callOf e = Some (GitHub.Repositories_CreateFile owner repo path opts) ->
  writeOf e = Some (opts, errorOf e).
Proof.
  destruct e as [c r|d]; [|discriminate]. cbn [callOf].
  intro H. injection H as ->. reflexivity.
Qed.

Lemma callOf_DeleteFile (e : GitHub.Event) (owner repo path : string)
      (opts : GitHub.RepositoryContentFileOptions) :
  callOf e = Some (GitHub.Repositories_DeleteFile owner repo path opts) ->
  writeOf e = Some (opts, errorOf e).
Proof.
  destruct e as [c r|d]; [|discriminate]. cbn [callOf].
  intro H. injection H as ->. reflexivity.
Qed.

Lemma callOf_GetContents (e : GitHub.Event) (owner repo path : string)
      (opts : GitHub.RepositoryContentGetOptions) :
  callOf e = Some (GitHub.Repositories_GetContents owner repo path opts) ->
  writeOf e = None /\ isFetch e = true.
Proof.
  destruct e as [c r|d]; [|discriminate]. cbn [callOf].
  intro H. injection H as ->. split; [reflexivity|].
  unfold isFetch. cbn. now destruct r as [[? ?]|?].
Qed.

(** A failed GetContents returned no file. *)
Lemma fetchOf_failed (g : GitHub.Event) (ge : Go.error)
      (fetched : option GitHub.RepositoryContent) :
  fetchOf g = Some fetched -> errorOf g = Some ge -> fetched = None.
Proof.
  destruct g as [c r|d]; [|discriminate].
  destruct c; try discriminate. cbn.
  destruct r as [[fc dc]|e]; [discriminate|]. congruence.
Qed.

Lemma isWrite_writeOf (e : GitHub.Event) :
  isWrite e = true -> exists opts, writeOf e = Some (opts, errorOf e).
Proof.
  destruct e as [c r|d]; [|discriminate].
  destruct c; try discriminate; intros _; eexists; reflexivity.
Qed.

Lemma writeOf_errorOf (e : GitHub.Event)
      (opts : GitHub.RepositoryContentFileOptions) (err : option Go.error) :
  writeOf e = Some (opts, err) -> errorOf e = err.
Proof.
  destruct e as [c r|d]; [|discriminate].
  destruct c; try discriminate; cbn; congruence.
Qed.

Lemma isFetch_not_write (g : GitHub.Event) :
  isFetch g = true -> writeOf g = None.
Proof.
  unfold isFetch. destruct (fetchOf g) eqn:H; [|discriminate].
  intros _. eapply fetch_not_write. exact H.
Qed.

(** A write-free prefix of a trace ends before the first write. *)
Lemma split_quiet_prefix (pre0 l pre post : list GitHub.Event)
      (wr : GitHub.Event) :
  countWrites pre0 = 0%nat ->
  isWrite wr = true ->
  (pre0 ++ l)%list = (pre ++ wr :: post)%list ->
  exists pre', pre = (pre0 ++ pre')%list /\ l = (pre' ++ wr :: post)%list.
Proof.
  revert pre. induction pre0 as [|x pre0 IH]; intros pre Hq Hw Heq.
  - exists pre. split; [reflexivity|exact Heq].
  - rewrite countWrites_cons in Hq.
    destruct (isWrite x) eqn:Hx; [discriminate|].
    destruct pre as [|y pre].
    + cbn in Heq. injection Heq as -> _. congruence.
    + cbn in Heq. injection Heq as -> Heq.
      destruct (IH pre ltac:(cbn in Hq; lia) Hw Heq) as (pre' & -> & Hl).
      exists pre'. split; [reflexivity|exact Hl].
Qed.

Lemma quiet_no_write (l pre post : list GitHub.Event) (wr : GitHub.Event) :
  countWrites l = 0%nat -> isWrite wr = true ->
  l <> (pre ++ wr :: post)%list.
Proof.
  intros Hq Hw ->. rewrite countWrites_app, countWrites_cons, Hw in Hq. lia.
Qed.

Section RetryProtocol.

Variable write : GitHub.RepositoryContentFileOptions -> GitHub.Call.
Variable fetch : GitHub.Call.
Variable next : GitHub.RepositoryContentFileOptions
                -> option GitHub.RepositoryContent
                -> option GitHub.RepositoryContentFileOptions.

Hypothesis write_is_write :
  forall e opts, callOf e = Some (write opts) ->
                 writeOf e = Some (opts, errorOf e).
Hypothesis fetch_is_no_write :
  forall e, callOf e = Some fetch -> writeOf e = None.

(** In the trace of a retry loop, followed by a write-free rest that is
    empty when the last write of the loop failed, every write is an attempt
    of the loop, and what follows it is what [afterWrite] says. *)
Lemma retryProtocol_afterWrite (n : nat) :
  forall (opts : GitHub.RepositoryContentFileOptions)
         (loop post0 : list GitHub.Event) (err0 : option Go.error),
    retryProtocol write fetch next n opts loop ->
    countWrites post0 = 0%nat ->
    (lastWriteError err0 loop <> None -> post0 = []) ->
    forall (pre post : list GitHub.Event) (wr : GitHub.Event),
      (loop ++ post0)%list = (pre ++ wr :: post)%list ->
      isWrite wr = true ->
      exists o,
        callOf wr = Some (write o)
        /\ afterWrite write fetch (next o) (S (countWrites pre) <? n)%nat
             (errorOf wr) post.
Proof.
  induction n as [|n IH]; intros opts loop post0 err0 Hp Hq Hlast pre post wr
                                  Heq Hw.
  - cbn in Hp. subst loop. cbn in Heq.
    exfalso. exact (@quiet_no_write _ _ _ _ Hq Hw Heq).
  - cbn [retryProtocol] in Hp.
    destruct loop as [|w1 rest1]; [contradiction|].
    destruct Hp as (Hc1 & Hp).
    pose proof (@write_is_write _ _ Hc1) as Hw1.
    assert (Hiw1 : isWrite w1 = true) by (unfold isWrite; now rewrite Hw1).
    destruct pre as [|x pre'].
    + cbn [app] in Heq. injection Heq as <- Hpost.
      exists opts. split; [exact Hc1|].
      unfold afterWrite. cbn [countWrites filter length].
      destruct (errorOf w1) as [e|] eqn:He.
      * destruct (Go.hasStatus e Go.StatusConflict) eqn:H409.
        -- destruct rest1 as [|g rest2]; [contradiction|].
           destruct Hp as (Hg & Hp). cbn [app] in Hpost. subst post.
           split; [exact Hg|].
           pose proof (@fetch_is_no_write _ Hg) as Hgw.
           destruct (fetchOf g) as [fetched|]; [|contradiction].
           assert (Hend : rest2 = [] -> post0 = []).
           { intros ->. apply Hlast.
             rewrite (lastWriteError_write _ _ _ Hw1). cbn [snd].
             rewrite (lastWriteError_skip _ _ _ Hgw). cbn. discriminate. }
           destruct (next opts fetched) as [opts'|].
           ++ destruct n as [|n'].
              ** cbn in Hp. cbn. rewrite (Hend Hp). now subst rest2.
              ** cbn [retryProtocol] in Hp.
                 destruct rest2 as [|w2 rest3]; [contradiction|].
                 cbn. exact (proj1 Hp).
           ++ rewrite (Hend Hp). now subst rest2.
        -- subst rest1. cbn [app] in Hpost. subst post.
           apply Hlast. rewrite (lastWriteError_write _ _ _ Hw1).
           cbn. discriminate.
      * subst rest1. cbn [app] in Hpost. now subst post.
    + cbn [app] in Heq. injection Heq as <- Heq.
      destruct (errorOf w1) as [e|] eqn:He.
      2:{ subst rest1. exfalso. exact (@quiet_no_write _ _ _ _ Hq Hw Heq). }
      destruct (Go.hasStatus e Go.StatusConflict) eqn:H409.
      2:{ subst rest1. exfalso. exact (@quiet_no_write _ _ _ _ Hq Hw Heq). }
      destruct rest1 as [|g rest2]; [contradiction|].
      destruct Hp as (Hg & Hp).
      pose proof (@fetch_is_no_write _ Hg) as Hgw.
      destruct pre' as [|y pre''].
      { cbn [app] in Heq. injection Heq as <- _.
        unfold isWrite in Hw. rewrite Hgw in Hw. discriminate. }
      cbn [app] in Heq. injection Heq as <- Heq.
      destruct (fetchOf g) as [fetched|]; [|contradiction].
      destruct (next opts fetched) as [opts'|].
      2:{ subst rest2. exfalso. exact (@quiet_no_write _ _ _ _ Hq Hw Heq). }
      assert (Hlast' : lastWriteError (Some e) rest2 <> None -> post0 = []).
      { intro H. apply Hlast.
        rewrite (lastWriteError_write _ _ _ Hw1). cbn [snd].
        now rewrite (lastWriteError_skip _ _ _ Hgw). }
      destruct (IH opts' rest2 post0 (Some e) Hp Hq Hlast' pre'' post wr Heq Hw)
        as (o & Ho & Hafter).
      exists o. split; [exact Ho|].
      rewrite !countWrites_cons, Hiw1.
      assert (Hig : isWrite g = false) by (unfold isWrite; now rewrite Hgw).
      rewrite Hig. exact Hafter.
Qed.

(** The same for a trace that holds the loop between two write-free
    parts. *)
Lemma retryProtocol_around (n : nat)
      (opts : GitHub.RepositoryContentFileOptions)
      (tr pre0 loop post0 : list GitHub.Event) :
  tr = (pre0 ++ loop ++ post0)%list ->
  countWrites pre0 = 0%nat ->
  countWrites post0 = 0%nat ->
  retryProtocol write fetch next n opts loop ->
  (lastWriteError None loop <> None -> post0 = []) ->
  forall (pre post : list GitHub.Event) (wr : GitHub.Event),
    tr = (pre ++ wr :: post)%list ->
    isWrite wr = true ->
    exists o,
      callOf wr = Some (write o)
      /\ afterWrite write fetch (next o) (S (countWrites pre) <? n)%nat
           (errorOf wr) post.
Proof.
  intros -> Hpre Hpost Hp Hlast pre post wr Heq Hw.
  destruct (@split_quiet_prefix _ _ _ _ _ Hpre Hw Heq) as (pre' & -> & Hl).
  rewrite countWrites_app, Hpre. cbn [Nat.add].
  eapply retryProtocol_afterWrite; eauto.
Qed.

End RetryProtocol.

Section FileRetrySteps.

Variable W : Type.
Variable remote : Remote W.
Variable GetContent : GitHub.RepositoryContent -> GitHub.result string.
Variable url_Parse_RawQuery : string -> GitHub.result string.
Variable url_ParseQuery : string -> GitHub.result (list (string * list string)).

Import FileResource.

(** The branch check changes nothing of the model but the SHA of the source
    branch. *)
Lemma checkAndCreateBranchIfNeeded_model (owner repo : string)
      (model : repositoryFileResourceModel) (diags : TF.Diagnostics) (w : W) :
  let model' :=
    snd (fst (value_of
                (checkAndCreateBranchIfNeeded remote owner repo model diags w))) in
  model' = model
  \/ exists sha,
      model' = set_AutocreateBranchSourceSHA (TF.StringValue sha) model.
Proof.
  unfold checkAndCreateBranchIfNeeded, checkRepositoryBranchExists.
  repeat (first
    [ progress step
    | match goal with
      | |- context [api remote ?c ?w] => destruct (api remote c w) as [[?|?] ?]
      | |- context [if ?b then _ else _] => destruct b
      | |- context [match ?x with _ => _ end] => destruct x
      end ]);
    cbn; eauto.
Qed.

Lemma checkAndCreateBranchIfNeeded_Branch (owner repo : string)
      (model : repositoryFileResourceModel) (diags : TF.Diagnostics) (w : W) :
  Branch (snd (fst (value_of
            (checkAndCreateBranchIfNeeded remote owner repo model diags w))))
  = Branch model.
Proof.
  destruct (checkAndCreateBranchIfNeeded_model owner repo model diags w)
    as [-> | (sha & ->)]; reflexivity.
Qed.

Lemma checkAndCreateBranchIfNeeded_options (owner repo content : string)
      (model : repositoryFileResourceModel) (diags : TF.Diagnostics) (w : W) :
  buildFileOptions
    (snd (fst (value_of
            (checkAndCreateBranchIfNeeded remote owner repo model diags w))))
    content
  = buildFileOptions model content.
Proof.
  destruct (checkAndCreateBranchIfNeeded_model owner repo model diags w)
    as [-> | (sha & ->)]; reflexivity.
Qed.

(** The trace of Update's retry loop, attempt by attempt. *)
Lemma Update_retry_protocol (n : nat) (owner repoName filePath : string)
      (plan : repositoryFileResourceModel)
      (opts : GitHub.RepositoryContentFileOptions)
      (create : option GitHub.RepositoryContentResponse)
      (err : option Go.error) (w : W) :
  retryProtocol (GitHub.Repositories_CreateFile owner repoName filePath)
    (GitHub.Repositories_GetContents owner repoName filePath (getOptions plan))
    retryWithSHA n opts
    (trace_of (Update_retry remote n owner repoName filePath plan opts
                 create err w)).
Proof.
  revert opts create err w.
  induction n as [|n IH]; intros opts create err w; [reflexivity|].
  cbn [Update_retry]. step.
  reply remote (GitHub.Repositories_CreateFile owner repoName filePath opts)
        w r w1.
  cbn [retryProtocol callOf errorOf errOf].
  destruct r as [c|e]; cbn [errOf]; [split; reflexivity|].
  split; [reflexivity|].
  destruct (Go.hasStatus e Go.StatusConflict) eqn:Hc; [|reflexivity].
  step.
  reply remote (GitHub.Repositories_GetContents owner repoName filePath
                  (getOptions plan)) w1 g w2.
  split; [reflexivity|].
  destruct g as [[[fc|] dc]|ge]; cbn [fetchOf retryWithSHA];
    try reflexivity.
  apply IH.
Qed.

(** The trace of Create's retry loop, attempt by attempt. *)
Lemma Create_retry_protocol (n : nat) (owner repoName filePath : string)
      (plan : repositoryFileResourceModel) (diags : TF.Diagnostics)
      (opts : GitHub.RepositoryContentFileOptions)
      (create : option GitHub.RepositoryContentResponse)
      (err : option Go.error) (w : W) :
  retryProtocol (GitHub.Repositories_CreateFile owner repoName filePath)
    (GitHub.Repositories_GetContents owner repoName filePath (getOptions plan))
    (retryCreate (TF.ValueBool (OverwriteOnCreate plan))) n opts
    (trace_of (Create_retry remote n owner repoName filePath plan diags opts
                 create err w)).
Proof.
  revert opts create err w.
  induction n as [|n IH]; intros opts create err w; [reflexivity|].
  cbn [Create_retry]. step.
  reply remote (GitHub.Repositories_CreateFile owner repoName filePath opts)
        w r w1.
  cbn [retryProtocol callOf errorOf errOf].
  destruct r as [c|e]; cbn [errOf]; [split; reflexivity|].
  split; [reflexivity|].
  destruct (Go.hasStatus e Go.StatusConflict) eqn:Hc; [|reflexivity].
  step.
  reply remote (GitHub.Repositories_GetContents owner repoName filePath
                  (getOptions plan)) w1 g w2.
  split; [reflexivity|].
  destruct g as [[[fc|] dc]|ge]; cbn [fetchOf retryCreate];
    try apply IH.
  destruct (TF.ValueBool (OverwriteOnCreate plan)); [apply IH|reflexivity].
Qed.

(** The trace of Delete's retry loop, attempt by attempt. *)
Lemma Delete_retry_protocol (n : nat) (owner repoName filePath : string)
      (state : repositoryFileResourceModel) (diags : TF.Diagnostics)
      (opts : GitHub.RepositoryContentFileOptions)
      (err : option Go.error) (w : W) :
  retryProtocol (GitHub.Repositories_DeleteFile owner repoName filePath)
    (GitHub.Repositories_GetContents owner repoName filePath (getOptions state))
    retryWithSHA n opts
    (trace_of (Delete_retry remote n owner repoName filePath state diags opts
                 err w)).
Proof.
  revert opts err w.
  induction n as [|n IH]; intros opts err w; [reflexivity|].
  cbn [Delete_retry]. step.
  reply remote (GitHub.Repositories_DeleteFile owner repoName filePath opts)
        w r w1.
  cbn [retryProtocol callOf errorOf errOf].
  destruct r as [c|e]; cbn [errOf]; [split; reflexivity|].
  split; [reflexivity|].
  assert (Hs : Go.hasStatus e Go.StatusConflict
               = match Go.AsErrorResponse e with
                 | Some (Some code) => (code =? Go.StatusConflict)%Z
                 | _ => false
                 end) by reflexivity.
  rewrite Hs. clear Hs.
  destruct (Go.AsErrorResponse e) as [[code|]|] eqn:Has; try reflexivity.
  destruct (code =? Go.StatusNotFound)%Z eqn:H404.
  { apply Z.eqb_eq in H404. subst code. reflexivity. }
  destruct (code =? Go.StatusConflict)%Z eqn:H409; [|reflexivity].
  step.
  reply remote (GitHub.Repositories_GetContents owner repoName filePath
                  (getOptions state)) w1 g w2.
  split; [reflexivity|].
  destruct g as [[[fc|] dc]|ge]; cbn [fetchOf retryWithSHA];
    try reflexivity.
  - apply IH.
  - now destruct (Go.hasStatus ge Go.StatusNotFound).
Qed.

End FileRetrySteps.

Lemma hasErrorSummary_none (s : string) (ds : TF.Diagnostics) :
  TF.HasError ds = false -> hasErrorSummary s ds = false.
Proof.
  intro H. destruct (hasErrorSummary s ds) eqn:E; [|reflexivity].
  apply hasErrorSummary_HasError in E. congruence.
Qed.

Lemma hasErrorSummary_AddError_other (s s' detail : string)
      (ds : TF.Diagnostics) :
  String.eqb s' s = false ->
  hasErrorSummary s (TF.AddError ds s' detail) = hasErrorSummary s ds.
Proof.
  intro H. unfold TF.AddError. cbn [TF.Append].
  destruct (TF.Diagnostics_Contains ds _); [reflexivity|].
  rewrite hasErrorSummary_app. unfold hasErrorSummary at 2. cbn.
  rewrite H. cbn. now rewrite orb_false_r.
Qed.

Lemma hasErrorSummary_AddWarning (s s' detail : string) (ds : TF.Diagnostics) :
  hasErrorSummary s (TF.AddWarning ds s' detail) = hasErrorSummary s ds.
Proof.
  unfold TF.AddWarning. cbn [TF.Append].
  destruct (TF.Diagnostics_Contains ds _); [reflexivity|].
  rewrite hasErrorSummary_app. unfold hasErrorSummary at 2. cbn.
  now rewrite orb_false_r.
Qed.

Lemma hasWarningSummary_app (s : string) (a b : TF.Diagnostics) :
  hasWarningSummary s (a ++ b)%list
  = hasWarningSummary s a || hasWarningSummary s b.
Proof. unfold hasWarningSummary. apply existsb_app. Qed.

Lemma hasWarningSummary_AddWarning (ds : TF.Diagnostics)
      (summary detail : string) :
  hasWarningSummary summary (TF.AddWarning ds summary detail) = true.
Proof.
  unfold TF.AddWarning. cbn [TF.Append].
  destruct (TF.Diagnostics_Contains ds _) eqn:Hc.
  - unfold TF.Diagnostics_Contains in Hc. apply existsb_exists in Hc.
    destruct Hc as (x & Hin & Heq).
    apply Diagnostic_Equal_summary in Heq. cbn in Heq. destruct Heq as [He Hs].
    unfold hasWarningSummary. apply existsb_exists. exists x.
    split; [exact Hin|]. rewrite He, Hs. cbn. apply String.eqb_refl.
  - rewrite hasWarningSummary_app. cbn. rewrite String.eqb_refl.
    now rewrite orb_true_r.
Qed.

(** Closes a goal about the writes of a trace made of write-free parts. *)
Ltac no_writes :=
  cbn [value_of world_of trace_of fst snd ret];
  rewrite ?countWrites_app; cbn [countWrites filter length app]; lia.

Section FileRuns.

Variable W : Type.
Variable remote : Remote W.
Variable GetContent : GitHub.RepositoryContent -> GitHub.result string.
Variable url_Parse_RawQuery : string -> GitHub.result string.
Variable url_ParseQuery : string -> GitHub.result (list (string * list string)).

Import FileResource.

Lemma readFile_ref_summary (s : string) (fc : GitHub.RepositoryContent)
      (model : repositoryFileResourceModel) (diags : TF.Diagnostics) :
  hasErrorSummary s
    (snd (readFile_ref url_Parse_RawQuery url_ParseQuery fc model diags))
  = hasErrorSummary s diags.
Proof.
  unfold readFile_ref.
  destruct (url_Parse_RawQuery _) as [rawQuery|err];
    [destruct (url_ParseQuery rawQuery) as [parsed|err];
     [destruct (find _ parsed) as [[k [|first rest]]|]|]|];
    cbn [fst snd]; rewrite ?hasErrorSummary_AddWarning; reflexivity.
Qed.

(** The only errors readFile adds are its own three. *)
Lemma readFile_summary (s : string) (owner repoName filePath : string)
      (model : repositoryFileResourceModel) (diags : TF.Diagnostics) (w : W) :
  String.eqb "Rate Limit Exceeded" s = false ->
  String.eqb "Error reading file" s = false ->
  String.eqb "Error reading file content" s = false ->
  hasErrorSummary s
    (snd (value_of (readFile remote GetContent url_Parse_RawQuery
                      url_ParseQuery owner repoName filePath model diags w)))
  = hasErrorSummary s diags.
Proof.
  intros H1 H2 H3.
  destruct (readFile remote GetContent url_Parse_RawQuery url_ParseQuery
              owner repoName filePath model diags w)
    as [[[m' d'] wf] tr] eqn:Hrun.
  cbn [value_of fst snd].
  unfold readFile, getFileCommit, bind, call, ret in Hrun.
  next_call Hrun r w1.
  destruct r as [[[fc|] dc]|e].
  - destruct (GetContent fc) as [content|err].
    + match type of Hrun with
      | context [readFile_ref ?a ?b ?c ?m ?d] =>
          pose proof (readFile_ref_summary s c m d) as Href;
          destruct (readFile_ref a b c m d) as [m1 d1]
      end.
      cbn [snd] in Href.
      repeat (cbv beta iota zeta in Hrun;
              match type of Hrun with
              | context [api ?R ?c ?w] => destruct (api R c w) as [[?|?] ?]
              | context [if ?b then _ else _] => destruct b
              | context [match ?x with [] => _ | _ :: _ => _ end] => destruct x
              end);
        cbv beta iota zeta in Hrun; cbn [app] in Hrun;
        injection Hrun as <- <- <- <-;
        rewrite ?hasErrorSummary_AddWarning; exact Href.
    + injection Hrun as <- <- <- <-.
      now apply hasErrorSummary_AddError_other.
  - injection Hrun as <- <- <- <-. reflexivity.
  - destruct (Go.AsErrorResponse e) as [[code|]|];
      try destruct (code =? Go.StatusTooManyRequests)%Z;
      try destruct (code =? Go.StatusNotFound)%Z;
      injection Hrun as <- <- <- <-;
      try reflexivity; now apply hasErrorSummary_AddError_other.
Qed.

(** How a run of Update goes: it makes no contents write at all, or its
    trace is a write-free part, the attempts of the retry loop, and a
    write-free part that is empty when the last attempt failed. *)
Lemma Update_run (r : repositoryFileResource)
      (reqPlan reqState : Decoded repositoryFileResourceModel)
      (resp : Response repositoryFileResourceModel) (w : W) :
  let run := Update remote GetContent url_Parse_RawQuery url_ParseQuery
                    r reqPlan reqState resp w in
  countWrites (trace_of run) = 0%nat
  \/ exists pre loop post owner repoName filePath opts,
      trace_of run = (pre ++ loop ++ post)%list
      /\ countWrites pre = 0%nat /\ countWrites post = 0%nat
      /\ retryProtocol
           (GitHub.Repositories_CreateFile owner repoName filePath)
           (GitHub.Repositories_GetContents owner repoName filePath
              (getOptions (decoded reqPlan)))
           retryWithSHA 5 opts loop
      /\ (lastWriteError None loop <> None -> post = [])
      /\ (lastWriteError None loop = None ->
          hasErrorSummary "Error updating file" (Diagnostics (value_of run))
          = false).
Proof.
  cbn zeta. unfold Update.
  set (resp1 := withDiagnostics _ (withDiagnostics _ resp)).
  clearbody resp1.
  destruct (TF.HasError (Diagnostics resp1)) eqn:Hok; [left; reflexivity|].
  destruct (client r); [|left; reflexivity].
  rewrite run_bind.
  pose proof (notWrite_count _ (getOwner_notWrite remote r w)) as Hown.
  destruct (getOwner remote r w) as [[[owner err] w1] tr1].
  cbn [value_of world_of trace_of fst snd] in *.
  destruct err; [left; no_writes|].
  destruct (String.eqb _ ""); [left; no_writes|].
  destruct (Go.SplitN _ ":" 2) as [|repoName [|filePath [|x l]]];
    try (left; no_writes).
  rewrite run_bind.
  pose proof (notWrite_count _
    (checkAndCreateBranchIfNeeded_notWrite remote owner repoName
       (decoded reqPlan) (Diagnostics resp1) w1)) as Hbr.
  pose proof (checkAndCreateBranchIfNeeded_ok remote owner repoName
                (decoded reqPlan) (Diagnostics resp1) w1) as Hdiags.
  pose proof (checkAndCreateBranchIfNeeded_Branch remote owner repoName
                (decoded reqPlan) (Diagnostics resp1) w1) as Hbranch.
  destruct (checkAndCreateBranchIfNeeded remote owner repoName
              (decoded reqPlan) (Diagnostics resp1) w1)
    as [[[[ok plan] diags] w2] tr2].
  cbn [value_of world_of trace_of fst snd] in *.
  destruct ok; cbn [negb]; [|left; no_writes].
  rewrite (Hdiags _ _ eq_refl) in *. clear Hdiags.
  destruct (buildFileOptions plan _) as [opts diags0] eqn:Hb.
  destruct (TF.HasError diags0); [left; no_writes|].
  destruct opts as [opts|]; [|left; no_writes].
  set (opts1 := if TF.String_known (SHA (decoded reqState)) then _ else opts).
  clearbody opts1.
  match goal with
  | |- context [let '(_, _) := ?x in _] =>
      assert (Hplan : Branch (snd x) = Branch plan)
        by (destruct (defaultMessage opts1 filePath); reflexivity);
      destruct x as [opts2 plan2]
  end.
  cbn [snd] in Hplan.
  assert (Hget : getOptions plan2 = getOptions (decoded reqPlan))
    by (unfold getOptions; now rewrite Hplan, Hbranch).
  rewrite run_bind.
  pose proof (Update_retry_protocol remote 5 owner repoName filePath plan2
                opts2 None None w2) as Hproto.
  rewrite Hget in Hproto.
  destruct (Update_retry_exit remote (Z.to_nat maxRetries) owner repoName
              filePath plan2 opts2 None w2) as (create & Hv & _).
  cbn zeta in Hv. change (Z.to_nat maxRetries) with 5%nat in *.
  destruct (Update_retry remote 5 owner repoName filePath plan2 opts2 None
              None w2) as [[exit w3] tr3].
  cbn [value_of world_of trace_of fst snd] in *. subst exit.
  assert (Hquiet : hasErrorSummary "Error updating file"
                     (Diagnostics (withDiagnostics (Diagnostics resp1) resp1))
                   = false)
    by (apply hasErrorSummary_none; exact Hok).
  right. exists (tr1 ++ tr2)%list, tr3.
  destruct (lastWriteError None tr3) as [e|] eqn:Hlast.
  - exists [], owner, repoName, filePath, opts2.
    destruct create; cbn [ret value_of trace_of fst snd];
      rewrite !app_nil_r, app_assoc;
      (split; [reflexivity|]); (split; [no_writes|]); (split; [reflexivity|]);
      (split; [exact Hproto|]); (split; [reflexivity|]); discriminate.
  - destruct create as [create|].
    + match goal with
      | |- context [trace_of (?m w3)] =>
          exists (trace_of (m w3)), owner, repoName, filePath, opts2;
          assert (Hpost : countWrites (trace_of (m w3)) = 0%nat)
            by (apply notWrite_count;
                refine ((_ : eventsAll notWrite m) w3);
                (apply eventsAll_bind; [apply readFile_notWrite|]);
                events_all);
          assert (Hsum : hasErrorSummary "Error updating file"
                           (Diagnostics (value_of (m w3))) = false)
      end.
      { rewrite run_bind.
        match goal with
        | |- context [readFile ?R ?a ?b ?c ?o ?rn ?f ?m ?d w3] =>
            pose proof (@readFile_summary "Error updating file" o rn f m d w3
                          eq_refl eq_refl eq_refl) as Hrf;
            destruct (readFile R a b c o rn f m d w3) as [[[m' d'] w4] tr4]
        end.
        cbn [value_of world_of trace_of fst snd] in *.
        cbn [Diagnostics withDiagnostics] in *.
        destruct (TF.HasError d');
          cbn [ret value_of fst snd Diagnostics withDiagnostics StateSet];
          rewrite Hrf; exact Hquiet. }
      cbn [value_of trace_of fst snd].
      split; [now rewrite app_assoc|]. split; [no_writes|].
      split; [exact Hpost|]. split; [exact Hproto|].
      split; [congruence|]. intros _. exact Hsum.
    + exists [], owner, repoName, filePath, opts2.
      cbn [ret value_of trace_of fst snd].
      rewrite !app_nil_r, app_assoc.
      split; [reflexivity|]. split; [no_writes|]. split; [reflexivity|].
      split; [exact Hproto|]. split; [reflexivity|]. intros _.
      cbn [Diagnostics withDiagnostics] in *. exact Hquiet.
Qed.

Lemma lastEvent_cons2 (a b : GitHub.Event) (tr : list GitHub.Event) :
  tr <> [] -> lastEvent (a :: b :: tr) = lastEvent tr.
Proof.
  intro H. change (a :: b :: tr) with ([a; b] ++ tr)%list.
  now apply lastEvent_app.
Qed.

(** Create's loop returns from inside only after a re-fetch that returned
    the file. *)
Lemma Create_retry_returned (n : nat) (owner repoName filePath : string)
      (plan : repositoryFileResourceModel) (diags : TF.Diagnostics)
      (opts : GitHub.RepositoryContentFileOptions)
      (create : option GitHub.RepositoryContentResponse)
      (err : option Go.error) (w : W) (d : TF.Diagnostics) :
  let run := Create_retry remote n owner repoName filePath plan diags opts
               create err w in
  value_of run = Returned d ->
  exists g fc, lastEvent (trace_of run) = Some g /\ fetchOf g = Some (Some fc).
Proof.
  revert opts create err w.
  induction n as [|n IH]; intros opts create err w; cbn zeta.
  - cbn. discriminate.
  - cbn [Create_retry]. step.
    reply remote (GitHub.Repositories_CreateFile owner repoName filePath opts)
          w r w1.
    destruct r as [c|e]; [cbn; discriminate|].
    destruct (Go.hasStatus e Go.StatusConflict) eqn:Hc; [|cbn; discriminate].
    step.
    reply remote (GitHub.Repositories_GetContents owner repoName filePath
                    (getOptions plan)) w1 g w2.
    assert (Hrec : forall o,
               value_of (Create_retry remote n owner repoName filePath plan
                           diags o None (Some e) w2) = Returned d ->
               exists g' fc,
                 lastEvent
                   (GitHub.EvCall
                      (GitHub.Repositories_CreateFile owner repoName filePath
                         opts) (GitHub.Err e)
                    :: GitHub.EvCall
                         (GitHub.Repositories_GetContents owner repoName
                            filePath (getOptions plan)) g
                    :: trace_of (Create_retry remote n owner repoName filePath
                                   plan diags o None (Some e) w2))
                 = Some g' /\ fetchOf g' = Some (Some fc)).
    { intros o Hv. destruct (IH o None (Some e) w2 Hv) as (g' & fc & Hl & Hf).
      exists g', fc. split; [|exact Hf].
      rewrite lastEvent_cons2; [exact Hl|].
      intro Hnil. rewrite Hnil in Hl. discriminate. }
    destruct g as [[[fc|] dc]|ge]; try apply Hrec.
    destruct (TF.ValueBool (OverwriteOnCreate plan)); [apply Hrec|].
    intros _. eexists _, fc. split; reflexivity.
Qed.

(** Delete's loop returns when its re-fetch fails with 404. *)
Lemma Delete_retry_fetch_not_found (n : nat) (owner repoName filePath : string)
      (state : repositoryFileResourceModel) (diags : TF.Diagnostics)
      (opts : GitHub.RepositoryContentFileOptions)
      (err : option Go.error) (w : W) :
  let run := Delete_retry remote n owner repoName filePath state diags opts
               err w in
  endsWithFetchFailure Go.StatusNotFound (trace_of run) = true ->
  value_of run = Returned diags.
Proof.
  revert opts err w.
  induction n as [|n IH]; intros opts err w; cbn zeta.
  - cbn. discriminate.
  - cbn [Delete_retry]. step.
    reply remote (GitHub.Repositories_DeleteFile owner repoName filePath opts)
          w r w1.
    destruct r as [c|e]; [cbn; discriminate|].
    destruct (Go.AsErrorResponse e) as [[code|]|] eqn:Has;
      try (cbn; discriminate).
    destruct (code =? Go.StatusNotFound)%Z eqn:H404; [reflexivity|].
    destruct (code =? Go.StatusConflict)%Z eqn:H409; [|cbn; discriminate].
    step.
    reply remote (GitHub.Repositories_GetContents owner repoName filePath
                    (getOptions state)) w1 g w2.
    destruct g as [[[fc|] dc]|ge]; try (cbn; discriminate).
    + specialize (IH (opts_set_SHA (GitHub.GetString (GitHub.ContentSHA fc))
                                   opts) (Some e) w2).
      cbn zeta in IH. unfold endsWithFetchFailure in *.
      destruct (trace_of (Delete_retry remote n owner repoName filePath state
                            diags _ (Some e) w2)) as [|x l] eqn:Htr.
      * cbn. discriminate.
      * rewrite lastEvent_cons2 by discriminate. exact IH.
    + destruct (Go.hasStatus ge Go.StatusNotFound) eqn:Hge; [reflexivity|].
      unfold endsWithFetchFailure. cbn. congruence.
Qed.

(** How a run of Create goes. *)
Lemma Create_run (r : repositoryFileResource)
      (reqPlan : Decoded repositoryFileResourceModel)
      (resp : Response repositoryFileResourceModel) (w : W) :
  let run := Create remote GetContent url_Parse_RawQuery url_ParseQuery
                    r reqPlan resp w in
  let repoName := TF.ValueString (Repository (decoded reqPlan)) in
  let filePath := TF.ValueString (File (decoded reqPlan)) in
  countWrites (trace_of run) = 0%nat
  \/ exists pre loop post owner opts,
      trace_of run = (pre ++ loop ++ post)%list
      /\ countWrites pre = 0%nat /\ countWrites post = 0%nat
      /\ retryProtocol
           (GitHub.Repositories_CreateFile owner repoName filePath)
           (GitHub.Repositories_GetContents owner repoName filePath
              (getOptions (decoded reqPlan)))
           (retryCreate (TF.ValueBool (OverwriteOnCreate (decoded reqPlan))))
           5 opts loop
      /\ (lastWriteError None loop <> None -> post = [])
      /\ (lastWriteError None loop <> None ->
          hasErrorSummary "Error creating file" (Diagnostics (value_of run))
          = true
          \/ exists g fc, lastEvent loop = Some g
                          /\ fetchOf g = Some (Some fc)).
Proof.
  cbn zeta. unfold Create.
  set (resp1 := withDiagnostics _ resp). clearbody resp1.
  destruct (TF.HasError (Diagnostics resp1)) eqn:Hok; [left; reflexivity|].
  destruct (client r); [|left; reflexivity].
  rewrite run_bind.
  pose proof (notWrite_count _ (getOwner_notWrite remote r w)) as Hown.
  destruct (getOwner remote r w) as [[[owner err] w1] tr1].
  cbn [value_of world_of trace_of fst snd] in *.
  destruct err; [left; no_writes|].
  set (repoName := TF.ValueString (Repository (decoded reqPlan))).
  set (filePath := TF.ValueString (File (decoded reqPlan))).
  rewrite run_bind.
  pose proof (notWrite_count _
    (checkAndCreateBranchIfNeeded_notWrite remote owner repoName
       (decoded reqPlan) (Diagnostics resp1) w1)) as Hbr.
  pose proof (checkAndCreateBranchIfNeeded_ok remote owner repoName
                (decoded reqPlan) (Diagnostics resp1) w1) as Hdiags.
  pose proof (checkAndCreateBranchIfNeeded_Branch remote owner repoName
                (decoded reqPlan) (Diagnostics resp1) w1) as Hbranch.
  pose proof (checkAndCreateBranchIfNeeded_Overwrite remote owner repoName
                (decoded reqPlan) (Diagnostics resp1) w1) as Hover.
  destruct (checkAndCreateBranchIfNeeded remote owner repoName
              (decoded reqPlan) (Diagnostics resp1) w1)
    as [[[[ok plan] diags] w2] tr2].
  cbn [value_of world_of trace_of fst snd] in *.
  destruct ok; cbn [negb]; [|left; no_writes].
  rewrite (Hdiags _ _ eq_refl) in *. clear Hdiags.
  destruct (buildFileOptions plan _) as [opts diags0] eqn:Hb.
  destruct (TF.HasError diags0); [left; no_writes|].
  destruct opts as [opts|]; [|left; no_writes].
  match goal with
  | |- context [let '(_, _) := ?x in _] =>
      assert (Hplan : Branch (snd x) = Branch plan
                      /\ OverwriteOnCreate (snd x) = OverwriteOnCreate plan)
        by (destruct (GitHub.Message opts) as [[|? ?]|]; split; reflexivity);
      destruct x as [opts1 plan1]
  end.
  cbn [snd] in Hplan. destruct Hplan as [Hplan1 Hplan2].
  assert (Hget : getOptions plan1 = getOptions (decoded reqPlan))
    by (unfold getOptions; now rewrite Hplan1, Hbranch).
  assert (Hov : OverwriteOnCreate plan1 = OverwriteOnCreate (decoded reqPlan))
    by (now rewrite Hplan2, Hover).
  rewrite run_bind.
  match goal with
  | |- context [trace_of (?m w2)] =>
      assert (Hpre : countWrites (trace_of (m w2)) = 0%nat);
      [ apply notWrite_count; refine ((_ : eventsAll notWrite m) w2);
        events_all
      | destruct (m w2) as [[opts2 w3] tr3] ]
  end.
  cbn [value_of world_of trace_of fst snd] in *.
  rewrite run_bind. cbn [Diagnostics withDiagnostics].
  pose proof (Create_retry_protocol remote 5 owner repoName filePath plan1
                (Diagnostics resp1) opts2 None None w3) as Hproto.
  rewrite Hget, Hov in Hproto.
  pose proof (Create_retry_exit remote (Z.to_nat maxRetries) owner repoName
                filePath plan1 (Diagnostics resp1) opts2 None None w3) as Hexit.
  pose proof (fun d => @Create_retry_returned (Z.to_nat maxRetries) owner
                         repoName filePath plan1 (Diagnostics resp1) opts2 None
                         None w3 d) as Hret.
  cbn zeta in Hexit, Hret. change (Z.to_nat maxRetries) with 5%nat in *.
  destruct (Create_retry remote 5 owner repoName filePath plan1
              (Diagnostics resp1) opts2 None None w3) as [[exit w4] tr4].
  cbn [value_of world_of trace_of fst snd] in *.
  right. exists (tr1 ++ tr2 ++ tr3)%list, tr4.
  destruct exit as [d|create [e|]].
  - exists [], owner, opts2. cbn [ret value_of trace_of fst snd].
    rewrite !app_nil_r, <- !app_assoc.
    split; [reflexivity|]. split; [no_writes|]. split; [reflexivity|].
    split; [exact Hproto|]. split; [reflexivity|].
    intros _. right. exact (Hret d eq_refl).
  - exists [], owner, opts2.
    destruct create; cbn [ret value_of trace_of fst snd];
      rewrite !app_nil_r, <- !app_assoc;
      (split; [reflexivity|]); (split; [no_writes|]); (split; [reflexivity|]);
      (split; [exact Hproto|]); (split; [reflexivity|]);
      intros _; left; apply hasErrorSummary_AddError.
  - match goal with
    | |- context [trace_of (?m w4)] =>
        exists (trace_of (m w4)), owner, opts2;
        assert (Hpost : countWrites (trace_of (m w4)) = 0%nat)
          by (apply notWrite_count;
              refine ((_ : eventsAll notWrite m) w4);
              (apply eventsAll_bind; [apply readFile_notWrite|]);
              events_all)
    end.
    cbn [value_of trace_of fst snd].
    split; [now rewrite <- !app_assoc|]. split; [no_writes|].
    split; [exact Hpost|]. split; [exact Hproto|].
    split; intro H; congruence.
Qed.

(** How a run of Delete goes. *)
Lemma Delete_run (r : repositoryFileResource)
      (reqState : Decoded repositoryFileResourceModel)
      (resp : Response repositoryFileResourceModel) (w : W) :
  let run := Delete remote r reqState resp w in
  countWrites (trace_of run) = 0%nat
  \/ exists pre loop owner repoName filePath opts,
      trace_of run = (pre ++ loop ++ [])%list
      /\ countWrites pre = 0%nat
      /\ retryProtocol
           (GitHub.Repositories_DeleteFile owner repoName filePath)
           (GitHub.Repositories_GetContents owner repoName filePath
              (getOptions (decoded reqState)))
           retryWithSHA 5 opts loop
      /\ (lastWriteError None loop = None ->
          TF.HasError (Diagnostics (value_of run)) = false)
      /\ (endsWithFetchFailure Go.StatusNotFound loop = true ->
          TF.HasError (Diagnostics (value_of run)) = false).
Proof.
  cbn zeta. unfold Delete.
  set (resp1 := withDiagnostics _ resp). clearbody resp1.
  destruct (TF.HasError (Diagnostics resp1)) eqn:Hok; [left; reflexivity|].
  destruct (client r); [|left; reflexivity].
  rewrite run_bind.
  pose proof (notWrite_count _ (getOwner_notWrite remote r w)) as Hown.
  destruct (getOwner remote r w) as [[[owner err] w1] tr1].
  cbn [value_of world_of trace_of fst snd] in *.
  destruct err; [left; no_writes|].
  destruct (String.eqb _ ""); [left; no_writes|].
  destruct (Go.SplitN _ ":" 2) as [|repoName [|filePath [|x l]]];
    try (left; no_writes).
  rewrite run_bind.
  pose proof (notWrite_count _
    (checkAndCreateBranchIfNeeded_notWrite remote owner repoName
       (decoded reqState) (Diagnostics resp1) w1)) as Hbr.
  pose proof (checkAndCreateBranchIfNeeded_ok remote owner repoName
                (decoded reqState) (Diagnostics resp1) w1) as Hdiags.
  pose proof (checkAndCreateBranchIfNeeded_Branch remote owner repoName
                (decoded reqState) (Diagnostics resp1) w1) as Hbranch.
  destruct (checkAndCreateBranchIfNeeded remote owner repoName
              (decoded reqState) (Diagnostics resp1) w1)
    as [[[[ok state] diags] w2] tr2].
  cbn [value_of world_of trace_of fst snd] in *.
  destruct ok; cbn [negb]; [|left; no_writes].
  rewrite (Hdiags _ _ eq_refl) in *. clear Hdiags.
  destruct (buildFileOptions state "") as [opts diags0] eqn:Hb.
  destruct (TF.HasError diags0); [left; no_writes|].
  destruct opts as [opts|]; [|left; no_writes].
  set (opts1 := if defaultMessage opts filePath then _ else opts).
  clearbody opts1.
  set (opts2 := if TF.String_known (SHA state) then _ else opts1).
  clearbody opts2.
  assert (Hget : getOptions state = getOptions (decoded reqState))
    by (unfold getOptions; now rewrite Hbranch).
  rewrite run_bind. cbn [Diagnostics withDiagnostics].
  pose proof (Delete_retry_protocol remote 5 owner repoName filePath state
                (Diagnostics resp1) opts2 None w2) as Hproto.
  rewrite Hget in Hproto.
  pose proof (Delete_retry_exit remote (Z.to_nat maxRetries) owner repoName
                filePath state (Diagnostics resp1) opts2 None w2) as Hexit.
  pose proof (@Delete_retry_fetch_not_found (Z.to_nat maxRetries) owner
                repoName filePath state (Diagnostics resp1) opts2 None w2)
    as Hnf.
  cbn zeta in Hexit, Hnf. change (Z.to_nat maxRetries) with 5%nat in *.
  destruct (Delete_retry remote 5 owner repoName filePath state
              (Diagnostics resp1) opts2 None w2) as [[exit w3] tr3].
  cbn [value_of world_of trace_of fst snd] in *.
  right. exists (tr1 ++ tr2)%list, tr3, owner, repoName, filePath, opts2.
  split.
  { destruct exit as [d|create [e|]]; cbn [ret trace_of snd];
      now rewrite !app_nil_r, app_assoc. }
  split; [no_writes|]. split; [exact Hproto|].
  destruct exit as [d|create [e|]];
    cbn [ret value_of fst Diagnostics withDiagnostics respAddError].
  - destruct Hexit as (-> & _). split; intros _; exact Hok.
  - split; [intro H; congruence|].
    intro H. specialize (Hnf H). discriminate.
  - split; intros _; exact Hok.
Qed.

End FileRuns.

Lemma lastEvent_snoc (pre : list GitHub.Event) (x : GitHub.Event) :
  lastEvent (pre ++ [x]) = Some x.
Proof. now rewrite lastEvent_app. Qed.

Lemma lastEvent_snoc2 (pre : list GitHub.Event) (x y : GitHub.Event) :
  lastEvent (pre ++ x :: [y]) = Some y.
Proof. now rewrite lastEvent_app. Qed.

(** The last write of a trace that ends on a write, or on a write and
    another call. *)
Lemma lastWriteError_last (pre : list GitHub.Event) (wr : GitHub.Event) :
  isWrite wr = true ->
  lastWriteError None (pre ++ [wr]) = errorOf wr.
Proof.
  intro Hw. destruct (isWrite_writeOf _ Hw) as (o & Ho).
  rewrite lastWriteError_app, (lastWriteError_write _ _ _ Ho). reflexivity.
Qed.

Lemma lastWriteError_last2 (pre : list GitHub.Event) (wr g : GitHub.Event) :
  isWrite wr = true -> isFetch g = true ->
  lastWriteError None (pre ++ wr :: [g]) = errorOf wr.
Proof.
  intros Hw Hg. destruct (isWrite_writeOf _ Hw) as (o & Ho).
  rewrite lastWriteError_app, (lastWriteError_write _ _ _ Ho). cbn [snd].
  now rewrite (lastWriteError_skip _ _ _ (isFetch_not_write _ Hg)).
Qed.

(** A GetContents that failed, by its error. *)
Lemma fetchFailedWith_error (code : Z) (g : GitHub.Event) (ge : Go.error) :
  isFetch g = true -> errorOf g = Some ge ->
  fetchFailedWith code g = Go.hasStatus ge code.
Proof.
  destruct g as [c r|d]; [|discriminate].
  destruct c; try discriminate. cbn.
  destruct r as [[fc dc]|e]; [discriminate|]. intros _ H. now injection H as ->.
Qed.

(** The same trace cut around its loop and at one of its writes: the loop
    is not empty and ends where the trace ends. *)
Lemma lastEvent_loop (pre0 loop pre post : list GitHub.Event)
      (wr : GitHub.Event) :
  (pre0 ++ loop ++ [])%list = (pre ++ wr :: post)%list ->
  countWrites pre0 = 0%nat ->
  isWrite wr = true ->
  lastEvent loop = lastEvent (pre ++ wr :: post).
Proof.
  intros Heq Hq Hw. rewrite <- Heq, app_nil_r.
  symmetry. apply lastEvent_app. intros ->.
  rewrite !app_nil_r in Heq. exact (@quiet_no_write _ _ _ _ Hq Hw Heq).
Qed.

Lemma lastWriteError_loop (pre0 loop post0 : list GitHub.Event) :
  countWrites pre0 = 0%nat -> countWrites post0 = 0%nat ->
  lastWriteError None (pre0 ++ loop ++ post0) = lastWriteError None loop.
Proof.
  intros H0 H1.
  now rewrite !lastWriteError_app, (lastWriteError_quiet _ _ H0),
    (lastWriteError_quiet _ _ H1).
Qed.

Lemma getContents_no_write (owner repoName filePath : string)
      (opts : GitHub.RepositoryContentGetOptions) (e : GitHub.Event) :
  callOf e
  = Some (GitHub.Repositories_GetContents owner repoName filePath opts) ->
  writeOf e = None.
Proof. intro H. exact (proj1 (@callOf_GetContents e _ _ _ _ H)). Qed.

Section FileSteps.

Variable W : Type.
Variable remote : Remote W.
Variable GetContent : GitHub.RepositoryContent -> GitHub.result string.
Variable url_Parse_RawQuery : string -> GitHub.result string.
Variable url_ParseQuery : string -> GitHub.result (list (string * list string)).

Import FileResource.

(** Every write of Create is an attempt of its loop. *)
Lemma Create_steps (r : repositoryFileResource)
      (reqPlan : Decoded repositoryFileResourceModel)
      (resp : Response repositoryFileResourceModel) (w : W) :
  let run := Create remote GetContent url_Parse_RawQuery url_ParseQuery
                    r reqPlan resp w in
  let repoName := TF.ValueString (Repository (decoded reqPlan)) in
  let filePath := TF.ValueString (File (decoded reqPlan)) in
  exists owner,
    forall pre wr post,
      trace_of run = (pre ++ wr :: post)%list ->
      isWrite wr = true ->
      exists opts,
        callOf wr
        = Some (GitHub.Repositories_CreateFile owner repoName filePath opts)
        /\ afterWrite
             (GitHub.Repositories_CreateFile owner repoName filePath)
             (GitHub.Repositories_GetContents owner repoName filePath
                (getOptions (decoded reqPlan)))
             (retryCreate (TF.ValueBool (OverwriteOnCreate (decoded reqPlan)))
                opts)
             (S (countWrites pre) <? 5)%nat (errorOf wr) post.
Proof.
  cbn zeta.
  destruct (Create_run remote GetContent url_Parse_RawQuery url_ParseQuery
              r reqPlan resp w)
    as [H0 | (pre0 & loop & post0 & owner & opts & Htr & Hpre & Hpost & Hp
              & Hlast & _)].
  - exists "". intros pre wr post Heq Hw.
    exfalso. exact (@quiet_no_write _ _ _ _ H0 Hw Heq).
  - exists owner. intros pre wr post.
    exact (@retryProtocol_around _ _ _
             (fun e o => @callOf_CreateFile e owner _ _ o)
             (@getContents_no_write owner _ _ _)
             5 opts _ pre0 loop post0 Htr Hpre Hpost Hp Hlast pre post wr).
Qed.

(** Every write of Update is an attempt of its loop. *)
Lemma Update_steps (r : repositoryFileResource)
      (reqPlan reqState : Decoded repositoryFileResourceModel)
      (resp : Response repositoryFileResourceModel) (w : W) :
  let run := Update remote GetContent url_Parse_RawQuery url_ParseQuery
                    r reqPlan reqState resp w in
  exists owner repoName filePath,
    forall pre wr post,
      trace_of run = (pre ++ wr :: post)%list ->
      isWrite wr = true ->
      exists opts,
        callOf wr
        = Some (GitHub.Repositories_CreateFile owner repoName filePath opts)
        /\ afterWrite
             (GitHub.Repositories_CreateFile owner repoName filePath)
             (GitHub.Repositories_GetContents owner repoName filePath
                (getOptions (decoded reqPlan)))
             (retryWithSHA opts)
             (S (countWrites pre) <? 5)%nat (errorOf wr) post.
Proof.
  cbn zeta.
  destruct (Update_run remote GetContent url_Parse_RawQuery url_ParseQuery
              r reqPlan reqState resp w)
    as [H0 | (pre0 & loop & post0 & owner & repoName & filePath & opts & Htr
              & Hpre & Hpost & Hp & Hlast & _)].
  - exists "", "", "". intros pre wr post Heq Hw.
    exfalso. exact (@quiet_no_write _ _ _ _ H0 Hw Heq).
  - exists owner, repoName, filePath. intros pre wr post.
    exact (@retryProtocol_around _ _ _
             (fun e o => @callOf_CreateFile e owner repoName filePath o)
             (@getContents_no_write owner repoName filePath _)
             5 opts _ pre0 loop post0 Htr Hpre Hpost Hp Hlast pre post wr).
Qed.

(** Every write of Delete is an attempt of its loop. *)
Lemma Delete_steps (r : repositoryFileResource)
      (reqState : Decoded repositoryFileResourceModel)
      (resp : Response repositoryFileResourceModel) (w : W) :
  let run := Delete remote r reqState resp w in
  exists owner repoName filePath,
    forall pre wr post,
      trace_of run = (pre ++ wr :: post)%list ->
      isWrite wr = true ->
      exists opts,
        callOf wr
        = Some (GitHub.Repositories_DeleteFile owner repoName filePath opts)
        /\ afterWrite
             (GitHub.Repositories_DeleteFile owner repoName filePath)
             (GitHub.Repositories_GetContents owner repoName filePath
                (getOptions (decoded reqState)))
             (retryWithSHA opts)
             (S (countWrites pre) <? 5)%nat (errorOf wr) post.
Proof.
  cbn zeta.
  destruct (Delete_run remote r reqState resp w)
    as [H0 | (pre0 & loop & owner & repoName & filePath & opts & Htr
              & Hpre & Hp & _)].
  - exists "", "", "". intros pre wr post Heq Hw.
    exfalso. exact (@quiet_no_write _ _ _ _ H0 Hw Heq).
  - exists owner, repoName, filePath. intros pre wr post.
    exact (@retryProtocol_around _ _ _
             (fun e o => @callOf_DeleteFile e owner repoName filePath o)
             (@getContents_no_write owner repoName filePath _)
             5 opts _ pre0 loop [] Htr Hpre eq_refl Hp (fun _ => eq_refl) pre post wr).
Qed.

(** What a failed write is followed by, without the calls spelled out:
    nothing when the failure is not a 409; after a 409, a GetContents. *)
Lemma afterWrite_final
      (write : GitHub.RepositoryContentFileOptions -> GitHub.Call)
      (fetch : GitHub.Call)
      (next : option GitHub.RepositoryContent
              -> option GitHub.RepositoryContentFileOptions)
      (more : bool) (e : Go.error) (post : list GitHub.Event) :
  afterWrite write fetch next more (Some e) post ->
  Go.hasStatus e Go.StatusConflict = false -> post = [].
Proof. unfold afterWrite. intros H Hc. now rewrite Hc in H. Qed.

Lemma afterWrite_refetch_failed
      (write : GitHub.RepositoryContentFileOptions -> GitHub.Call)
      (fetch : GitHub.Call)
      (next : option GitHub.RepositoryContent
              -> option GitHub.RepositoryContentFileOptions)
      (more : bool) (e ge : Go.error) (g : GitHub.Event)
      (post : list GitHub.Event) :
  afterWrite write fetch next more (Some e) (g :: post) ->
  errorOf g = Some ge ->
  Go.hasStatus e Go.StatusConflict = true
  /\ match next None with
     | Some opts' => if more then startsWithCall (write opts') post
                     else post = []
     | None => post = []
     end.
Proof.
  unfold afterWrite. intros H Hge.
  destruct (Go.hasStatus e Go.StatusConflict); [|discriminate].
  split; [reflexivity|]. destruct H as (_ & H).
  destruct (fetchOf g) as [fetched|] eqn:Hf; [|contradiction].
  now rewrite (fetchOf_failed _ Hf Hge) in H.
Qed.

End FileSteps.

Section FileOutcomes.

Variable W : Type.
Variable remote : Remote W.
Variable GetContent : GitHub.RepositoryContent -> GitHub.result string.
Variable url_Parse_RawQuery : string -> GitHub.result string.
Variable url_ParseQuery : string -> GitHub.result (list (string * list string)).

Import FileResource.

(** A Create whose last write failed reports "Error creating file", unless
    it ended on a re-fetch that returned the file. *)
Lemma Create_failure_kind (r : repositoryFileResource)
      (reqPlan : Decoded repositoryFileResourceModel)
      (resp : Response repositoryFileResourceModel) (w : W) :
  let run := Create remote GetContent url_Parse_RawQuery url_ParseQuery
                    r reqPlan resp w in
  lastWriteError None (trace_of run) <> None ->
  hasErrorSummary "Error creating file" (Diagnostics (value_of run)) = true
  \/ exists g fc, lastEvent (trace_of run) = Some g
                  /\ fetchOf g = Some (Some fc).
Proof.
  cbn zeta. intro Hlast.
  destruct (Create_run remote GetContent url_Parse_RawQuery url_ParseQuery
              r reqPlan resp w)
    as [H0 | (pre0 & loop & post0 & owner & opts & Htr & Hpre & Hpost & _
              & Hend & Hkind)].
  - now rewrite (lastWriteError_quiet _ _ H0) in Hlast.
  - rewrite Htr, (@lastWriteError_loop pre0 loop post0 Hpre Hpost) in Hlast.
    destruct (Hkind Hlast) as [H | (g & fc & Hg & Hf)]; [now left|].
    right. exists g, fc. split; [|exact Hf].
    rewrite Htr, (Hend Hlast), app_nil_r, lastEvent_app; [exact Hg|].
    intros ->. discriminate.
Qed.

(** A Delete that made a write and ended on a GetContents that failed with
    404 reports no error. *)
Lemma Delete_fetch_not_found (r : repositoryFileResource)
      (reqState : Decoded repositoryFileResourceModel)
      (resp : Response repositoryFileResourceModel) (w : W) :
  let run := Delete remote r reqState resp w in
  countWrites (trace_of run) <> 0%nat ->
  endsWithFetchFailure Go.StatusNotFound (trace_of run) = true ->
  TF.HasError (Diagnostics (value_of run)) = false.
Proof.
  cbn zeta. intros Hw Hend.
  destruct (Delete_run remote r reqState resp w)
    as [H0 | (pre0 & loop & owner & repoName & filePath & opts & Htr
              & Hpre & _ & _ & Hnf)]; [contradiction|].
  apply Hnf. rewrite Htr, app_nil_r in Hend, Hw.
  unfold endsWithFetchFailure in *.
  rewrite lastEvent_app in Hend; [exact Hend|].
  intros ->. rewrite app_nil_r in Hw. contradiction.
Qed.

(** A Delete whose last write succeeded reports no error; an Update whose
    last write succeeded does not report "Error updating file". *)
Lemma Delete_success (r : repositoryFileResource)
      (reqState : Decoded repositoryFileResourceModel)
      (resp : Response repositoryFileResourceModel) (w : W) :
  let run := Delete remote r reqState resp w in
  countWrites (trace_of run) <> 0%nat ->
  lastWriteError None (trace_of run) = None ->
  TF.HasError (Diagnostics (value_of run)) = false.
Proof.
  cbn zeta. intros Hw Hlast.
  destruct (Delete_run remote r reqState resp w)
    as [H0 | (pre0 & loop & owner & repoName & filePath & opts & Htr
              & Hpre & _ & Hok & _)]; [contradiction|].
  apply Hok. now rewrite Htr, (@lastWriteError_loop pre0 loop [] Hpre eq_refl) in Hlast.
Qed.

Lemma Update_success (r : repositoryFileResource)
      (reqPlan reqState : Decoded repositoryFileResourceModel)
      (resp : Response repositoryFileResourceModel) (w : W) :
  let run := Update remote GetContent url_Parse_RawQuery url_ParseQuery
                    r reqPlan reqState resp w in
  countWrites (trace_of run) <> 0%nat ->
  lastWriteError None (trace_of run) = None ->
  hasErrorSummary "Error updating file" (Diagnostics (value_of run)) = false.
Proof.
  cbn zeta. intros Hw Hlast.
  destruct (Update_run remote GetContent url_Parse_RawQuery url_ParseQuery
              r reqPlan reqState resp w)
    as [H0 | (pre0 & loop & post0 & owner & repoName & filePath & opts & Htr
              & Hpre & Hpost & _ & _ & Hok)]; [contradiction|].
  apply Hok. now rewrite Htr, (@lastWriteError_loop pre0 loop post0 Hpre Hpost) in Hlast.
Qed.

End FileOutcomes.

(* ===================================================================== *)
(** * The repository-file resource: retries and failures *)
(* ===================================================================== *)

(** C1, amended.  Create, Update and Delete make at most five write
    attempts, all of them the same call on one file, and between two
    attempts exactly this happens: a write that failed with 409 is followed
    by a GetContents of that file on the branch of the plan (of the state,
    for Delete); when it returned the file and fewer than five attempts
    have been made, the write is made again with the same options and the
    SHA of the file it returned (in Create: only with overwrite_on_create;
    without it Create stops there, and after a re-fetch without a file it
    makes the attempt again with the options it had).  A write that failed
    with any other status, 422 included, is followed by nothing, and a write
    that succeeded by no other write.  When the last attempt has failed an
    error diagnostic is reported (for Delete: unless the failure was a 404
    or the run ended on a GetContents that failed with 404). *)
Theorem conflict_retry_on_409_only
        (W : Type) (remote : Remote W)
        (GetContent : GitHub.RepositoryContent -> GitHub.result string)
        (url_Parse_RawQuery : string -> GitHub.result string)
        (url_ParseQuery : string -> GitHub.result (list (string * list string)))
        (r : FileResource.repositoryFileResource)
        (reqPlan reqState : Decoded FileResource.repositoryFileResourceModel)
        (resp : Response FileResource.repositoryFileResourceModel) (w : W) :
  let plan := decoded reqPlan in
  let state := decoded reqState in
  let created := FileResource.Create remote GetContent url_Parse_RawQuery
                   url_ParseQuery r reqPlan resp w in
  let updated := FileResource.Update remote GetContent url_Parse_RawQuery
                   url_ParseQuery r reqPlan reqState resp w in
  let deleted := FileResource.Delete remote r reqState resp w in
  ((countWrites (trace_of created) <= 5)%nat
   /\ exists owner,
       let repoName := TF.ValueString (FileResource.Repository plan) in
       let filePath := TF.ValueString (FileResource.File plan) in
       forall pre wr post,
         trace_of created = (pre ++ wr :: post)%list ->
         isWrite wr = true ->
         exists opts,
           callOf wr
           = Some (GitHub.Repositories_CreateFile owner repoName filePath opts)
           /\ afterWrite
                (GitHub.Repositories_CreateFile owner repoName filePath)
                (GitHub.Repositories_GetContents owner repoName filePath
                   (FileResource.getOptions plan))
                (retryCreate
                   (TF.ValueBool (FileResource.OverwriteOnCreate plan)) opts)
                (S (countWrites pre) <? 5)%nat (errorOf wr) post)
  /\ ((countWrites (trace_of updated) <= 5)%nat
      /\ exists owner repoName filePath,
          forall pre wr post,
            trace_of updated = (pre ++ wr :: post)%list ->
            isWrite wr = true ->
            exists opts,
              callOf wr
              = Some (GitHub.Repositories_CreateFile owner repoName filePath
                        opts)
              /\ afterWrite
                   (GitHub.Repositories_CreateFile owner repoName filePath)
                   (GitHub.Repositories_GetContents owner repoName filePath
                      (FileResource.getOptions plan))
                   (retryWithSHA opts)
                   (S (countWrites pre) <? 5)%nat (errorOf wr) post)
  /\ ((countWrites (trace_of deleted) <= 5)%nat
      /\ exists owner repoName filePath,
          forall pre wr post,
            trace_of deleted = (pre ++ wr :: post)%list ->
            isWrite wr = true ->
            exists opts,
              callOf wr
              = Some (GitHub.Repositories_DeleteFile owner repoName filePath
                        opts)
              /\ afterWrite
                   (GitHub.Repositories_DeleteFile owner repoName filePath)
                   (GitHub.Repositories_GetContents owner repoName filePath
                      (FileResource.getOptions state))
                   (retryWithSHA opts)
                   (S (countWrites pre) <? 5)%nat (errorOf wr) post)
  /\ (forall e,
         lastWriteError None (trace_of created) = Some e ->
         hasErrorSummary "Error creating file" (Diagnostics (value_of created))
         = true
         \/ hasErrorSummary "File Already Exists"
              (Diagnostics (value_of created)) = true)
  /\ (forall e,
         lastWriteError None (trace_of updated) = Some e ->
         hasErrorSummary "Error updating file" (Diagnostics (value_of updated))
         = true)
  /\ (forall e,
         lastWriteError None (trace_of deleted) = Some e ->
         Go.hasStatus e Go.StatusNotFound = false ->
         endsWithFetchFailure Go.StatusNotFound (trace_of deleted) = false ->
         hasErrorSummary "Error deleting file" (Diagnostics (value_of deleted))
         = true).
Proof.
  cbn zeta.
  split; [split; [apply Create_bounded | apply Create_steps]|].
  split; [split; [apply Update_bounded | apply Update_steps]|].
  split; [split; [apply Delete_bounded | apply Delete_steps]|].
  split; [|split].
  - intros e Hlast.
    exact (proj1 (Create_failure remote GetContent url_Parse_RawQuery
                    url_ParseQuery r reqPlan resp w Hlast)).
  - intros e Hlast.
    exact (proj1 (Update_failure remote GetContent url_Parse_RawQuery
                    url_ParseQuery r reqPlan reqState resp w Hlast)).
  - intros e Hlast H404.
    exact (proj1 (Delete_failure remote r reqState resp w Hlast H404)).
Qed.

(** The statement at work, on the remote where somebody else has changed
    [a.txt]: the first write of Update, refused with 409, is followed by the
    re-fetch and by the same write with the SHA the re-fetch returned. *)
Lemma conflict_retry_on_409_only_witness :
  let run :=
    FileResource.Update ConflictScenario.remoteMoved Scenario.plainContent
      Scenario.noRawQuery Scenario.noQuery Scenario.fileResource
      (Scenario.cleanly Scenario.planA) (Scenario.cleanly Scenario.stateA)
      Scenario.fresh tt in
  match trace_of run with
  | wr :: g :: post =>
      errorOf wr = Some Scenario.conflict
      /\ callOf g
         = Some (GitHub.Repositories_GetContents "octo" "repo" "a.txt"
                   (GitHub.mkGetOptions ""))
      /\ startsWithCall
           (GitHub.Repositories_CreateFile "octo" "repo" "a.txt"
              (GitHub.mkFileOptions (Some "Update a.txt") "new text"
                 (Some "sha-new") None None None)) post
  | _ => False
  end.
Proof.
  destruct (@conflict_retry_on_409_only unit ConflictScenario.remoteMoved
              Scenario.plainContent Scenario.noRawQuery Scenario.noQuery
              Scenario.fileResource (Scenario.cleanly Scenario.planA)
              (Scenario.cleanly Scenario.stateA) Scenario.fresh tt)
    as (_ & (_ & owner & repoName & filePath & Hstep) & _).
  cbv zeta.
  destruct (trace_of _) as [|wr [|g post]] eqn:Htr;
    try (vm_compute in Htr; discriminate).
  destruct (Hstep [] wr (g :: post) eq_refl) as (opts & Hcall & Hafter).
  { vm_compute in Htr. injection Htr as <- _. reflexivity. }
  vm_compute in Htr. injection Htr as <- <- <-.
  cbn [callOf] in Hcall. injection Hcall as <- <- <- <-.
  unfold afterWrite in Hafter. cbn in Hafter.
  destruct Hafter as (Hg & Hnext).
  split; [reflexivity|]. split; [reflexivity|]. exact Hnext.
Defined.

(** C6, amended.  In Create, Update and Delete, wherever in the run a write
    call (CreateFile, DeleteFile) fails with an error other than status 409,
    and in Delete other than 404, the operation ends there: no call follows,
    the error diagnostic of the operation is added and no state is saved.
    The error of the GetContents re-fetch made after a 409 is never reported
    itself.  In Create it is not final either: while fewer than five
    attempts have been made the failed write is made again as it was, and
    after the fifth the run ends with "Error creating file".  In Update the
    run ends there with "Error updating file".  In Delete the run ends
    there, without an error when the re-fetch failed with 404 and with
    "Error deleting file" otherwise. *)
Theorem write_failure_ends_operation
        (W : Type) (remote : Remote W)
        (GetContent : GitHub.RepositoryContent -> GitHub.result string)
        (url_Parse_RawQuery : string -> GitHub.result string)
        (url_ParseQuery : string -> GitHub.result (list (string * list string)))
        (r : FileResource.repositoryFileResource)
        (reqPlan reqState : Decoded FileResource.repositoryFileResourceModel)
        (resp : Response FileResource.repositoryFileResourceModel) (w : W) :
  let created := FileResource.Create remote GetContent url_Parse_RawQuery
                   url_ParseQuery r reqPlan resp w in
  let updated := FileResource.Update remote GetContent url_Parse_RawQuery
                   url_ParseQuery r reqPlan reqState resp w in
  let deleted := FileResource.Delete remote r reqState resp w in
  (forall pre wr post e,
      trace_of created = (pre ++ wr :: post)%list ->
      isWrite wr = true ->
      errorOf wr = Some e ->
      Go.hasStatus e Go.StatusConflict = false ->
      post = []
      /\ hasErrorSummary "Error creating file" (Diagnostics (value_of created))
         = true
      /\ SavedState (value_of created) = SavedState resp)
  /\ (forall pre wr post e,
         trace_of updated = (pre ++ wr :: post)%list ->
         isWrite wr = true ->
         errorOf wr = Some e ->
         Go.hasStatus e Go.StatusConflict = false ->
         post = []
         /\ hasErrorSummary "Error updating file"
              (Diagnostics (value_of updated)) = true
         /\ SavedState (value_of updated) = SavedState resp)
  /\ (forall pre wr post e,
         trace_of deleted = (pre ++ wr :: post)%list ->
         isWrite wr = true ->
         errorOf wr = Some e ->
         Go.hasStatus e Go.StatusConflict = false ->
         Go.hasStatus e Go.StatusNotFound = false ->
         post = []
         /\ hasErrorSummary "Error deleting file"
              (Diagnostics (value_of deleted)) = true
         /\ SavedState (value_of deleted) = SavedState resp)
  /\ (forall pre wr g post e ge,
         trace_of created = (pre ++ wr :: g :: post)%list ->
         isWrite wr = true ->
         errorOf wr = Some e ->
         isFetch g = true ->
         errorOf g = Some ge ->
         if (S (countWrites pre) <? 5)%nat
         then exists c, callOf wr = Some c /\ startsWithCall c post
         else post = []
              /\ hasErrorSummary "Error creating file"
                   (Diagnostics (value_of created)) = true
              /\ SavedState (value_of created) = SavedState resp)
  /\ (forall pre wr g post e ge,
         trace_of updated = (pre ++ wr :: g :: post)%list ->
         isWrite wr = true ->
         errorOf wr = Some e ->
         isFetch g = true ->
         errorOf g = Some ge ->
         post = []
         /\ hasErrorSummary "Error updating file"
              (Diagnostics (value_of updated)) = true
         /\ SavedState (value_of updated) = SavedState resp)
  /\ (forall pre wr g post e ge,
         trace_of deleted = (pre ++ wr :: g :: post)%list ->
         isWrite wr = true ->
         errorOf wr = Some e ->
         isFetch g = true ->
         errorOf g = Some ge ->
         post = []
         /\ SavedState (value_of deleted) = SavedState resp
         /\ if Go.hasStatus ge Go.StatusNotFound
            then TF.HasError (Diagnostics (value_of deleted)) = false
            else hasErrorSummary "Error deleting file"
                   (Diagnostics (value_of deleted)) = true).
Proof.
  cbn zeta.
  split; [|split; [|split; [|split; [|split]]]].
  - intros pre wr post e Heq Hw He Hc.
    destruct (Create_steps remote GetContent url_Parse_RawQuery url_ParseQuery
                r reqPlan resp w) as (owner & Hstep).
    destruct (Hstep pre wr post Heq Hw) as (o & _ & Hafter).
    rewrite He in Hafter. pose proof (@afterWrite_final _ _ _ _ _ _ Hafter Hc) as ->.
    split; [reflexivity|].
    assert (Hlast : lastWriteError None
                      (trace_of (FileResource.Create remote GetContent
                                   url_Parse_RawQuery url_ParseQuery r reqPlan
                                   resp w)) = Some e)
      by (rewrite Heq, (@lastWriteError_last pre wr Hw); exact He).
    destruct (Create_failure remote GetContent url_Parse_RawQuery
                url_ParseQuery r reqPlan resp w Hlast) as (_ & Hsaved & Hfinal).
    split; [exact (proj2 (Hfinal Hc))|exact Hsaved].
  - intros pre wr post e Heq Hw He Hc.
    destruct (Update_steps remote GetContent url_Parse_RawQuery url_ParseQuery
                r reqPlan reqState resp w)
      as (owner & repoName & filePath & Hstep).
    destruct (Hstep pre wr post Heq Hw) as (o & _ & Hafter).
    rewrite He in Hafter. pose proof (@afterWrite_final _ _ _ _ _ _ Hafter Hc) as ->.
    split; [reflexivity|].
    assert (Hlast : lastWriteError None
                      (trace_of (FileResource.Update remote GetContent
                                   url_Parse_RawQuery url_ParseQuery r reqPlan
                                   reqState resp w)) = Some e)
      by (rewrite Heq, (@lastWriteError_last pre wr Hw); exact He).
    destruct (Update_failure remote GetContent url_Parse_RawQuery
                url_ParseQuery r reqPlan reqState resp w Hlast)
      as (Hsum & Hsaved & _).
    split; assumption.
  - intros pre wr post e Heq Hw He Hc H404.
    destruct (Delete_steps remote r reqState resp w)
      as (owner & repoName & filePath & Hstep).
    destruct (Hstep pre wr post Heq Hw) as (o & _ & Hafter).
    rewrite He in Hafter. pose proof (@afterWrite_final _ _ _ _ _ _ Hafter Hc) as ->.
    split; [reflexivity|].
    assert (Hlast : lastWriteError None
                      (trace_of (FileResource.Delete remote r reqState resp w))
                    = Some e)
      by (rewrite Heq, (@lastWriteError_last pre wr Hw); exact He).
    destruct (Delete_failure remote r reqState resp w Hlast H404)
      as (_ & Hfinal & Hsaved).
    split; [exact (proj2 (Hfinal Hc))|exact Hsaved].
  - intros pre wr g post e ge Heq Hw He Hg Hge.
    destruct (Create_steps remote GetContent url_Parse_RawQuery url_ParseQuery
                r reqPlan resp w) as (owner & Hstep).
    destruct (Hstep pre wr (g :: post) Heq Hw) as (o & Hcall & Hafter).
    rewrite He in Hafter.
    destruct (@afterWrite_refetch_failed _ _ _ _ _ _ _ _ Hafter Hge) as (Hc & Hnext).
    cbn [retryCreate] in Hnext.
    destruct (S (countWrites pre) <? 5)%nat.
    + eexists. split; [exact Hcall|exact Hnext].
    + subst post. split; [reflexivity|].
      assert (Hlast : lastWriteError None
                        (trace_of (FileResource.Create remote GetContent
                                     url_Parse_RawQuery url_ParseQuery r
                                     reqPlan resp w)) = Some e)
        by (rewrite Heq, (@lastWriteError_last2 pre wr g Hw Hg); exact He).
      destruct (Create_failure remote GetContent url_Parse_RawQuery
                  url_ParseQuery r reqPlan resp w Hlast) as (_ & Hsaved & _).
      split; [|exact Hsaved].
      destruct (@Create_failure_kind W remote GetContent url_Parse_RawQuery
                  url_ParseQuery r reqPlan resp w)
        as [Hsum | (g' & fc & Hl & Hf)];
        [rewrite Hlast; discriminate | exact Hsum |].
      rewrite Heq, lastEvent_snoc2 in Hl. injection Hl as <-.
      pose proof (fetchOf_failed _ Hf Hge). discriminate.
  - intros pre wr g post e ge Heq Hw He Hg Hge.
    destruct (Update_steps remote GetContent url_Parse_RawQuery url_ParseQuery
                r reqPlan reqState resp w)
      as (owner & repoName & filePath & Hstep).
    destruct (Hstep pre wr (g :: post) Heq Hw) as (o & Hcall & Hafter).
    rewrite He in Hafter.
    destruct (@afterWrite_refetch_failed _ _ _ _ _ _ _ _ Hafter Hge) as (Hc & Hnext).
    cbn [retryWithSHA] in Hnext. subst post. split; [reflexivity|].
    assert (Hlast : lastWriteError None
                      (trace_of (FileResource.Update remote GetContent
                                   url_Parse_RawQuery url_ParseQuery r reqPlan
                                   reqState resp w)) = Some e)
      by (rewrite Heq, (@lastWriteError_last2 pre wr g Hw Hg); exact He).
    destruct (Update_failure remote GetContent url_Parse_RawQuery
                url_ParseQuery r reqPlan reqState resp w Hlast)
      as (Hsum & Hsaved & _).
    split; assumption.
  - intros pre wr g post e ge Heq Hw He Hg Hge.
    destruct (Delete_steps remote r reqState resp w)
      as (owner & repoName & filePath & Hstep).
    destruct (Hstep pre wr (g :: post) Heq Hw) as (o & Hcall & Hafter).
    rewrite He in Hafter.
    destruct (@afterWrite_refetch_failed _ _ _ _ _ _ _ _ Hafter Hge) as (Hc & Hnext).
    cbn [retryWithSHA] in Hnext. subst post. split; [reflexivity|].
    assert (Hlast : lastWriteError None
                      (trace_of (FileResource.Delete remote r reqState resp w))
                    = Some e)
      by (rewrite Heq, (@lastWriteError_last2 pre wr g Hw Hg); exact He).
    assert (H404 : Go.hasStatus e Go.StatusNotFound = false)
      by (apply (hasStatus_unique _ Hc); discriminate).
    destruct (Delete_failure remote r reqState resp w Hlast H404)
      as (Hsum & _ & Hsaved).
    split; [exact Hsaved|].
    assert (Hend : endsWithFetchFailure Go.StatusNotFound
                     (trace_of (FileResource.Delete remote r reqState resp w))
                   = Go.hasStatus ge Go.StatusNotFound).
    { rewrite Heq. unfold endsWithFetchFailure. rewrite lastEvent_snoc2.
      now apply fetchFailedWith_error. }
    destruct (Go.hasStatus ge Go.StatusNotFound).
    + apply Delete_fetch_not_found; [|exact Hend].
      rewrite Heq, countWrites_app, countWrites_cons, Hw. lia.
    + exact (Hsum Hend).
Qed.

(** The statement at work: the Update that is refused with 422 ends on that
    write, with its diagnostic and without a saved state; and the Create
    whose re-fetch fails with 500 makes its write again. *)
Lemma write_failure_ends_operation_witness :
  (let run := FileResource.Update Scenario.remote422 Scenario.plainContent
                Scenario.noRawQuery Scenario.noQuery Scenario.fileResource
                (Scenario.cleanly Scenario.planA)
                (Scenario.cleanly Scenario.stateA) Scenario.fresh tt in
   length (trace_of run) = 1%nat
   /\ hasErrorSummary "Error updating file" (Diagnostics (value_of run)) = true
   /\ SavedState (value_of run) = None)
  /\ (let run := FileResource.Create Scenario.remoteFlaky Scenario.plainContent
                   Scenario.noRawQuery Scenario.noQuery Scenario.fileResource
                   (Scenario.cleanly Scenario.planA) Scenario.fresh 0%nat in
      match trace_of run with
      | wr :: g :: post =>
          errorOf g = Some Scenario.serverError
          /\ exists c, callOf wr = Some c /\ startsWithCall c post
      | _ => False
      end).
Proof.
  split.
  - destruct (@write_failure_ends_operation unit Scenario.remote422
                Scenario.plainContent Scenario.noRawQuery Scenario.noQuery
                Scenario.fileResource (Scenario.cleanly Scenario.planA)
                (Scenario.cleanly Scenario.stateA) Scenario.fresh tt)
      as (_ & Hupdate & _).
    cbv zeta.
    destruct (trace_of _) as [|wr post] eqn:Htr;
      [vm_compute in Htr; discriminate|].
    destruct (Hupdate [] wr post Scenario.unprocessable eq_refl)
      as (-> & Hsum & Hsaved);
      try (vm_compute in Htr; injection Htr as <- _; reflexivity).
    split; [reflexivity|]. split; [exact Hsum|exact Hsaved].
  - destruct (@write_failure_ends_operation nat Scenario.remoteFlaky
                Scenario.plainContent Scenario.noRawQuery Scenario.noQuery
                Scenario.fileResource (Scenario.cleanly Scenario.planA)
                (Scenario.cleanly Scenario.planA) Scenario.fresh 0%nat)
      as (_ & _ & _ & Hcreate & _).
    cbv zeta.
    destruct (trace_of _) as [|wr [|g post]] eqn:Htr;
      try (vm_compute in Htr; discriminate).
    assert (Hge : errorOf g = Some Scenario.serverError)
      by (vm_compute in Htr; injection Htr as _ <- _; reflexivity).
    split; [exact Hge|].
    apply (Hcreate [] wr g post Scenario.conflict Scenario.serverError eq_refl);
      try exact Hge;
      vm_compute in Htr; injection Htr as <- <- _; reflexivity.
Defined.

Section FileFirstWrite.

Variable W : Type.
Variable remote : Remote W.
Variable GetContent : GitHub.RepositoryContent -> GitHub.result string.
Variable url_Parse_RawQuery : string -> GitHub.result string.
Variable url_ParseQuery : string -> GitHub.result (list (string * list string)).

Import FileResource.

Lemma buildFileOptions_valid (model : repositoryFileResourceModel)
      (content : string) :
  TF.String_known (CommitAuthor model) = TF.String_known (CommitEmail model) ->
  exists opts,
    buildFileOptions model content = (Some opts, [])
    /\ GitHub.SHA opts = None /\ GitHub.FileContent opts = content.
Proof.
  intro H. unfold buildFileOptions. rewrite H.
  destruct (TF.String_known (CommitEmail model)); cbn;
    eexists; repeat split.
Qed.

(** An Update that gets past its checks makes a CreateFile call, and the
    first one carries the SHA of the state. *)
Lemma Update_first_write (r : repositoryFileResource)
      (reqPlan reqState : Decoded repositoryFileResourceModel)
      (resp : Response repositoryFileResourceModel) (w : W)
      (c : Client) (repoName filePath sha : string) :
  let diags :=
    TF.Append (TF.Append (Diagnostics resp) (decodeDiags reqPlan))
      (decodeDiags reqState) in
  let check :=
    checkAndCreateBranchIfNeeded remote (owner r) repoName (decoded reqPlan)
      diags w in
  TF.HasError diags = false ->
  client r = Some c ->
  owner r <> "" ->
  ID (decoded reqState) = TF.StringValue (repoName ++ ":" ++ filePath) ->
  countByte ":" repoName = 0%nat ->
  fst (fst (value_of check)) = true ->
  TF.String_known (CommitAuthor (decoded reqPlan))
  = TF.String_known (CommitEmail (decoded reqPlan)) ->
  SHA (decoded reqState) = TF.StringValue sha ->
  exists opts rest,
    trace_of (Update remote GetContent url_Parse_RawQuery url_ParseQuery
                r reqPlan reqState resp w)
    = (trace_of check
       ++ GitHub.EvCall
            (GitHub.Repositories_CreateFile (owner r) repoName filePath opts)
            (fst (api remote
                    (GitHub.Repositories_CreateFile (owner r) repoName
                       filePath opts) (world_of check)))
       :: rest)%list
    /\ GitHub.SHA opts = Some sha
    /\ GitHub.FileContent opts = TF.ValueString (Content (decoded reqPlan)).
Proof.
  cbn zeta. intros Hok Hclient Howner Hid Hrepo Hcheck Hauthor Hsha.
  unfold Update. cbn [Diagnostics withDiagnostics].
  rewrite Hok, Hclient. unfold getOwner.
  assert (Hne : String.eqb (owner r) "" = false) by (now apply String.eqb_neq).
  rewrite Hne. cbn [negb]. rewrite run_bind, run_ret.
  cbn [value_of world_of trace_of fst snd app].
  rewrite Hid. cbn [TF.ValueString].
  assert (Hnonempty : String.eqb (repoName ++ ":" ++ filePath) "" = false).
  { apply String.eqb_neq. destruct repoName; discriminate. }
  rewrite Hnonempty, (@SplitN_colon_join repoName filePath Hrepo).
  rewrite run_bind.
  destruct (checkAndCreateBranchIfNeeded_model remote (owner r) repoName
              (decoded reqPlan)
              (TF.Append (TF.Append (Diagnostics resp) (decodeDiags reqPlan))
                 (decodeDiags reqState)) w) as [Hm | (s & Hm)];
    destruct (checkAndCreateBranchIfNeeded remote (owner r) repoName
                (decoded reqPlan)
                (TF.Append (TF.Append (Diagnostics resp) (decodeDiags reqPlan))
                   (decodeDiags reqState)) w)
      as [[[[ok plan] diags] w1] tr1];
    cbn [value_of world_of trace_of fst snd] in *; subst ok plan;
    cbn [negb];
    (destruct (@buildFileOptions_valid (decoded reqPlan)
                 (TF.ValueString (Content (decoded reqPlan))) Hauthor)
       as (opts & Hb & Hs & Hcontent));
    [rewrite Hb
    |change (buildFileOptions
               (set_AutocreateBranchSourceSHA (TF.StringValue s)
                  (decoded reqPlan))
               (TF.ValueString (Content (decoded reqPlan))))
       with (buildFileOptions (decoded reqPlan)
               (TF.ValueString (Content (decoded reqPlan))));
     rewrite Hb];
    cbn [TF.HasError existsb]; rewrite Hsha;
    cbn [TF.String_known TF.String_IsNull TF.String_IsUnknown negb andb
         TF.ValueString];
    (destruct (defaultMessage _ filePath));
    rewrite run_bind; change (Z.to_nat maxRetries) with 5%nat;
    cbn [Update_retry]; rewrite run_bind, run_call;
    cbn [value_of world_of trace_of fst snd app];
    eexists; eexists; (split; [reflexivity|]);
    (split; [reflexivity|exact Hcontent]).
Qed.

(** A Delete that gets past its checks makes a DeleteFile call, and the
    first one carries the SHA of the state. *)
Lemma Delete_first_write (r : repositoryFileResource)
      (reqState : Decoded repositoryFileResourceModel)
      (resp : Response repositoryFileResourceModel) (w : W)
      (c : Client) (repoName filePath sha : string) :
  let diags := TF.Append (Diagnostics resp) (decodeDiags reqState) in
  let check :=
    checkAndCreateBranchIfNeeded remote (owner r) repoName (decoded reqState)
      diags w in
  TF.HasError diags = false ->
  client r = Some c ->
  owner r <> "" ->
  ID (decoded reqState) = TF.StringValue (repoName ++ ":" ++ filePath) ->
  countByte ":" repoName = 0%nat ->
  fst (fst (value_of check)) = true ->
  TF.String_known (CommitAuthor (decoded reqState))
  = TF.String_known (CommitEmail (decoded reqState)) ->
  SHA (decoded reqState) = TF.StringValue sha ->
  exists opts rest,
    trace_of (Delete remote r reqState resp w)
    = (trace_of check
       ++ GitHub.EvCall
            (GitHub.Repositories_DeleteFile (owner r) repoName filePath opts)
            (fst (api remote
                    (GitHub.Repositories_DeleteFile (owner r) repoName
                       filePath opts) (world_of check)))
       :: rest)%list
    /\ GitHub.SHA opts = Some sha.
Proof.
  cbn zeta. intros Hok Hclient Howner Hid Hrepo Hcheck Hauthor Hsha.
  unfold Delete. cbn [Diagnostics withDiagnostics].
  rewrite Hok, Hclient. unfold getOwner.
  assert (Hne : String.eqb (owner r) "" = false) by (now apply String.eqb_neq).
  rewrite Hne. cbn [negb]. rewrite run_bind, run_ret.
  cbn [value_of world_of trace_of fst snd app].
  rewrite Hid. cbn [TF.ValueString].
  assert (Hnonempty : String.eqb (repoName ++ ":" ++ filePath) "" = false).
  { apply String.eqb_neq. destruct repoName; discriminate. }
  rewrite Hnonempty, (@SplitN_colon_join repoName filePath Hrepo).
  rewrite run_bind.
  destruct (checkAndCreateBranchIfNeeded_model remote (owner r) repoName
              (decoded reqState)
              (TF.Append (Diagnostics resp) (decodeDiags reqState)) w)
    as [Hm | (s & Hm)];
    destruct (checkAndCreateBranchIfNeeded remote (owner r) repoName
                (decoded reqState)
                (TF.Append (Diagnostics resp) (decodeDiags reqState)) w)
      as [[[[ok state] diags] w1] tr1];
    cbn [value_of world_of trace_of fst snd] in *; subst ok state;
    cbn [negb];
    (destruct (@buildFileOptions_valid (decoded reqState) "" Hauthor)
       as (opts & Hb & Hs & Hcontent));
    [rewrite Hb
    |change (buildFileOptions
               (set_AutocreateBranchSourceSHA (TF.StringValue s)
                  (decoded reqState)) "")
       with (buildFileOptions (decoded reqState) "");
     rewrite Hb;
     change (SHA (set_AutocreateBranchSourceSHA (TF.StringValue s)
                    (decoded reqState)))
       with (SHA (decoded reqState))];
    cbn [TF.HasError existsb]; rewrite Hsha;
    cbn [TF.String_known TF.String_IsNull TF.String_IsUnknown negb andb
         TF.ValueString];
    rewrite run_bind; change (Z.to_nat maxRetries) with 5%nat;
    cbn [Delete_retry]; rewrite run_bind, run_call;
    cbn [value_of world_of trace_of fst snd app];
    eexists; eexists; (split; reflexivity).
Qed.

End FileFirstWrite.

(** C4, as stated, fails: a concurrent modification is not "detected rather
    than silently overwritten".  The remote holds [a.txt] with the content
    "their text" under the SHA [sha-new], while the state still has
    [sha-old].  The first write of Update carries [sha-old] and is refused
    with 409; Update fetches the file, writes again with [sha-new], and ends
    without a diagnostic: the remote now holds the content of the plan.
    Delete does the same and leaves the remote without the file. *)
Lemma concurrent_change_is_overwritten :
  (let run :=
     FileResource.Update OverwriteScenario.remoteHolding Scenario.plainContent
       Scenario.noRawQuery Scenario.noQuery Scenario.fileResource
       (Scenario.cleanly Scenario.planA) (Scenario.cleanly Scenario.stateA)
       Scenario.fresh (Some OverwriteScenario.theirs) in
   map (fun e => match writeOf e with
                 | Some (opts, err) => Some (GitHub.SHA opts, err)
                 | None => None
                 end) (trace_of run)
   = [Some (Some "sha-old", Some Scenario.conflict); None;
      Some (Some "sha-new", None); None]
   /\ world_of run = Some (OverwriteScenario.written "new text")
   /\ Diagnostics (value_of run) = []
   /\ option_map FileResource.Content (SavedState (value_of run))
      = Some (TF.StringValue "new text"))
  /\ (let run :=
        FileResource.Delete OverwriteScenario.remoteHolding
          Scenario.fileResource (Scenario.cleanly Scenario.stateA)
          Scenario.fresh (Some OverwriteScenario.theirs) in
      map (fun e => match writeOf e with
                    | Some (opts, err) => Some (GitHub.SHA opts, err)
                    | None => None
                    end) (trace_of run)
      = [Some (Some "sha-old", Some Scenario.conflict); None;
         Some (Some "sha-new", None)]
      /\ world_of run = None
      /\ Diagnostics (value_of run) = []).
Proof. vm_compute. repeat split. Qed.

(** C4, amended.  When the state holds a known blob SHA, the first write
    request of Update (CreateFile) and of Delete (DeleteFile) carries that
    SHA, in every run; and the request is made whenever the operation gets
    past its checks: no error in the decoded input, a client and an owner,
    an ID [repository:file], the branch check passed, and commit_author and
    commit_email set together or not at all.  A refusal of that write is
    not what the operation reports when a later attempt succeeds: a Delete
    whose last write succeeded ends without any error diagnostic, and an
    Update whose last write succeeded ends without the diagnostic "Error
    updating file", however many attempts were refused before. *)
Theorem last_known_sha_is_sent
        (W : Type) (remote : Remote W)
        (GetContent : GitHub.RepositoryContent -> GitHub.result string)
        (url_Parse_RawQuery : string -> GitHub.result string)
        (url_ParseQuery : string -> GitHub.result (list (string * list string)))
        (r : FileResource.repositoryFileResource)
        (reqPlan reqState : Decoded FileResource.repositoryFileResourceModel)
        (resp : Response FileResource.repositoryFileResourceModel)
        (w : W) (sha : string) :
  let plan := decoded reqPlan in
  let state := decoded reqState in
  let updated := FileResource.Update remote GetContent url_Parse_RawQuery
                   url_ParseQuery r reqPlan reqState resp w in
  let deleted := FileResource.Delete remote r reqState resp w in
  let diagsU :=
    TF.Append (TF.Append (Diagnostics resp) (decodeDiags reqPlan))
      (decodeDiags reqState) in
  let diagsD := TF.Append (Diagnostics resp) (decodeDiags reqState) in
  FileResource.SHA state = TF.StringValue sha ->
  (forall opts err,
      firstWrite (trace_of updated) = Some (opts, err) ->
      GitHub.SHA opts = Some sha)
  /\ (forall opts err,
         firstWrite (trace_of deleted) = Some (opts, err) ->
         GitHub.SHA opts = Some sha)
  /\ (forall c repoName filePath,
         let check :=
           FileResource.checkAndCreateBranchIfNeeded remote
             (FileResource.owner r) repoName plan diagsU w in
         TF.HasError diagsU = false ->
         FileResource.client r = Some c ->
         FileResource.owner r <> "" ->
         FileResource.ID state = TF.StringValue (repoName ++ ":" ++ filePath) ->
         countByte ":" repoName = 0%nat ->
         fst (fst (value_of check)) = true ->
         TF.String_known (FileResource.CommitAuthor plan)
         = TF.String_known (FileResource.CommitEmail plan) ->
         exists opts rest,
           trace_of updated
           = (trace_of check
              ++ GitHub.EvCall
                   (GitHub.Repositories_CreateFile (FileResource.owner r)
                      repoName filePath opts)
                   (fst (api remote
                           (GitHub.Repositories_CreateFile
                              (FileResource.owner r) repoName filePath opts)
                           (world_of check)))
              :: rest)%list
           /\ GitHub.SHA opts = Some sha
           /\ GitHub.FileContent opts
              = TF.ValueString (FileResource.Content plan))
  /\ (forall c repoName filePath,
         let check :=
           FileResource.checkAndCreateBranchIfNeeded remote
             (FileResource.owner r) repoName state diagsD w in
         TF.HasError diagsD = false ->
         FileResource.client r = Some c ->
         FileResource.owner r <> "" ->
         FileResource.ID state = TF.StringValue (repoName ++ ":" ++ filePath) ->
         countByte ":" repoName = 0%nat ->
         fst (fst (value_of check)) = true ->
         TF.String_known (FileResource.CommitAuthor state)
         = TF.String_known (FileResource.CommitEmail state) ->
         exists opts rest,
           trace_of deleted
           = (trace_of check
              ++ GitHub.EvCall
                   (GitHub.Repositories_DeleteFile (FileResource.owner r)
                      repoName filePath opts)
                   (fst (api remote
                           (GitHub.Repositories_DeleteFile
                              (FileResource.owner r) repoName filePath opts)
                           (world_of check)))
              :: rest)%list
           /\ GitHub.SHA opts = Some sha)
  /\ (countWrites (trace_of updated) <> 0%nat ->
      lastWriteError None (trace_of updated) = None ->
      hasErrorSummary "Error updating file" (Diagnostics (value_of updated))
      = false)
  /\ (countWrites (trace_of deleted) <> 0%nat ->
      lastWriteError None (trace_of deleted) = None ->
      TF.HasError (Diagnostics (value_of deleted)) = false).
Proof.
  cbn zeta. intro Hsha.
  split; [|split; [|split; [|split; [|split]]]].
  - intros opts err Hfirst.
    destruct (Update_shape remote GetContent url_Parse_RawQuery url_ParseQuery
                r reqPlan reqState resp w)
      as [H0 | (pre & owner & repoName & filePath & plan & opts0 & w0 & resp0
                & Hpre & Hopts & _ & _ & H)].
    + rewrite (firstWrite_quiet _ H0) in Hfirst. discriminate.
    + cbn zeta in H. rewrite Hsha in Hopts. cbn in Hopts.
      pose proof (Update_retry_trace remote (Z.to_nat FileResource.maxRetries)
                    owner repoName filePath plan opts0 None None w0) as Hloop.
      change (Z.to_nat FileResource.maxRetries) with 5%nat in *.
      assert (Hex : exists post,
                 trace_of (FileResource.Update remote GetContent
                             url_Parse_RawQuery url_ParseQuery r reqPlan
                             reqState resp w)
                 = (pre ++ trace_of (FileResource.Update_retry remote 5 owner
                                       repoName filePath plan opts0 None None
                                       w0) ++ post)%list).
      { destruct (value_of _) as [d|c [e|]].
        - destruct H as (post & -> & _). eauto.
        - destruct H as (-> & _). exists []. now rewrite app_nil_r.
        - destruct H as (post & -> & _). eauto. }
      destruct Hex as (post & Htr). rewrite Htr in Hfirst.
      pose proof (firstWrite_loop _ _ Hpre Hloop Hfirst) as Hx.
      cbn in Hx. now subst opts0.
  - intros opts err Hfirst.
    destruct (Delete_shape remote r reqState resp w)
      as [H0 | (pre & owner & repoName & filePath & state & opts0 & w0 & resp0
                & Hpre & Hopts & _ & _ & Htr & _)].
    + rewrite (firstWrite_quiet _ H0) in Hfirst. discriminate.
    + rewrite Hsha in Hopts. cbn in Hopts.
      pose proof (Delete_retry_trace remote (Z.to_nat FileResource.maxRetries)
                    owner repoName filePath state (Diagnostics resp0) opts0
                    None w0) as Hloop.
      change (Z.to_nat FileResource.maxRetries) with 5%nat in *.
      rewrite Htr in Hfirst.
      match type of Hfirst with
      | firstWrite (pre ++ ?l) = _ =>
          replace (pre ++ l)%list with (pre ++ l ++ [])%list in Hfirst
            by now rewrite app_nil_r
      end.
      pose proof (firstWrite_loop _ _ Hpre Hloop Hfirst) as Hx.
      cbn in Hx. now subst opts0.
  - intros c repoName filePath Hok Hclient Howner Hid Hrepo Hcheck Hauthor.
    exact (@Update_first_write W remote GetContent url_Parse_RawQuery
             url_ParseQuery r reqPlan reqState resp w c repoName filePath sha
             Hok Hclient Howner Hid Hrepo Hcheck Hauthor Hsha).
  - intros c repoName filePath Hok Hclient Howner Hid Hrepo Hcheck Hauthor.
    exact (@Delete_first_write W remote r reqState resp w c repoName filePath
             sha Hok Hclient Howner Hid Hrepo Hcheck Hauthor Hsha).
  - apply Update_success.
  - apply Delete_success.
Qed.

(** The statement at work, on the remote that holds [a.txt] under another
    SHA than the state: Update and Delete both start with their write, sent
    with the SHA [sha-old] of the state and refused with 409. *)
Lemma last_known_sha_is_sent_witness :
  (exists opts rest,
      trace_of
        (FileResource.Update OverwriteScenario.remoteHolding
           Scenario.plainContent Scenario.noRawQuery Scenario.noQuery
           Scenario.fileResource (Scenario.cleanly Scenario.planA)
           (Scenario.cleanly Scenario.stateA) Scenario.fresh
           (Some OverwriteScenario.theirs))
      = GitHub.EvCall
          (GitHub.Repositories_CreateFile "octo" "repo" "a.txt" opts)
          (GitHub.Err Scenario.conflict) :: rest
      /\ GitHub.SHA opts = Some "sha-old")
  /\ (exists opts rest,
         trace_of
           (FileResource.Delete OverwriteScenario.remoteHolding
              Scenario.fileResource (Scenario.cleanly Scenario.stateA)
              Scenario.fresh (Some OverwriteScenario.theirs))
         = GitHub.EvCall
             (GitHub.Repositories_DeleteFile "octo" "repo" "a.txt" opts)
             (GitHub.Err Scenario.conflict) :: rest
         /\ GitHub.SHA opts = Some "sha-old").
Proof.
  destruct (@last_known_sha_is_sent _ OverwriteScenario.remoteHolding
              Scenario.plainContent Scenario.noRawQuery Scenario.noQuery
              Scenario.fileResource (Scenario.cleanly Scenario.planA)
              (Scenario.cleanly Scenario.stateA) Scenario.fresh
              (Some OverwriteScenario.theirs) "sha-old" eq_refl)
    as (_ & _ & Hupdate & Hdelete & _).
  split.
  - destruct (Hupdate (mkClient DefaultTransport None) "repo" "a.txt")
      as (opts & rest & Htr & Hs & _);
      [reflexivity | reflexivity | discriminate | reflexivity | reflexivity
      | reflexivity | reflexivity |].
    exists opts, rest. split; [|exact Hs].
    rewrite Htr.
    match goal with
    | |- context [world_of ?c] =>
        let v := eval vm_compute in (world_of c) in
        change (world_of c) with v
    end.
    match goal with
    | |- context [trace_of ?c] =>
        let v := eval vm_compute in (trace_of c) in
        change (trace_of c) with v
    end.
    cbn [app api OverwriteScenario.remoteHolding].
    unfold OverwriteScenario.matches. rewrite Hs. reflexivity.
  - destruct (Hdelete (mkClient DefaultTransport None) "repo" "a.txt")
      as (opts & rest & Htr & Hs);
      [reflexivity | reflexivity | discriminate | reflexivity | reflexivity
      | reflexivity | reflexivity |].
    exists opts, rest. split; [|exact Hs].
    rewrite Htr.
    match goal with
    | |- context [world_of ?c] =>
        let v := eval vm_compute in (world_of c) in
        change (world_of c) with v
    end.
    match goal with
    | |- context [trace_of ?c] =>
        let v := eval vm_compute in (trace_of c) in
        change (trace_of c) with v
    end.
    cbn [app api OverwriteScenario.remoteHolding].
    unfold OverwriteScenario.matches. rewrite Hs. reflexivity.
Defined.

Lemma callFailedWith_ok (code : Z) (c : GitHub.Call) (a : GitHub.Reply c) :
  callFailedWith code (GitHub.EvCall c (GitHub.Ok a)) = false.
Proof. reflexivity. Qed.

Lemma sameFile_trans (a b c : FileResource.repositoryFileResourceModel) :
  sameFile a b -> sameFile b c -> sameFile a c.
Proof. unfold sameFile. intuition congruence. Qed.

Section FileReadRuns.

Variable W : Type.
Variable remote : Remote W.
Variable GetContent : GitHub.RepositoryContent -> GitHub.result string.
Variable url_Parse_RawQuery : string -> GitHub.result string.
Variable url_ParseQuery : string -> GitHub.result (list (string * list string)).

Import FileResource.

(** readFile after a GetContents that returned the file, with content that
    decodes: no error is added, the SHA and the content of the file are
    stored, and a call that failed, with whatever status, is a call of the
    commit lookup and leaves the warning "Error fetching commit
    information". *)
Lemma readFile_commit_lookup (owner repoName filePath : string)
      (model : repositoryFileResourceModel) (diags : TF.Diagnostics)
      (w w1 : W) (fc : GitHub.RepositoryContent)
      (dc : option (list GitHub.RepositoryContent)) (content : string) :
  api remote
      (GitHub.Repositories_GetContents owner repoName filePath (getOptions model))
      w = (GitHub.Ok (Some fc, dc), w1) ->
  GetContent fc = GitHub.Ok content ->
  let run := readFile remote GetContent url_Parse_RawQuery url_ParseQuery
                      owner repoName filePath model diags w in
  TF.Errors (snd (value_of run)) = TF.Errors diags
  /\ sameFile (fst (value_of run))
       (set_SHA (TF.StringValue (GitHub.GetString (GitHub.ContentSHA fc)))
          (set_File (TF.StringValue filePath)
             (set_Repository (TF.StringValue repoName)
                (set_Content (TF.StringValue content) model))))
  /\ (forall code,
         existsb (callFailedWith code) (trace_of run) = true ->
         hasWarningSummary "Error fetching commit information"
           (snd (value_of run)) = true).
Proof.
  intros Hapi Hcontent. cbn zeta. unfold readFile. step. rewrite Hapi.
  cbn [fst snd value_of world_of trace_of]. rewrite Hcontent.
  match goal with
  | |- context [readFile_ref _ _ fc ?m diags] =>
      pose proof (readFile_ref_keeps url_Parse_RawQuery url_ParseQuery fc m
                    diags) as Href;
      destruct (readFile_ref url_Parse_RawQuery url_ParseQuery fc m diags)
        as [model1 diags1]
  end.
  cbn [fst snd] in Href. destruct Href as (Hsame & Herrors).
  destruct (negb _).
  - unfold getFileCommit.
    destruct (TF.String_known (CommitSHA model1)).
    + step.
      match goal with
      | |- context [api remote ?c ?w0] =>
          destruct (api remote c w0) as [[commit|e] w2]
      end; do 2 step; cbn [ret value_of world_of trace_of fst snd app].
      * split; [exact Herrors|]. split.
        -- eapply sameFile_trans; [apply readFile_commit_keeps|exact Hsame].
        -- intros code H. cbn in H. discriminate.
      * rewrite Errors_AddWarning. split; [exact Herrors|].
        split; [exact Hsame|]. intros code _.
        apply hasWarningSummary_AddWarning.
    + step.
      match goal with
      | |- context [api remote ?c ?w0] =>
          destruct (api remote c w0) as [[[|first rest]|e] w2]
      end; do 2 step; cbn [ret value_of world_of trace_of fst snd app].
      * rewrite Errors_AddWarning. split; [exact Herrors|].
        split; [exact Hsame|]. intros code _.
        apply hasWarningSummary_AddWarning.
      * match goal with
        | |- context [api remote ?c ?w0] =>
            destruct (api remote c w0) as [[commit|e] w3]
        end; do 2 step; cbn [ret value_of world_of trace_of fst snd app].
        -- split; [exact Herrors|]. split.
           ++ eapply sameFile_trans; [apply readFile_commit_keeps|exact Hsame].
           ++ intros code H. cbn in H. discriminate.
        -- rewrite Errors_AddWarning. split; [exact Herrors|].
           split; [exact Hsame|]. intros code _.
           apply hasWarningSummary_AddWarning.
      * rewrite Errors_AddWarning. split; [exact Herrors|].
        split; [exact Hsame|]. intros code _.
        apply hasWarningSummary_AddWarning.
  - step. cbn [ret value_of world_of trace_of fst snd app].
    split; [exact Herrors|]. split; [exact Hsame|].
    intros code H. cbn in H. discriminate.
Qed.

(** A Read that gets past its checks and finds the branch of the state, if
    it has one, is a run of readFile, whose result decides the response. *)
Lemma Read_reads_file (r : repositoryFileResource)
      (reqState : Decoded repositoryFileResourceModel)
      (resp : Response repositoryFileResourceModel) (w w1 : W)
      (c : Client) (repoName filePath : string) (pre : list GitHub.Event) :
  let state := decoded reqState in
  let diags := TF.Append (Diagnostics resp) (decodeDiags reqState) in
  let getRef :=
    GitHub.Git_GetRef (owner r) repoName
      ("refs/heads/" ++ TF.ValueString (Branch state)) in
  let rf := readFile remote GetContent url_Parse_RawQuery url_ParseQuery
                     (owner r) repoName filePath state diags w1 in
  TF.HasError diags = false ->
  client r = Some c ->
  owner r <> "" ->
  ID state = TF.StringValue (repoName ++ ":" ++ filePath) ->
  countByte ":" repoName = 0%nat ->
  (if TF.String_known (Branch state)
   then exists ref,
       api remote getRef w = (GitHub.Ok ref, w1)
       /\ pre = [GitHub.EvCall getRef (GitHub.Ok ref)]
   else w1 = w /\ pre = []) ->
  Read remote GetContent url_Parse_RawQuery url_ParseQuery r reqState resp w
  = (Read_finish (withDiagnostics diags resp) (value_of rf), world_of rf,
     (pre ++ trace_of rf)%list).
Proof.
  cbn zeta. intros Hok Hclient Howner Hid Hrepo Hbranch.
  unfold Read. cbn [Diagnostics withDiagnostics].
  rewrite Hok, Hclient. unfold getOwner.
  assert (Hne : String.eqb (owner r) "" = false) by (now apply String.eqb_neq).
  rewrite Hne. cbn [negb]. rewrite run_bind, run_ret.
  cbn [value_of world_of trace_of fst snd app].
  rewrite Hid. cbn [TF.ValueString].
  assert (Hnonempty : String.eqb (repoName ++ ":" ++ filePath) "" = false).
  { apply String.eqb_neq. destruct repoName; discriminate. }
  rewrite Hnonempty, (@SplitN_colon_join repoName filePath Hrepo).
  assert (Hfinish : forall w0,
    bind (readFile remote GetContent url_Parse_RawQuery url_ParseQuery
            (owner r) repoName filePath (decoded reqState)
            (TF.Append (Diagnostics resp) (decodeDiags reqState)))
         (fun x =>
            let '(state0, diags) := x in
            if TF.HasError
                 (Diagnostics
                    (withDiagnostics diags
                       (withDiagnostics
                          (TF.Append (Diagnostics resp) (decodeDiags reqState))
                          resp)))
            then ret (withDiagnostics diags
                        (withDiagnostics
                           (TF.Append (Diagnostics resp) (decodeDiags reqState))
                           resp))
            else ret (StateSet
                        (if negb (TF.ValueBool (AutocreateBranch state0))
                         then set_AutocreateBranchSourceSHA TF.StringNull state0
                         else state0)
                        (withDiagnostics diags
                           (withDiagnostics
                              (TF.Append (Diagnostics resp)
                                 (decodeDiags reqState)) resp)))) w0
    = (let rf := readFile remote GetContent url_Parse_RawQuery url_ParseQuery
                   (owner r) repoName filePath (decoded reqState)
                   (TF.Append (Diagnostics resp) (decodeDiags reqState)) w0 in
       (Read_finish
          (withDiagnostics
             (TF.Append (Diagnostics resp) (decodeDiags reqState)) resp)
          (value_of rf), world_of rf, trace_of rf))).
  { intro w0. rewrite run_bind. cbn zeta.
    destruct (readFile remote GetContent url_Parse_RawQuery url_ParseQuery
                (owner r) repoName filePath (decoded reqState)
                (TF.Append (Diagnostics resp) (decodeDiags reqState)) w0)
      as [[[state0 diags] w2] tr2].
    cbn [value_of world_of trace_of fst snd]. unfold Read_finish.
    cbn [fst snd Diagnostics withDiagnostics].
    destruct (TF.HasError diags); cbn; now rewrite app_nil_r. }
  destruct (TF.String_known (Branch (decoded reqState))).
  - destruct Hbranch as (ref & Hapi & ->).
    unfold checkRepositoryBranchExists.
    rewrite run_bind, run_bind, run_call, Hapi.
    cbn [value_of world_of trace_of fst snd app]. rewrite run_ret.
    cbn [value_of world_of trace_of fst snd app].
    rewrite Hfinish. reflexivity.
  - destruct Hbranch as (-> & ->). rewrite Hfinish. reflexivity.
Qed.

(** A Read whose lookup of the branch fails, without autocreate_branch,
    saves the state with an empty ID and reports nothing. *)
Lemma Read_branch_lookup_failed (r : repositoryFileResource)
      (reqState : Decoded repositoryFileResourceModel)
      (resp : Response repositoryFileResourceModel) (w w' : W)
      (c : Client) (repoName filePath : string) (e : Go.error) :
  let state := decoded reqState in
  let diags := TF.Append (Diagnostics resp) (decodeDiags reqState) in
  let getRef :=
    GitHub.Git_GetRef (owner r) repoName
      ("refs/heads/" ++ TF.ValueString (Branch state)) in
  TF.HasError diags = false ->
  client r = Some c ->
  owner r <> "" ->
  ID state = TF.StringValue (repoName ++ ":" ++ filePath) ->
  countByte ":" repoName = 0%nat ->
  TF.String_known (Branch state) = true ->
  TF.ValueBool (AutocreateBranch state) = false ->
  api remote getRef w = (GitHub.Err e, w') ->
  Read remote GetContent url_Parse_RawQuery url_ParseQuery r reqState resp w
  = (StateSet (set_ID (TF.StringValue "") state) (withDiagnostics diags resp),
     w', [GitHub.EvCall getRef (GitHub.Err e)]).
Proof.
  cbn zeta. intros Hok Hclient Howner Hid Hrepo Hknown Hauto Hapi.
  unfold Read. cbn [Diagnostics withDiagnostics].
  rewrite Hok, Hclient. unfold getOwner.
  assert (Hne : String.eqb (owner r) "" = false) by (now apply String.eqb_neq).
  rewrite Hne. cbn [negb]. rewrite run_bind, run_ret.
  cbn [value_of world_of trace_of fst snd app].
  rewrite Hid. cbn [TF.ValueString].
  assert (Hnonempty : String.eqb (repoName ++ ":" ++ filePath) "" = false).
  { apply String.eqb_neq. destruct repoName; discriminate. }
  rewrite Hnonempty, (@SplitN_colon_join repoName filePath Hrepo), Hknown.
  unfold checkRepositoryBranchExists.
  rewrite run_bind, run_bind, run_call, Hapi.
  cbn [value_of world_of trace_of fst snd app]. rewrite run_ret.
  cbn [value_of world_of trace_of fst snd app]. rewrite Hauto.
  rewrite run_ret. reflexivity.
Qed.

(** With autocreate_branch, a Read whose lookup of the branch fails reads
    the file from the source branch instead. *)
Lemma Read_branch_lookup_failed_autocreate (r : repositoryFileResource)
      (reqState : Decoded repositoryFileResourceModel)
      (resp : Response repositoryFileResourceModel) (w w' : W)
      (c : Client) (repoName filePath : string) (e : Go.error) :
  let state := decoded reqState in
  let diags := TF.Append (Diagnostics resp) (decodeDiags reqState) in
  let getRef :=
    GitHub.Git_GetRef (owner r) repoName
      ("refs/heads/" ++ TF.ValueString (Branch state)) in
  let rf := readFile remote GetContent url_Parse_RawQuery url_ParseQuery
                     (owner r) repoName filePath
                     (set_Branch (AutocreateBranchSource state) state)
                     diags w' in
  TF.HasError diags = false ->
  client r = Some c ->
  owner r <> "" ->
  ID state = TF.StringValue (repoName ++ ":" ++ filePath) ->
  countByte ":" repoName = 0%nat ->
  TF.String_known (Branch state) = true ->
  TF.ValueBool (AutocreateBranch state) = true ->
  api remote getRef w = (GitHub.Err e, w') ->
  Read remote GetContent url_Parse_RawQuery url_ParseQuery r reqState resp w
  = (Read_finish (withDiagnostics diags resp) (value_of rf), world_of rf,
     GitHub.EvCall getRef (GitHub.Err e) :: trace_of rf).
Proof.
  cbn zeta. intros Hok Hclient Howner Hid Hrepo Hknown Hauto Hapi.
  unfold Read. cbn [Diagnostics withDiagnostics].
  rewrite Hok, Hclient. unfold getOwner.
  assert (Hne : String.eqb (owner r) "" = false) by (now apply String.eqb_neq).
  rewrite Hne. cbn [negb]. rewrite run_bind, run_ret.
  cbn [value_of world_of trace_of fst snd app].
  rewrite Hid. cbn [TF.ValueString].
  assert (Hnonempty : String.eqb (repoName ++ ":" ++ filePath) "" = false).
  { apply String.eqb_neq. destruct repoName; discriminate. }
  rewrite Hnonempty, (@SplitN_colon_join repoName filePath Hrepo), Hknown.
  unfold checkRepositoryBranchExists.
  rewrite run_bind, run_bind, run_call, Hapi.
  cbn [value_of world_of trace_of fst snd app]. rewrite run_ret.
  cbn [value_of world_of trace_of fst snd app]. rewrite Hauto.
  rewrite run_bind.
  destruct (readFile remote GetContent url_Parse_RawQuery url_ParseQuery
              (owner r) repoName filePath
              (set_Branch (AutocreateBranchSource (decoded reqState))
                 (decoded reqState))
              (TF.Append (Diagnostics resp) (decodeDiags reqState)) w')
    as [[[state0 diags] w2] tr2].
  cbn [value_of world_of trace_of fst snd]. unfold Read_finish.
  cbn [fst snd Diagnostics withDiagnostics].
  destruct (TF.HasError diags); cbn; now rewrite app_nil_r.
Qed.

End FileReadRuns.

Lemma HasError_Errors (a b : TF.Diagnostics) :
  TF.Errors a = TF.Errors b -> TF.HasError a = TF.HasError b.
Proof.
  assert (H : forall ds, TF.HasError ds
                         = match TF.Errors ds with [] => false | _ => true end).
  { unfold TF.HasError, TF.Errors. induction ds as [|d ds IH]; [reflexivity|].
    cbn. now destruct (TF.isError d). }
  intro E. now rewrite !H, E.
Qed.

(** C5, as stated, fails for the calls that Read makes around the one that
    fetches the file.  The state is [a.txt] on the branch [feature].  On a
    remote that answers 429 to the lookup of the branch, Read makes that one
    call, adds no diagnostic and saves the state with an empty ID: the
    resource is dropped.  On a remote that answers 429 to the lookup of the
    commit, Read adds a warning only and saves the state it read.  The
    Read of the file data source, on a remote that answers 429 to
    GetContents, reports "Error fetching GitHub repository file", not "Rate
    Limit Exceeded". *)
Lemma rate_limited_lookup_is_not_fatal :
  Go.hasStatus Scenario.rateLimited Go.StatusTooManyRequests = true
  /\ (let run :=
        FileResource.Read RateLimitScenario.remoteBranchLimited
          Scenario.plainContent Scenario.noRawQuery Scenario.noQuery
          Scenario.fileResource (Scenario.cleanly BranchScenario.stateOnBranch)
          Scenario.fresh tt in
      trace_of run
      = [GitHub.EvCall (GitHub.Git_GetRef "octo" "repo" "refs/heads/feature")
           (GitHub.Err Scenario.rateLimited)]
      /\ Diagnostics (value_of run) = []
      /\ SavedState (value_of run)
         = Some (FileResource.set_ID (TF.StringValue "")
                   BranchScenario.stateOnBranch))
  /\ (let run :=
        FileResource.Read RateLimitScenario.remoteCommitLimited
          Scenario.plainContent Scenario.noRawQuery Scenario.noQuery
          Scenario.fileResource (Scenario.cleanly BranchScenario.stateOnBranch)
          Scenario.fresh tt in
      map errorOf (trace_of run) = [None; None; Some Scenario.rateLimited]
      /\ Diagnostics (value_of run)
         = [TF.mkDiagnostic TF.SeverityWarning
              "Error fetching commit information"
              "Unable to fetch commit information for file octo/repo/a.txt: 429 Too Many Requests"]
      /\ TF.HasError (Diagnostics (value_of run)) = false
      /\ option_map FileResource.SHA (SavedState (value_of run))
         = Some (TF.StringValue "sha-new"))
  /\ (let run :=
        RepositoryFileDataSource.Read
          (Scenario.remoteUnreadable Scenario.rateLimited)
          SourceScenario.quote Scenario.plainContent Scenario.noRawQuery
          Scenario.noQuery SourceScenario.fileDataSource
          (Scenario.cleanly SourceScenario.configA) Scenario.fresh tt in
      map errorOf (trace_of run) = [Some Scenario.rateLimited]
      /\ option_map
           (fun out => (map TF.Summary (Diagnostics out), SavedState out))
           (value_of run)
         = Some (["Error fetching GitHub repository file"], None)).
Proof. vm_compute. repeat split. Qed.

(** C5, amended.  The call by which readFile fetches the file (GetContents)
    is the one call whose 429 is fatal: readFile adds the error "Rate Limit
    Exceeded" and returns at once, that call being its only one and the
    model left as it was; a Read that gets past its checks and finds its
    branch, if the state has one, then ends on that call, reports the error
    and saves no state.  The other calls made while reading are not
    classified by status.  When the lookup of the branch fails, with 429 as
    with any other error, a Read without autocreate_branch makes no other
    call, adds no diagnostic and saves the state with an empty ID; with
    autocreate_branch it goes on to read the file from the source branch,
    the failure being reported nowhere.  When the file was fetched and its
    content decodes, no error is added and the state is saved: a call that
    failed after that, with 429 as with any other status, is a call of the
    commit lookup and leaves the warning "Error fetching commit
    information". *)
Theorem rate_limit_is_fatal
        (W : Type) (remote : Remote W)
        (GetContent : GitHub.RepositoryContent -> GitHub.result string)
        (url_Parse_RawQuery : string -> GitHub.result string)
        (url_ParseQuery : string -> GitHub.result (list (string * list string))) :
  (forall owner repoName filePath model diags w w' e,
      api remote
          (GitHub.Repositories_GetContents owner repoName filePath
             (FileResource.getOptions model)) w = (GitHub.Err e, w') ->
      Go.hasStatus e Go.StatusTooManyRequests = true ->
      let run := FileResource.readFile remote GetContent url_Parse_RawQuery
                   url_ParseQuery owner repoName filePath model diags w in
      fst (value_of run) = model
      /\ snd (value_of run)
         = TF.AddError diags "Rate Limit Exceeded"
             ("GitHub API rate limit exceeded: " ++ Go.Error e)
      /\ TF.HasError (snd (value_of run)) = true
      /\ hasErrorSummary "Rate Limit Exceeded" (snd (value_of run)) = true
      /\ trace_of run
         = [GitHub.EvCall
              (GitHub.Repositories_GetContents owner repoName filePath
                 (FileResource.getOptions model)) (GitHub.Err e)])
  /\ (forall r reqState resp w,
         let run := FileResource.Read remote GetContent url_Parse_RawQuery
                      url_ParseQuery r reqState resp w in
         endsWithFetchFailure Go.StatusTooManyRequests (trace_of run) = true ->
         hasErrorSummary "Rate Limit Exceeded" (Diagnostics (value_of run))
         = true
         /\ TF.HasError (Diagnostics (value_of run)) = true
         /\ SavedState (value_of run) = SavedState resp)
  /\ (forall r reqState resp w w1 w' c repoName filePath pre e,
         let state := decoded reqState in
         let diags := TF.Append (Diagnostics resp) (decodeDiags reqState) in
         let getRef :=
           GitHub.Git_GetRef (FileResource.owner r) repoName
             ("refs/heads/" ++ TF.ValueString (FileResource.Branch state)) in
         let getContents :=
           GitHub.Repositories_GetContents (FileResource.owner r) repoName
             filePath (FileResource.getOptions state) in
         let run := FileResource.Read remote GetContent url_Parse_RawQuery
                      url_ParseQuery r reqState resp w in
         TF.HasError diags = false ->
         FileResource.client r = Some c ->
         FileResource.owner r <> "" ->
         FileResource.ID state = TF.StringValue (repoName ++ ":" ++ filePath) ->
         countByte ":" repoName = 0%nat ->
         (if TF.String_known (FileResource.Branch state)
          then exists ref,
              api remote getRef w = (GitHub.Ok ref, w1)
              /\ pre = [GitHub.EvCall getRef (GitHub.Ok ref)]
          else w1 = w /\ pre = []) ->
         api remote getContents w1 = (GitHub.Err e, w') ->
         Go.hasStatus e Go.StatusTooManyRequests = true ->
         trace_of run = (pre ++ [GitHub.EvCall getContents (GitHub.Err e)])%list
         /\ world_of run = w'
         /\ Diagnostics (value_of run)
            = TF.AddError diags "Rate Limit Exceeded"
                ("GitHub API rate limit exceeded: " ++ Go.Error e)
         /\ TF.HasError (Diagnostics (value_of run)) = true
         /\ SavedState (value_of run) = SavedState resp)
  /\ (forall r reqState resp w w' c repoName filePath e,
         let state := decoded reqState in
         let diags := TF.Append (Diagnostics resp) (decodeDiags reqState) in
         let getRef :=
           GitHub.Git_GetRef (FileResource.owner r) repoName
             ("refs/heads/" ++ TF.ValueString (FileResource.Branch state)) in
         let run := FileResource.Read remote GetContent url_Parse_RawQuery
                      url_ParseQuery r reqState resp w in
         TF.HasError diags = false ->
         FileResource.client r = Some c ->
         FileResource.owner r <> "" ->
         FileResource.ID state = TF.StringValue (repoName ++ ":" ++ filePath) ->
         countByte ":" repoName = 0%nat ->
         TF.String_known (FileResource.Branch state) = true ->
         TF.ValueBool (FileResource.AutocreateBranch state) = false ->
         api remote getRef w = (GitHub.Err e, w') ->
         trace_of run = [GitHub.EvCall getRef (GitHub.Err e)]
         /\ world_of run = w'
         /\ Diagnostics (value_of run) = diags
         /\ SavedState (value_of run)
            = Some (FileResource.set_ID (TF.StringValue "") state))
  /\ (forall r reqState resp w w1 w2 c repoName filePath pre fc dc content,
         let state := decoded reqState in
         let diags := TF.Append (Diagnostics resp) (decodeDiags reqState) in
         let getRef :=
           GitHub.Git_GetRef (FileResource.owner r) repoName
             ("refs/heads/" ++ TF.ValueString (FileResource.Branch state)) in
         let getContents :=
           GitHub.Repositories_GetContents (FileResource.owner r) repoName
             filePath (FileResource.getOptions state) in
         let run := FileResource.Read remote GetContent url_Parse_RawQuery
                      url_ParseQuery r reqState resp w in
         TF.HasError diags = false ->
         FileResource.client r = Some c ->
         FileResource.owner r <> "" ->
         FileResource.ID state = TF.StringValue (repoName ++ ":" ++ filePath) ->
         countByte ":" repoName = 0%nat ->
         (if TF.String_known (FileResource.Branch state)
          then exists ref,
              api remote getRef w = (GitHub.Ok ref, w1)
              /\ pre = [GitHub.EvCall getRef (GitHub.Ok ref)]
          else w1 = w /\ pre = []) ->
         api remote getContents w1 = (GitHub.Ok (Some fc, dc), w2) ->
         GetContent fc = GitHub.Ok content ->
         TF.HasError (Diagnostics (value_of run)) = false
         /\ (exists st,
                SavedState (value_of run) = Some st
                /\ FileResource.Content st = TF.StringValue content)
         /\ (forall code,
                existsb (callFailedWith code) (trace_of run) = true ->
                hasWarningSummary "Error fetching commit information"
                  (Diagnostics (value_of run)) = true))
  /\ (forall r reqState resp w w' c repoName filePath e,
         let state := decoded reqState in
         let diags := TF.Append (Diagnostics resp) (decodeDiags reqState) in
         let getRef :=
           GitHub.Git_GetRef (FileResource.owner r) repoName
             ("refs/heads/" ++ TF.ValueString (FileResource.Branch state)) in
         let run := FileResource.Read remote GetContent url_Parse_RawQuery
                      url_ParseQuery r reqState resp w in
         let rf :=
           FileResource.readFile remote GetContent url_Parse_RawQuery
             url_ParseQuery (FileResource.owner r) repoName filePath
             (FileResource.set_Branch
                (FileResource.AutocreateBranchSource state) state)
             diags w' in
         TF.HasError diags = false ->
         FileResource.client r = Some c ->
         FileResource.owner r <> "" ->
         FileResource.ID state = TF.StringValue (repoName ++ ":" ++ filePath) ->
         countByte ":" repoName = 0%nat ->
         TF.String_known (FileResource.Branch state) = true ->
         TF.ValueBool (FileResource.AutocreateBranch state) = true ->
         api remote getRef w = (GitHub.Err e, w') ->
         trace_of run = GitHub.EvCall getRef (GitHub.Err e) :: trace_of rf
         /\ world_of run = world_of rf
         /\ value_of run
            = Read_finish (withDiagnostics diags resp) (value_of rf)).
Proof.
  split; [|split; [|split; [|split; [|split]]]].
  - intros owner repoName filePath model diags w w' e Hapi H429. cbn zeta.
    rewrite (@readFile_rate_limited W remote GetContent url_Parse_RawQuery
               url_ParseQuery owner repoName filePath model diags w w' e
               Hapi H429).
    cbn [value_of trace_of fst snd].
    repeat split.
    + eapply hasErrorSummary_HasError. apply hasErrorSummary_AddError.
    + apply hasErrorSummary_AddError.
  - intros r reqState resp w. cbn zeta. intro Hend.
    destruct (Read_rate_limited remote GetContent url_Parse_RawQuery
                url_ParseQuery r reqState resp w Hend) as (Herr & Hsaved).
    repeat split; try assumption.
    eapply hasErrorSummary_HasError. exact Herr.
  - intros r reqState resp w w1 w' c repoName filePath pre e. cbn zeta.
    intros Hok Hclient Howner Hid Hrepo Hbranch Hapi H429.
    rewrite (@Read_reads_file W remote GetContent url_Parse_RawQuery
               url_ParseQuery r reqState resp w w1 c repoName filePath pre
               Hok Hclient Howner Hid Hrepo Hbranch).
    rewrite (@readFile_rate_limited W remote GetContent url_Parse_RawQuery
               url_ParseQuery (FileResource.owner r) repoName filePath
               (decoded reqState)
               (TF.Append (Diagnostics resp) (decodeDiags reqState)) w1 w' e
               Hapi H429).
    cbn [value_of world_of trace_of fst snd]. unfold Read_finish.
    cbn [fst snd].
    rewrite (hasErrorSummary_HasError _ _ (hasErrorSummary_AddError _ _ _)).
    cbn [withDiagnostics Diagnostics SavedState].
    repeat split.
    eapply hasErrorSummary_HasError. apply hasErrorSummary_AddError.
  - intros r reqState resp w w' c repoName filePath e. cbn zeta.
    intros Hok Hclient Howner Hid Hrepo Hknown Hauto Hapi.
    rewrite (@Read_branch_lookup_failed W remote GetContent url_Parse_RawQuery
               url_ParseQuery r reqState resp w w' c repoName filePath e
               Hok Hclient Howner Hid Hrepo Hknown Hauto Hapi).
    cbn [value_of world_of trace_of fst snd StateSet withDiagnostics
         Diagnostics SavedState].
    repeat split.
  - intros r reqState resp w w1 w2 c repoName filePath pre fc dc content.
    cbn zeta. intros Hok Hclient Howner Hid Hrepo Hbranch Hapi Hcontent.
    rewrite (@Read_reads_file W remote GetContent url_Parse_RawQuery
               url_ParseQuery r reqState resp w w1 c repoName filePath pre
               Hok Hclient Howner Hid Hrepo Hbranch).
    destruct (@readFile_commit_lookup W remote GetContent url_Parse_RawQuery
                url_ParseQuery (FileResource.owner r) repoName filePath
                (decoded reqState)
                (TF.Append (Diagnostics resp) (decodeDiags reqState)) w1 w2
                fc dc content Hapi Hcontent)
      as (Herrors & Hsame & Hwarn).
    apply HasError_Errors in Herrors. rewrite Hok in Herrors.
    assert (Hpre : forall code, existsb (callFailedWith code) pre = false).
    { intro code.
      destruct (TF.String_known (FileResource.Branch (decoded reqState))).
      - destruct Hbranch as (ref & _ & ->). reflexivity.
      - destruct Hbranch as (_ & ->). reflexivity. }
    destruct (FileResource.readFile remote GetContent url_Parse_RawQuery
                url_ParseQuery (FileResource.owner r) repoName filePath
                (decoded reqState)
                (TF.Append (Diagnostics resp) (decodeDiags reqState)) w1)
      as [[[state0 diags0] w3] tr3].
    cbn [value_of world_of trace_of fst snd] in *. unfold Read_finish.
    cbn [fst snd]. rewrite Herrors.
    cbn [StateSet withDiagnostics Diagnostics SavedState].
    split; [exact Herrors|]. split.
    + eexists. split; [reflexivity|].
      destruct Hsame as (Hc & _).
      destruct (negb _); cbn in *; exact Hc.
    + intros code H. rewrite existsb_app, Hpre in H. cbn [orb] in H.
      exact (Hwarn code H).
  - intros r reqState resp w w' c repoName filePath e. cbn zeta.
    intros Hok Hclient Howner Hid Hrepo Hknown Hauto Hapi.
    rewrite (@Read_branch_lookup_failed_autocreate W remote GetContent
               url_Parse_RawQuery url_ParseQuery r reqState resp w w' c
               repoName filePath e Hok Hclient Howner Hid Hrepo Hknown Hauto
               Hapi).
    repeat split.
Qed.

(** The statement at work.  Reading [a.txt] from a remote that answers 429
    to GetContents: Read makes that call, reports "Rate Limit Exceeded" and
    saves nothing.  Reading [a.txt] on the branch [feature] from a remote
    that answers 429 to the lookup of the branch: the state is saved with an
    empty ID, without a diagnostic.  Reading it from a remote that answers
    429 to the lookup of the commit: a warning, and the state is saved. *)
Lemma rate_limit_is_fatal_witness :
  (let run :=
     FileResource.Read (Scenario.remoteUnreadable Scenario.rateLimited)
       Scenario.plainContent Scenario.noRawQuery Scenario.noQuery
       Scenario.fileResource (Scenario.cleanly Scenario.stateA)
       Scenario.fresh tt in
   trace_of run
   = [GitHub.EvCall
        (GitHub.Repositories_GetContents "octo" "repo" "a.txt"
           (GitHub.mkGetOptions "")) (GitHub.Err Scenario.rateLimited)]
   /\ Diagnostics (value_of run)
      = [TF.mkDiagnostic TF.SeverityError "Rate Limit Exceeded"
           "GitHub API rate limit exceeded: 429 Too Many Requests"]
   /\ SavedState (value_of run) = None)
  /\ (let run :=
        FileResource.Read RateLimitScenario.remoteBranchLimited
          Scenario.plainContent Scenario.noRawQuery Scenario.noQuery
          Scenario.fileResource (Scenario.cleanly BranchScenario.stateOnBranch)
          Scenario.fresh tt in
      trace_of run
      = [GitHub.EvCall (GitHub.Git_GetRef "octo" "repo" "refs/heads/feature")
           (GitHub.Err Scenario.rateLimited)]
      /\ Diagnostics (value_of run) = []
      /\ SavedState (value_of run)
         = Some (FileResource.set_ID (TF.StringValue "")
                   BranchScenario.stateOnBranch))
  /\ (let run :=
        FileResource.Read RateLimitScenario.remoteCommitLimited
          Scenario.plainContent Scenario.noRawQuery Scenario.noQuery
          Scenario.fileResource (Scenario.cleanly BranchScenario.stateOnBranch)
          Scenario.fresh tt in
      TF.HasError (Diagnostics (value_of run)) = false
      /\ hasWarningSummary "Error fetching commit information"
           (Diagnostics (value_of run)) = true).
Proof.
  split; [|split].
  - destruct (proj1 (proj2 (proj2
                (@rate_limit_is_fatal unit
                   (Scenario.remoteUnreadable Scenario.rateLimited)
                   Scenario.plainContent Scenario.noRawQuery
                   Scenario.noQuery)))
                Scenario.fileResource (Scenario.cleanly Scenario.stateA)
                Scenario.fresh tt tt tt (mkClient DefaultTransport None)
                "repo" "a.txt" [] Scenario.rateLimited)
      as (Htr & _ & Hd & _ & Hs);
      [reflexivity | reflexivity | discriminate | reflexivity | reflexivity
      | split; reflexivity | reflexivity | reflexivity |].
    cbv zeta. rewrite Htr, Hd, Hs. repeat split.
  - destruct (proj1 (proj2 (proj2 (proj2
                (@rate_limit_is_fatal unit
                   RateLimitScenario.remoteBranchLimited
                   Scenario.plainContent Scenario.noRawQuery
                   Scenario.noQuery))))
                Scenario.fileResource
                (Scenario.cleanly BranchScenario.stateOnBranch)
                Scenario.fresh tt tt (mkClient DefaultTransport None)
                "repo" "a.txt" Scenario.rateLimited)
      as (Htr & _ & Hd & Hs);
      [reflexivity | reflexivity | discriminate | reflexivity | reflexivity
      | reflexivity | reflexivity | reflexivity |].
    cbv zeta. rewrite Htr, Hd, Hs. repeat split.
  - destruct (proj1 (proj2 (proj2 (proj2 (proj2
                (@rate_limit_is_fatal unit
                   RateLimitScenario.remoteCommitLimited
                   Scenario.plainContent Scenario.noRawQuery
                   Scenario.noQuery)))))
                Scenario.fileResource
                (Scenario.cleanly BranchScenario.stateOnBranch)
                Scenario.fresh tt tt tt (mkClient DefaultTransport None)
                "repo" "a.txt"
                [GitHub.EvCall
                   (GitHub.Git_GetRef "octo" "repo" "refs/heads/feature")
                   (GitHub.Ok
                      (GitHub.mkReference (Some "refs/heads/feature") None))]
                Scenario.remoteFile None "new text")
      as (Herr & _ & Hwarn);
      [reflexivity | reflexivity | discriminate | reflexivity | reflexivity
      | eexists; split; reflexivity | reflexivity | reflexivity |].
    cbv zeta. split; [exact Herr|].
    apply (Hwarn Go.StatusTooManyRequests). reflexivity.
Defined.
